(** * Sharp Token dashboard: the aggregation pipeline of [app.py]

    A shallow embedding of the data handling of [app.py]: loading the
    workbook sheets, cleaning their [Date] column, detecting the numeric
    category columns, the date window, the monthly sums, the wide-to-long
    reshape and the totals that end up in the figure titles.

    pandas objects are modelled by value where the program only reads
    them and as objects in a store where the program updates them in
    place.  Quantities are whole units ([Z]); plotly styling is left out,
    the data handed to every figure is kept. *)

From Stdlib Require Import ZArith List String Ascii Bool Lia Permutation Sorted.
From stdpp Require Import gmap strings list pretty.
Import ListNotations.
Local Open Scope Z_scope.

(** ** Calendar dates and timestamps *)

Record Date := mkDate { year : Z; month : Z; day : Z }.

(** A pandas [Timestamp]: a calendar day and the time elapsed since
    midnight (in seconds). *)
Record Timestamp := mkTs { ts_date : Date; ts_secs : N }.

Definition date_compare (a b : Date) : comparison :=
  match year a ?= year b with
  | Eq => match month a ?= month b with
          | Eq => day a ?= day b
          | c => c
          end
  | c => c
  end.

Definition ts_compare (a b : Timestamp) : comparison :=
  match date_compare (ts_date a) (ts_date b) with
  | Eq => (ts_secs a ?= ts_secs b)%N
  | c => c
  end.

Definition ts_geb (a b : Timestamp) : bool :=
  match ts_compare a b with Lt => false | _ => true end.

Definition ts_gtb (a b : Timestamp) : bool :=
  match ts_compare a b with Gt => true | _ => false end.

Definition date_geb (a b : Date) : bool :=
  match date_compare a b with Lt => false | _ => true end.

Definition date_gtb (a b : Date) : bool :=
  match date_compare a b with Gt => true | _ => false end.

(** [Timestamp(d)] for a day [d]: midnight of that day. *)
Definition midnight (d : Date) : Timestamp := mkTs d 0.

(** [.dt.to_period("M")]: the ordinal of the calendar month. *)
Definition month_index (d : Date) : Z := year d * 12 + (month d - 1).

(** [.to_timestamp()] of a monthly period: the first day of the month. *)
Definition month_start (k : Z) : Timestamp :=
  midnight (mkDate (k / 12) (k mod 12 + 1) 1).

Definition month_of (t : Timestamp) : Z := month_index (ts_date t).

(** ** Reading dates from text: [strptime] for the two formats in use *)

Inductive DateFormat :=
| Fmt_mdY   (* "%m-%d-%Y" *)
| Fmt_Ymd.  (* "%Y-%m-%d" *)

Definition digit_of (c : ascii) : option Z :=
  let n := Z.of_N (N_of_ascii c) in
  if (48 <=? n) && (n <=? 57) then Some (n - 48) else None.

Fixpoint number_of (cs : list ascii) (acc : Z) : option Z :=
  match cs with
  | [] => Some acc
  | c :: r => match digit_of c with
              | Some d => number_of r (acc * 10 + d)
              | None => None
              end
  end.

Definition is_dash (c : ascii) : bool := (N_of_ascii c =? 45)%N.

Fixpoint split_dash (cs : list ascii) : list (list ascii) :=
  match cs with
  | [] => [[]]
  | c :: r =>
      if is_dash c then [] :: split_dash r
      else match split_dash r with
           | [] => [[c]]
           | w :: ws => (c :: w) :: ws
           end
  end.

(** A directive reads between [lo] and [hi] decimal digits. *)
Definition field (lo hi : nat) (cs : list ascii) : option Z :=
  if ((lo <=? length cs) && (length cs <=? hi))%nat then number_of cs 0 else None.

Definition is_leap (y : Z) : bool :=
  ((y mod 4 =? 0) && negb (y mod 100 =? 0)) || (y mod 400 =? 0).

Definition days_in_month (y m : Z) : Z :=
  if m =? 2 then (if is_leap y then 29 else 28)
  else if (m =? 4) || (m =? 6) || (m =? 9) || (m =? 11) then 30 else 31.

Definition make_date (y m d : Z) : option Timestamp :=
  if (1 <=? m) && (m <=? 12) && (1 <=? d) && (d <=? days_in_month y m)
  then Some (midnight (mkDate y m d)) else None.

(** [%m] and [%d] take one or two digits, [%Y] four; the day has to exist
    in the calendar.  (The nanosecond range of [Timestamp], years 1677 to
    2262, is not modelled.) *)
Definition strptime (fmt : DateFormat) (s : string) : option Timestamp :=
  match split_dash (list_ascii_of_string s) with
  | [a; b; c] =>
      match fmt with
      | Fmt_mdY =>
          match field 1 2 a, field 1 2 b, field 4 4 c with
          | Some m, Some d, Some y => make_date y m d
          | _, _, _ => None
          end
      | Fmt_Ymd =>
          match field 4 4 a, field 1 2 b, field 1 2 c with
          | Some y, Some m, Some d => make_date y m d
          | _, _, _ => None
          end
      end
  | _ => None
  end.

(** The two cut-offs of [create_figures], as pandas reads the literals
    ["2025-01-01"] and ["2024-12-31"] when comparing with a datetime
    column. *)
Definition cutoff_2025_01_01 : Timestamp := midnight (mkDate 2025 1 1).
Definition cutoff_2024_12_31 : Timestamp := midnight (mkDate 2024 12 31).

(** ** [str.strip] *)

(** A text is held in its UTF-8 encoding.  White space as [str.isspace]
    has it: U+0009 to U+000D and U+001C to U+0020 are one byte each. *)
Definition is_space (c : ascii) : bool :=
  let n := N_of_ascii c in
  (((9 <=? n) && (n <=? 13)) || ((28 <=? n) && (n <=? 32)))%N.

(** U+0085 and U+00A0 are two bytes. *)
Definition is_space2 (a b : ascii) : bool :=
  ((N_of_ascii a =? 194) && ((N_of_ascii b =? 133) || (N_of_ascii b =? 160)))%N.

(** U+1680, U+2000 to U+200A, U+2028, U+2029, U+202F, U+205F and U+3000
    are three bytes. *)
Definition is_space3 (a b c : ascii) : bool :=
  let x := N_of_ascii a in
  let y := N_of_ascii b in
  let z := N_of_ascii c in
  (((x =? 225) && (y =? 154) && (z =? 128))
   || ((x =? 226) && (y =? 128)
       && (((128 <=? z) && (z <=? 138)) || (z =? 168) || (z =? 169) || (z =? 175)))
   || ((x =? 226) && (y =? 129) && (z =? 159))
   || ((x =? 227) && (y =? 128) && (z =? 128)))%N.

Fixpoint lstrip (cs : list ascii) : list ascii :=
  match cs with
  | [] => []
  | a :: r =>
      if is_space a then lstrip r
      else match r with
           | b :: r2 =>
               if is_space2 a b then lstrip r2
               else match r2 with
                    | c :: r3 => if is_space3 a b c then lstrip r3 else cs
                    | [] => cs
                    end
           | [] => cs
           end
  end.

(** The same from the end of the text, on the bytes in reverse order. *)
Fixpoint rstrip_rev (cs : list ascii) : list ascii :=
  match cs with
  | [] => []
  | a :: r =>
      if is_space a then rstrip_rev r
      else match r with
           | b :: r2 =>
               if is_space2 b a then rstrip_rev r2
               else match r2 with
                    | c :: r3 => if is_space3 c b a then rstrip_rev r3 else cs
                    | [] => cs
                    end
           | [] => cs
           end
  end.

Definition strip (s : string) : string :=
  string_of_list_ascii (rev (rstrip_rev (rev (lstrip (list_ascii_of_string s))))).

(** U+00A0, the no-break space, in UTF-8. *)
Definition nbsp : string := String "194"%char (String "160"%char EmptyString).

(** ** Exceptions *)

Inductive exn :=
| KeyError (k : string)
| ValueError (msg : string)
| TypeError
| AttributeError
| NameError.

Inductive result (A : Type) :=
| Ok (a : A)
| Raise (e : exn).
Arguments Ok {A} a.
Arguments Raise {A} e.

Definition rbind {A B} (r : result A) (k : A -> result B) : result B :=
  match r with
  | Ok a => k a
  | Raise e => Raise e
  end.

Declare Scope result_scope.
Delimit Scope result_scope with result.
Notation "'let?' x := r 'in' k" := (rbind r (fun x => k))
  (at level 10, x pattern, r at level 100, k at level 200) : result_scope.
Local Open Scope result_scope.

Fixpoint rmap {A B} (f : A -> result B) (l : list A) : result (list B) :=
  match l with
  | [] => Ok []
  | a :: r =>
      match f a with
      | Ok b => match rmap f r with
                | Ok bs => Ok (b :: bs)
                | Raise e => Raise e
                end
      | Raise e => Raise e
      end
  end.

(** ** Series and data frames *)

(** What an [object] column can hold. *)
Inductive pyobj :=
| PStr (s : string)
| PInt (z : Z)
| PStamp (t : Timestamp)
| PDate (d : Date)
| PNaN.

(** A column with its dtype: a column of numbers ([int64], or [float64]
    holding whole numbers), [datetime64] ([None] is [NaT]), [object] or
    [bool]. *)
Inductive Series :=
| SNum (xs : list Z)
| STime (ts : list (option Timestamp))
| SObj (os : list pyobj)
| SBool (bs : list bool).

(** A frame is its columns, in order. *)
Definition DataFrame := list (string * Series).

Definition series_len (s : Series) : nat :=
  match s with
  | SNum xs => length xs
  | STime ts => length ts
  | SObj os => length os
  | SBool bs => length bs
  end.

Definition nrows (df : DataFrame) : nat :=
  match df with
  | [] => 0%nat
  | c :: _ => series_len (snd c)
  end.

(** Whether the frame has a column of booleans. *)
Definition has_bool_column (df : DataFrame) : bool :=
  existsb (fun c => match snd c with SBool _ => true | _ => false end) df.

(** Every column has as many entries as the frame has rows. *)
Definition wf_frame (df : DataFrame) : bool :=
  forallb (fun c => (series_len (snd c) =? nrows df)%nat) df.

Definition columns (df : DataFrame) : list string := map fst df.

(** [pd.api.types.is_numeric_dtype]: numbers and booleans. *)
Definition is_numeric_dtype (s : Series) : bool :=
  match s with SNum _ | SBool _ => true | _ => false end.

(** The dtypes that [include="number"] selects: numbers, not booleans. *)
Definition is_number_dtype (s : Series) : bool :=
  match s with SNum _ => true | _ => false end.

(** [col in df.columns] *)
Definition has_column (df : DataFrame) (col : string) : bool :=
  existsb (String.eqb col) (columns df).

(** [df[col]] *)
Fixpoint getitem (df : DataFrame) (col : string) : result Series :=
  match df with
  | [] => Raise (KeyError col)
  | (n, s) :: r => if String.eqb n col then Ok s else getitem r col
  end.

(** [df[col] = s]: replaces the column, or adds it last. *)
Fixpoint setitem (df : DataFrame) (col : string) (s : Series) : DataFrame :=
  match df with
  | [] => [(col, s)]
  | (n, s0) :: r => if String.eqb n col then (n, s) :: r else (n, s0) :: setitem r col s
  end.

(** [df[cols]] for a list of names *)
Definition getitems (df : DataFrame) (cols : list string) : result DataFrame :=
  rmap (fun c => match getitem df c with
                 | Ok s => Ok (c, s)
                 | Raise e => Raise e
                 end) cols.

(** ** Row selection *)

(** Boolean indexing: keep the entries whose mask bit is set. *)
Fixpoint mask_list {A} (m : list bool) (xs : list A) : list A :=
  match m, xs with
  | b :: m', x :: xs' => if b then x :: mask_list m' xs' else mask_list m' xs'
  | _, _ => []
  end.

Definition mask_series (m : list bool) (s : Series) : Series :=
  match s with
  | SNum xs => SNum (mask_list m xs)
  | STime ts => STime (mask_list m ts)
  | SObj os => SObj (mask_list m os)
  | SBool bs => SBool (mask_list m bs)
  end.

(** [df[mask]]: a new frame with the selected rows. *)
Definition mask_rows (m : list bool) (df : DataFrame) : DataFrame :=
  map (fun c => (fst c, mask_series m (snd c))) df.

(** ** Dates in a column *)

Definition parse_obj (fmt : DateFormat) (o : pyobj) : option Timestamp :=
  match o with
  | PStr s => strptime fmt s
  | PStamp t => Some t
  | PDate d => Some (midnight d)
  | PInt _ => None
  | PNaN => None
  end.

(** [pd.to_datetime(s, format=fmt, errors="coerce")].  A [datetime64]
    column is returned as it is (the format plays no role there); in an
    [object] column texts are read with the format, datetimes and dates
    are taken over, and whatever does not fit becomes [NaT].  Without a
    format, only ISO texts are read here; the program applies that form
    to dates and datetimes only. *)
Definition parse_series (fmt : option DateFormat) (s : Series)
  : list (option Timestamp) :=
  match s with
  | STime ts => ts
  | SObj os => map (parse_obj (default Fmt_Ymd fmt)) os
  | SNum xs => map (fun _ => None) xs
  | SBool bs => map (fun _ => None) bs
  end.

Definition to_datetime (fmt : option DateFormat) (s : Series) : Series :=
  STime (parse_series fmt s).

Definition has_stamp (o : option Timestamp) : bool :=
  match o with Some _ => true | None => false end.

(** [s.dt.date]: the calendar days, as an [object] column. *)
Definition dt_date (s : Series) : result Series :=
  match s with
  | STime ts => Ok (SObj (map (fun o => match o with
                                        | Some t => PDate (ts_date t)
                                        | None => PNaN
                                        end) ts))
  | _ => Raise AttributeError
  end.

(** [s.dt.to_period("M").dt.to_timestamp()] *)
Definition month_floor (s : Series) : result Series :=
  match s with
  | STime ts => Ok (STime (map (option_map (fun t => month_start (month_of t))) ts))
  | _ => Raise AttributeError
  end.

Definition notna (s : Series) : list bool :=
  match s with
  | SNum xs => map (fun _ => true) xs
  | STime ts => map has_stamp ts
  | SObj os => map (fun o => match o with PNaN => false | _ => true end) os
  | SBool bs => map (fun _ => true) bs
  end.

(** [df.dropna(subset=[col])], by value. *)
Definition dropna (df : DataFrame) (col : string) : result DataFrame :=
  let? s := getitem df col in
  Ok (mask_rows (notna s) df).

(** [s >= "..."] and [s > "..."] on a datetime column; [NaT] compares
    false. *)
Definition cmp_mask (test : Timestamp -> Timestamp -> bool)
    (s : Series) (c : Timestamp) : result (list bool) :=
  match s with
  | STime ts => Ok (map (fun o => match o with
                                  | Some t => test t c
                                  | None => false
                                  end) ts)
  | _ => Raise TypeError
  end.

(** ** Sums *)

Definition zsum (xs : list Z) : Z := fold_right Z.add 0 xs.

(** The numbers a column contributes to a sum: a numeric column as it is,
    a [bool] column with [True] counted as one, an [object] column when
    it holds integers only (an empty sheet is read with [object]
    columns). *)
Definition series_nums (s : Series) : result (list Z) :=
  match s with
  | SNum xs => Ok xs
  | SObj os => rmap (fun o => match o with
                              | PInt z => Ok z
                              | _ => Raise TypeError
                              end) os
  | STime _ => Raise TypeError
  | SBool bs => Ok (map Z.b2z bs)
  end.

(** [df.sum()]: one total per column. *)
Definition column_totals (df : DataFrame) : result (list (string * Z)) :=
  rmap (fun c => let? xs := series_nums (snd c) in Ok (fst c, zsum xs)) df.

(** [df.sum(axis=1)] for a selection [df] out of a frame with [n] rows. *)
Definition row_sums (n : nat) (df : DataFrame) : result Series :=
  let? cs := rmap (fun c => series_nums (snd c)) df in
  Ok (SNum (map (fun i => zsum (map (fun xs => nth i xs 0) cs)) (seq 0 n))).

(** ** Grouping by month *)

(** The month of every row; [None] for [NaT]. *)
Definition month_keys (s : Series) : result (list (option Z)) :=
  match s with
  | STime ts => Ok (map (option_map month_of) ts)
  | _ => Raise TypeError
  end.

Fixpoint somes {A} (l : list (option A)) : list A :=
  match l with
  | [] => []
  | Some a :: r => a :: somes r
  | None :: r => somes r
  end.

(** The sum of the values of the rows whose month is [k]. *)
Fixpoint sum_where (keys : list (option Z)) (vals : list Z) (k : Z) : Z :=
  match keys, vals with
  | key :: keys', v :: vals' =>
      match key with
      | Some k' => if k' =? k then v + sum_where keys' vals' k else sum_where keys' vals' k
      | None => sum_where keys' vals' k
      end
  | _, _ => 0
  end.

(** The group keys of [groupby]: the months that occur, each once, in
    increasing order. *)
Fixpoint insert_key (k : Z) (l : list Z) : list Z :=
  match l with
  | [] => [k]
  | x :: r => if k <? x then k :: l
              else if k =? x then l
              else x :: insert_key k r
  end.

Definition unique_sorted (ks : list Z) : list Z := fold_right insert_key [] ks.

(** The bins of [resample("MS")]: every month from the first to the last
    one that occurs. *)
Definition zmin_list (k : Z) (ks : list Z) : Z := fold_right Z.min k ks.
Definition zmax_list (k : Z) (ks : list Z) : Z := fold_right Z.max k ks.

Definition zrange (lo hi : Z) : list Z :=
  map (fun i => lo + Z.of_nat i) (seq 0 (Z.to_nat (hi - lo + 1))).

Definition month_span (ks : list Z) : list Z :=
  match ks with
  | [] => []
  | k :: r => zrange (zmin_list k r) (zmax_list k r)
  end.

Definition month_column (ks : list Z) : Series :=
  STime (map (fun k => Some (month_start k)) ks).

(** [df.groupby(key)[cols].sum().reset_index()] where [key] holds month
    starts: one row per month that occurs, in increasing order. *)
Definition groupby_sum (df : DataFrame) (key : string) (cols : list string)
  : result DataFrame :=
  let? b := getitem df key in
  let? keys := month_keys b in
  let ks := unique_sorted (somes keys) in
  let? sel := rmap (fun c =>
                      let? s := getitem df c in
                      let? xs := series_nums s in
                      Ok (c, SNum (map (sum_where keys xs) ks))) cols in
  Ok ((key, month_column ks) :: sel).

(** The columns that [sum(numeric_only=True)] keeps, as numbers: those
    of numbers and of booleans. *)
Definition numeric_data (df : DataFrame) : list (string * list Z) :=
  flat_map (fun c => match snd c with
                     | SNum xs => [(fst c, xs)]
                     | SBool bs => [(fst c, map Z.b2z bs)]
                     | _ => []
                     end) df.

(** [df.resample("MS", on="Date").sum(numeric_only=True).reset_index()]:
    one row per month from the first to the last date, the numeric
    columns summed.  On a frame without a dated row pandas fails while
    it builds the bins ([AttributeError]: the index of the empty frame
    has no frequency). *)
Definition resample_MS_sum (df : DataFrame) : result DataFrame :=
  let? d := getitem df "Date" in
  let? keys := month_keys d in
  match somes keys with
  | [] => Raise AttributeError
  | _ :: _ =>
      let bins := month_span (somes keys) in
      Ok (("Date"%string, month_column bins)
            :: map (fun c => (fst c, SNum (map (sum_where keys (snd c)) bins)))
                 (numeric_data df))
  end.

(** ** Wide to long *)

Definition tile (k : nat) (s : Series) : Series :=
  match s with
  | SNum xs => SNum (concat (repeat xs k))
  | STime ts => STime (concat (repeat ts k))
  | SObj os => SObj (concat (repeat os k))
  | SBool bs => SBool (concat (repeat bs k))
  end.

(** [df.melt(id_vars=id, value_vars=cols, var_name=var, value_name=val)]:
    the value columns one after the other, the id column repeated beside
    each of them.  pandas first refuses a [value_name] that is a column
    of the frame. *)
Definition melt (df : DataFrame) (id : string) (cols : list string)
    (var val : string) : result DataFrame :=
  if has_column df val then
    Raise (ValueError ("value_name (" +:+ val
                       +:+ ") cannot match an element in the DataFrame columns."))
  else
  let? ids := getitem df id in
  let? vs := rmap (fun c =>
                     let? s := getitem df c in
                     let? xs := series_nums s in
                     Ok (c, xs)) cols in
  Ok [ (id, tile (length cols) ids);
       (var, SObj (flat_map (fun c => repeat (PStr (fst c)) (nrows df)) vs));
       (val, SNum (concat (map snd vs))) ].

(** ** Category detection *)

(** [df.select_dtypes(include="number")] *)
Definition select_dtypes_number (df : DataFrame) : DataFrame :=
  List.filter (fun c => is_number_dtype (snd c)) df.

Definition numeric_at (df : DataFrame) (col : string) : bool :=
  match getitem df col with
  | Ok s => is_numeric_dtype s
  | Raise _ => false
  end.

Definition number_at (df : DataFrame) (col : string) : bool :=
  match getitem df col with
  | Ok s => is_number_dtype s
  | Raise _ => false
  end.

(** Line 30: [[col for col in referral_df.columns
               if col != "Date" and is_numeric_dtype(referral_df[col])]] *)
Definition detect_referral_sources (referral_df : DataFrame) : list string :=
  List.filter (fun col => negb (String.eqb col "Date") && numeric_at referral_df col)
    (columns referral_df).

(** Lines 37-39: [[col for col in tsdf.select_dtypes(include="number").columns
                   if col != "Total"]] *)
Definition detect_token_source_cols (tsdf : DataFrame) : list string :=
  List.filter (fun col => negb (String.eqb col "Total"))
    (columns (select_dtypes_number tsdf)).

(** Line 207: [[col for col in tsdf.columns
                if col not in ["Date", "Month_dt", "Month", "Total"]
                and is_numeric_dtype(tsdf[col])]] *)
Definition not_in (col : string) (names : list string) : bool :=
  negb (existsb (String.eqb col) names).

Definition detect_pie_source_cols (tsdf : DataFrame) : list string :=
  List.filter (fun col =>
                 not_in col ["Date"; "Month_dt"; "Month"; "Total"]%string
                 && numeric_at tsdf col)
    (columns tsdf).

(** ** Ordering rows *)

(** Position of a row when sorting by month; [NaT] goes last. *)
Definition key_ltb (a b : option Z) : bool :=
  match a, b with
  | Some x, Some y => x <? y
  | Some _, None => true
  | None, _ => false
  end.

Fixpoint insert_row (p : option Z * nat) (l : list (option Z * nat))
  : list (option Z * nat) :=
  match l with
  | [] => [p]
  | q :: r => if key_ltb (fst q) (fst p) then q :: insert_row p r else p :: l
  end.

Definition sort_index (keys : list (option Z)) : list nat :=
  map snd (fold_right insert_row [] (combine keys (seq 0 (length keys)))).

Definition take_list {A} (idx : list nat) (xs : list A) : list A :=
  flat_map (fun i => match nth_error xs i with
                     | Some x => [x]
                     | None => []
                     end) idx.

Definition take_series (idx : list nat) (s : Series) : Series :=
  match s with
  | SNum xs => SNum (take_list idx xs)
  | STime ts => STime (take_list idx ts)
  | SObj os => SObj (take_list idx os)
  | SBool bs => SBool (take_list idx bs)
  end.

(** [df.sort_values(col)] on a month column.  (pandas leaves the order
    of rows with equal keys open; they keep their order here.) *)
Definition sort_values (df : DataFrame) (col : string) : result DataFrame :=
  let? s := getitem df col in
  let? keys := month_keys s in
  Ok (map (fun c => (fst c, take_series (sort_index keys) (snd c))) df).

(** Group keys that are texts come out in increasing order. *)
Fixpoint insert_string (s : string) (l : list string) : list string :=
  match l with
  | [] => [s]
  | x :: r => if String.ltb s x then s :: l
              else if String.eqb s x then l
              else x :: insert_string s r
  end.

Definition sorted_strings (l : list string) : list string :=
  fold_right insert_string [] l.

(** ** Month labels ([strftime]) *)

Definition month_name (m : Z) : string :=
  match m with
  | 1 => "January" | 2 => "February" | 3 => "March" | 4 => "April"
  | 5 => "May" | 6 => "June" | 7 => "July" | 8 => "August"
  | 9 => "September" | 10 => "October" | 11 => "November" | _ => "December"
  end.

(** ["%B %Y"] *)
Definition month_label (t : Timestamp) : string :=
  (month_name (month (ts_date t)) +:+ " " +:+ pretty (year (ts_date t)))%string.

(** ["%b %Y"] *)
Definition short_month_label (t : Timestamp) : string :=
  (String.substring 0 3 (month_name (month (ts_date t)))
     +:+ " " +:+ pretty (year (ts_date t)))%string.

(** [s.dt.strftime("%B %Y")] *)
Definition strftime_BY (s : Series) : result Series :=
  match s with
  | STime ts => Ok (SObj (map (fun o => match o with
                                        | Some t => PStr (month_label t)
                                        | None => PNaN
                                        end) ts))
  | _ => Raise AttributeError
  end.

(** ** plotly *)

(** [make_subplots(rows, cols)] refuses a grid without rows or without
    columns: "The 'cols' argument to make_subplots must be an int greater
    than 0", a [ValueError].  The grid is represented by its cell
    indices. *)
Definition make_subplots (rows cols : nat) : result (list (nat * nat)) :=
  if (rows =? 0)%nat then
    Raise (ValueError "The 'rows' argument to make_subplots must be an int greater than 0")
  else if (cols =? 0)%nat then
    Raise (ValueError "The 'cols' argument to make_subplots must be an int greater than 0")
  else Ok (flat_map (fun r => map (fun c => (r, c)) (seq 1 cols)) (seq 1 rows)).

(** ** The object store

    Frames that the program updates in place live in a store; a variable
    holds a reference.  Two variables holding the same reference see each
    other's updates. *)

Abbreviation loc := nat (only parsing).
Abbreviation heap := (list DataFrame) (only parsing).
Definition M (A : Type) : Type := heap -> result (A * heap).

Definition ret {A} (a : A) : M A := fun h => Ok (a, h).

Definition bind {A B} (m : M A) (k : A -> M B) : M B :=
  fun h => match m h with
           | Ok (a, h') => k a h'
           | Raise e => Raise e
           end.

Definition lift {A} (r : result A) : M A :=
  fun h => match r with
           | Ok a => Ok (a, h)
           | Raise e => Raise e
           end.

(** A new object. *)
Definition alloc (df : DataFrame) : M loc :=
  fun h => Ok (length h, h ++ [df]).

Definition load (l : loc) : M DataFrame :=
  fun h => match h !! l with
           | Some df => Ok (df, h)
           | None => Raise NameError
           end.

Definition store (l : loc) (df : DataFrame) : M unit :=
  fun h => if (l <? length h)%nat then Ok (tt, <[l := df]> h) else Raise NameError.

Declare Scope store_scope.
Delimit Scope store_scope with store.
Notation "'let*' x := m 'in' k" := (bind m (fun x => k))
  (at level 10, x pattern, m at level 100, k at level 200) : store_scope.
Notation "m ;; k" := (bind m (fun _ => k))
  (at level 100, k at level 200, right associativity) : store_scope.
Local Open Scope store_scope.

(** [obj[col]] *)
Definition column_of (l : loc) (col : string) : M Series :=
  let* df := load l in
  lift (getitem df col).

(** [obj[col] = s], on the object itself. *)
Definition setitem_inplace (l : loc) (col : string) (s : Series) : M unit :=
  let* df := load l in
  store l (setitem df col s).

(** [obj.dropna(subset=[col], inplace=True)] *)
Definition dropna_inplace (l : loc) (col : string) : M unit :=
  let* df := load l in
  let* df' := lift (dropna df col) in
  store l df'.

(** ** Loading (lines 10-31) *)

(** The workbook: its sheets in order, each with the frame [read_excel]
    makes of it. *)
Definition Workbook := list (string * DataFrame).

(** [pd.read_excel(path, sheet_name=None)]: one frame object per sheet. *)
Fixpoint read_all_sheets (wb : Workbook) : M (list (string * loc)) :=
  match wb with
  | [] => ret []
  | (name, t) :: r =>
      let* l := alloc t in
      let* ls := read_all_sheets r in
      ret ((name, l) :: ls)
  end.

(** [{k.strip(): v for k, v in items}]: a later sheet replaces an earlier
    one with the same stripped name. *)
Definition strip_keys (items : list (string * loc)) : gmap string loc :=
  fold_left (fun d kv => <[strip (fst kv) := snd kv]> d) items ∅.

(** [d[k]] *)
Definition dict_get (d : gmap string loc) (k : string) : M loc :=
  match d !! k with
  | Some l => ret l
  | None => lift (Raise (KeyError k))
  end.

(** [pd.read_excel(path, sheet_name=name)]: the sheet of exactly that
    name, as an object of its own. *)
Definition read_sheet (wb : Workbook) (name : string) : M loc :=
  match find (fun s => String.eqb (fst s) name) wb with
  | Some s => alloc (snd s)
  | None => lift (Raise (ValueError "Worksheet not found"))
  end.

(** Lines 17-22: the token dates. *)
Definition normalize_token_dates (l : loc) : M unit :=
  let* d := column_of l "Date" in
  setitem_inplace l "Date" (to_datetime (Some Fmt_mdY) d) ;;
  dropna_inplace l "Date" ;;
  let* d := column_of l "Date" in
  let* days := lift (dt_date d) in
  setitem_inplace l "Date" days ;;                       (* strip time *)
  let* d := column_of l "Date" in
  setitem_inplace l "Date" (to_datetime None d).         (* convert back to datetime *)

(** Lines 26-28: the body of the cleaning loop. *)
Definition clean_dates (l : loc) : M unit :=
  let* df := load l in
  if has_column df "Date" then
    let* d := column_of l "Date" in
    setitem_inplace l "Date" (to_datetime (Some Fmt_Ymd) d) ;;
    dropna_inplace l "Date"
  else ret tt.

Fixpoint for_each (f : loc -> M unit) (ls : list loc) : M unit :=
  match ls with
  | [] => ret tt
  | l :: r => f l ;; for_each f r
  end.

(** The module-level variables. *)
Record Globals := mkGlobals {
  df : gmap string loc;
  referral_df : loc;
  wallet_df : loc;
  fee_df : loc;
  tokens_source_df : loc;
  referral_sources : list string
}.

(** Lines 10-31. *)
Definition load_data (wb : Workbook) : M Globals :=
  let* items := read_all_sheets wb in
  let d := strip_keys items in
  let* referral := dict_get d "Referrals" in
  let* wallet := dict_get d "Wallets Created" in
  let* fee := dict_get d "POL Data" in
  let* tokens := read_sheet wb "Tokens per source" in
  normalize_token_dates tokens ;;
  for_each clean_dates [wallet; referral; fee] ;;
  let* r := load referral in
  let sources := detect_referral_sources r in
  let* sel := lift (getitems r sources) in
  let* total := lift (row_sums (nrows r) sel) in
  setitem_inplace referral "Referrals" total ;;
  ret (mkGlobals d referral wallet fee tokens sources).

(** ** [create_figures] (lines 34-256)

    Frames that [create_figures] goes on to update are allocated in the
    store; results it only reads are kept as values.  Each figure is
    represented by the data and the title numbers it is built from. *)

(** [df[df["Date"] >= c]], [df[df["Date"] > c]]: the window. *)
Definition window (test : Timestamp -> Timestamp -> bool) (c : Timestamp)
    (t : DataFrame) : result DataFrame :=
  let? d := getitem t "Date" in
  let? m := cmp_mask test d c in
  Ok (mask_rows m t).

(** [s.sum()] *)
Definition series_sum (s : Series) : result Z :=
  let? xs := series_nums s in
  Ok (zsum xs).

(** [int(x)] of a whole number. *)
Definition py_int (x : Z) : Z := x.

(** Lines 36-46. *)
Definition token_charts (g : Globals) : M (DataFrame * Z * list string) :=
  let* tokens := load (tokens_source_df g) in
  let* w := lift (window ts_geb cutoff_2025_01_01 tokens) in
  let* tsdf := alloc w in                                       (* .copy() *)
  let* tsdf_v := load tsdf in
  let token_source_cols := detect_token_source_cols tsdf_v in
  let* mt := lift (resample_MS_sum tsdf_v) in
  let* monthly_tokens := alloc mt in
  let* d := column_of monthly_tokens "Date" in
  setitem_inplace monthly_tokens "Month" d ;;
  let* d := column_of monthly_tokens "Date" in
  let* labels := lift (strftime_BY d) in
  setitem_inplace monthly_tokens "MonthLabel" labels ;;
  let* mt_v := load monthly_tokens in
  (if has_column mt_v "Total" then ret tt
   else
     let* sel := lift (getitems mt_v token_source_cols) in
     let* total := lift (row_sums (nrows mt_v) sel) in
     setitem_inplace monthly_tokens "Total" total) ;;
  let* total := column_of monthly_tokens "Total" in
  let* total_tokens := lift (series_sum total) in
  let* mt_v := load monthly_tokens in
  ret (mt_v, total_tokens, token_source_cols).

Definition wallet_platforms : list string := ["Android"; "iOS"; "Web"]%string.

(** Lines 72-82. *)
Definition wallet_charts (g : Globals) : M (DataFrame * DataFrame * list (string * Z)) :=
  let* wallets := load (wallet_df g) in
  let* w := lift (window ts_gtb cutoff_2024_12_31 wallets) in
  let* wallet_df_filtered := alloc w in                         (* .copy() *)
  let* d := column_of wallet_df_filtered "Date" in
  let* ms := lift (month_floor d) in
  setitem_inplace wallet_df_filtered "Month" ms ;;
  let* f := load wallet_df_filtered in
  let* monthly_wallets := lift (groupby_sum f "Month" wallet_platforms) in
  let* sel := lift (getitems monthly_wallets wallet_platforms) in
  let* platform_totals := lift (column_totals sel) in
  let* wallets_melted :=
    lift (melt monthly_wallets "Month" wallet_platforms "Platform" "Count") in
  ret (monthly_wallets, wallets_melted, platform_totals).

(** Lines 114-148. *)
Definition referral_charts (g : Globals)
  : M (DataFrame * DataFrame * DataFrame * list (string * Z)) :=
  let* referrals := load (referral_df g) in
  let* w := lift (window ts_geb cutoff_2025_01_01 referrals) in
  let* rdf := alloc w in                                        (* .copy() *)
  let* d := column_of rdf "Date" in
  let* ms := lift (month_floor d) in
  setitem_inplace rdf "Month" ms ;;
  let* rdf_v := load rdf in
  let* by_source := lift (groupby_sum rdf_v "Month" (referral_sources g)) in
  let* referral_by_source := alloc by_source in
  let* sel := lift (getitems by_source (referral_sources g)) in
  let* referral_totals := lift (column_totals sel) in
  let* referral_melted :=
    lift (melt by_source "Month" (referral_sources g) "Campaign" "Referrals") in
  let* referral_totals_by_month :=
    lift (groupby_sum referral_melted "Month" ["Referrals"%string]) in
  let* rbs := load referral_by_source in
  let* sel := lift (getitems rbs (referral_sources g)) in
  let* total := lift (row_sums (nrows rbs) sel) in
  setitem_inplace referral_by_source "Total" total ;;
  let* rbs := load referral_by_source in
  ret (referral_melted, referral_totals_by_month, rbs, referral_totals).

(** Lines 158-161. *)
Definition fee_chart (g : Globals) : M (DataFrame * Z) :=
  let* fees := load (fee_df g) in
  let* w := lift (window ts_gtb cutoff_2024_12_31 fees) in
  let* fdf := alloc w in                                        (* .copy() *)
  let* d := column_of fdf "Date" in
  let* ms := lift (month_floor d) in
  setitem_inplace fdf "Month" ms ;;
  let* fdf_v := load fdf in
  let* monthly_fee := lift (groupby_sum fdf_v "Month" ["TxnFee(POL)"%string]) in
  let* fee := lift (getitem monthly_fee "TxnFee(POL)") in
  let* total_fee := lift (series_sum fee) in
  ret (monthly_fee, py_int total_fee).

(** Lines 172-173: [tokens_source_df[token_source_cols].sum()]. *)
Definition token_source_chart (g : Globals) (token_source_cols : list string)
  : M (list (string * Z)) :=
  let* tokens := load (tokens_source_df g) in
  let* sel := lift (getitems tokens token_source_cols) in
  lift (column_totals sel).

(** Texts of an [object] column. *)
Fixpoint texts (os : list pyobj) : list string :=
  match os with
  | [] => []
  | PStr s :: r => s :: texts r
  | _ :: r => texts r
  end.

(** [s.unique()] on texts: each once, in order of first appearance. *)
Fixpoint unique_strings (l : list string) (seen : list string) : list string :=
  match l with
  | [] => []
  | s :: r => if existsb (String.eqb s) seen then unique_strings r seen
              else s :: unique_strings r (s :: seen)
  end.

Definition is_text (s : string) (o : pyobj) : bool :=
  match o with
  | PStr s' => String.eqb s' s
  | _ => false
  end.

(** The sum of the values of the rows of month label [m] and source
    [src]. *)
Fixpoint sum_where_label (months srcs : list pyobj) (vals : list Z)
    (m src : string) : Z :=
  match months, srcs, vals with
  | a :: months', b :: srcs', v :: vals' =>
      if is_text m a && is_text src b
      then v + sum_where_label months' srcs' vals' m src
      else sum_where_label months' srcs' vals' m src
  | _, _, _ => 0
  end.

Fixpoint occurs_label (months srcs : list pyobj) (m src : string) : bool :=
  match months, srcs with
  | a :: months', b :: srcs' =>
      (is_text m a && is_text src b) || occurs_label months' srcs' m src
  | _, _ => false
  end.

(** [melted.groupby(["Month", "Source"], observed=True).sum().reset_index()]
    where [Month] is categorical with the categories [cats]: the pairs
    that occur, by category and then by source name. *)
Definition groupby_month_source (melted : DataFrame) (cats : list string)
  : result DataFrame :=
  let? m := getitem melted "Month" in
  let? s := getitem melted "Source" in
  let? t := getitem melted "Tokens" in
  let? vals := series_nums t in
  match m, s with
  | SObj ms, SObj ss =>
      let pairs :=
        List.filter (fun p => occurs_label ms ss (fst p) (snd p))
          (flat_map (fun c => map (fun src => (c, src)) (sorted_strings (texts ss))) cats) in
      Ok [ ("Month"%string, SObj (map (fun p => PStr (fst p)) pairs));
           ("Source"%string, SObj (map (fun p => PStr (snd p)) pairs));
           ("Tokens"%string, SNum (map (fun p => sum_where_label ms ss vals (fst p) (snd p)) pairs)) ]
  | _, _ => Raise TypeError
  end.

(** [s.dt.strftime("%b %Y")] *)
Definition strftime_bY (s : Series) : result Series :=
  match s with
  | STime ts => Ok (SObj (map (fun o => match o with
                                        | Some t => PStr (short_month_label t)
                                        | None => PNaN
                                        end) ts))
  | _ => Raise AttributeError
  end.

(** [df[df["Month"] == month]] *)
Definition rows_of_month (monthly_data : DataFrame) (m : string) : result DataFrame :=
  let? s := getitem monthly_data "Month" in
  match s with
  | SObj ms => Ok (mask_rows (map (is_text m) ms) monthly_data)
  | _ => Raise TypeError
  end.

(** One pie: its labels and values, and the total written under it. *)
Record Pie := mkPie {
  pie_name : string;
  pie_labels : Series;
  pie_values : Series;
  pie_total : Z
}.

Definition make_pie (monthly_data : DataFrame) (m : string) : result Pie :=
  let? sub_df := rows_of_month monthly_data m in
  let? labels := getitem sub_df "Source" in
  let? values := getitem sub_df "Tokens" in
  let? total := series_sum values in
  Ok (mkPie m labels values (py_int total)).

(** Lines 198-254.  The categorical [Month] column is kept as its labels,
    with [month_order] as its categories; [month_totals], which nothing
    reads afterwards, is left out. *)
Definition pie_charts (g : Globals) : M (list Pie * Z) :=
  let* tokens := load (tokens_source_df g) in
  let* tsdf := alloc tokens in                                  (* .copy() *)
  let* d := column_of tsdf "Date" in
  setitem_inplace tsdf "Date" (to_datetime None d) ;;
  let* t := load tsdf in
  let* w := lift (window ts_geb cutoff_2025_01_01 t) in
  let* w := lift (dropna w "Date") in
  let* tsdf := alloc w in
  let* d := column_of tsdf "Date" in
  let* ms := lift (month_floor d) in
  setitem_inplace tsdf "Month_dt" ms ;;
  let* d := column_of tsdf "Month_dt" in
  let* labels := lift (strftime_bY d) in
  setitem_inplace tsdf "Month" labels ;;
  let* t := load tsdf in
  let* sorted := lift (sort_values t "Month_dt") in
  let* tsdf := alloc sorted in
  let* m := column_of tsdf "Month" in
  let month_order := match m with
                     | SObj os => unique_strings (texts os) []
                     | _ => []
                     end in
  let* t := load tsdf in
  let token_source_cols := detect_pie_source_cols t in
  let* melted := lift (melt t "Month" token_source_cols "Source" "Tokens") in
  let* monthly_data := lift (groupby_month_source melted month_order) in
  let months := month_order in
  let* grid := lift (make_subplots 1 (length months)) in
  let* pies := lift (rmap (make_pie monthly_data) months) in
  let* tokens_col := lift (getitem monthly_data "Tokens") in
  let* grand := lift (series_sum tokens_col) in
  ret (pies, py_int grand).

(** What the nine figures show. *)
Record Figures := mkFigures {
  (* token_bar, token_line *)
  monthly_tokens : DataFrame;
  total_tokens : Z;
  (* wallet_bar, wallet_pie *)
  monthly_wallets : DataFrame;
  wallets_melted : DataFrame;
  platform_totals : list (string * Z);
  (* referral_bar, referral_line *)
  referral_melted : DataFrame;
  referral_totals_by_month : DataFrame;
  referral_by_source : DataFrame;
  referral_totals : list (string * Z);
  (* fee_line *)
  monthly_fee : DataFrame;
  total_fee : Z;
  (* token_source_bar *)
  total_tokens_by_source : list (string * Z);
  (* fig_pies *)
  pies : list Pie;
  pies_total : Z
}.

Definition create_figures (g : Globals) : M Figures :=
  let* (monthly_tokens, total_tokens, token_source_cols) := token_charts g in
  let* (monthly_wallets, wallets_melted, platform_totals) := wallet_charts g in
  let* (referral_melted, by_month, by_source, referral_totals) := referral_charts g in
  let* (monthly_fee, total_fee) := fee_chart g in
  let* by_src := token_source_chart g token_source_cols in
  let* (pies, grand) := pie_charts g in
  ret (mkFigures monthly_tokens total_tokens
         monthly_wallets wallets_melted platform_totals
         referral_melted by_month by_source referral_totals
         monthly_fee total_fee by_src pies grand).

(** Line 259 after lines 10-31: what running the module does. *)
Definition main (wb : Workbook) : M Figures :=
  let* g := load_data wb in
  create_figures g.

(** ** Sample workbooks *)

Definition on_day (y m d : Z) : option Timestamp := Some (midnight (mkDate y m d)).

Definition sample_tokens : DataFrame :=
  [ ("Date", SObj [PStr "01-05-2025"; PStr "03-10-2025"]);
    ("Airdrop", SNum [1; 3]);
    ("Staking", SNum [10; 30]) ]%string.

(** Wallets created in January and in March 2025, none in February. *)
Definition sample_wallets : DataFrame :=
  [ ("Date", STime [on_day 2025 1 5; on_day 2025 3 20]);
    ("Android", SNum [3; 2]);
    ("iOS", SNum [1; 0]);
    ("Web", SNum [0; 1]) ]%string.

Definition sample_referrals : DataFrame :=
  [ ("Date", SObj [PStr "2025-01-05"; PStr "2025-03-01"]);
    ("Twitter", SNum [4; 5]);
    ("Friends", SNum [1; 1]) ]%string.

Definition sample_fees : DataFrame :=
  [ ("Date", SObj [PStr "2025-01-05"; PStr "2025-02-11"]);
    ("TxnFee(POL)", SNum [4; 5]) ]%string.

Definition sample_workbook : Workbook :=
  [ ("Tokens per source", sample_tokens);
    ("Referrals", sample_referrals);
    ("Wallets Created", sample_wallets);
    ("POL Data", sample_fees) ]%string.

(** The sample workbook with a no-break space after the name of the
    referral sheet. *)
Definition nbsp_workbook : Workbook :=
  [ ("Tokens per source", sample_tokens);
    ("Referrals" ++ nbsp, sample_referrals);
    ("Wallets Created", sample_wallets);
    ("POL Data", sample_fees) ]%string.

(** A referral table that stores a [Total] column. *)
Definition totalled_referrals : DataFrame :=
  [ ("Date", STime [on_day 2025 1 5; on_day 2025 3 1]);
    ("Twitter", SNum [4; 5]);
    ("Total", SNum [4; 5]) ]%string.

(** Five fee records, two of them with a date that cannot be read. *)
Definition five_fees : DataFrame :=
  [ ("Date", SObj [PStr "2025-01-05"; PStr "not a date"; PStr "2025-02-11";
                   PStr "2025-13-01"; PStr "2025-03-09"]);
    ("TxnFee(POL)", SNum [4; 100; 5; 1000; 6]) ]%string.


(** A wallet created at noon on 31 December 2024, in a sheet whose date
    cells are datetimes. *)
Definition noon_wallets : DataFrame :=
  [ ("Date", STime [Some (mkTs (mkDate 2024 12 31) 43200); on_day 2025 1 5]);
    ("Android", SNum [7; 3]);
    ("iOS", SNum [0; 1]);
    ("Web", SNum [0; 0]) ]%string.

Definition noon_workbook : Workbook :=
  [ ("Tokens per source", sample_tokens);
    ("Referrals", sample_referrals);
    ("Wallets Created", noon_wallets);
    ("POL Data", sample_fees) ]%string.

(** The days of the dates that were read, at midnight. *)
Definition days_of (p : list (option Timestamp)) : list (option Timestamp) :=
  map (option_map (fun t => midnight (ts_date t))) p.

(** The category detector in the words of the specification: the
    fields of the dataset, in column order, whose values are numbers in
    every record and which are not excluded.  (Python's [True] and
    [False] are the numbers one and zero.) *)
Definition uniformly_numeric (s : Series) : bool :=
  match s with
  | SNum _ => true
  | SBool _ => true
  | SObj os => forallb (fun o => match o with PInt _ => true | _ => false end) os
  | STime _ => false
  end.

Definition values_numeric_at (t : DataFrame) (col : string) : bool :=
  match getitem t col with
  | Ok s => uniformly_numeric s
  | Raise _ => false
  end.

Definition detect_by_values (excluded : list string) (t : DataFrame) : list string :=
  List.filter (fun col => not_in col excluded && values_numeric_at t col) (columns t).

(** The detector by dtype: the fields, in column order, whose column has
    a numeric dtype and which are not excluded.  The three places of the
    program that detect categories are compared with it. *)
Definition detect_categories (excluded : list string) (t : DataFrame) : list string :=
  List.filter (fun col => not_in col excluded && numeric_at t col) (columns t).

(** The name and dtype of every column. *)
Inductive dtype := Dnumber | Ddatetime | Dobject | Dbool.

Definition dtype_of (s : Series) : dtype :=
  match s with
  | SNum _ => Dnumber
  | STime _ => Ddatetime
  | SObj _ => Dobject
  | SBool _ => Dbool
  end.

Definition dtypes (t : DataFrame) : list (string * dtype) :=
  map (fun c => (fst c, dtype_of (snd c))) t.

(** Referral records of which one has a date that cannot be read and a
    text in the [Friends] cell: the column is read with dtype
    [object]. *)
Definition mixed_referrals : DataFrame :=
  [ ("Date", SObj [PStr "2025-01-05"; PStr "soon"; PStr "2025-03-01"]);
    ("Twitter", SNum [4; 0; 5]);
    ("Friends", SObj [PInt 1; PStr "later"; PInt 1]) ]%string.

(** A token table with a column of booleans. *)
Definition flagged_tokens : DataFrame :=
  [ ("Date", STime [on_day 2025 1 5; on_day 2025 2 7]);
    ("Airdrop", SNum [1; 3]);
    ("Bonus", SBool [true; false]);
    ("Total", SNum [2; 3]) ]%string.

(** Whether a row has a month. *)
Definition has_key (o : option Z) : bool :=
  match o with Some _ => true | None => false end.

(** The numbers of a column, none if it has none. *)
Definition numbers_of (t : DataFrame) (c : string) : list Z :=
  match rbind (getitem t c) series_nums with
  | Ok xs => xs
  | Raise _ => []
  end.

(** Referral records with their month, the monthly table made of them and
    its long form. *)
Definition sample_rdf : DataFrame :=
  [ ("Month", STime [on_day 2025 1 1; on_day 2025 3 1; on_day 2025 1 1]);
    ("Twitter", SNum [4; 5; 2]);
    ("Friends", SNum [1; 1; 1]) ]%string.

Definition sample_by_source : DataFrame :=
  [ ("Month", STime [on_day 2025 1 1; on_day 2025 3 1]);
    ("Twitter", SNum [6; 5]);
    ("Friends", SNum [2; 1]) ]%string.

Definition sample_melted : DataFrame :=
  [ ("Month", STime [on_day 2025 1 1; on_day 2025 3 1; on_day 2025 1 1; on_day 2025 3 1]);
    ("Campaign", SObj [PStr "Twitter"; PStr "Twitter"; PStr "Friends"; PStr "Friends"]);
    ("Referrals", SNum [6; 5; 2; 1]) ]%string.

(** The sample workbook with white space around the names of the
    referral, wallet and fee sheets. *)
Definition padded_workbook : Workbook :=
  [ ("Tokens per source", sample_tokens);
    (" Referrals ", sample_referrals);
    ("Wallets Created  ", sample_wallets);
    ("  POL Data", sample_fees) ]%string.

(** The sample workbook with the same white space around the name of the
    token sheet. *)
Definition padded_token_workbook : Workbook :=
  [ (" Tokens per source ", sample_tokens);
    ("Referrals", sample_referrals);
    ("Wallets Created", sample_wallets);
    ("POL Data", sample_fees) ]%string.

(** A token sheet with its header and no records, as [read_excel] returns
    it. *)
Definition empty_tokens : DataFrame :=
  [ ("Date", SObj []); ("Airdrop", SObj []); ("Staking", SObj []) ]%string.

Definition empty_token_workbook : Workbook :=
  [ ("Tokens per source", empty_tokens);
    ("Referrals", sample_referrals);
    ("Wallets Created", sample_wallets);
    ("POL Data", sample_fees) ]%string.

(** The wallet and fee sheets with their header and no records. *)
Definition empty_wallet_fee_workbook : Workbook :=
  [ ("Tokens per source", sample_tokens);
    ("Referrals", sample_referrals);
    ("Wallets Created",
      [ ("Date", SObj []); ("Android", SObj []); ("iOS", SObj []); ("Web", SObj []) ]);
    ("POL Data", [ ("Date", SObj []); ("TxnFee(POL)", SObj []) ]) ]%string.

(** ** Framing

    [frames n m Q]: started in a store with at least [n] objects, [m]
    leaves the first [n] objects as they are, whatever else it allocates
    or updates, and its result satisfies [Q]. *)
Definition frames (n : nat) {A} (m : M A) (Q : A -> Prop) : Prop :=
  forall (h : heap) a h',
    (n <= length h)%nat -> m h = Ok (a, h') ->
    (length h <= length h')%nat
    /\ (forall l, (l < n)%nat -> h' !! l = h !! l)
    /\ Q a.

(** Whether a date passes the window; [NaT] does not. *)
Definition in_window (test : Timestamp -> Timestamp -> bool) (c : Timestamp)
    (o : option Timestamp) : bool :=
  match o with
  | Some t => test t c
  | None => false
  end.

(** The windowed copy of a table with dates [dates], with the [Month]
    column that [create_figures] adds to it. *)
Definition windowed (test : Timestamp -> Timestamp -> bool) (c : Timestamp)
    (dates : list (option Timestamp)) (t : DataFrame) : DataFrame :=
  let m := map (in_window test c) dates in
  setitem (mask_rows m t) "Month"
    (STime (map (option_map (fun ts => month_start (month_of ts))) (mask_list m dates))).

(** Token records of which one is dated before 2025. *)
Definition old_tokens : DataFrame :=
  [ ("Date", SObj [PStr "12-15-2024"; PStr "01-10-2025"]);
    ("Airdrop", SNum [7; 3]) ]%string.

Definition old_token_workbook : Workbook :=
  [ ("Tokens per source", old_tokens);
    ("Referrals", sample_referrals);
    ("Wallets Created", sample_wallets);
    ("POL Data", sample_fees) ]%string.

(** A token record whose stored [Total] is not the sum of its sources. *)
Definition total_tokens_table : DataFrame :=
  [ ("Date", SObj [PStr "01-05-2025"]);
    ("Airdrop", SNum [1]);
    ("Total", SNum [5]) ]%string.

Definition stored_total_workbook : Workbook :=
  [ ("Tokens per source", total_tokens_table);
    ("Referrals", sample_referrals);
    ("Wallets Created", sample_wallets);
    ("POL Data", sample_fees) ]%string.

(** A store as it is after loading: the wallet, referral, token and fee
    tables with their dates read, and the variables that refer to
    them. *)
Definition sample_store : list DataFrame :=
  [ sample_wallets;
    [ ("Date", STime [on_day 2025 1 5; on_day 2025 3 1]);
      ("Twitter", SNum [4; 5]);
      ("Friends", SNum [1; 1]);
      ("Referrals", SNum [5; 6]) ];
    [ ("Date", STime [on_day 2024 12 15; on_day 2025 1 10]);
      ("Airdrop", SNum [7; 3]) ];
    [ ("Date", STime [on_day 2025 1 5; on_day 2025 2 11]);
      ("TxnFee(POL)", SNum [4; 5]) ] ]%string.

Definition sample_globals : Globals :=
  mkGlobals ∅ 1 0 3 2 ["Twitter"; "Friends"]%string.

(** A sheet whose stripped name is [k]. *)
Definition sheet_present (wb : Workbook) (k : string) : Prop :=
  exists s, In s wb /\ strip (fst s) = k.

(** A calendar day with its month and day of the month in range. *)
Definition valid_day (d : Date) : Prop :=
  1 <= month d <= 12 /\ 1 <= day d <= days_in_month (year d) (month d).

(** [updates_only l m]: whatever [m] does, it leaves the number of
    objects as it is and changes no object other than [l]. *)
Definition updates_only (l : loc) {A} (m : M A) : Prop :=
  forall (h : heap) a h',
    m h = Ok (a, h') ->
    length h' = length h /\ forall l', l' <> l -> h' !! l' = h !! l'.

(** A store as it is after loading a workbook whose token records are all
    dated in 2024. *)
Definition late_store : list DataFrame :=
  [ sample_wallets;
    [ ("Date", STime [on_day 2025 1 5; on_day 2025 3 1]);
      ("Twitter", SNum [4; 5]);
      ("Friends", SNum [1; 1]);
      ("Referrals", SNum [5; 6]) ];
    [ ("Date", STime [on_day 2024 11 2; on_day 2024 12 15]);
      ("Airdrop", SNum [7; 3]) ];
    [ ("Date", STime [on_day 2025 1 5; on_day 2025 2 11]);
      ("TxnFee(POL)", SNum [4; 5]) ] ]%string.

(** The month labels of the records of the token table that are in the
    window, in the order [sort_values] gives them (lines 200-203), and
    the table of the pie section with these rows: the windowed copy with
    its [Month_dt] and [Month] columns, sorted by month. *)
Definition pie_order (dates : list (option Timestamp)) : list nat :=
  sort_index
    (map (option_map month_of)
       (map (option_map (fun t => month_start (month_of t)))
          (List.filter (in_window ts_geb cutoff_2025_01_01) dates))).

Definition pie_month_labels (dates : list (option Timestamp)) : list pyobj :=
  take_list (pie_order dates)
    (map (fun o : option Timestamp =>
            match o with
            | Some t => PStr (short_month_label t)
            | None => PNaN
            end)
       (map (option_map (fun t => month_start (month_of t)))
          (List.filter (in_window ts_geb cutoff_2025_01_01) dates))).

Definition pie_table (dates : list (option Timestamp)) (T : DataFrame) : DataFrame :=
  let wd := List.filter (in_window ts_geb cutoff_2025_01_01) dates in
  let month_dt := map (option_map (fun t => month_start (month_of t))) wd in
  let window_rows :=
    mask_rows (map has_stamp wd)
      (mask_rows (map (in_window ts_geb cutoff_2025_01_01) dates) T) in
  map (fun c => (fst c, take_series (pie_order dates) (snd c)))
    (setitem (setitem window_rows "Month_dt" (STime month_dt)) "Month"
       (SObj (map (fun o : option Timestamp =>
                     match o with
                     | Some t => PStr (short_month_label t)
                     | None => PNaN
                     end) month_dt))).

(** The tables that loading leaves in the store, by value: a sheet after
    the cleaning loop (lines 26-28), the token sheet after lines 17-22,
    and the referral table with the column of line 31. *)
Definition cleaned_table (t : DataFrame) : DataFrame :=
  match getitem t "Date" with
  | Ok d =>
      let p := parse_series (Some Fmt_Ymd) d in
      mask_rows (map has_stamp p) (setitem t "Date" (STime p))
  | Raise _ => t
  end.

Definition normalized_tokens (t : DataFrame) : DataFrame :=
  match getitem t "Date" with
  | Ok d =>
      let p := parse_series (Some Fmt_mdY) d in
      setitem (mask_rows (map has_stamp p) t) "Date"
        (STime (days_of (List.filter has_stamp p)))
  | Raise _ => t
  end.

Definition referral_row_totals (r : DataFrame) : Series :=
  SNum (map (fun i => zsum (map (fun c => nth i (numbers_of r c) 0)
                              (detect_referral_sources r)))
          (seq 0 (nrows r))).

Definition with_referrals_column (r : DataFrame) : DataFrame :=
  setitem r "Referrals" (referral_row_totals r).

(** Rows with a month, in non-decreasing order of month. *)
Definition rows_sorted (rows : list (option Z * nat)) : Prop :=
  StronglySorted (fun p q => exists a b, fst p = Some a /\ fst q = Some b /\ a <= b) rows.

(** * Properties *)

(** ** Results *)

Lemma rbind_ok {A B} (r : result A) (k : A -> result B) (b : B) :
  rbind r k = Ok b -> exists a, r = Ok a /\ k a = Ok b.
Proof. destruct r as [a|e]; simpl; [eauto | discriminate]. Qed.

Lemma rmap_ok_cons {A B} (f : A -> result B) a l bs :
  rmap f (a :: l) = Ok bs ->
  exists b bs', f a = Ok b /\ rmap f l = Ok bs' /\ bs = b :: bs'.
Proof.
  simpl. destruct (f a) as [b|e]; [|discriminate].
  destruct (rmap f l) as [bs'|e]; [|discriminate].
  intros [= <-]. eauto.
Qed.

Lemma rmap_length {A B} (f : A -> result B) l bs :
  rmap f l = Ok bs -> length bs = length l.
Proof.
  revert bs. induction l as [|a l IH]; intros bs H.
  - injection H as <-. reflexivity.
  - apply rmap_ok_cons in H as (b & bs' & _ & Hl & ->). simpl. f_equal. auto.
Qed.

Lemma rmap_ext {A B} (f g : A -> result B) l :
  (forall a, In a l -> f a = g a) -> rmap f l = rmap g l.
Proof.
  induction l as [|a l IH]; intros H; simpl; [reflexivity|].
  rewrite (H a) by (left; reflexivity).
  rewrite IH by (intros; apply H; right; assumption). reflexivity.
Qed.

Lemma rmap_spec {A B} (f : A -> result B) (g : A -> B) l :
  (forall a, In a l -> f a = Ok (g a)) -> rmap f l = Ok (map g l).
Proof.
  induction l as [|a l IH]; intros H; simpl; [reflexivity|].
  rewrite (H a) by (left; reflexivity).
  rewrite IH by (intros; apply H; right; assumption). reflexivity.
Qed.

Lemma rmap_ok_each {A B} (f : A -> result B) l bs :
  rmap f l = Ok bs -> forall a, In a l -> exists b, f a = Ok b /\ In b bs.
Proof.
  revert bs. induction l as [|a l IH]; intros bs H x Hx; [destruct Hx|].
  apply rmap_ok_cons in H as (b & bs' & Hb & Hl & ->).
  destruct Hx as [<- | Hx].
  - exists b. split; [assumption | left; reflexivity].
  - destruct (IH _ Hl _ Hx) as (b' & ? & ?). exists b'. split; [assumption | right; assumption].
Qed.

(** ** Frames and columns *)

Lemma getitem_setitem_eq t col s : getitem (setitem t col s) col = Ok s.
Proof.
  induction t as [|[n s0] t IH]; simpl.
  - rewrite String.eqb_refl. reflexivity.
  - destruct (String.eqb n col) eqn:E; simpl; rewrite E; [reflexivity | assumption].
Qed.

Lemma getitem_setitem_ne t col col' s :
  col <> col' -> getitem (setitem t col s) col' = getitem t col'.
Proof.
  intros Hne. induction t as [|[n s0] t IH]; simpl.
  - destruct (String.eqb col col') eqn:E; [apply String.eqb_eq in E; contradiction | reflexivity].
  - destruct (String.eqb n col) eqn:E; simpl.
    + apply String.eqb_eq in E. subst n.
      destruct (String.eqb col col') eqn:E'; [apply String.eqb_eq in E'; contradiction | reflexivity].
    + destruct (String.eqb n col'); [reflexivity | assumption].
Qed.

Lemma getitem_cons n s t col :
  getitem ((n, s) :: t) col = if String.eqb n col then Ok s else getitem t col.
Proof. reflexivity. Qed.

Lemma getitem_third a sa b sb c sc :
  c <> a -> c <> b -> getitem [(a, sa); (b, sb); (c, sc)] c = Ok sc.
Proof.
  intros Ha Hb. rewrite !getitem_cons.
  destruct (String.eqb a c) eqn:E1; [apply String.eqb_eq in E1; congruence|].
  destruct (String.eqb b c) eqn:E2; [apply String.eqb_eq in E2; congruence|].
  rewrite String.eqb_refl. reflexivity.
Qed.

Lemma getitem_mask_rows m t col :
  getitem (mask_rows m t) col =
  match getitem t col with
  | Ok s => Ok (mask_series m s)
  | Raise e => Raise e
  end.
Proof.
  induction t as [|[n s] t IH]; simpl; [reflexivity|].
  destruct (String.eqb n col); [reflexivity | assumption].
Qed.

Lemma getitem_In t col s : getitem t col = Ok s -> In (col, s) t.
Proof.
  induction t as [|[n s0] t IH]; simpl; [discriminate|].
  destruct (String.eqb n col) eqn:E.
  - apply String.eqb_eq in E. intros [= ->]. left. congruence.
  - intros H. right. auto.
Qed.

Lemma In_getitem_nodup t col s :
  List.NoDup (columns t) -> In (col, s) t -> getitem t col = Ok s.
Proof.
  induction t as [|[n s0] t IH]; simpl; intros Hnd Hin; [destruct Hin|].
  apply NoDup_cons_iff in Hnd as [Hn Hnd].
  destruct Hin as [[= -> ->] | Hin].
  - rewrite String.eqb_refl. reflexivity.
  - destruct (String.eqb n col) eqn:E; [|auto].
    apply String.eqb_eq in E. subst n. exfalso. apply Hn.
    apply (in_map fst) in Hin. exact Hin.
Qed.

Lemma has_column_getitem t col :
  has_column t col = true <-> exists s, getitem t col = Ok s.
Proof.
  unfold has_column, columns. induction t as [|[n s0] t IH]; simpl.
  - split; [discriminate | intros [s H]; discriminate].
  - rewrite (String.eqb_sym col n). destruct (String.eqb n col); simpl.
    + split; eauto.
    + exact IH.
Qed.

Lemma has_column_getitem_false t col :
  has_column t col = false <-> getitem t col = Raise (KeyError col).
Proof.
  unfold has_column, columns. induction t as [|[n s0] t IH]; simpl.
  - split; reflexivity.
  - rewrite (String.eqb_sym col n). destruct (String.eqb n col); simpl.
    + split; discriminate.
    + exact IH.
Qed.

Lemma columns_mask_rows m t : columns (mask_rows m t) = columns t.
Proof. unfold columns, mask_rows. rewrite map_map. reflexivity. Qed.

(** ** Masks and sums *)

Lemma mask_list_length {A B} m (xs : list A) (ys : list B) :
  length xs = length ys -> length (mask_list m xs) = length (mask_list m ys).
Proof.
  revert xs ys. induction m as [|b m IH]; intros [|x xs] [|y ys] H; simpl in *; try lia.
  injection H as H. destruct b; simpl; auto.
Qed.

Lemma mask_list_all {A} (p : A -> bool) (xs : list A) :
  mask_list (map p xs) xs = List.filter p xs.
Proof.
  induction xs as [|x xs IH]; simpl; [reflexivity|].
  destruct (p x); rewrite IH; reflexivity.
Qed.

Lemma zsum_app xs ys : zsum (xs ++ ys) = zsum xs + zsum ys.
Proof. induction xs as [|x xs IH]; simpl; lia. Qed.

Lemma zsum_concat xss : zsum (concat xss) = zsum (map zsum xss).
Proof. induction xss as [|xs xss IH]; simpl; [reflexivity|]. rewrite zsum_app. lia. Qed.

Lemma zsum_map_zero {A} (l : list A) : zsum (map (fun _ => 0) l) = 0.
Proof. induction l; simpl; lia. Qed.

Lemma zsum_map_add {A} (f g : A -> Z) l :
  zsum (map (fun a => f a + g a) l) = zsum (map f l) + zsum (map g l).
Proof. induction l as [|a l IH]; simpl; lia. Qed.

Lemma zsum_map_ext {A} (f g : A -> Z) l :
  (forall a, In a l -> f a = g a) -> zsum (map f l) = zsum (map g l).
Proof.
  induction l as [|a l IH]; intros H; simpl; [reflexivity|].
  rewrite (H a) by (left; reflexivity). rewrite IH; [reflexivity|].
  intros; apply H; right; assumption.
Qed.

(** Summing a table by rows or by columns gives the same number. *)
Lemma zsum_exchange {A B} (f : A -> B -> Z) (la : list A) (lb : list B) :
  zsum (map (fun a => zsum (map (fun b => f a b) lb)) la) =
  zsum (map (fun b => zsum (map (fun a => f a b) la)) lb).
Proof.
  induction la as [|a la IH]; simpl.
  - rewrite zsum_map_zero. reflexivity.
  - rewrite IH, <- zsum_map_add. reflexivity.
Qed.

Lemma zsum_nth_seq xs : zsum (map (fun i => nth i xs 0) (seq 0 (length xs))) = zsum xs.
Proof.
  induction xs as [|x xs IH]; simpl; [reflexivity|].
  rewrite <- seq_shift, map_map. simpl. rewrite IH. reflexivity.
Qed.

(** ** Months *)

Lemma month_of_month_start k : month_of (month_start k) = k.
Proof.
  unfold month_of, month_start, midnight, month_index. simpl.
  pose proof (Z.div_mod k 12). lia.
Qed.

Lemma zrange_length lo hi : length (zrange lo hi) = Z.to_nat (hi - lo + 1).
Proof. unfold zrange. rewrite length_map, length_seq. reflexivity. Qed.

Lemma nth_map_seq (f : nat -> Z) s n i d :
  (i < n)%nat -> nth i (map f (seq s n)) d = f (s + i)%nat.
Proof.
  revert s i. induction n as [|n IH]; intros s [|i] H; simpl; try lia.
  - f_equal. lia.
  - rewrite IH by lia. f_equal. lia.
Qed.

Lemma zrange_nth lo hi i :
  (i < length (zrange lo hi))%nat -> nth i (zrange lo hi) 0 = lo + Z.of_nat i.
Proof.
  rewrite zrange_length. intros Hi. unfold zrange.
  rewrite nth_map_seq by exact Hi. reflexivity.
Qed.

Lemma zrange_In lo hi k : In k (zrange lo hi) <-> lo <= k <= hi.
Proof.
  unfold zrange. rewrite in_map_iff. split.
  - intros (i & <- & Hi). apply in_seq in Hi. lia.
  - intros H. exists (Z.to_nat (k - lo)). split; [lia|]. apply in_seq. lia.
Qed.

Lemma zrange_sorted lo hi : StronglySorted Z.lt (zrange lo hi).
Proof.
  unfold zrange. generalize (Z.to_nat (hi - lo + 1)) as n. generalize 0%nat as s.
  intros s n. revert s. induction n as [|n IH]; intros s; simpl; constructor.
  - apply IH.
  - apply List.Forall_forall. intros k Hk. apply in_map_iff in Hk as (i & <- & Hi).
    apply in_seq in Hi. lia.
Qed.

Lemma sorted_lt_nodup l : StronglySorted Z.lt l -> List.NoDup l.
Proof.
  induction 1 as [|a l Hs IH Hall]; constructor; [|assumption].
  intros Hin. rewrite List.Forall_forall in Hall. specialize (Hall _ Hin). lia.
Qed.

Lemma zmin_list_le k ks x : In x (k :: ks) -> zmin_list k ks <= x.
Proof.
  unfold zmin_list. induction ks as [|y ks IH]; simpl.
  - intros [<- | []]. lia.
  - intros [<- | [<- | H]].
    + assert (fold_right Z.min k ks <= k) by (apply IH; left; reflexivity). lia.
    + lia.
    + assert (fold_right Z.min k ks <= x) by (apply IH; right; assumption). lia.
Qed.

Lemma zmin_list_In k ks : In (zmin_list k ks) (k :: ks).
Proof.
  unfold zmin_list. induction ks as [|y ks IH]; simpl; [left; reflexivity|].
  destruct (Z.min_spec y (fold_right Z.min k ks)) as [[_ ->] | [_ ->]].
  - right. left. reflexivity.
  - destruct IH as [H | H]; [left; exact H | right; right; exact H].
Qed.

Lemma zmax_list_ge k ks x : In x (k :: ks) -> x <= zmax_list k ks.
Proof.
  unfold zmax_list. induction ks as [|y ks IH]; simpl.
  - intros [<- | []]. lia.
  - intros [<- | [<- | H]].
    + assert (k <= fold_right Z.max k ks) by (apply IH; left; reflexivity). lia.
    + lia.
    + assert (x <= fold_right Z.max k ks) by (apply IH; right; assumption). lia.
Qed.

Lemma zmax_list_In k ks : In (zmax_list k ks) (k :: ks).
Proof.
  unfold zmax_list. induction ks as [|y ks IH]; simpl; [left; reflexivity|].
  destruct (Z.max_spec y (fold_right Z.max k ks)) as [[_ ->] | [_ ->]].
  - destruct IH as [H | H]; [left; exact H | right; right; exact H].
  - right. left. reflexivity.
Qed.

(** The bins of [resample] are the months between the first and the last
    month that occurs. *)
Lemma month_span_In ks k :
  In k (month_span ks) <-> exists a b, In a ks /\ In b ks /\ a <= k <= b.
Proof.
  destruct ks as [|k0 ks]; simpl.
  - split; [intros [] | intros (a & _ & [] & _)].
  - rewrite zrange_In. split.
    + intros H. exists (zmin_list k0 ks), (zmax_list k0 ks).
      split; [apply zmin_list_In|]. split; [apply zmax_list_In | exact H].
    + intros (a & b & Ha & Hb & H).
      pose proof (zmin_list_le k0 ks a Ha). pose proof (zmax_list_ge k0 ks b Hb). lia.
Qed.

(** Consecutive entries of the bins are consecutive months. *)
Lemma month_span_step ks i :
  (S i < length (month_span ks))%nat ->
  nth (S i) (month_span ks) 0 = nth i (month_span ks) 0 + 1.
Proof.
  destruct ks as [|k0 ks]; simpl; [lia|]. intros H.
  rewrite !zrange_nth by lia. lia.
Qed.

(** ** Group keys *)

Lemma insert_key_In k l x : In x (insert_key k l) <-> x = k \/ In x l.
Proof.
  induction l as [|y l IH]; simpl.
  - split; [intros [<- | []]; auto | intros [-> | []]; auto].
  - destruct (k <? y) eqn:E1; simpl.
    + split; [intros [<- | H]; auto | intros [-> | H]; auto].
    + destruct (k =? y) eqn:E2; simpl.
      * apply Z.eqb_eq in E2. subst y.
        split; [intros H; right; exact H | intros [-> | H]; auto].
      * rewrite IH. clear. tauto.
Qed.

Lemma insert_key_sorted k l :
  StronglySorted Z.lt l -> StronglySorted Z.lt (insert_key k l).
Proof.
  induction 1 as [|y l Hs IH Hall]; simpl.
  - constructor; constructor.
  - destruct (k <? y) eqn:E1.
    + apply Z.ltb_lt in E1. constructor; [constructor; assumption|].
      constructor; [assumption|].
      eapply List.Forall_impl; [|exact Hall]. simpl. intros; lia.
    + destruct (k =? y) eqn:E2.
      * constructor; assumption.
      * apply Z.ltb_ge in E1. apply Z.eqb_neq in E2.
        constructor; [assumption|].
        apply List.Forall_forall. intros x Hx. apply insert_key_In in Hx as [-> | Hx].
        -- lia.
        -- rewrite List.Forall_forall in Hall. auto.
Qed.

Lemma unique_sorted_In ks x : In x (unique_sorted ks) <-> In x ks.
Proof.
  unfold unique_sorted. induction ks as [|k ks IH]; simpl; [tauto|].
  rewrite insert_key_In, IH. split; intros [H | H]; auto.
Qed.

Lemma unique_sorted_sorted ks : StronglySorted Z.lt (unique_sorted ks).
Proof.
  unfold unique_sorted. induction ks as [|k ks IH]; simpl; [constructor|].
  apply insert_key_sorted. exact IH.
Qed.

(** A strictly increasing list is determined by its elements. *)
Lemma sorted_lt_unique l1 l2 :
  StronglySorted Z.lt l1 -> StronglySorted Z.lt l2 ->
  (forall x, In x l1 <-> In x l2) -> l1 = l2.
Proof.
  intros H1. revert l2. induction H1 as [|a l1 Hs1 IH Hall1]; intros l2 H2 Heq.
  - destruct l2 as [|b l2]; [reflexivity|].
    exfalso. apply (proj2 (Heq b)). left. reflexivity.
  - destruct H2 as [|b l2 Hs2 Hall2].
    + exfalso. apply (proj1 (Heq a)). left. reflexivity.
    + rewrite List.Forall_forall in Hall1, Hall2.
      assert (a = b).
      { destruct (proj1 (Heq a) (or_introl eq_refl)) as [<- | Ha]; [reflexivity|].
        destruct (proj2 (Heq b) (or_introl eq_refl)) as [-> | Hb]; [reflexivity|].
        specialize (Hall1 _ Hb). specialize (Hall2 _ Ha). lia. }
      subst b. f_equal. apply IH; [assumption|].
      intros x. split; intros Hx.
      * destruct (proj1 (Heq x) (or_intror Hx)) as [<- | H]; [|exact H].
        specialize (Hall1 _ Hx). lia.
      * destruct (proj2 (Heq x) (or_intror Hx)) as [<- | H]; [|exact H].
        specialize (Hall2 _ Hx). lia.
Qed.

(** ** Sums per month *)

Lemma sum_where_absent keys vals k :
  ~ In k (somes keys) -> sum_where keys vals k = 0.
Proof.
  revert vals. induction keys as [|[k'|] keys IH]; intros [|v vals] H; simpl in *;
    try reflexivity.
  - destruct (k' =? k) eqn:E.
    + apply Z.eqb_eq in E. exfalso. apply H. left. exact E.
    + apply IH. intros Hin. apply H. right. exact Hin.
  - apply IH. exact H.
Qed.

Lemma zsum_indicator (f : Z -> Z) k' v ks :
  List.NoDup ks -> In k' ks ->
  zsum (map (fun k => if k' =? k then v + f k else f k) ks) = v + zsum (map f ks).
Proof.
  induction 1 as [|k ks Hk Hnd IH]; intros Hin; [destruct Hin|]. simpl.
  destruct Hin as [-> | Hin].
  - rewrite Z.eqb_refl.
    rewrite (zsum_map_ext (fun k => if k' =? k then v + f k else f k) f).
    + lia.
    + intros a Ha. destruct (k' =? a) eqn:E; [|reflexivity].
      apply Z.eqb_eq in E. subst a. contradiction.
  - destruct (k' =? k) eqn:E.
    + apply Z.eqb_eq in E. subst k. contradiction.
    + rewrite IH by assumption. lia.
Qed.

(** The groups partition the rows that have a month: summing the group
    sums gives the sum over those rows. *)
Lemma sum_where_partition keys vals ks :
  List.NoDup ks -> (forall k, In k (somes keys) -> In k ks) ->
  zsum (map (sum_where keys vals) ks) = zsum (mask_list (map has_key keys) vals).
Proof.
  intros Hnd. revert vals. induction keys as [|[k'|] keys IH]; intros vals Hin.
  - simpl. apply zsum_map_zero.
  - destruct vals as [|v vals]; simpl; [apply zsum_map_zero|].
    rewrite zsum_indicator; [|assumption | apply Hin; left; reflexivity].
    rewrite IH; [reflexivity|]. intros k Hk. apply Hin. right. exact Hk.
  - destruct vals as [|v vals]; simpl; [apply zsum_map_zero|].
    rewrite <- IH by exact Hin. apply zsum_map_ext. reflexivity.
Qed.

(** ** Monthly aggregation *)

Lemma month_keys_floor dates :
  map (option_map month_of)
    (map (option_map (fun t => month_start (month_of t))) dates)
  = map (option_map month_of) dates.
Proof.
  rewrite map_map. apply map_ext. intros [t|]; simpl; [|reflexivity].
  rewrite month_of_month_start. reflexivity.
Qed.

(** What [groupby_sum] returns when it returns. *)
Lemma groupby_sum_ok t key cols out :
  groupby_sum t key cols = Ok out ->
  exists b keys sel,
    getitem t key = Ok b /\ month_keys b = Ok keys /\
    rmap (fun c =>
            let? s := getitem t c in
            let? xs := series_nums s in
            Ok (c, SNum (map (sum_where keys xs) (unique_sorted (somes keys))))) cols
      = Ok sel /\
    out = (key, month_column (unique_sorted (somes keys))) :: sel.
Proof.
  unfold groupby_sum. intros H.
  apply rbind_ok in H as (b & Hb & H).
  apply rbind_ok in H as (keys & Hk & H).
  apply rbind_ok in H as (sel & Hsel & H).
  injection H as <-. exists b, keys, sel. auto.
Qed.

(** C1 at the failing input.  The wallets of the sample workbook were
    created in January and in March 2025.  The monthly wallet table
    ([groupby], line 74) has two buckets, none for February, and so have
    the referral buckets (line 116); the token records of the same
    workbook, also of January and March, give three buckets with
    February at zero ([resample], line 40). *)
Theorem wallet_buckets_skip_february :
  getitem sample_wallets "Date" = Ok (STime [on_day 2025 1 5; on_day 2025 3 20])
  /\ exists figs h,
       main sample_workbook [] = Ok (figs, h)
       /\ monthly_wallets figs
          = [ ("Month", STime [on_day 2025 1 1; on_day 2025 3 1]);
              ("Android", SNum [3; 2]); ("iOS", SNum [1; 0]); ("Web", SNum [0; 1]) ]%string
       /\ getitem (referral_by_source figs) "Month"
          = Ok (STime [on_day 2025 1 1; on_day 2025 3 1])
       /\ getitem (monthly_tokens figs) "Date"
          = Ok (STime [on_day 2025 1 1; on_day 2025 2 1; on_day 2025 3 1])
       /\ getitem (monthly_tokens figs) "Airdrop" = Ok (SNum [1; 0; 3])
       /\ getitem (monthly_tokens figs) "Staking" = Ok (SNum [10; 0; 30]).
Proof.
  split; [reflexivity|].
  eexists _, _. split; [vm_compute; reflexivity|]. repeat split.
Qed.

(** ** The date window *)

(** Against a cut-off at midnight, "on or after" does not depend on the
    time of day. *)
Lemma ts_geb_midnight t d : ts_geb t (midnight d) = date_geb (ts_date t) d.
Proof.
  unfold ts_geb, date_geb, ts_compare. simpl.
  destruct (date_compare (ts_date t) d); try reflexivity.
  destruct (ts_secs t); reflexivity.
Qed.

(** "Strictly after" a cut-off at midnight does: later the same day
    counts as after. *)
Lemma ts_gtb_midnight t d :
  ts_gtb t (midnight d) =
  date_gtb (ts_date t) d
  || (match date_compare (ts_date t) d with Eq => true | _ => false end
      && negb (ts_secs t =? 0)%N).
Proof.
  unfold ts_gtb, date_gtb, ts_compare. simpl.
  destruct (date_compare (ts_date t) d); try reflexivity.
  destruct (ts_secs t); reflexivity.
Qed.

(** The token dates lose their time of day (line 21), and the window of
    the token and referral records keeps a record exactly when its day is
    on or after 1 January 2025. *)
Lemma window_on_or_after t dates :
  getitem t "Date" = Ok (STime dates) ->
  window ts_geb cutoff_2025_01_01 t
  = Ok (mask_rows (map (fun o => match o with
                                 | Some ts => date_geb (ts_date ts) (mkDate 2025 1 1)
                                 | None => false
                                 end) dates) t).
Proof.
  intros H. unfold window. rewrite H. simpl. do 2 f_equal.
  apply map_ext. intros [ts|]; [|reflexivity]. apply ts_geb_midnight.
Qed.

(** C3 at the failing input: a wallet record stamped 31 December 2024,
    noon, is not after 31 December 2024 by its day, and the window of
    line 72 keeps it; it ends up in a bucket for December 2024. *)
Theorem wallet_window_keeps_dec31_noon :
  date_gtb (mkDate 2024 12 31) (mkDate 2024 12 31) = false
  /\ window ts_gtb cutoff_2024_12_31 noon_wallets = Ok noon_wallets
  /\ exists figs h,
       main noon_workbook [] = Ok (figs, h)
       /\ monthly_wallets figs
          = [ ("Month", STime [on_day 2024 12 1; on_day 2025 1 1]);
              ("Android", SNum [7; 3]); ("iOS", SNum [0; 1]); ("Web", SNum [0; 0]) ]%string.
Proof.
  split; [reflexivity|]. split; [reflexivity|].
  eexists _, _. split; [vm_compute; reflexivity | reflexivity].
Qed.

(** ** The store *)

Lemma bind_ok {A B} (m : M A) (k : A -> M B) h r :
  bind m k h = Ok r -> exists a h1, m h = Ok (a, h1) /\ k a h1 = Ok r.
Proof.
  unfold bind. destruct (m h) as [[a h1]|e]; [eauto | discriminate].
Qed.

Lemma bind_run {A B} (m : M A) (k : A -> M B) h a h1 :
  m h = Ok (a, h1) -> bind m k h = k a h1.
Proof. unfold bind. intros ->. reflexivity. Qed.

Lemma lift_ok {A} (r : result A) h a h1 :
  lift r h = Ok (a, h1) -> r = Ok a /\ h1 = h.
Proof. unfold lift. destruct r; [intros [= -> ->]; auto | discriminate]. Qed.

Lemma load_at (h : heap) l t : h !! l = Some t -> load l h = Ok (t, h).
Proof. unfold load. intros ->. reflexivity. Qed.

Lemma load_ok (h : heap) l t h1 : load l h = Ok (t, h1) -> h !! l = Some t /\ h1 = h.
Proof. unfold load. destruct (h !! l); [intros [= -> ->]; auto | discriminate]. Qed.

Lemma store_at (h : heap) l t t' :
  h !! l = Some t -> store l t' h = Ok (tt, <[l := t']> h).
Proof.
  intros H. apply lookup_lt_Some in H. unfold store.
  destruct (Nat.ltb_spec l (length h)); [reflexivity | lia].
Qed.

Lemma store_ok (h : heap) l t' u h1 :
  store l t' h = Ok (u, h1) -> (l < length h)%nat /\ h1 = <[l := t']> h.
Proof.
  unfold store. destruct (Nat.ltb_spec l (length h)); [|discriminate].
  intros [= _ <-]. auto.
Qed.

Lemma lookup_stored (h : heap) l t t' :
  h !! l = Some t -> <[l := t']> h !! l = Some t'.
Proof. intros H. apply list_lookup_insert_eq. eapply lookup_lt_Some. exact H. Qed.

Lemma column_of_at (h : heap) l t col s :
  h !! l = Some t -> getitem t col = Ok s -> column_of l col h = Ok (s, h).
Proof.
  intros H Hc. unfold column_of. rewrite (bind_run _ _ _ _ _ (load_at _ _ _ H)).
  unfold lift. rewrite Hc. reflexivity.
Qed.

Lemma setitem_inplace_at (h : heap) l t col s :
  h !! l = Some t ->
  setitem_inplace l col s h = Ok (tt, <[l := setitem t col s]> h).
Proof.
  intros H. unfold setitem_inplace. rewrite (bind_run _ _ _ _ _ (load_at _ _ _ H)).
  eapply store_at. exact H.
Qed.

Lemma dropna_inplace_at (h : heap) l t col t' :
  h !! l = Some t -> dropna t col = Ok t' ->
  dropna_inplace l col h = Ok (tt, <[l := t']> h).
Proof.
  intros H Hd. unfold dropna_inplace. rewrite (bind_run _ _ _ _ _ (load_at _ _ _ H)).
  unfold bind, lift. rewrite Hd. eapply store_at. exact H.
Qed.

Lemma alloc_run t (h : heap) : alloc t h = Ok (length h, h ++ [t]).
Proof. reflexivity. Qed.

Lemma lift_run {A} (r : result A) a (h : heap) : r = Ok a -> lift r h = Ok (a, h).
Proof. intros ->. reflexivity. Qed.

(** ** Date normalization *)

Lemma setitem_setitem t col s s' : setitem (setitem t col s) col s' = setitem t col s'.
Proof.
  induction t as [|[n s0] t IH]; simpl.
  - rewrite String.eqb_refl. reflexivity.
  - destruct (String.eqb n col) eqn:E; simpl; rewrite E; [reflexivity|].
    rewrite IH. reflexivity.
Qed.

Lemma mask_rows_setitem m t col s :
  mask_rows m (setitem t col s) = setitem (mask_rows m t) col (mask_series m s).
Proof.
  induction t as [|[n s0] t IH]; simpl; [reflexivity|].
  destruct (String.eqb n col); simpl; [reflexivity|]. rewrite IH. reflexivity.
Qed.

Lemma mask_has_stamp p : mask_list (map has_stamp p) p = List.filter has_stamp p.
Proof. apply mask_list_all. Qed.

(** Lines 26-28 on a table with a [Date] column [d]: the column is read
    with the format, the rows whose date did not read are removed from
    the table itself, nothing is raised. *)
Lemma clean_dates_spec (h : heap) l t d :
  h !! l = Some t -> getitem t "Date" = Ok d ->
  let p := parse_series (Some Fmt_Ymd) d in
  clean_dates l h
  = Ok (tt, <[l := mask_rows (map has_stamp p) (setitem t "Date" (STime p))]> h).
Proof.
  intros H Hd p. unfold clean_dates.
  rewrite (bind_run _ _ _ _ _ (load_at _ _ _ H)).
  assert (Hc : has_column t "Date" = true) by (apply has_column_getitem; eauto).
  rewrite Hc.
  rewrite (bind_run _ _ _ _ _ (column_of_at _ _ _ _ _ H Hd)).
  rewrite (bind_run _ _ _ _ _ (setitem_inplace_at _ _ _ _ _ H)).
  rewrite (dropna_inplace_at _ l (setitem t "Date" (STime p)) "Date"
             (mask_rows (map has_stamp p) (setitem t "Date" (STime p)))).
  - rewrite list_insert_insert_eq. reflexivity.
  - eapply lookup_stored. exact H.
  - unfold dropna. rewrite getitem_setitem_eq. reflexivity.
Qed.

(** Lines 17-22, likewise, with the time of day removed. *)
Lemma normalize_token_dates_spec (h : heap) l t d :
  h !! l = Some t -> getitem t "Date" = Ok d ->
  let p := parse_series (Some Fmt_mdY) d in
  normalize_token_dates l h
  = Ok (tt, <[l := setitem (mask_rows (map has_stamp p) t) "Date"
                     (STime (days_of (List.filter has_stamp p)))]> h).
Proof.
  intros H Hd p. unfold normalize_token_dates.
  rewrite (bind_run _ _ _ _ _ (column_of_at _ _ _ _ _ H Hd)).
  rewrite (bind_run _ _ _ _ _ (setitem_inplace_at _ _ _ _ _ H)).
  pose proof (lookup_stored h l t (setitem t "Date" (to_datetime (Some Fmt_mdY) d)) H) as H1.
  erewrite (bind_run (dropna_inplace l "Date"));
    [| eapply dropna_inplace_at; [exact H1 |
         unfold dropna, to_datetime; rewrite getitem_setitem_eq; reflexivity]].
  rewrite list_insert_insert_eq. fold p.
  set (t2 := mask_rows (notna (STime p)) (setitem t "Date" (STime p))).
  pose proof (lookup_stored h l t t2 H) as H2.
  assert (Hd2 : getitem t2 "Date" = Ok (STime (List.filter has_stamp p))).
  { unfold t2. rewrite getitem_mask_rows, getitem_setitem_eq. simpl.
    rewrite mask_has_stamp. reflexivity. }
  rewrite (bind_run _ _ _ _ _ (column_of_at _ _ _ _ _ H2 Hd2)).
  unfold dt_date. unfold lift at 1. unfold bind at 1.
  rewrite (bind_run _ _ _ _ _ (setitem_inplace_at _ _ _ _ _ H2)).
  rewrite list_insert_insert_eq.
  match goal with |- context [<[l := ?t3]> h] => set (t3' := t3) end.
  pose proof (lookup_stored h l t t3' H) as H3.
  erewrite (bind_run (column_of l "Date"));
    [| eapply column_of_at; [exact H3 | unfold t3'; apply getitem_setitem_eq]].
  rewrite (setitem_inplace_at _ _ _ _ _ H3).
  rewrite list_insert_insert_eq. do 3 f_equal.
  unfold t3', t2. rewrite !setitem_setitem, mask_rows_setitem, setitem_setitem.
  f_equal. unfold to_datetime, days_of. simpl. rewrite map_map. f_equal.
  apply map_ext. intros [ts|]; reflexivity.
Qed.

Lemma columns_setitem_present t col s :
  has_column t col = true -> columns (setitem t col s) = columns t.
Proof.
  unfold has_column, columns. induction t as [|[n s0] t IH]; simpl; [discriminate|].
  rewrite (String.eqb_sym col n). destruct (String.eqb n col) eqn:E; simpl.
  - reflexivity.
  - intros H. rewrite IH by exact H. reflexivity.
Qed.



(** ** Category detection *)

Lemma numeric_at_In t col :
  List.NoDup (columns t) ->
  numeric_at t col = true <-> exists s, In (col, s) t /\ is_numeric_dtype s = true.
Proof.
  intros Hnd. unfold numeric_at. split.
  - destruct (getitem t col) as [s|] eqn:E; [|discriminate].
    intros H. exists s. split; [apply getitem_In; exact E | exact H].
  - intros (s & H & Hs). rewrite (In_getitem_nodup _ _ _ Hnd H). exact Hs.
Qed.

Lemma number_at_In t col :
  List.NoDup (columns t) ->
  number_at t col = true <-> exists xs, In (col, SNum xs) t.
Proof.
  intros Hnd. unfold number_at. split.
  - destruct (getitem t col) as [s|] eqn:E; [|discriminate].
    destruct s; try discriminate. intros _. eexists. apply getitem_In. exact E.
  - intros [xs H]. rewrite (In_getitem_nodup _ _ _ Hnd H). reflexivity.
Qed.

Lemma numeric_at_head n s t col :
  numeric_at ((n, s) :: t) col
  = if String.eqb n col then is_numeric_dtype s else numeric_at t col.
Proof. unfold numeric_at. simpl. destruct (String.eqb n col); reflexivity. Qed.

Lemma number_at_head n s t col :
  number_at ((n, s) :: t) col
  = if String.eqb n col then is_number_dtype s else number_at t col.
Proof. unfold number_at. simpl. destruct (String.eqb n col); reflexivity. Qed.

Lemma number_at_numeric t col : number_at t col = true -> numeric_at t col = true.
Proof.
  unfold number_at, numeric_at. destruct (getitem t col) as [s|]; [|discriminate].
  destruct s; simpl; congruence.
Qed.

Lemma select_dtypes_columns t :
  List.NoDup (columns t) ->
  columns (select_dtypes_number t) = List.filter (number_at t) (columns t).
Proof.
  unfold select_dtypes_number, columns.
  induction t as [|[n s] t IH]; simpl; intros Hnd; [reflexivity|].
  apply NoDup_cons_iff in Hnd as [Hn Hnd].
  rewrite number_at_head, String.eqb_refl.
  assert (Hrest : List.filter (number_at ((n, s) :: t)) (map fst t)
                  = List.filter (number_at t) (map fst t)).
  { apply filter_ext_in. intros c Hc. rewrite number_at_head.
    destruct (String.eqb n c) eqn:E; [|reflexivity].
    apply String.eqb_eq in E. subst c. contradiction. }
  rewrite Hrest, <- IH by exact Hnd.
  destruct (is_number_dtype s); reflexivity.
Qed.

Lemma filter_filter {A} (p q : A -> bool) l :
  List.filter p (List.filter q l) = List.filter (fun a => p a && q a) l.
Proof.
  induction l as [|a l IH]; simpl; [reflexivity|].
  destruct (q a); simpl; rewrite ?andb_true_r, ?andb_false_r;
    [destruct (p a)|]; rewrite IH; reflexivity.
Qed.

Lemma sublist_filter_bool {A} (p : A -> bool) l : sublist (List.filter p l) l.
Proof.
  induction l as [|a l IH]; simpl; [constructor|].
  destruct (p a); [apply sublist_skip | apply sublist_cons]; exact IH.
Qed.

Lemma dtype_of_numeric s1 s2 :
  dtype_of s1 = dtype_of s2 ->
  is_numeric_dtype s1 = is_numeric_dtype s2 /\ is_number_dtype s1 = is_number_dtype s2.
Proof. destruct s1, s2; simpl; intros H; try discriminate H; split; reflexivity. Qed.

Lemma numeric_at_dtypes t1 t2 col :
  dtypes t1 = dtypes t2 ->
  numeric_at t1 col = numeric_at t2 col /\ number_at t1 col = number_at t2 col.
Proof.
  unfold dtypes. revert t2. induction t1 as [|[n1 s1] t1 IH]; intros [|[n2 s2] t2] H;
    simpl in H; try discriminate; [split; reflexivity|].
  injection H as Hn Hs H. rewrite !numeric_at_head, !number_at_head, Hn.
  destruct (dtype_of_numeric _ _ Hs) as [-> ->]. destruct (IH _ H) as [-> ->].
  split; reflexivity.
Qed.

Lemma columns_dtypes t1 t2 : dtypes t1 = dtypes t2 -> columns t1 = columns t2.
Proof.
  intros H. unfold columns.
  assert (E : forall t, map fst t = map fst (dtypes t)).
  { intros t. unfold dtypes. rewrite map_map. reflexivity. }
  rewrite (E t1), (E t2), H. reflexivity.
Qed.

Lemma detect_token_source_cols_filter t :
  List.NoDup (columns t) ->
  detect_token_source_cols t
  = List.filter (fun col => negb (String.eqb col "Total") && number_at t col) (columns t).
Proof.
  intros Hnd. unfold detect_token_source_cols.
  rewrite (select_dtypes_columns _ Hnd), filter_filter. reflexivity.
Qed.

(** C5, as the code has it.  On a dataset with distinct column names,
    detection goes by the dtype of the column, not by the values it
    holds.  The referral sources and the sources of the pies are exactly
    the fields of numeric dtype (numbers or booleans) outside the
    excluded names ([Date]; [Date], [Month_dt], [Month] and [Total]); the
    token sources of the bar are exactly the columns of numbers other
    than [Total], never a column of booleans and never the datetime
    column [Date].  Each list follows the order of the columns and is a
    function of the column names and dtypes alone, so detecting again
    gives the same list in the same order. *)
Theorem category_detection (t : DataFrame) :
  List.NoDup (columns t) ->
  (forall excluded col,
      In col (detect_categories excluded t) <->
      (exists s, In (col, s) t /\ is_numeric_dtype s = true) /\ ~ In col excluded)
  /\ (forall excluded, sublist (detect_categories excluded t) (columns t))
  /\ (forall excluded t', dtypes t' = dtypes t ->
                          detect_categories excluded t' = detect_categories excluded t
                          /\ detect_token_source_cols t' = detect_token_source_cols t)
  /\ detect_referral_sources t = detect_categories ["Date"%string] t
  /\ detect_pie_source_cols t
     = detect_categories ["Date"; "Month_dt"; "Month"; "Total"]%string t
  /\ (forall col, In col (detect_token_source_cols t) <->
                  (exists xs, In (col, SNum xs) t) /\ col <> "Total"%string)
  /\ sublist (detect_token_source_cols t) (columns t)
  /\ (forall d, getitem t "Date" = Ok (STime d) ->
                ~ In "Date"%string (detect_token_source_cols t)).
Proof.
  intros Hnd. split; [|split; [|split; [|split; [|split; [|split; [|split]]]]]].
  - intros excluded col. unfold detect_categories. rewrite filter_In, andb_true_iff.
    rewrite (numeric_at_In _ _ Hnd). unfold not_in. rewrite negb_true_iff.
    split.
    + intros (_ & Hex & Hnum). split; [exact Hnum|].
      intros Hin. apply not_true_iff_false in Hex. apply Hex.
      apply existsb_exists. exists col. split; [exact Hin | apply String.eqb_refl].
    + intros ((s & Hs & Hnum) & Hex). split; [|split].
      * apply (in_map fst) in Hs. exact Hs.
      * apply not_true_iff_false. intros H. apply existsb_exists in H as (x & Hx & E).
        apply String.eqb_eq in E. subst x. contradiction.
      * eauto.
  - intros excluded. apply sublist_filter_bool.
  - intros excluded t' H.
    assert (Hnd' : List.NoDup (columns t')) by (rewrite (columns_dtypes _ _ H); exact Hnd).
    split.
    + unfold detect_categories.
      rewrite (columns_dtypes _ _ H). apply filter_ext. intros col.
      rewrite (proj1 (numeric_at_dtypes _ _ col H)). reflexivity.
    + rewrite !detect_token_source_cols_filter by assumption.
      rewrite (columns_dtypes _ _ H). apply filter_ext. intros col.
      rewrite (proj2 (numeric_at_dtypes _ _ col H)). reflexivity.
  - unfold detect_referral_sources, detect_categories. apply filter_ext. intros col.
    unfold not_in. simpl. rewrite orb_false_r. reflexivity.
  - reflexivity.
  - intros col. rewrite (detect_token_source_cols_filter _ Hnd).
    rewrite filter_In, andb_true_iff, negb_true_iff, (number_at_In _ _ Hnd).
    split.
    + intros (_ & Hne & Hx). split; [exact Hx|].
      intros ->. rewrite String.eqb_refl in Hne. discriminate.
    + intros ([xs Hxs] & Hne). split; [|split].
      * apply (in_map fst) in Hxs. exact Hxs.
      * apply String.eqb_neq. exact Hne.
      * eauto.
  - rewrite (detect_token_source_cols_filter _ Hnd). apply sublist_filter_bool.
  - intros d Hd. rewrite (detect_token_source_cols_filter _ Hnd).
    rewrite filter_In, andb_true_iff. intros (_ & _ & H).
    unfold number_at in H. rewrite Hd in H. discriminate H.
Qed.

Lemma category_detection_witness :
  detect_token_source_cols flagged_tokens = ["Airdrop"%string]
  /\ detect_pie_source_cols flagged_tokens = ["Airdrop"; "Bonus"]%string
  /\ ~ In "Date"%string (detect_token_source_cols flagged_tokens).
Proof.
  assert (Hnd : List.NoDup (columns flagged_tokens))
    by (repeat constructor; simpl; intuition discriminate).
  destruct (category_detection flagged_tokens Hnd)
    as (_ & _ & _ & _ & _ & _ & _ & Hdate).
  split; [reflexivity|]. split; [reflexivity|].
  exact (Hdate _ eq_refl).
Defined.

(** C5 fails as it is worded.  After the cleaning loop has removed the
    record whose date does not read, every value of the [Friends]
    column is a number, and the column is not a referral source: it was
    read with dtype [object].  And a [Total] column stored in the
    referral table is a referral source: line 30 excludes [Date]
    alone. *)
Lemma object_column_of_numbers_is_not_detected :
  (exists t,
      clean_dates 0 [mixed_referrals] = Ok (tt, [t])
      /\ getitem t "Friends" = Ok (SObj [PInt 1; PInt 1])
      /\ detect_by_values ["Date"%string] t = ["Twitter"; "Friends"]%string
      /\ detect_referral_sources t = ["Twitter"%string]
      /\ detect_referral_sources t <> detect_by_values ["Date"%string] t)
  /\ detect_referral_sources totalled_referrals = ["Twitter"; "Total"]%string.
Proof.
  split; [|reflexivity].
  eexists. split; [vm_compute; reflexivity|].
  split; [reflexivity|]. split; [reflexivity|]. split; [reflexivity|]. discriminate.
Qed.

(** ** Wide and long tables *)

Lemma rmap_numbers {B} t (F : string -> list Z -> B) cols sel :
  rmap (fun c => let? s := getitem t c in
                 let? xs := series_nums s in
                 Ok (F c xs)) cols = Ok sel ->
  sel = map (fun c => F c (numbers_of t c)) cols
  /\ forall c, In c cols -> rbind (getitem t c) series_nums = Ok (numbers_of t c).
Proof.
  revert sel. induction cols as [|c cols IH]; intros sel H.
  - injection H as <-. split; [reflexivity | intros c []].
  - apply rmap_ok_cons in H as (b & bs & Hb & Hrest & ->).
    destruct (IH _ Hrest) as [-> Hall].
    apply rbind_ok in Hb as (s0 & Hs0 & Hb). apply rbind_ok in Hb as (xs & Hxs & Hb).
    injection Hb as <-.
    assert (E : rbind (getitem t c) series_nums = Ok xs) by (rewrite Hs0; exact Hxs).
    assert (E' : numbers_of t c = xs) by (unfold numbers_of; rewrite E; reflexivity).
    split.
    + simpl. rewrite E'. reflexivity.
    + intros c' [<- | Hc']; [rewrite E'; exact E | apply Hall; exact Hc'].
Qed.

Lemma getitem_map_named (G : string -> Series) cols c :
  In c cols -> getitem (map (fun c => (c, G c)) cols) c = Ok (G c).
Proof.
  induction cols as [|c0 cols IH]; simpl; [intros []|].
  destruct (String.eqb c0 c) eqn:E.
  - apply String.eqb_eq in E. subst c0. reflexivity.
  - intros [-> | H]; [rewrite String.eqb_refl in E; discriminate | auto].
Qed.

(** The shape of a table made by [groupby_sum]: the months that occur,
    and under each selected name the sums of that column per month. *)
Lemma groupby_sum_shape t key cols out :
  groupby_sum t key cols = Ok out ->
  exists b keys,
    getitem t key = Ok b /\ month_keys b = Ok keys /\
    let ks := unique_sorted (somes keys) in
    out = (key, month_column ks)
            :: map (fun c => (c, SNum (map (sum_where keys (numbers_of t c)) ks))) cols
    /\ forall c, In c cols -> rbind (getitem t c) series_nums = Ok (numbers_of t c).
Proof.
  intros H. apply groupby_sum_ok in H as (b & keys & sel & Hb & Hk & Hsel & ->).
  exists b, keys. split; [exact Hb|]. split; [exact Hk|].
  apply (rmap_numbers t (fun c xs => (c, SNum (map (sum_where keys xs)
                                                  (unique_sorted (somes keys)))))) in Hsel
    as [-> Hall].
  split; [reflexivity | exact Hall].
Qed.

Lemma month_keys_month_column ks : month_keys (month_column ks) = Ok (map Some ks).
Proof.
  unfold month_column. simpl. rewrite map_map. f_equal. apply map_ext.
  intros k. simpl. rewrite month_of_month_start. reflexivity.
Qed.

Lemma sum_where_app keys1 keys2 vals1 vals2 k :
  length keys1 = length vals1 ->
  sum_where (keys1 ++ keys2) (vals1 ++ vals2) k
  = sum_where keys1 vals1 k + sum_where keys2 vals2 k.
Proof.
  revert vals1. induction keys1 as [|key keys1 IH]; intros [|v vals1] H;
    simpl in *; try lia.
  injection H as H. rewrite (IH _ H).
  destruct key as [k'|]; [destruct (k' =? k)|]; lia.
Qed.

(** The long table read month by month: the values of month [k] in the
    stacked columns are the values of month [k] of each column. *)
Lemma sum_where_stacked keys (table : list (list Z)) k :
  (forall xs, In xs table -> length xs = length keys) ->
  sum_where (concat (repeat keys (length table))) (concat table) k
  = zsum (map (fun xs => sum_where keys xs k) table).
Proof.
  induction table as [|xs table IH]; intros H; simpl; [reflexivity|].
  rewrite sum_where_app by (symmetry; apply H; left; reflexivity).
  rewrite IH by (intros; apply H; right; assumption). reflexivity.
Qed.

Lemma somes_map_Some {A} (l : list A) : somes (map Some l) = l.
Proof. induction l as [|a l IH]; simpl; [reflexivity|]. rewrite IH. reflexivity. Qed.

(** In a table with one row per month, the sum over month [k] is the
    entry of the row of [k]. *)
Lemma sum_where_row ks xs i :
  List.NoDup ks -> length xs = length ks -> (i < length ks)%nat ->
  sum_where (map Some ks) xs (nth i ks 0) = nth i xs 0.
Proof.
  intros Hnd. revert xs i. induction Hnd as [|k ks Hk Hnd IH]; intros [|x xs] i Hl Hi;
    simpl in *; try lia.
  injection Hl as Hl. destruct i as [|i].
  - rewrite Z.eqb_refl. rewrite sum_where_absent; [lia|].
    rewrite somes_map_Some. exact Hk.
  - destruct (k =? nth i ks 0) eqn:E.
    + apply Z.eqb_eq in E. exfalso. apply Hk. rewrite E. apply nth_In. lia.
    + apply IH; [exact Hl | lia].
Qed.

Lemma somes_app {A} (l1 l2 : list (option A)) : somes (l1 ++ l2) = somes l1 ++ somes l2.
Proof.
  induction l1 as [|[a|] l1 IH]; simpl; [reflexivity| |exact IH].
  rewrite IH. reflexivity.
Qed.

Lemma In_concat_repeat {A} (l : list A) n x :
  In x (concat (repeat l n)) <-> (0 < n)%nat /\ In x l.
Proof.
  induction n as [|n IH]; simpl.
  - split; [intros [] | intros [H _]; lia].
  - rewrite in_app_iff, IH. split.
    + intros [H | [_ H]]; (split; [lia | exact H]).
    + intros [_ H]. left. exact H.
Qed.

Lemma somes_concat_repeat {A} (l : list A) n :
  somes (concat (repeat (map Some l) n)) = concat (repeat l n).
Proof.
  induction n as [|n IH]; simpl; [reflexivity|].
  rewrite somes_app, somes_map_Some, IH. reflexivity.
Qed.

(** Stacking at least one column keeps the months of the table. *)
Lemma unique_sorted_stacked ks n :
  StronglySorted Z.lt ks -> (0 < n)%nat ->
  unique_sorted (somes (concat (repeat (map Some ks) n))) = ks.
Proof.
  intros Hs Hn. apply sorted_lt_unique; [apply unique_sorted_sorted | exact Hs|].
  intros x. rewrite unique_sorted_In, somes_concat_repeat, In_concat_repeat.
  split; [intros [_ H]; exact H | intros H; split; [exact Hn | exact H]].
Qed.

(** Listing a table column by column or row by row gives the same values,
    in another order. *)
Lemma columns_rows_permutation (table : list (list Z)) n :
  (forall xs, In xs table -> length xs = n) ->
  Permutation (concat table)
    (flat_map (fun i => map (fun xs => nth i xs 0) table) (seq 0 n)).
Proof.
  induction table as [|xs table IH]; intros H; simpl.
  - induction (seq 0 n) as [|i l IHl]; simpl; [constructor | exact IHl].
  - assert (Hxs : length xs = n) by (apply H; left; reflexivity).
    assert (IH' := IH (fun ys Hys => H ys (or_intror Hys))). clear IH.
    transitivity (map (fun i => nth i xs 0) (seq 0 n)
                    ++ flat_map (fun i => map (fun ys => nth i ys 0) table) (seq 0 n)).
    + apply Permutation_app; [|exact IH'].
      rewrite <- Hxs. clear. induction xs as [|x xs IHx]; simpl; [constructor|].
      rewrite <- seq_shift, map_map. simpl. constructor. exact IHx.
    + generalize (seq 0 n) as l. clear. intros l.
      induction l as [|i l IHl]; simpl; [constructor|].
      constructor. rewrite <- IHl.
      rewrite !app_assoc. apply Permutation_app_tail.
      apply Permutation_app_comm.
Qed.

Lemma length_concat_repeat {A} (l : list A) n :
  length (concat (repeat l n)) = (n * length l)%nat.
Proof. induction n as [|n IH]; simpl; [reflexivity|]. rewrite length_app, IH. reflexivity. Qed.

Lemma month_keys_tile ks n :
  month_keys (tile n (month_column ks)) = Ok (concat (repeat (map Some ks) n)).
Proof.
  unfold month_column. simpl. f_equal.
  induction n as [|n IH]; simpl; [reflexivity|].
  rewrite map_app, IH. f_equal. rewrite map_map. apply map_ext.
  intros k. simpl. rewrite month_of_month_start. reflexivity.
Qed.

Lemma map_nth_seq (ks : list Z) : map (fun i => nth i ks 0) (seq 0 (length ks)) = ks.
Proof.
  induction ks as [|k ks IH]; simpl; [reflexivity|].
  rewrite <- seq_shift, map_map. simpl. rewrite IH. reflexivity.
Qed.

(** Re-aggregating stacked columns by month gives the row totals. *)
Lemma stacked_month_totals ks (table : list (list Z)) :
  List.NoDup ks ->
  (forall xs, In xs table -> length xs = length ks) ->
  map (sum_where (concat (repeat (map Some ks) (length table))) (concat table)) ks
  = map (fun i => zsum (map (fun xs => nth i xs 0) table)) (seq 0 (length ks)).
Proof.
  intros Hnd Hlen.
  set (F := sum_where (concat (repeat (map Some ks) (length table))) (concat table)).
  rewrite <- (map_nth_seq ks) at 1. rewrite map_map.
  apply map_ext_in. intros i Hi. apply in_seq in Hi. unfold F.
  rewrite sum_where_stacked by (intros xs Hxs; rewrite length_map; auto).
  apply zsum_map_ext. intros xs Hxs. apply sum_where_row; [exact Hnd | auto | lia].
Qed.

(** ** Loading *)

Lemma read_all_sheets_run (wb : Workbook) (h : heap) :
  read_all_sheets wb h
  = Ok (combine (map fst wb) (seq (length h) (length wb)), h ++ map snd wb).
Proof.
  revert h. induction wb as [|[name t] wb IH]; intros h; simpl.
  - rewrite app_nil_r. reflexivity.
  - unfold bind at 1. unfold alloc. unfold bind at 1. rewrite IH. unfold ret.
    rewrite length_app, <- app_assoc. simpl. rewrite Nat.add_1_r. reflexivity.
Qed.

Lemma strip_keys_absent (items : list (string * nat)) (k : string) :
  (forall kv, In kv items -> strip (fst kv) <> k) -> strip_keys items !! k = None.
Proof.
  unfold strip_keys. generalize (∅ : gmap string nat) (lookup_empty (M := gmap string) (A := nat) k).
  induction items as [|kv items IH]; intros d Hd H; simpl; [exact Hd|].
  apply IH.
  - rewrite lookup_insert_ne; [exact Hd|]. apply H. left. reflexivity.
  - intros kv' Hkv'. apply H. right. exact Hkv'.
Qed.

Lemma sheet_names_of_items (wb : Workbook) n kv :
  In kv (combine (map fst wb) (seq n (length wb))) -> exists s, In s wb /\ fst s = fst kv.
Proof.
  intros H. destruct kv as [k l]. apply in_combine_l in H.
  apply in_map_iff in H as (s & Hs & Hin). eauto.
Qed.

(** A workbook without one of the four sheets stops the program while
    loading: for the referral, wallet and fee sheets the name counts
    after stripping, for the token sheet as it is written. *)
Lemma missing_table_is_fatal (wb : Workbook) (h : heap) :
  (forall s, In s wb -> strip (fst s) <> "Referrals"%string)
  \/ (forall s, In s wb -> strip (fst s) <> "Wallets Created"%string)
  \/ (forall s, In s wb -> strip (fst s) <> "POL Data"%string)
  \/ (forall s, In s wb -> fst s <> "Tokens per source"%string) ->
  exists e, main wb h = Raise e.
Proof.
  intros H. unfold main, load_data.
  unfold bind at 1. unfold bind at 1. rewrite read_all_sheets_run.
  set (items := combine (map fst wb) (seq (length h) (length wb))).
  assert (Habs : forall k, (forall s, In s wb -> strip (fst s) <> k) ->
                           strip_keys items !! k = None).
  { intros k Hk. apply strip_keys_absent. intros kv Hkv.
    apply sheet_names_of_items in Hkv as (s & Hs & <-). apply Hk. exact Hs. }
  unfold bind at 1. unfold dict_get at 1.
  destruct (strip_keys items !! "Referrals"%string) as [r|] eqn:Er;
    [|eexists; reflexivity].
  unfold ret at 1. unfold bind at 1. unfold dict_get at 1.
  destruct (strip_keys items !! "Wallets Created"%string) as [w|] eqn:Ew;
    [|eexists; reflexivity].
  unfold ret at 1. unfold bind at 1. unfold dict_get at 1.
  destruct (strip_keys items !! "POL Data"%string) as [f|] eqn:Ef;
    [|eexists; reflexivity].
  unfold ret at 1. unfold bind at 1. unfold read_sheet.
  destruct (find (fun s => String.eqb (fst s) "Tokens per source") wb) as [s|] eqn:Et;
    [|eexists; reflexivity].
  exfalso. destruct H as [H | [H | [H | H]]].
  - rewrite (Habs _ H) in Er. discriminate.
  - rewrite (Habs _ H) in Ew. discriminate.
  - rewrite (Habs _ H) in Ef. discriminate.
  - apply find_some in Et as [Hin E]. apply String.eqb_eq in E. exact (H s Hin E).
Qed.

(** C8 at the failing input: with a token sheet that has its header and
    no records, loading returns, the window of line 36 gives a table
    without rows, and [resample] (line 40) raises on it, so the program
    stops without any figure.  An empty wallet or fee sheet does not
    stop it; the totals of that domain are then zero. *)
Theorem empty_token_sheet_is_fatal :
  main empty_token_workbook [] = Raise AttributeError
  /\ (exists g h T w,
        load_data empty_token_workbook [] = Ok (g, h)
        /\ h !! tokens_source_df g = Some T
        /\ window ts_geb cutoff_2025_01_01 T = Ok w
        /\ nrows w = 0%nat
        /\ resample_MS_sum w = Raise AttributeError
        /\ token_charts g h = Raise AttributeError)
  /\ (exists figs h, main empty_wallet_fee_workbook [] = Ok (figs, h)
                     /\ platform_totals figs = [("Android", 0); ("iOS", 0); ("Web", 0)]%string
                     /\ nrows (monthly_wallets figs) = 0%nat
                     /\ total_fee figs = 0).
Proof.
  split; [vm_compute; reflexivity|]. split.
  - eexists _, _, _, _. split; [vm_compute; reflexivity|].
    split; [reflexivity|]. split; [vm_compute; reflexivity|].
    split; [reflexivity|]. split; vm_compute; reflexivity.
  - eexists _, _. split; [vm_compute; reflexivity|]. repeat split.
Qed.

(** C10.  The referral, wallet and fee sheets are found under their
    stripped names, the token sheet under its exact name only: with white
    space around the names of the first three the workbook loads, with
    the same white space around the name of the token sheet it does not,
    although that name strips to ["Tokens per source"]. *)
Theorem token_sheet_name_is_not_stripped :
  (exists g h,
      load_data padded_workbook [] = Ok (g, h)
      /\ df g !! "Referrals"%string = Some (referral_df g)
      /\ df g !! "Wallets Created"%string = Some (wallet_df g)
      /\ df g !! "POL Data"%string = Some (fee_df g))
  /\ (exists figs h, main padded_workbook [] = Ok (figs, h))
  /\ strip " Tokens per source " = "Tokens per source"%string
  /\ load_data padded_token_workbook [] = Raise (ValueError "Worksheet not found")
  /\ main padded_token_workbook [] = Raise (ValueError "Worksheet not found").
Proof.
  split.
  - eexists _, _. split; [vm_compute; reflexivity|]. repeat split.
  - split; [eexists _, _; vm_compute; reflexivity|].
    split; [reflexivity|]. split; vm_compute; reflexivity.
Qed.

(** ** What [create_figures] leaves alone *)

Lemma frames_ret n {A} (a : A) (Q : A -> Prop) : Q a -> frames n (ret a) Q.
Proof. intros HQ h a' h' Hn [= <- <-]. auto. Qed.

Lemma frames_bind n {A B} (m : M A) (k : A -> M B) (Q : A -> Prop) (R : B -> Prop) :
  frames n m Q -> (forall a, Q a -> frames n (k a) R) -> frames n (bind m k) R.
Proof.
  intros Hm Hk h b h' Hn H. apply bind_ok in H as (a & h1 & H1 & H2).
  destruct (Hm _ _ _ Hn H1) as (Hlen1 & Hold1 & Ha).
  destruct (Hk a Ha h1 b h' ltac:(lia) H2) as (Hlen2 & Hold2 & Hb).
  split; [lia|]. split; [|exact Hb].
  intros l Hl. rewrite Hold2, Hold1 by exact Hl. reflexivity.
Qed.

Lemma frames_weaken n {A} (m : M A) (Q R : A -> Prop) :
  frames n m Q -> (forall a, Q a -> R a) -> frames n m R.
Proof.
  intros Hm HQR h a h' Hn H. destruct (Hm _ _ _ Hn H) as (? & ? & ?). auto.
Qed.

Lemma frames_lift n {A} (r : result A) : frames n (lift r) (fun _ => True).
Proof. intros h a h' Hn H. apply lift_ok in H as [_ ->]. auto. Qed.

Lemma frames_load n l : frames n (load l) (fun _ => True).
Proof. intros h a h' Hn H. apply load_ok in H as [_ ->]. auto. Qed.

(** A new object lies beyond the framed ones. *)
Lemma frames_alloc n t : frames n (alloc t) (fun l => (n <= l)%nat).
Proof.
  intros h a h' Hn [= <- <-]. rewrite length_app. simpl.
  split; [lia|]. split; [|exact Hn].
  intros l Hl. apply lookup_app_l. lia.
Qed.

(** An update of an object beyond the framed ones. *)
Lemma frames_store n l t : (n <= l)%nat -> frames n (store l t) (fun _ => True).
Proof.
  intros Hl h a h' Hn H. apply store_ok in H as [_ ->]. rewrite length_insert.
  split; [lia|]. split; [|exact I].
  intros l' Hl'. apply list_lookup_insert_ne. lia.
Qed.

Lemma frames_column_of n l col : frames n (column_of l col) (fun _ => True).
Proof.
  unfold column_of. eapply frames_bind; [apply frames_load|].
  intros t _. apply frames_lift.
Qed.

Lemma frames_setitem_inplace n l col s :
  (n <= l)%nat -> frames n (setitem_inplace l col s) (fun _ => True).
Proof.
  intros Hl. unfold setitem_inplace. eapply frames_bind; [apply frames_load|].
  intros t _. apply frames_store. exact Hl.
Qed.

Lemma frames_dropna_inplace n l col :
  (n <= l)%nat -> frames n (dropna_inplace l col) (fun _ => True).
Proof.
  intros Hl. unfold dropna_inplace. eapply frames_bind; [apply frames_load|].
  intros t _. eapply frames_bind; [apply frames_lift|].
  intros t' _. apply frames_store. exact Hl.
Qed.

(** One step of a framing proof: the rule of the first operation, then
    the rest under its result. *)
Ltac frames_op :=
  first [ apply frames_lift
        | apply frames_load
        | apply frames_alloc
        | apply frames_column_of
        | apply frames_setitem_inplace; assumption
        | apply frames_dropna_inplace; assumption
        | apply frames_store; assumption ].

Ltac frames_steps :=
  repeat first [ apply frames_ret; exact I
               | frames_op
               | eapply frames_bind; [frames_op | intros ? ?] ].

Lemma frames_token_charts n g : frames n (token_charts g) (fun _ => True).
Proof.
  unfold token_charts. frames_steps.
  eapply (frames_bind n _ _ (fun _ => True)).
  - destruct (has_column _ _); [apply frames_ret; exact I | frames_steps].
  - intros _ _. frames_steps.
Qed.

Lemma frames_wallet_charts n g : frames n (wallet_charts g) (fun _ => True).
Proof. unfold wallet_charts. frames_steps. Qed.

Lemma frames_referral_charts n g : frames n (referral_charts g) (fun _ => True).
Proof. unfold referral_charts. frames_steps. Qed.

Lemma frames_fee_chart n g : frames n (fee_chart g) (fun _ => True).
Proof. unfold fee_chart. frames_steps. Qed.

Lemma frames_token_source_chart n g cols :
  frames n (token_source_chart g cols) (fun _ => True).
Proof. unfold token_source_chart. frames_steps. Qed.

Lemma frames_pie_charts n g : frames n (pie_charts g) (fun _ => True).
Proof. unfold pie_charts. frames_steps. Qed.

Lemma frames_create_figures n g : frames n (create_figures g) (fun _ => True).
Proof.
  unfold create_figures.
  eapply frames_bind; [apply frames_token_charts|]. intros [[? ?] ?] _.
  eapply frames_bind; [apply frames_wallet_charts|]. intros [[? ?] ?] _.
  eapply frames_bind; [apply frames_referral_charts|]. intros [[[? ?] ?] ?] _.
  eapply frames_bind; [apply frames_fee_chart|]. intros [? ?] _.
  eapply frames_bind; [apply frames_token_source_chart|]. intros ? _.
  eapply frames_bind; [apply frames_pie_charts|]. intros [? ?] _.
  apply frames_ret. exact I.
Qed.

(** ** Running the sections of [create_figures] *)

Lemma window_ok test c t w :
  window test c t = Ok w ->
  exists dates, getitem t "Date" = Ok (STime dates)
                /\ w = mask_rows (map (in_window test c) dates) t.
Proof.
  unfold window. intros H. apply rbind_ok in H as (d & Hd & H).
  apply rbind_ok in H as (m & Hm & H). injection H as <-.
  destruct d as [xs|dates|os|bs]; try discriminate. injection Hm as <-.
  exists dates. split; [exact Hd | reflexivity].
Qed.

Lemma lookup_new (h : heap) t : (h ++ [t]) !! length h = Some t.
Proof. apply list_lookup_middle. reflexivity. Qed.

Lemma insert_new (h : heap) t t' : <[length h := t']> (h ++ [t]) = h ++ [t'].
Proof.
  rewrite insert_app_r_alt by lia. rewrite Nat.sub_diag. reflexivity.
Qed.

(** The common opening of the wallet, referral and fee sections: the
    window, the copy, its [Month] column. *)
Lemma windowed_copy_run {B} test c t (K : DataFrame -> M B) (h : heap) r :
  (let* w := lift (window test c t) in
   let* l := alloc w in
   let* d := column_of l "Date" in
   let* ms := lift (month_floor d) in
   setitem_inplace l "Month" ms ;;
   let* f := load l in
   K f) h = Ok r ->
  exists dates,
    getitem t "Date" = Ok (STime dates)
    /\ K (windowed test c dates t) (h ++ [windowed test c dates t]) = Ok r.
Proof.
  intros H.
  apply bind_ok in H as (w & h1 & Hw & H). apply lift_ok in Hw as [Hw ->].
  apply window_ok in Hw as (dates & Hd & ->). exists dates. split; [exact Hd|].
  set (m := map (in_window test c) dates) in *.
  assert (Hdate : getitem (mask_rows m t) "Date" = Ok (STime (mask_list m dates))).
  { rewrite getitem_mask_rows, Hd. reflexivity. }
  apply bind_ok in H as (l & h1 & Hl & H). injection Hl as <- <-.
  apply bind_ok in H as (d & h2 & Hc & H).
  rewrite (column_of_at _ _ _ _ _ (lookup_new h _) Hdate) in Hc. injection Hc as <- <-.
  apply bind_ok in H as (ms & h3 & Hms & H). apply lift_ok in Hms as [Hms ->].
  injection Hms as <-.
  apply bind_ok in H as (u & h4 & Hset & H).
  rewrite (setitem_inplace_at _ _ _ _ _ (lookup_new h _)) in Hset.
  injection Hset as <- <-. rewrite insert_new in H.
  apply bind_ok in H as (f & h5 & Hf & H).
  rewrite (load_at _ _ _ (lookup_new h _)) in Hf. injection Hf as <- <-.
  exact H.
Qed.

Lemma month_keys_windowed test c dates t :
  rbind (getitem (windowed test c dates t) "Month") month_keys
  = Ok (map (option_map month_of) (mask_list (map (in_window test c) dates) dates)).
Proof.
  unfold windowed. rewrite getitem_setitem_eq. simpl. rewrite month_keys_floor.
  reflexivity.
Qed.

Lemma mask_in_window_has_key test c dates :
  map has_key (map (option_map month_of) (mask_list (map (in_window test c) dates) dates))
  = map (fun _ => true) (mask_list (map (in_window test c) dates) dates).
Proof.
  rewrite map_map. rewrite mask_list_all.
  apply map_ext_in. intros o Ho. apply filter_In in Ho as [_ Ho].
  destruct o; [reflexivity | discriminate].
Qed.

Lemma mask_list_true {A B} (l : list A) (xs : list B) :
  length l = length xs -> mask_list (map (fun _ => true) l) xs = xs.
Proof.
  revert xs. induction l as [|a l IH]; intros [|x xs] H; simpl in *; try lia;
    [reflexivity|].
  injection H as H. rewrite IH by exact H. reflexivity.
Qed.

Lemma rmap_mask {A B} (f : A -> result B) m l bs :
  rmap f l = Ok bs -> rmap f (mask_list m l) = Ok (mask_list m bs).
Proof.
  revert l bs. induction m as [|b m IH]; intros l bs H.
  - destruct l; reflexivity.
  - destruct l as [|a l]; [injection H as <-; reflexivity|].
    apply rmap_ok_cons in H as (b0 & bs' & Hb & Hl & ->). simpl.
    destruct b; simpl; rewrite ?Hb, (IH _ _ Hl); reflexivity.
Qed.

Lemma mask_list_fmap {A B} (f : A -> B) m (l : list A) :
  mask_list m (map f l) = map f (mask_list m l).
Proof.
  revert l. induction m as [|b m IH]; intros [|a l]; simpl; try reflexivity.
  destruct b; simpl; rewrite IH; reflexivity.
Qed.

Lemma series_nums_mask m s xs :
  series_nums s = Ok xs -> series_nums (mask_series m s) = Ok (mask_list m xs).
Proof.
  destruct s as [ys|ts|os|bs]; simpl; intros H.
  - injection H as <-. reflexivity.
  - discriminate.
  - apply rmap_mask. exact H.
  - injection H as <-. rewrite mask_list_fmap. reflexivity.
Qed.

Lemma series_nums_length s xs : series_nums s = Ok xs -> length xs = series_len s.
Proof.
  destruct s as [ys|ts|os|bs]; simpl; intros H.
  - injection H as <-. reflexivity.
  - discriminate.
  - eapply rmap_length. exact H.
  - injection H as <-. apply length_map.
Qed.

Lemma wf_frame_length t col s :
  wf_frame t = true -> getitem t col = Ok s -> series_len s = nrows t.
Proof.
  unfold wf_frame. intros Hwf H. apply getitem_In in H.
  rewrite forallb_forall in Hwf. specialize (Hwf _ H). apply Nat.eqb_eq in Hwf.
  exact Hwf.
Qed.

(** The column [col] of the windowed copy holds the values of the rows in
    the window, unless it is the [Month] column itself. *)
Lemma numbers_of_windowed test c dates t col :
  getitem t "Date" = Ok (STime dates) -> wf_frame t = true ->
  rbind (getitem (windowed test c dates t) col) series_nums
    = Ok (numbers_of (windowed test c dates t) col) ->
  let m := map (in_window test c) dates in
  numbers_of (windowed test c dates t) col = numbers_of (mask_rows m t) col
  /\ rbind (getitem (mask_rows m t) col) series_nums = Ok (numbers_of (mask_rows m t) col)
  /\ length (numbers_of (mask_rows m t) col) = length (mask_list m dates).
Proof.
  intros Hd Hwf H m. unfold windowed in *. fold m in H |- *.
  destruct (String.eqb "Month" col) eqn:E.
  - apply String.eqb_eq in E. subst col. rewrite getitem_setitem_eq in H. discriminate H.
  - assert (Hne : "Month"%string <> col)
      by (intros Heq; subst col; rewrite String.eqb_refl in E; discriminate).
    unfold numbers_of in *. rewrite getitem_setitem_ne in * by exact Hne.
    split; [reflexivity|]. split; [exact H|].
    rewrite getitem_mask_rows in *.
    destruct (getitem t col) as [s|e] eqn:Hs; [|discriminate H]. simpl in *.
    destruct (series_nums (mask_series m s)) as [xs|e] eqn:Hxs; [|discriminate H].
    rewrite (series_nums_length _ _ Hxs).
    pose proof (wf_frame_length _ _ _ Hwf Hs) as H1.
    pose proof (wf_frame_length _ _ _ Hwf Hd) as H2. simpl in H2.
    destruct s as [ys|ts|os|bs]; simpl in *; apply mask_list_length; lia.
Qed.

(** A monthly table made by [groupby_sum] has its sums under every
    selected name; none of the names is the key. *)
Lemma groupby_sum_columns t key cols out :
  groupby_sum t key cols = Ok out ->
  exists keys,
    rbind (getitem t key) month_keys = Ok keys /\
    let ks := unique_sorted (somes keys) in
    let g := fun c => map (sum_where keys (numbers_of t c)) ks in
    out = (key, month_column ks) :: map (fun c => (c, SNum (g c))) cols
    /\ (forall c, In c cols -> rbind (getitem t c) series_nums = Ok (numbers_of t c))
    /\ (forall c, In c cols -> getitem out c = Ok (SNum (g c)))
    /\ getitems out cols = Ok (map (fun c => (c, SNum (g c))) cols)
    /\ nrows out = length ks.
Proof.
  intros H. apply groupby_sum_shape in H as (b & keys & Hb & Hk & Hout & Hall).
  exists keys. split; [rewrite Hb; exact Hk|]. intros ks g.
  assert (Hcol : forall c, In c cols -> getitem out c = Ok (SNum (g c))).
  { intros c Hc. specialize (Hall c Hc). rewrite Hout, getitem_cons.
    destruct (String.eqb key c) eqn:E.
    - apply String.eqb_eq in E. subst c. rewrite Hb in Hall.
      destruct b; try discriminate Hk. discriminate Hall.
    - apply (getitem_map_named (fun c => SNum (g c))). exact Hc. }
  split; [exact Hout|]. split; [exact Hall|]. split; [exact Hcol|]. split.
  - unfold getitems. apply rmap_spec. intros c Hc. rewrite (Hcol c Hc). reflexivity.
  - rewrite Hout. simpl. apply length_map.
Qed.

Lemma column_totals_named (g : string -> list Z) cols :
  column_totals (map (fun c => (c, SNum (g c))) cols)
  = Ok (map (fun c => (c, zsum (g c))) cols).
Proof.
  unfold column_totals. rewrite (rmap_spec _ (fun c => (fst c, zsum (g (fst c))))).
  - rewrite map_map. reflexivity.
  - intros a Ha. apply in_map_iff in Ha as (c & <- & _). reflexivity.
Qed.

Lemma row_sums_named (g : string -> list Z) cols n :
  row_sums n (map (fun c => (c, SNum (g c))) cols)
  = Ok (SNum (map (fun i => zsum (map (fun c => nth i (g c) 0) cols)) (seq 0 n))).
Proof.
  unfold row_sums. rewrite (rmap_spec _ (fun c => g (fst c))).
  - cbn [rbind]. do 2 f_equal. apply map_ext. intros i. rewrite !map_map. reflexivity.
  - intros a Ha. apply in_map_iff in Ha as (c & <- & _). reflexivity.
Qed.

(** The sum of the row totals is the sum of the column totals. *)
Lemma row_totals_column_totals (g : string -> list Z) cols n :
  (forall c, In c cols -> length (g c) = n) ->
  zsum (map (fun i => zsum (map (fun c => nth i (g c) 0) cols)) (seq 0 n))
  = zsum (map (fun c => zsum (g c)) cols).
Proof.
  intros Hlen. rewrite (zsum_exchange (fun i c => nth i (g c) 0)).
  apply zsum_map_ext. intros c Hc. rewrite <- (Hlen c Hc). apply zsum_nth_seq.
Qed.

Lemma melt_ok_has_column df id cols var val long :
  melt df id cols var val = Ok long -> has_column df val = false.
Proof.
  unfold melt. destruct (has_column df val); [discriminate | reflexivity].
Qed.

(** The long form of a monthly table. *)
Lemma melt_named key ks (g : string -> list Z) cols var val wide :
  wide = (key, month_column ks) :: map (fun c => (c, SNum (g c))) cols ->
  has_column wide val = false ->
  (forall c, In c cols -> getitem wide c = Ok (SNum (g c))) ->
  melt wide key cols var val
  = Ok [ (key, tile (length cols) (month_column ks));
         (var, SObj (flat_map (fun c => repeat (PStr c) (length ks)) cols));
         (val, SNum (concat (map g cols))) ].
Proof.
  intros Hwide Hhas Hcol. unfold melt. rewrite Hhas.
  assert (Hk : getitem wide key = Ok (month_column ks)).
  { rewrite Hwide, getitem_cons, String.eqb_refl. reflexivity. }
  rewrite Hk. cbn [rbind].
  rewrite (rmap_spec _ (fun c => (c, g c))).
  - cbn [rbind].
    assert (Hn : nrows wide = length ks) by (rewrite Hwide; simpl; apply length_map).
    assert (Hnames : forall l : list string,
               flat_map (fun c : string * list Z => repeat (PStr (fst c)) (nrows wide))
                 (map (fun c => (c, g c)) l)
               = flat_map (fun c => repeat (PStr c) (length ks)) l).
    { intros l. rewrite Hn. induction l as [|c l IH]; simpl; [reflexivity|].
      rewrite IH. reflexivity. }
    rewrite Hnames, map_map. reflexivity.
  - intros c Hc. rewrite (Hcol c Hc). reflexivity.
Qed.

Lemma nth_error_concat_repeat {A} (l : list A) k j i :
  (j < k)%nat -> (i < length l)%nat ->
  nth_error (concat (repeat l k)) (j * length l + i) = nth_error l i.
Proof.
  revert j. induction k as [|k IH]; intros j Hj Hi; [lia|]. simpl.
  destruct j as [|j].
  - simpl. apply nth_error_app1. exact Hi.
  - rewrite nth_error_app2 by (simpl; lia).
    replace (S j * length l + i - length l)%nat with (j * length l + i)%nat by (simpl; lia).
    apply IH; [lia | exact Hi].
Qed.

Lemma nth_error_flat_repeat {A B} (F : A -> B) (cols : list A) n j c i :
  nth_error cols j = Some c -> (i < n)%nat ->
  nth_error (flat_map (fun c => repeat (F c) n) cols) (j * n + i) = Some (F c).
Proof.
  revert j. induction cols as [|c0 cols IH]; intros j Hj Hi; [destruct j; discriminate|].
  simpl. destruct j as [|j].
  - injection Hj as ->. simpl. rewrite nth_error_app1 by (rewrite repeat_length; exact Hi).
    apply nth_error_repeat. exact Hi.
  - simpl in Hj. rewrite nth_error_app2 by (rewrite repeat_length; simpl; lia).
    rewrite repeat_length.
    replace (S j * n + i - n)%nat with (j * n + i)%nat by (simpl; lia).
    apply IH; assumption.
Qed.

Lemma nth_error_concat_map {A B} (G : A -> list B) (cols : list A) n j c i :
  (forall a, In a cols -> length (G a) = n) ->
  nth_error cols j = Some c -> (i < n)%nat ->
  nth_error (concat (map G cols)) (j * n + i) = nth_error (G c) i.
Proof.
  revert j. induction cols as [|c0 cols IH]; intros j Hlen Hj Hi;
    [destruct j; discriminate|].
  simpl. assert (H0 : length (G c0) = n) by (apply Hlen; left; reflexivity).
  destruct j as [|j].
  - injection Hj as ->. simpl. apply nth_error_app1. lia.
  - simpl in Hj. rewrite nth_error_app2 by (simpl; lia). rewrite H0.
    replace (S j * n + i - n)%nat with (j * n + i)%nat by (simpl; lia).
    apply IH; [intros a Ha; apply Hlen; right; exact Ha | exact Hj | exact Hi].
Qed.

Lemma length_flat_repeat {A B} (F : A -> B) (cols : list A) n :
  length (flat_map (fun c => repeat (F c) n) cols) = (length cols * n)%nat.
Proof.
  induction cols as [|c cols IH]; simpl; [reflexivity|].
  rewrite length_app, repeat_length, IH. reflexivity.
Qed.

Lemma length_concat_map {A B} (G : A -> list B) (cols : list A) n :
  (forall a, In a cols -> length (G a) = n) ->
  length (concat (map G cols)) = (length cols * n)%nat.
Proof.
  induction cols as [|c cols IH]; intros H; simpl; [reflexivity|].
  rewrite length_app, (H c) by (left; reflexivity).
  rewrite IH by (intros a Ha; apply H; right; exact Ha). reflexivity.
Qed.

(** C7.  Pivoting the monthly table of a domain to long form, the
    column of categories and the column of values being given two
    different names, none of them [Month].  The long table has the
    three columns of [melt] and exactly one row per
    (bucket, category) pair: the row of category number [j] and bucket
    number [i] holds the month of the bucket, the name of the category
    and the value the wide table has for them.  Its values are the values
    of the wide table, in another order, and the sums of the long table
    per month are the per-month totals of the wide table.  With at least
    one category, the re-aggregation of the program (line 135) returns
    the months of the wide table with those totals (line 148). *)
Theorem pivot_round_trip (f : DataFrame) (cols : list string) (var val : string)
    (wide long : DataFrame) :
  groupby_sum f "Month" cols = Ok wide ->
  melt wide "Month" cols var val = Ok long ->
  var <> "Month"%string -> val <> var ->
  exists ks table sel totals lkeys months names values,
    getitem wide "Month" = Ok (month_column ks)
    /\ rmap (fun c => rbind (getitem wide c) series_nums) cols = Ok table
    /\ long = [("Month"%string, STime months); (var, SObj names); (val, SNum values)]
    /\ length months = (length cols * length ks)%nat
    /\ length names = (length cols * length ks)%nat
    /\ length values = (length cols * length ks)%nat
    /\ (forall j c i,
          nth_error cols j = Some c -> (i < length ks)%nat ->
          nth_error months (j * length ks + i) = Some (Some (month_start (nth i ks 0)))
          /\ nth_error names (j * length ks + i) = Some (PStr c)
          /\ exists xs, getitem wide c = Ok (SNum xs)
                        /\ nth_error values (j * length ks + i) = nth_error xs i)
    /\ nrows long = (length cols * length ks)%nat
    /\ getitem long val = Ok (SNum (concat table))
    /\ Permutation (concat table)
         (flat_map (fun i => map (fun xs => nth i xs 0) table) (seq 0 (length ks)))
    /\ getitems wide cols = Ok sel
    /\ row_sums (nrows wide) sel = Ok (SNum totals)
    /\ rbind (getitem long "Month") month_keys = Ok lkeys
    /\ map (sum_where lkeys (concat table)) ks = totals
    /\ (cols <> [] ->
        groupby_sum long "Month" [val]
        = Ok [("Month"%string, month_column ks); (val, SNum totals)]).
Proof.
  intros Hg Hm _ Hval2.
  pose proof (melt_ok_has_column _ _ _ _ _ _ Hm) as Hhas.
  apply groupby_sum_columns in Hg as (keys & Hk & Hout & Hall & Hcol & Hsel & Hrows).
  set (ks := unique_sorted (somes keys)) in *.
  set (g := fun c => map (sum_where keys (numbers_of f c)) ks) in *.
  assert (Hmonth : getitem wide "Month" = Ok (month_column ks))
    by (rewrite Hout; reflexivity).
  assert (Hval1 : val <> "Month"%string).
  { intros ->. apply has_column_getitem_false in Hhas. rewrite Hmonth in Hhas.
    discriminate Hhas. }
  rewrite (melt_named "Month" ks g cols var val wide Hout Hhas Hcol) in Hm.
  injection Hm as <-.
  set (months := concat (repeat (map (fun k => Some (month_start k)) ks) (length cols))).
  set (names := flat_map (fun c => repeat (PStr c) (length ks)) cols).
  change (tile (length cols) (month_column ks)) with (STime months).
  assert (Hlen : forall xs, In xs (map g cols) -> length xs = length ks).
  { intros xs Hxs. apply in_map_iff in Hxs as (c & <- & _). unfold g.
    apply length_map. }
  assert (Hgl : forall c, In c cols -> length (g c) = length ks)
    by (intros c _; unfold g; apply length_map).
  assert (Hnd : List.NoDup ks) by (apply sorted_lt_nodup, unique_sorted_sorted).
  assert (Hlm : getitem [ ("Month"%string, STime months); (var, SObj names);
                          (val, SNum (concat (map g cols))) ] "Month"
                = Ok (STime months)) by reflexivity.
  assert (Hlv : getitem [ ("Month"%string, STime months); (var, SObj names);
                          (val, SNum (concat (map g cols))) ] val
                = Ok (SNum (concat (map g cols))))
    by (apply getitem_third; assumption).
  assert (Hmk : month_keys (STime months) = Ok (concat (repeat (map Some ks) (length cols))))
    by apply (month_keys_tile ks (length cols)).
  assert (Hmlen : length months = (length cols * length ks)%nat)
    by (unfold months; rewrite length_concat_repeat, length_map; reflexivity).
  exists ks, (map g cols), (map (fun c => (c, SNum (g c))) cols),
    (map (fun i => zsum (map (fun xs => nth i xs 0) (map g cols))) (seq 0 (length ks))),
    (concat (repeat (map Some ks) (length cols))), months, names, (concat (map g cols)).
  assert (Hre : map (sum_where (concat (repeat (map Some ks) (length cols)))
                       (concat (map g cols))) ks
                = map (fun i => zsum (map (fun xs => nth i xs 0) (map g cols)))
                    (seq 0 (length ks))).
  { rewrite <- (length_map g cols). apply stacked_month_totals; assumption. }
  split; [exact Hmonth|]. split.
  { apply rmap_spec. intros c Hc. rewrite (Hcol c Hc). reflexivity. }
  split; [reflexivity|]. split; [exact Hmlen|].
  split; [apply length_flat_repeat|].
  split; [apply length_concat_map; exact Hgl|].
  split.
  { intros j c i Hj Hi.
    assert (Hjlt : (j < length cols)%nat) by (apply nth_error_Some; congruence).
    assert (Hc : In c cols) by (eapply nth_error_In; exact Hj).
    split; [|split].
    - unfold months.
      rewrite <- (length_map (fun k => Some (month_start k)) ks) at 1.
      rewrite nth_error_concat_repeat by (rewrite ?length_map; assumption).
      rewrite nth_error_map, (nth_error_nth' ks 0 Hi). reflexivity.
    - apply (nth_error_flat_repeat PStr); assumption.
    - exists (g c). split; [apply Hcol; exact Hc|].
      apply nth_error_concat_map; assumption. }
  split; [exact Hmlen|].
  split; [exact Hlv|].
  split; [apply columns_rows_permutation; exact Hlen|].
  split; [exact Hsel|].
  split.
  { unfold row_sums. rewrite Hrows.
    rewrite (rmap_spec _ (fun c => g (fst c)))
      by (intros a Ha; apply in_map_iff in Ha as (c & <- & _); reflexivity).
    rewrite map_map. reflexivity. }
  split; [rewrite Hlm; exact Hmk|].
  split; [exact Hre|].
  intros Hne. unfold groupby_sum. rewrite Hlm. cbn [rbind]. rewrite Hmk. cbn [rbind rmap].
  rewrite Hlv. cbn [rbind series_nums].
  rewrite unique_sorted_stacked;
    [| apply unique_sorted_sorted | destruct cols; [congruence | simpl; lia]].
  rewrite Hre. reflexivity.
Qed.

Lemma pivot_round_trip_witness :
  groupby_sum sample_rdf "Month" ["Twitter"; "Friends"]%string = Ok sample_by_source
  /\ melt sample_by_source "Month" ["Twitter"; "Friends"]%string "Campaign" "Referrals"
     = Ok sample_melted
  /\ groupby_sum sample_melted "Month" ["Referrals"%string]
     = Ok [ ("Month", STime [on_day 2025 1 1; on_day 2025 3 1]);
            ("Referrals", SNum [8; 6]) ]%string.
Proof.
  split; [reflexivity|]. split; [reflexivity|].
  destruct (pivot_round_trip sample_rdf ["Twitter"; "Friends"]%string
              "Campaign" "Referrals" sample_by_source sample_melted
              eq_refl eq_refl ltac:(discriminate) ltac:(discriminate))
    as (ks & table & sel & totals & lkeys & months & names & values
        & H1 & H2 & _ & _ & _ & _ & _ & _ & _ & _ & H6 & H7 & _ & _ & H10).
  injection H2 as <-. injection H6 as <-. injection H7 as <-.
  rewrite (H10 ltac:(discriminate)).
  injection H1 as H1. unfold month_column. rewrite <- H1. reflexivity.
Defined.

(** Monthly sums over the windowed copy of a table: the total of a
    category over the months is its sum over the records in the window. *)
Lemma windowed_group_totals test c dates t cols wide :
  getitem t "Date" = Ok (STime dates) -> wf_frame t = true ->
  groupby_sum (windowed test c dates t) "Month" cols = Ok wide ->
  let filtered := mask_rows (map (in_window test c) dates) t in
  exists sel,
    getitems wide cols = Ok sel
    /\ column_totals sel = Ok (map (fun col => (col, zsum (numbers_of filtered col))) cols)
    /\ (forall col, In col cols ->
          rbind (getitem filtered col) series_nums = Ok (numbers_of filtered col)).
Proof.
  intros Hd Hwf Hg filtered.
  apply groupby_sum_columns in Hg as (keys & Hk & Hout & Hall & Hcol & Hsel & Hn).
  rewrite month_keys_windowed in Hk. injection Hk as <-.
  set (m := map (in_window test c) dates) in *.
  set (keys := map (option_map month_of) (mask_list m dates)) in *.
  eexists. split; [exact Hsel|]. split.
  - rewrite column_totals_named. f_equal. apply map_ext_in. intros col Hcol'.
    f_equal.
    destruct (numbers_of_windowed test c dates t col Hd Hwf (Hall col Hcol'))
      as (Hnum & _ & Hlen).
    fold m in Hnum, Hlen. fold filtered in Hnum, Hlen. rewrite Hnum.
    rewrite sum_where_partition;
      [| apply sorted_lt_nodup, unique_sorted_sorted
       | intros k Hk; apply unique_sorted_In; exact Hk].
    unfold keys, m. rewrite mask_in_window_has_key. fold m.
    rewrite mask_list_true by (symmetry; exact Hlen). reflexivity.
  - intros col Hcol'.
    destruct (numbers_of_windowed test c dates t col Hd Hwf (Hall col Hcol'))
      as (_ & H & _). exact H.
Qed.

Lemma wallet_charts_run g (h : heap) W out h' :
  h !! wallet_df g = Some W -> wallet_charts g h = Ok (out, h') ->
  exists dates mw melted totals sel,
    getitem W "Date" = Ok (STime dates)
    /\ groupby_sum (windowed ts_gtb cutoff_2024_12_31 dates W) "Month" wallet_platforms
       = Ok mw
    /\ getitems mw wallet_platforms = Ok sel
    /\ column_totals sel = Ok totals
    /\ melt mw "Month" wallet_platforms "Platform" "Count" = Ok melted
    /\ out = (mw, melted, totals).
Proof.
  intros HW H. unfold wallet_charts in H.
  rewrite (bind_run _ _ _ _ _ (load_at _ _ _ HW)) in H.
  apply windowed_copy_run in H as (dates & Hd & H).
  apply bind_ok in H as (mw & h1 & Hmw & H). apply lift_ok in Hmw as [Hmw ->].
  apply bind_ok in H as (sel & h1 & Hsel & H). apply lift_ok in Hsel as [Hsel ->].
  apply bind_ok in H as (totals & h1 & Ht & H). apply lift_ok in Ht as [Ht ->].
  apply bind_ok in H as (melted & h1 & Hm & H). apply lift_ok in Hm as [Hm ->].
  injection H as <- <-.
  exists dates, mw, melted, totals, sel. auto 10.
Qed.

Lemma referral_charts_run g (h : heap) R out h' :
  h !! referral_df g = Some R -> referral_charts g h = Ok (out, h') ->
  exists dates by_source melted by_month totals sel total,
    getitem R "Date" = Ok (STime dates)
    /\ groupby_sum (windowed ts_geb cutoff_2025_01_01 dates R) "Month" (referral_sources g)
       = Ok by_source
    /\ getitems by_source (referral_sources g) = Ok sel
    /\ column_totals sel = Ok totals
    /\ melt by_source "Month" (referral_sources g) "Campaign" "Referrals" = Ok melted
    /\ groupby_sum melted "Month" ["Referrals"%string] = Ok by_month
    /\ row_sums (nrows by_source) sel = Ok total
    /\ out = (melted, by_month, setitem by_source "Total" total, totals).
Proof.
  intros HR H. unfold referral_charts in H.
  rewrite (bind_run _ _ _ _ _ (load_at _ _ _ HR)) in H.
  apply windowed_copy_run in H as (dates & Hd & H).
  apply bind_ok in H as (bs & h1 & Hbs & H). apply lift_ok in Hbs as [Hbs ->].
  apply bind_ok in H as (l & h1 & Hl & H). injection Hl as <- <-.
  apply bind_ok in H as (sel & h1 & Hsel & H). apply lift_ok in Hsel as [Hsel ->].
  apply bind_ok in H as (totals & h1 & Ht & H). apply lift_ok in Ht as [Ht ->].
  apply bind_ok in H as (melted & h1 & Hm & H). apply lift_ok in Hm as [Hm ->].
  apply bind_ok in H as (bm & h1 & Hbm & H). apply lift_ok in Hbm as [Hbm ->].
  rewrite (bind_run _ _ _ _ _ (load_at _ _ _ (lookup_new _ _))) in H.
  rewrite Hsel in H. unfold lift at 1 in H. unfold bind at 1 in H.
  apply bind_ok in H as (total & h1 & Htot & H). apply lift_ok in Htot as [Htot ->].
  rewrite (bind_run _ _ _ _ _ (setitem_inplace_at _ _ _ _ _ (lookup_new _ _))) in H.
  rewrite insert_new in H.
  rewrite (bind_run _ _ _ _ _ (load_at _ _ _ (lookup_new _ _))) in H.
  injection H as <- <-.
  exists dates, bs, melted, bm, totals, sel, total. auto 10.
Qed.

Lemma token_source_chart_run g (h : heap) T cols out h' :
  h !! tokens_source_df g = Some T -> token_source_chart g cols h = Ok (out, h') ->
  out = map (fun c => (c, zsum (numbers_of T c))) cols
  /\ (forall c, In c cols -> rbind (getitem T c) series_nums = Ok (numbers_of T c))
  /\ h' = h.
Proof.
  intros HT H. unfold token_source_chart in H.
  rewrite (bind_run _ _ _ _ _ (load_at _ _ _ HT)) in H.
  apply bind_ok in H as (sel & h1 & Hsel & H). apply lift_ok in Hsel as [Hsel ->].
  apply lift_ok in H as [H ->].
  assert (Hall : forall c, In c cols ->
                   rbind (getitem T c) series_nums = Ok (numbers_of T c)
                   /\ exists s, getitem T c = Ok s).
  { intros c Hc. unfold getitems in Hsel.
    destruct (rmap_ok_each _ _ _ Hsel c Hc) as (b & Hb & Hin).
    destruct (getitem T c) as [s|e] eqn:Hs; [|discriminate Hb]. injection Hb as <-.
    unfold column_totals in H.
    destruct (rmap_ok_each _ _ _ H _ Hin) as (b' & Hb' & _). simpl in Hb'.
    split; [|eauto]. unfold numbers_of. rewrite Hs. simpl.
    destruct (series_nums s); [reflexivity | discriminate Hb']. }
  split; [|split; [intros c Hc; apply Hall; exact Hc | reflexivity]].
  assert (Hsel' : sel = map (fun c => (c, match getitem T c with
                                         | Ok s => s | Raise _ => SNum [] end)) cols).
  { unfold getitems in Hsel. clear H.
    revert sel Hsel. induction cols as [|c cols IH]; intros sel Hsel.
    - injection Hsel as <-. reflexivity.
    - apply rmap_ok_cons in Hsel as (b & bs & Hb & Hrest & ->).
      destruct (getitem T c) as [s|e] eqn:Hs; [|discriminate Hb]. injection Hb as <-.
      simpl. rewrite Hs. f_equal. apply IH; [|exact Hrest].
      intros c' Hc'. apply Hall. right. exact Hc'. }
  subst sel. unfold column_totals in H.
  rewrite (rmap_spec _ (fun c => (fst c, zsum (numbers_of T (fst c))))) in H.
  - injection H as <-. rewrite map_map. reflexivity.
  - intros a Ha. apply in_map_iff in Ha as (c & <- & Hc). simpl.
    destruct (Hall c Hc) as [Hn [s Hs]]. rewrite Hs in Hn |- *. simpl in Hn.
    rewrite Hn. reflexivity.
Qed.

(** C6, as the code has it.  The platform totals of the wallets and the
    totals of the referral sources are the sums of the category over the
    records in the date window.  The totals by source of the token bar
    (lines 172-173) are the sums over all records of the cleaned token
    table, whatever their date. *)
Theorem category_totals (g : Globals) (h : heap) (W R T : DataFrame) :
  h !! wallet_df g = Some W -> h !! referral_df g = Some R ->
  h !! tokens_source_df g = Some T ->
  wf_frame W = true -> wf_frame R = true ->
  (forall mw melted totals h',
      wallet_charts g h = Ok ((mw, melted, totals), h') ->
      exists dates,
        getitem W "Date" = Ok (STime dates)
        /\ let filtered := mask_rows (map (in_window ts_gtb cutoff_2024_12_31) dates) W in
           totals = map (fun c => (c, zsum (numbers_of filtered c))) wallet_platforms
           /\ forall c, In c wallet_platforms ->
                rbind (getitem filtered c) series_nums = Ok (numbers_of filtered c))
  /\ (forall melted by_month by_source totals h',
         referral_charts g h = Ok ((melted, by_month, by_source, totals), h') ->
         exists dates,
           getitem R "Date" = Ok (STime dates)
           /\ let filtered := mask_rows (map (in_window ts_geb cutoff_2025_01_01) dates) R in
              totals = map (fun c => (c, zsum (numbers_of filtered c))) (referral_sources g)
              /\ forall c, In c (referral_sources g) ->
                   rbind (getitem filtered c) series_nums = Ok (numbers_of filtered c))
  /\ (forall cols totals h',
         token_source_chart g cols h = Ok (totals, h') ->
         totals = map (fun c => (c, zsum (numbers_of T c))) cols
         /\ forall c, In c cols ->
              rbind (getitem T c) series_nums = Ok (numbers_of T c)).
Proof.
  intros HW HR HT HwfW HwfR. split; [|split].
  - intros mw melted totals h' H.
    apply (wallet_charts_run _ _ _ _ _ HW) in H
      as (dates & mw' & melted' & totals' & sel & Hd & Hg & Hsel & Ht & _ & [= <- <- <-]).
    exists dates. split; [exact Hd|].
    destruct (windowed_group_totals _ _ _ _ _ _ Hd HwfW Hg) as (sel' & Hsel' & Ht' & Hall).
    rewrite Hsel in Hsel'. injection Hsel' as <-. rewrite Ht in Ht'.
    injection Ht' as ->. split; [reflexivity | exact Hall].
  - intros melted by_month by_source totals h' H.
    apply (referral_charts_run _ _ _ _ _ HR) in H
      as (dates & bs & melted' & bm & totals' & sel & total
          & Hd & Hg & Hsel & Ht & _ & _ & _ & [= -> -> -> ->]).
    exists dates. split; [exact Hd|].
    destruct (windowed_group_totals _ _ _ _ _ _ Hd HwfR Hg) as (sel' & Hsel' & Ht' & Hall).
    rewrite Hsel in Hsel'. injection Hsel' as <-. rewrite Ht in Ht'.
    injection Ht' as ->. split; [reflexivity | exact Hall].
  - intros cols totals h' H.
    apply (token_source_chart_run _ _ _ _ _ _ HT) in H as (Hout & Hall & _).
    split; assumption.
Qed.

(** C6 fails for the totals by source: a token record of 15 December 2024
    is outside the window, and the total by source counts it. *)
Lemma totals_by_source_count_all_dates :
  exists figs h,
    main old_token_workbook [] = Ok (figs, h)
    /\ strptime Fmt_mdY "12-15-2024" = on_day 2024 12 15
    /\ in_window ts_geb cutoff_2025_01_01 (on_day 2024 12 15) = false
    /\ total_tokens_by_source figs = [("Airdrop"%string, 7 + 3)]
    /\ total_tokens figs = 3.
Proof.
  eexists _, _. split; [vm_compute; reflexivity|]. repeat split.
Qed.

Lemma category_totals_witness :
  (exists mw melted totals h',
      wallet_charts sample_globals sample_store = Ok ((mw, melted, totals), h')
      /\ totals = [("Android", 3 + 2); ("iOS", 1 + 0); ("Web", 0 + 1)]%string)
  /\ (exists melted by_month by_source totals h',
         referral_charts sample_globals sample_store
         = Ok ((melted, by_month, by_source, totals), h')
         /\ totals = [("Twitter", 4 + 5); ("Friends", 1 + 1)]%string)
  /\ (exists totals h',
         token_source_chart sample_globals ["Airdrop"%string] sample_store
         = Ok (totals, h')
         /\ totals = [("Airdrop"%string, 7 + 3)]).
Proof.
  split; [|split].
  - destruct (wallet_charts sample_globals sample_store)
      as [[[[mw melted] totals] h']|e] eqn:E; [|vm_compute in E; discriminate E].
    exists mw, melted, totals, h'. split; [reflexivity|].
    destruct (category_totals sample_globals sample_store _ _ _
                eq_refl eq_refl eq_refl eq_refl eq_refl) as (Hw & _ & _).
    destruct (Hw _ _ _ _ E) as (dates & Hd & Htot & _).
    injection Hd as <-. rewrite Htot. reflexivity.
  - destruct (referral_charts sample_globals sample_store)
      as [[[[[melted by_month] by_source] totals] h']|e] eqn:E;
      [|vm_compute in E; discriminate E].
    exists melted, by_month, by_source, totals, h'. split; [reflexivity|].
    destruct (category_totals sample_globals sample_store _ _ _
                eq_refl eq_refl eq_refl eq_refl eq_refl) as (_ & Hr & _).
    destruct (Hr _ _ _ _ _ E) as (dates & Hd & Htot & _).
    injection Hd as <-. rewrite Htot. reflexivity.
  - destruct (token_source_chart sample_globals ["Airdrop"%string] sample_store)
      as [[totals h']|e] eqn:E; [|vm_compute in E; discriminate E].
    exists totals, h'. split; [reflexivity|].
    destruct (category_totals sample_globals sample_store _ _ _
                eq_refl eq_refl eq_refl eq_refl eq_refl) as (_ & _ & Ht).
    destruct (Ht _ _ _ E) as (Htot & _). rewrite Htot. reflexivity.
Defined.

Lemma token_charts_run g (h : heap) T mt total cols h' :
  h !! tokens_source_df g = Some T ->
  token_charts g h = Ok ((mt, total, cols), h') ->
  exists dates mt0 d0 labels,
    getitem T "Date" = Ok (STime dates)
    /\ let tsdf := mask_rows (map (in_window ts_geb cutoff_2025_01_01) dates) T in
       cols = detect_token_source_cols tsdf
       /\ resample_MS_sum tsdf = Ok mt0
       /\ getitem mt0 "Date" = Ok d0
       /\ strftime_BY d0 = Ok labels
       /\ let mt1 := setitem (setitem mt0 "Month" d0) "MonthLabel" labels in
          (if has_column mt1 "Total" then mt = mt1
           else exists sel rs,
               getitems mt1 cols = Ok sel
               /\ row_sums (nrows mt1) sel = Ok rs
               /\ mt = setitem mt1 "Total" rs)
          /\ rbind (getitem mt "Total") series_sum = Ok total.
Proof.
  intros HT H. unfold token_charts in H.
  rewrite (bind_run _ _ _ _ _ (load_at _ _ _ HT)) in H.
  apply bind_ok in H as (w & h1 & Hw & H). apply lift_ok in Hw as [Hw ->].
  apply window_ok in Hw as (dates & Hd & ->).
  set (tsdf := mask_rows (map (in_window ts_geb cutoff_2025_01_01) dates) T) in *.
  apply bind_ok in H as (l1 & h1 & Hl & H). injection Hl as <- <-.
  rewrite (bind_run _ _ _ _ _ (load_at _ _ _ (lookup_new h _))) in H.
  apply bind_ok in H as (mt0 & h1 & Hmt0 & H). apply lift_ok in Hmt0 as [Hmt0 ->].
  apply bind_ok in H as (l2 & h1 & Hl & H). injection Hl as <- <-.
  set (h2 := h ++ [tsdf]) in *.
  apply bind_ok in H as (d0 & h1 & Hd0 & H).
  unfold column_of in Hd0.
  rewrite (bind_run _ _ _ _ _ (load_at _ _ _ (lookup_new h2 _))) in Hd0.
  apply lift_ok in Hd0 as [Hd0 ->].
  rewrite (bind_run _ _ _ _ _ (setitem_inplace_at _ _ _ _ _ (lookup_new h2 _))) in H.
  rewrite insert_new in H.
  assert (Hd1 : getitem (setitem mt0 "Month" d0) "Date" = Ok d0)
    by (rewrite getitem_setitem_ne by discriminate; exact Hd0).
  rewrite (bind_run _ _ _ _ _ (column_of_at _ _ _ _ _ (lookup_new h2 _) Hd1)) in H.
  apply bind_ok in H as (labels & h1 & Hlab & H). apply lift_ok in Hlab as [Hlab ->].
  rewrite (bind_run _ _ _ _ _ (setitem_inplace_at _ _ _ _ _ (lookup_new h2 _))) in H.
  rewrite insert_new in H.
  set (mt1 := setitem (setitem mt0 "Month" d0) "MonthLabel" labels) in *.
  rewrite (bind_run _ _ _ _ _ (load_at _ _ _ (lookup_new h2 _))) in H.
  exists dates, mt0, d0, labels. split; [exact Hd|]. cbv zeta. fold tsdf mt1.
  split; [|split; [exact Hmt0 | split; [exact Hd0 | split; [exact Hlab|]]]].
  - apply bind_ok in H as (u & h1 & _ & H).
    apply bind_ok in H as (tc & h3 & _ & H).
    apply bind_ok in H as (tt' & h4 & _ & H).
    apply bind_ok in H as (m' & h5 & _ & H).
    injection H as _ _ <- _. reflexivity.
  - destruct (has_column mt1 "Total") eqn:Ehas.
    + unfold bind at 1 in H. unfold ret at 1 in H.
      apply bind_ok in H as (tc & h3 & Htc & H).
      unfold column_of in Htc.
      rewrite (bind_run _ _ _ _ _ (load_at _ _ _ (lookup_new h2 _))) in Htc.
      apply lift_ok in Htc as [Htc ->].
      apply bind_ok in H as (tot & h4 & Htot & H). apply lift_ok in Htot as [Htot ->].
      rewrite (bind_run _ _ _ _ _ (load_at _ _ _ (lookup_new h2 _))) in H.
      injection H as <- <- _ _.
      split; [reflexivity|]. rewrite Htc. exact Htot.
    + apply bind_ok in H as (u & h3 & Hset & H).
      apply bind_ok in Hset as (sel & h4 & Hsel & Hset).
      apply lift_ok in Hsel as [Hsel ->].
      apply bind_ok in Hset as (rs & h4 & Hrs & Hset).
      apply lift_ok in Hrs as [Hrs ->].
      rewrite (setitem_inplace_at _ _ _ _ _ (lookup_new h2 _)) in Hset.
      injection Hset as <- <-. rewrite insert_new in H.
      apply bind_ok in H as (tc & h3 & Htc & H).
      unfold column_of in Htc.
      rewrite (bind_run _ _ _ _ _ (load_at _ _ _ (lookup_new h2 _))) in Htc.
      apply lift_ok in Htc as [Htc ->].
      apply bind_ok in H as (tot & h4 & Htot & H). apply lift_ok in Htot as [Htot ->].
      rewrite (bind_run _ _ _ _ _ (load_at _ _ _ (lookup_new h2 _))) in H.
      injection H as <- <- <- _.
      split; [exists sel, rs; auto|]. rewrite Htc. exact Htot.
Qed.

(** ** The objects of a run of [create_figures] *)

Lemma lookup_older (h : heap) l t (new : list DataFrame) :
  h !! l = Some t -> (h ++ new) !! l = Some t.
Proof. intros H. rewrite lookup_app_l by (eapply lookup_lt_Some; exact H). exact H. Qed.

Lemma token_charts_store g (h : heap) T out h' :
  h !! tokens_source_df g = Some T ->
  token_charts g h = Ok (out, h') ->
  exists w, window ts_geb cutoff_2025_01_01 T = Ok w
            /\ h' = h ++ [w; fst (fst out)].
Proof.
  intros HT H. unfold token_charts in H.
  rewrite (bind_run _ _ _ _ _ (load_at _ _ _ HT)) in H.
  apply bind_ok in H as (w & h1 & Hw & H). apply lift_ok in Hw as [Hw ->].
  exists w. split; [exact Hw|].
  apply bind_ok in H as (l1 & h1 & Hl & H). injection Hl as <- <-.
  rewrite (bind_run _ _ _ _ _ (load_at _ _ _ (lookup_new h _))) in H.
  apply bind_ok in H as (mt0 & h1 & Hmt0 & H). apply lift_ok in Hmt0 as [Hmt0 ->].
  apply bind_ok in H as (l2 & h1 & Hl & H). injection Hl as <- <-.
  set (h2 := h ++ [w]) in *.
  apply bind_ok in H as (d0 & h1 & Hd0 & H).
  unfold column_of in Hd0.
  rewrite (bind_run _ _ _ _ _ (load_at _ _ _ (lookup_new h2 _))) in Hd0.
  apply lift_ok in Hd0 as [Hd0 ->].
  rewrite (bind_run _ _ _ _ _ (setitem_inplace_at _ _ _ _ _ (lookup_new h2 _))) in H.
  rewrite insert_new in H.
  apply bind_ok in H as (d1 & h1 & Hd1 & H).
  unfold column_of in Hd1.
  rewrite (bind_run _ _ _ _ _ (load_at _ _ _ (lookup_new h2 _))) in Hd1.
  apply lift_ok in Hd1 as [Hd1 ->].
  apply bind_ok in H as (labels & h1 & Hlab & H). apply lift_ok in Hlab as [Hlab ->].
  rewrite (bind_run _ _ _ _ _ (setitem_inplace_at _ _ _ _ _ (lookup_new h2 _))) in H.
  rewrite insert_new in H.
  rewrite (bind_run _ _ _ _ _ (load_at _ _ _ (lookup_new h2 _))) in H.
  apply bind_ok in H as (u & h3 & Hset & H).
  assert (Hh3 : exists mt, h3 = h2 ++ [mt]).
  { destruct (has_column _ "Total").
    - injection Hset as _ <-. eauto.
    - apply bind_ok in Hset as (sel & h4 & Hsel & Hset).
      apply lift_ok in Hsel as [Hsel ->].
      apply bind_ok in Hset as (rs & h4 & Hrs & Hset).
      apply lift_ok in Hrs as [Hrs ->].
      rewrite (setitem_inplace_at _ _ _ _ _ (lookup_new h2 _)) in Hset.
      injection Hset as _ <-. rewrite insert_new. eauto. }
  destruct Hh3 as [mt ->].
  apply bind_ok in H as (tc & h3 & Htc & H).
  unfold column_of in Htc.
  rewrite (bind_run _ _ _ _ _ (load_at _ _ _ (lookup_new h2 _))) in Htc.
  apply lift_ok in Htc as [Htc ->].
  apply bind_ok in H as (tot & h4 & Htot & H). apply lift_ok in Htot as [Htot ->].
  rewrite (bind_run _ _ _ _ _ (load_at _ _ _ (lookup_new h2 _))) in H.
  injection H as <- <-. cbn [fst]. unfold h2. rewrite <- app_assoc. reflexivity.
Qed.

Lemma window_windowed test c t dates :
  getitem t "Date" = Ok (STime dates) ->
  exists w ms,
    window test c t = Ok w
    /\ rbind (getitem w "Date") month_floor = Ok ms
    /\ windowed test c dates t = setitem w "Month" ms.
Proof.
  intros Hd. eexists _, _. split; [unfold window; rewrite Hd; reflexivity|].
  split; [rewrite getitem_mask_rows, Hd; reflexivity | reflexivity].
Qed.

Lemma wallet_charts_store g (h : heap) W out h' :
  h !! wallet_df g = Some W -> wallet_charts g h = Ok (out, h') ->
  exists dates,
    getitem W "Date" = Ok (STime dates)
    /\ h' = h ++ [windowed ts_gtb cutoff_2024_12_31 dates W].
Proof.
  intros HW H. unfold wallet_charts in H.
  rewrite (bind_run _ _ _ _ _ (load_at _ _ _ HW)) in H.
  apply windowed_copy_run in H as (dates & Hd & H).
  apply bind_ok in H as (mw & h1 & Hmw & H). apply lift_ok in Hmw as [Hmw ->].
  apply bind_ok in H as (sel & h1 & Hsel & H). apply lift_ok in Hsel as [Hsel ->].
  apply bind_ok in H as (totals & h1 & Ht & H). apply lift_ok in Ht as [Ht ->].
  apply bind_ok in H as (melted & h1 & Hm & H). apply lift_ok in Hm as [Hm ->].
  injection H as _ <-. exists dates. split; [exact Hd | reflexivity].
Qed.

Lemma referral_charts_store g (h : heap) R out h' :
  h !! referral_df g = Some R -> referral_charts g h = Ok (out, h') ->
  exists dates by_source total,
    getitem R "Date" = Ok (STime dates)
    /\ groupby_sum (windowed ts_geb cutoff_2025_01_01 dates R) "Month" (referral_sources g)
       = Ok by_source
    /\ snd (fst out) = setitem by_source "Total" total
    /\ h' = h ++ [windowed ts_geb cutoff_2025_01_01 dates R; snd (fst out)].
Proof.
  intros HR H. unfold referral_charts in H.
  rewrite (bind_run _ _ _ _ _ (load_at _ _ _ HR)) in H.
  apply windowed_copy_run in H as (dates & Hd & H).
  apply bind_ok in H as (bs & h1 & Hbs & H). apply lift_ok in Hbs as [Hbs ->].
  apply bind_ok in H as (l & h1 & Hl & H). injection Hl as <- <-.
  apply bind_ok in H as (sel & h1 & Hsel & H). apply lift_ok in Hsel as [Hsel ->].
  apply bind_ok in H as (totals & h1 & Ht & H). apply lift_ok in Ht as [Ht ->].
  apply bind_ok in H as (melted & h1 & Hm & H). apply lift_ok in Hm as [Hm ->].
  apply bind_ok in H as (bm & h1 & Hbm & H). apply lift_ok in Hbm as [Hbm ->].
  rewrite (bind_run _ _ _ _ _ (load_at _ _ _ (lookup_new _ _))) in H.
  rewrite Hsel in H. unfold lift at 1 in H. unfold bind at 1 in H.
  apply bind_ok in H as (total & h1 & Htot & H). apply lift_ok in Htot as [Htot ->].
  rewrite (bind_run _ _ _ _ _ (setitem_inplace_at _ _ _ _ _ (lookup_new _ _))) in H.
  rewrite insert_new in H.
  rewrite (bind_run _ _ _ _ _ (load_at _ _ _ (lookup_new _ _))) in H.
  injection H as <- <-. cbn [fst snd].
  exists dates, bs, total. split; [exact Hd|]. split; [exact Hbs|].
  split; [reflexivity|]. rewrite <- app_assoc. reflexivity.
Qed.

Lemma fee_chart_store g (h : heap) F out h' :
  h !! fee_df g = Some F -> fee_chart g h = Ok (out, h') ->
  exists dates,
    getitem F "Date" = Ok (STime dates)
    /\ h' = h ++ [windowed ts_gtb cutoff_2024_12_31 dates F].
Proof.
  intros HF H. unfold fee_chart in H.
  rewrite (bind_run _ _ _ _ _ (load_at _ _ _ HF)) in H.
  apply windowed_copy_run in H as (dates & Hd & H).
  apply bind_ok in H as (mf & h1 & Hmf & H). apply lift_ok in Hmf as [Hmf ->].
  apply bind_ok in H as (fee & h1 & Hfee & H). apply lift_ok in Hfee as [Hfee ->].
  apply bind_ok in H as (tot & h1 & Htot & H). apply lift_ok in Htot as [Htot ->].
  injection H as _ <-. exists dates. split; [exact Hd | reflexivity].
Qed.

Lemma column_of_ok (h : heap) l t col s h1 :
  h !! l = Some t -> column_of l col h = Ok (s, h1) -> getitem t col = Ok s /\ h1 = h.
Proof.
  intros Hl H. unfold column_of in H.
  rewrite (bind_run _ _ _ _ _ (load_at _ _ _ Hl)) in H.
  apply lift_ok in H. exact H.
Qed.

Lemma pie_charts_store g (h : heap) T out h' :
  h !! tokens_source_df g = Some T -> pie_charts g h = Ok (out, h') ->
  exists d w ms labels sorted,
    getitem T "Date" = Ok d
    /\ rbind (window ts_geb cutoff_2025_01_01 (setitem T "Date" (to_datetime None d)))
         (fun w => dropna w "Date") = Ok w
    /\ rbind (getitem w "Date") month_floor = Ok ms
    /\ strftime_bY ms = Ok labels
    /\ sort_values (setitem (setitem w "Month_dt" ms) "Month" labels) "Month_dt" = Ok sorted
    /\ h' = h ++ [ setitem T "Date" (to_datetime None d);
                   setitem (setitem w "Month_dt" ms) "Month" labels;
                   sorted ].
Proof.
  intros HT H. unfold pie_charts in H.
  rewrite (bind_run _ _ _ _ _ (load_at _ _ _ HT)) in H.
  rewrite (bind_run _ _ _ _ _ (alloc_run _ _)) in H.
  apply bind_ok in H as (d & h1 & Hd & H).
  apply (column_of_ok _ _ _ _ _ _ (lookup_new h _)) in Hd as [Hd ->].
  rewrite (bind_run _ _ _ _ _ (setitem_inplace_at _ _ _ _ _ (lookup_new h _))) in H.
  rewrite insert_new in H.
  set (t1 := setitem T "Date" (to_datetime None d)) in *.
  rewrite (bind_run _ _ _ _ _ (load_at _ _ _ (lookup_new h _))) in H.
  apply bind_ok in H as (w0 & h1 & Hw0 & H). apply lift_ok in Hw0 as [Hw0 ->].
  apply bind_ok in H as (w & h1 & Hw & H). apply lift_ok in Hw as [Hw ->].
  rewrite (bind_run _ _ _ _ _ (alloc_run _ _)) in H.
  set (h2 := h ++ [t1]) in *.
  apply bind_ok in H as (d' & h1 & Hd' & H).
  apply (column_of_ok _ _ _ _ _ _ (lookup_new h2 _)) in Hd' as [Hd' ->].
  apply bind_ok in H as (ms & h1 & Hms & H). apply lift_ok in Hms as [Hms ->].
  rewrite (bind_run _ _ _ _ _ (setitem_inplace_at _ _ _ _ _ (lookup_new h2 _))) in H.
  rewrite insert_new in H.
  apply bind_ok in H as (d'' & h1 & Hd'' & H).
  apply (column_of_ok _ _ _ _ _ _ (lookup_new h2 _)) in Hd'' as [Hd'' ->].
  rewrite getitem_setitem_eq in Hd''. injection Hd'' as <-.
  apply bind_ok in H as (labels & h1 & Hlab & H). apply lift_ok in Hlab as [Hlab ->].
  rewrite (bind_run _ _ _ _ _ (setitem_inplace_at _ _ _ _ _ (lookup_new h2 _))) in H.
  rewrite insert_new in H.
  set (t2 := setitem (setitem w "Month_dt" ms) "Month" labels) in *.
  rewrite (bind_run _ _ _ _ _ (load_at _ _ _ (lookup_new h2 _))) in H.
  apply bind_ok in H as (sorted & h1 & Hs & H). apply lift_ok in Hs as [Hs ->].
  rewrite (bind_run _ _ _ _ _ (alloc_run _ _)) in H.
  set (h3 := h2 ++ [t2]) in *.
  apply bind_ok in H as (m & h1 & Hm & H).
  apply (column_of_ok _ _ _ _ _ _ (lookup_new h3 _)) in Hm as [Hm ->].
  rewrite (bind_run _ _ _ _ _ (load_at _ _ _ (lookup_new h3 _))) in H.
  apply bind_ok in H as (melted & h1 & Hmelt & H). apply lift_ok in Hmelt as [_ ->].
  apply bind_ok in H as (md & h1 & Hmd & H). apply lift_ok in Hmd as [_ ->].
  apply bind_ok in H as (grid & h1 & Hg & H). apply lift_ok in Hg as [_ ->].
  apply bind_ok in H as (ps & h1 & Hps & H). apply lift_ok in Hps as [_ ->].
  apply bind_ok in H as (tc & h1 & Htc & H). apply lift_ok in Htc as [_ ->].
  apply bind_ok in H as (grand & h1 & Hgr & H). apply lift_ok in Hgr as [_ ->].
  injection H as _ <-.
  exists d, w, ms, labels, sorted. split; [exact Hd|].
  split; [fold t1; rewrite Hw0; exact Hw|].
  split; [rewrite Hd'; exact Hms|].
  split; [exact Hlab|]. split; [exact Hs|].
  unfold h3, h2. rewrite <- !app_assoc. reflexivity.
Qed.

(** C9, as the code has it.  [create_figures] leaves every table that
    existed when it was called as it was: it filters into copies, and
    the monthly sums and the long forms are new tables.  The tables it
    makes itself it does update in place.  A run adds nine tables to the
    store: the windowed copy of the token table; the monthly token table,
    which is the table that the monthly sums returned with the [Month]
    and [MonthLabel] columns and, when it had none, the [Total] column
    assigned on it (lines 41-45); the windowed copies of the wallet,
    referral and fee tables, each with a [Month] column assigned on it
    (lines 73, 115, 159); the monthly referral table, with a [Total]
    column assigned on it (line 148); and the three tables of the pie
    section, the first a copy of the token table with its [Date] column
    assigned again (line 199), the second the windowed rows with the
    [Month_dt] and [Month] columns assigned on them (lines 201-202).
    Category detection is a function of the table it reads.  Cleaning
    the dates is done on the loaded table itself: its [Date] column is
    replaced and the rows with an unreadable date are removed from it;
    the tables at other references stay as they were. *)
Theorem stages_and_the_store (g : Globals) (h : heap) (T W R F : DataFrame)
    (figs : Figures) (h' : heap) :
  h !! tokens_source_df g = Some T -> h !! wallet_df g = Some W ->
  h !! referral_df g = Some R -> h !! fee_df g = Some F ->
  create_figures g h = Ok (figs, h') ->
  (length h <= length h')%nat
  /\ (forall l, (l < length h)%nat -> h' !! l = h !! l)
  /\ (exists wT mt0 wW msW wR msR by_source wF msF dT wP msP labelsP sorted,
         h' = h ++ [ wT; monthly_tokens figs;
                     setitem wW "Month" msW;
                     setitem wR "Month" msR; referral_by_source figs;
                     setitem wF "Month" msF;
                     setitem T "Date" (to_datetime None dT);
                     setitem (setitem wP "Month_dt" msP) "Month" labelsP;
                     sorted ]
         /\ window ts_geb cutoff_2025_01_01 T = Ok wT
         /\ resample_MS_sum wT = Ok mt0
         /\ (exists d0 labels,
                getitem mt0 "Date" = Ok d0
                /\ strftime_BY d0 = Ok labels
                /\ let mt1 := setitem (setitem mt0 "Month" d0) "MonthLabel" labels in
                   if has_column mt1 "Total" then monthly_tokens figs = mt1
                   else exists total, monthly_tokens figs = setitem mt1 "Total" total)
         /\ window ts_gtb cutoff_2024_12_31 W = Ok wW
         /\ rbind (getitem wW "Date") month_floor = Ok msW
         /\ window ts_geb cutoff_2025_01_01 R = Ok wR
         /\ rbind (getitem wR "Date") month_floor = Ok msR
         /\ groupby_sum (setitem wR "Month" msR) "Month" (referral_sources g) = Ok by_source
         /\ (exists total, referral_by_source figs = setitem by_source "Total" total)
         /\ window ts_gtb cutoff_2024_12_31 F = Ok wF
         /\ rbind (getitem wF "Date") month_floor = Ok msF
         /\ getitem T "Date" = Ok dT
         /\ rbind (window ts_geb cutoff_2025_01_01 (setitem T "Date" (to_datetime None dT)))
              (fun w => dropna w "Date") = Ok wP
         /\ rbind (getitem wP "Date") month_floor = Ok msP
         /\ strftime_bY msP = Ok labelsP
         /\ sort_values (setitem (setitem wP "Month_dt" msP) "Month" labelsP) "Month_dt"
            = Ok sorted)
  /\ (forall l t d,
         h !! l = Some t -> getitem t "Date" = Ok d ->
         exists t',
           clean_dates l h = Ok (tt, <[l := t']> h)
           /\ <[l := t']> h !! l = Some t'
           /\ getitem t' "Date" = Ok (STime (List.filter has_stamp (parse_series (Some Fmt_Ymd) d)))
           /\ forall l', l' <> l -> <[l := t']> h !! l' = h !! l').
Proof.
  intros HT HW HR HF H.
  destruct (frames_create_figures (length h) g h figs h' (Nat.le_refl _) H)
    as (Hlen & Hold & _).
  split; [exact Hlen|]. split; [exact Hold|]. split.
  - unfold create_figures in H.
    apply bind_ok in H as ([[mt tot] cols] & h1 & H1 & H).
    apply bind_ok in H as ([[mw wm] pt] & h2 & H2 & H).
    apply bind_ok in H as ([[[rm bm] bs] rt] & h3 & H3 & H).
    apply bind_ok in H as ([mf tf] & h4 & H4 & H).
    apply bind_ok in H as (by_src & h5 & H5 & H).
    apply bind_ok in H as ([ps grand] & h6 & H6 & H).
    injection H as <- <-. cbn [monthly_tokens referral_by_source].
    destruct (token_charts_store _ _ _ _ _ HT H1) as (wT & HwT & ->).
    destruct (token_charts_run _ _ _ _ _ _ _ HT H1)
      as (datesT & mt0 & d0 & labels & HdT & _ & Hmt0 & Hd0 & Hlab & Hmt & _).
    assert (EwT : wT = mask_rows (map (in_window ts_geb cutoff_2025_01_01) datesT) T).
    { unfold window in HwT. rewrite HdT in HwT. injection HwT as <-. reflexivity. }
    cbn [fst] in *.
    destruct (wallet_charts_store _ _ _ _ _ (lookup_older _ _ _ _ HW) H2)
      as (datesW & HdW & ->).
    destruct (window_windowed ts_gtb cutoff_2024_12_31 W datesW HdW)
      as (wW & msW & HwW & HmsW & EwW).
    rewrite EwW in *.
    rewrite <- app_assoc in H3.
    destruct (referral_charts_store _ _ _ _ _ (lookup_older _ _ _ _ HR) H3)
      as (datesR & by_source & total & HdR & Hbs & Ebs & ->).
    cbn [fst snd] in *.
    destruct (window_windowed ts_geb cutoff_2025_01_01 R datesR HdR)
      as (wR & msR & HwR & HmsR & EwR).
    rewrite EwR in *.
    rewrite <- app_assoc in H4.
    destruct (fee_chart_store _ _ _ _ _ (lookup_older _ _ _ _ HF) H4)
      as (datesF & HdF & ->).
    destruct (window_windowed ts_gtb cutoff_2024_12_31 F datesF HdF)
      as (wF & msF & HwF & HmsF & EwF).
    rewrite EwF in *.
    rewrite <- app_assoc in H5.
    destruct (token_source_chart_run _ _ _ _ _ _ (lookup_older _ _ _ _ HT) H5)
      as (_ & _ & ->).
    destruct (pie_charts_store _ _ _ _ _ (lookup_older _ _ _ _ HT) H6)
      as (dT & wP & msP & labelsP & sorted & HdT' & HwP & HmsP & HlabP & Hsort & ->).
    exists wT, mt0, wW, msW, wR, msR, by_source, wF, msF, dT, wP, msP, labelsP, sorted.
    split; [rewrite <- app_assoc; reflexivity|].
    split; [exact HwT|]. split; [rewrite EwT; exact Hmt0|].
    split.
    { exists d0, labels. split; [exact Hd0|]. split; [exact Hlab|]. cbv zeta.
      destruct (has_column _ "Total"); [exact Hmt|].
      destruct Hmt as (sel & rs & _ & _ & Hmt). eauto. }
    split; [exact HwW|]. split; [exact HmsW|].
    split; [exact HwR|]. split; [exact HmsR|].
    split; [exact Hbs|]. split; [exists total; exact Ebs|].
    split; [exact HwF|]. split; [exact HmsF|].
    split; [exact HdT'|]. split; [exact HwP|]. split; [exact HmsP|].
    split; [exact HlabP | exact Hsort].
  - intros l t d Hl Hd.
    eexists. split; [apply clean_dates_spec; eassumption|].
    split; [eapply lookup_stored; exact Hl|].
    split; [rewrite getitem_mask_rows, getitem_setitem_eq; simpl;
            rewrite mask_has_stamp; reflexivity|].
    intros l' Hne. apply list_lookup_insert_ne. congruence.
Qed.

Lemma stages_and_the_store_witness :
  exists figs h',
    create_figures sample_globals sample_store = Ok (figs, h')
    /\ firstn 4 h' = sample_store
    /\ length h' = 13%nat
    /\ h' !! 5%nat = Some (monthly_tokens figs)
    /\ columns (monthly_tokens figs) = ["Date"; "Airdrop"; "Month"; "MonthLabel"; "Total"]%string.
Proof.
  destruct (create_figures sample_globals sample_store) as [[figs h']|e] eqn:Hrun;
    [|vm_compute in Hrun; discriminate Hrun].
  exists figs, h'. split; [reflexivity|].
  destruct (stages_and_the_store sample_globals sample_store _ _ _ _ figs h'
              eq_refl eq_refl eq_refl eq_refl Hrun)
    as (Hlen & Hold & Hnew & _).
  split.
  { apply list_eq. intros l. destruct (Nat.lt_ge_cases l 4) as [Hl | Hl].
    - rewrite lookup_take_lt by exact Hl. apply Hold. exact Hl.
    - rewrite lookup_take_ge by exact Hl. symmetry. apply lookup_ge_None. simpl. lia. }
  destruct Hnew as (wT & mt0 & wW & msW & wR & msR & bs & wF & msF & dT & wP & msP
                    & labelsP & sorted & -> & _).
  split; [reflexivity|]. split; [reflexivity|].
  vm_compute in Hrun. injection Hrun as <- _. reflexivity.
Defined.

(** C9 fails for the cleaning of the dates: of the five fee records of
    the table at reference 0, three are left in that same table, and
    after loading the sample workbook the referral table held by the
    sheet mapping [df] is no longer the table that was read. *)
Lemma date_cleaning_updates_the_loaded_table :
  (exists t3,
      clean_dates 0 [five_fees] = Ok (tt, [t3])
      /\ nrows five_fees = 5%nat /\ nrows t3 = 3%nat /\ t3 <> five_fees)
  /\ (exists g h l t,
         load_data sample_workbook [] = Ok (g, h)
         /\ df g !! "Referrals"%string = Some l
         /\ h !! l = Some t
         /\ columns sample_referrals = ["Date"; "Twitter"; "Friends"]%string
         /\ columns t = ["Date"; "Twitter"; "Friends"; "Referrals"]%string
         /\ t <> sample_referrals).
Proof.
  split.
  - eexists. split; [vm_compute; reflexivity|].
    split; [reflexivity|]. split; [reflexivity|]. discriminate.
  - eexists _, _, _, _. split; [vm_compute; reflexivity|].
    split; [reflexivity|]. split; [reflexivity|].
    split; [reflexivity|]. split; [reflexivity|]. discriminate.
Qed.

(** ** Grand totals *)

Lemma rmap_ok_from {A B} (f : A -> result B) l bs :
  rmap f l = Ok bs -> forall b, In b bs -> exists a, In a l /\ f a = Ok b.
Proof.
  revert bs. induction l as [|a l IH]; intros bs H b Hb.
  - injection H as <-. destruct Hb.
  - apply rmap_ok_cons in H as (b0 & bs' & Hb0 & Hl & ->).
    destruct Hb as [<- | Hb].
    + exists a. split; [left; reflexivity | exact Hb0].
    + destruct (IH _ Hl _ Hb) as (a' & Ha' & Hfa'). exists a'.
      split; [right; exact Ha' | exact Hfa'].
Qed.

Lemma column_totals_of_nums sel cs :
  rmap (fun c : string * Series => series_nums (snd c)) sel = Ok cs ->
  exists totals, column_totals sel = Ok totals /\ map snd totals = map zsum cs.
Proof.
  unfold column_totals. revert cs. induction sel as [|c sel IH]; intros cs H.
  - injection H as <-. exists []. split; reflexivity.
  - apply rmap_ok_cons in H as (xs & cs' & Hxs & Hrest & ->).
    destruct (IH _ Hrest) as (totals & Ht & Hsnd).
    exists ((fst c, zsum xs) :: totals). simpl. rewrite Hxs. simpl. rewrite Ht.
    split; [reflexivity|]. simpl. rewrite Hsnd. reflexivity.
Qed.

Lemma zsum_nth_seq_le xs n :
  (length xs <= n)%nat -> zsum (map (fun i => nth i xs 0) (seq 0 n)) = zsum xs.
Proof.
  intros Hle. replace n with (length xs + (n - length xs))%nat by lia.
  rewrite seq_app, map_app, zsum_app, zsum_nth_seq. simpl.
  rewrite (zsum_map_ext _ (fun _ => 0)); [rewrite zsum_map_zero; lia|].
  intros i Hi. apply in_seq in Hi. apply nth_overflow. lia.
Qed.

(** In a table whose columns have the length of the table, the sum of the
    row totals over a selection of columns is the sum of the totals of
    these columns. *)
Lemma row_sums_total t cols sel rs :
  wf_frame t = true -> getitems t cols = Ok sel ->
  row_sums (nrows t) sel = Ok rs ->
  exists totals,
    column_totals sel = Ok totals /\ series_sum rs = Ok (zsum (map snd totals)).
Proof.
  intros Hwf Hsel Hrs. unfold row_sums in Hrs.
  apply rbind_ok in Hrs as (cs & Hcs & Hrs). injection Hrs as <-.
  destruct (column_totals_of_nums _ _ Hcs) as (totals & Ht & Hsnd).
  exists totals. split; [exact Ht|]. rewrite Hsnd. simpl. unfold series_sum. simpl.
  f_equal. rewrite (zsum_exchange (fun i xs => nth i xs 0)).
  rewrite <- (map_id cs) at 2. rewrite !map_map.
  apply zsum_map_ext. intros xs Hxs. apply zsum_nth_seq_le.
  destruct (rmap_ok_from _ _ _ Hcs _ Hxs) as ([c s] & Hin & Hnum). simpl in Hnum.
  unfold getitems in Hsel.
  destruct (rmap_ok_from _ _ _ Hsel _ Hin) as (c' & _ & Hget).
  destruct (getitem t c') as [s'|e] eqn:Hs'; [|discriminate Hget].
  injection Hget as <- <-.
  rewrite (series_nums_length _ _ Hnum), (wf_frame_length _ _ _ Hwf Hs'). lia.
Qed.

Lemma nrows_setitem t col s :
  wf_frame t = true -> series_len s = nrows t -> nrows (setitem t col s) = nrows t.
Proof.
  destruct t as [|[n s0] t]; simpl; intros Hwf Hs; [exact Hs|].
  destruct (String.eqb n col); simpl; [exact Hs | reflexivity].
Qed.

Lemma forallb_len_setitem n t col s :
  forallb (fun c : string * Series => (series_len (snd c) =? n)%nat) t = true ->
  series_len s = n ->
  forallb (fun c : string * Series => (series_len (snd c) =? n)%nat) (setitem t col s)
  = true.
Proof.
  intros H Hs. induction t as [|[c s0] t IH]; simpl in *.
  - rewrite andb_true_r. apply Nat.eqb_eq. exact Hs.
  - apply andb_prop in H as [H1 H2].
    destruct (String.eqb c col); simpl.
    + rewrite H2, andb_true_r. apply Nat.eqb_eq. exact Hs.
    + rewrite H1. simpl. apply IH. exact H2.
Qed.

Lemma wf_frame_setitem t col s :
  wf_frame t = true -> series_len s = nrows t -> wf_frame (setitem t col s) = true.
Proof.
  intros Hwf Hs. unfold wf_frame. rewrite (nrows_setitem _ _ _ Hwf Hs).
  apply forallb_len_setitem; assumption.
Qed.

Lemma numeric_data_In df c xs :
  In (c, xs) (numeric_data df)
  <-> exists s, In (c, s) df /\ is_numeric_dtype s = true /\ series_nums s = Ok xs.
Proof.
  unfold numeric_data. rewrite in_flat_map. split.
  - intros ([c' s'] & Hin & H). simpl in H.
    destruct s' as [ys|ts|os|bs]; simpl in H.
    + destruct H as [[= <- <-] | []]. eexists. split; [exact Hin|]. split; reflexivity.
    + destruct H.
    + destruct H.
    + destruct H as [[= <- <-] | []]. eexists. split; [exact Hin|]. split; reflexivity.
  - intros (s0 & Hin & Hnum & Hxs). exists (c, s0). split; [exact Hin|].
    destruct s0 as [ys|ts|os|bs]; try discriminate Hnum; simpl in *;
      injection Hxs as <-; left; reflexivity.
Qed.

Lemma numeric_data_names df :
  map fst (numeric_data df)
  = map fst (List.filter (fun c => is_numeric_dtype (snd c)) df).
Proof.
  unfold numeric_data. induction df as [|[c s0] df IH]; simpl; [reflexivity|].
  destruct s0; simpl; rewrite IH; reflexivity.
Qed.

Lemma numeric_names_mask m t :
  map fst (List.filter (fun c => is_numeric_dtype (snd c)) (mask_rows m t))
  = map fst (List.filter (fun c => is_numeric_dtype (snd c)) t).
Proof.
  unfold mask_rows. induction t as [|[c s0] t IH]; simpl; [reflexivity|].
  destruct s0; simpl; rewrite IH; reflexivity.
Qed.

(** What [resample_MS_sum] returns when it returns: there is a dated
    row. *)
Lemma resample_MS_sum_ok t mt0 :
  resample_MS_sum t = Ok mt0 ->
  exists d keys,
    getitem t "Date" = Ok d /\ month_keys d = Ok keys /\ somes keys <> []
    /\ mt0 = ("Date"%string, month_column (month_span (somes keys)))
               :: map (fun c => (fst c, SNum (map (sum_where keys (snd c))
                                                (month_span (somes keys)))))
                    (numeric_data t).
Proof.
  unfold resample_MS_sum. intros H. apply rbind_ok in H as (d & Hd & H).
  apply rbind_ok in H as (keys & Hk & H). exists d, keys.
  destruct (somes keys) as [|k r] eqn:E; [discriminate H|].
  injection H as <-. split; [exact Hd|]. split; [exact Hk|]. split; [discriminate|].
  reflexivity.
Qed.

Lemma resample_MS_sum_run t d keys :
  getitem t "Date" = Ok d -> month_keys d = Ok keys -> somes keys <> [] ->
  resample_MS_sum t
  = Ok (("Date"%string, month_column (month_span (somes keys)))
          :: map (fun c => (fst c, SNum (map (sum_where keys (snd c))
                                           (month_span (somes keys)))))
               (numeric_data t)).
Proof.
  intros Hd Hk Hne. unfold resample_MS_sum. rewrite Hd. cbn [rbind]. rewrite Hk.
  cbn [rbind]. destruct (somes keys); [congruence | reflexivity].
Qed.

Lemma resample_MS_sum_empty t d keys :
  getitem t "Date" = Ok d -> month_keys d = Ok keys -> somes keys = [] ->
  resample_MS_sum t = Raise AttributeError.
Proof.
  intros Hd Hk He. unfold resample_MS_sum. rewrite Hd. cbn [rbind]. rewrite Hk.
  cbn [rbind]. rewrite He. reflexivity.
Qed.

Lemma resample_MS_sum_wf t mt0 :
  resample_MS_sum t = Ok mt0 ->
  wf_frame mt0 = true
  /\ exists bins, getitem mt0 "Date" = Ok (month_column bins)
                  /\ nrows mt0 = length bins.
Proof.
  intros H. apply resample_MS_sum_ok in H as (d & keys & Hd & Hk & _ & ->).
  set (bins := month_span (somes keys)). split.
  - unfold wf_frame. simpl. rewrite Nat.eqb_refl. simpl.
    apply forallb_forall. intros [c s0] Hin. apply in_map_iff in Hin as ([c' xs] & [= <- <-] & _).
    simpl. rewrite !length_map. apply Nat.eqb_refl.
  - exists bins. split; [reflexivity|]. simpl. apply length_map.
Qed.

Lemma length_concat_uniform (table : list (list Z)) n :
  (forall xs, In xs table -> length xs = n) ->
  length (concat table) = (length table * n)%nat.
Proof.
  induction table as [|xs table IH]; intros H; simpl; [reflexivity|].
  rewrite length_app, IH, (H xs) by (try (left; reflexivity); intros; apply H; right; assumption).
  reflexivity.
Qed.

(** Category totals, month totals and the long form of a monthly table
    made by [groupby_sum] add up to the same number. *)
Lemma monthly_table_totals f cols wide :
  groupby_sum f "Month" cols = Ok wide ->
  exists sel totals month_totals,
    getitems wide cols = Ok sel
    /\ column_totals sel = Ok totals
    /\ row_sums (nrows wide) sel = Ok (SNum month_totals)
    /\ zsum month_totals = zsum (map snd totals)
    /\ forall var val long by_month,
         melt wide "Month" cols var val = Ok long ->
         val <> "Month"%string -> val <> var ->
         groupby_sum long "Month" [val] = Ok by_month ->
         exists long_totals,
           getitem by_month val = Ok (SNum long_totals)
           /\ zsum long_totals = zsum (map snd totals).
Proof.
  intros Hg.
  apply groupby_sum_columns in Hg as (keys & Hk & Hout & Hall & Hcol & Hsel & Hn).
  set (ks := unique_sorted (somes keys)) in *.
  set (g := fun c => map (sum_where keys (numbers_of f c)) ks) in *.
  assert (Hlen : forall c, In c cols -> length (g c) = length ks)
    by (intros c _; apply length_map).
  eexists _, _, _. split; [exact Hsel|]. split; [apply column_totals_named|].
  rewrite Hn. split; [apply row_sums_named|].
  assert (Htot : zsum (map snd (map (fun c => (c, zsum (g c))) cols))
                 = zsum (map (fun c => zsum (g c)) cols))
    by (rewrite map_map; reflexivity).
  split; [etransitivity; [apply (row_totals_column_totals g); exact Hlen
                         | symmetry; exact Htot]|].
  intros var val long by_month Hm Hv1 Hv2 Hbm.
  pose proof (melt_ok_has_column _ _ _ _ _ _ Hm) as Hhas.
  rewrite (melt_named _ _ _ _ _ _ _ Hout Hhas Hcol) in Hm. injection Hm as <-.
  apply groupby_sum_columns in Hbm as (lkeys & Hlk & _ & _ & Hbcol & _ & _).
  rewrite getitem_cons, String.eqb_refl in Hlk. cbv beta iota delta [rbind] in Hlk.
  pose proof (month_keys_tile ks (length cols)) as Hmk.
  cbn [tile month_column] in Hmk. rewrite Hmk in Hlk. injection Hlk as <-.
  specialize (Hbcol val (or_introl eq_refl)).
  unfold numbers_of in Hbcol. rewrite getitem_third in Hbcol by congruence.
  cbn [rbind series_nums] in Hbcol.
  eexists. split; [exact Hbcol|].
  rewrite sum_where_partition;
    [| apply sorted_lt_nodup, unique_sorted_sorted
     | intros k Hk'; apply unique_sorted_In; exact Hk'].
  assert (Hkeys : map has_key (concat (repeat (map Some ks) (length cols)))
                  = map (fun _ => true) (concat (repeat (map Some ks) (length cols)))).
  { apply map_ext_in. intros o Ho. apply In_concat_repeat in Ho as [_ Ho].
    apply in_map_iff in Ho as (k & <- & _). reflexivity. }
  rewrite Hkeys, mask_list_true.
  - etransitivity; [|symmetry; exact Htot].
    rewrite zsum_concat, map_map. reflexivity.
  - rewrite length_concat_repeat, length_map.
    rewrite (length_concat_uniform _ (length ks)), length_map; [reflexivity|].
    intros xs Hxs. apply in_map_iff in Hxs as (c & <- & Hc). apply Hlen. exact Hc.
Qed.

Lemma has_column_setitem_ne t col col' s :
  col <> col' -> has_column (setitem t col s) col' = has_column t col'.
Proof.
  intros Hne. unfold has_column, columns.
  induction t as [|[n s0] t IH]; simpl.
  - rewrite orb_false_r. apply not_true_iff_false. intros E.
    apply String.eqb_eq in E. congruence.
  - destruct (String.eqb n col) eqn:E; simpl; [reflexivity|].
    rewrite IH. reflexivity.
Qed.

Lemma getitems_setitem_absent t col s cols :
  ~ In col cols -> getitems (setitem t col s) cols = getitems t cols.
Proof.
  intros Hnot. unfold getitems. apply rmap_ext. intros c Hc.
  rewrite getitem_setitem_ne; [reflexivity|]. intros ->. contradiction.
Qed.

Lemma detect_token_source_cols_no_total t : ~ In "Total"%string (detect_token_source_cols t).
Proof.
  unfold detect_token_source_cols. intros H. apply filter_In in H as [_ H].
  discriminate H.
Qed.

Lemma strftime_BY_length d labels :
  strftime_BY d = Ok labels -> series_len labels = series_len d.
Proof.
  destruct d; try discriminate. intros [= <-]. simpl. apply length_map.
Qed.

Lemma has_column_In t col : has_column t col = true <-> In col (columns t).
Proof.
  unfold has_column. rewrite existsb_exists. split.
  - intros (c & Hc & E). apply String.eqb_eq in E. subst c. exact Hc.
  - intros H. exists col. split; [exact H | apply String.eqb_refl].
Qed.

(** The resampled token table has a [Total] column exactly when the
    token table has a numeric column of that name. *)
Lemma resample_has_total m T mt0 :
  resample_MS_sum (mask_rows m T) = Ok mt0 ->
  has_column mt0 "Total" = true
  <-> exists s, In ("Total"%string, s) T /\ is_numeric_dtype s = true.
Proof.
  intros H. apply resample_MS_sum_ok in H as (d & keys & _ & _ & _ & ->).
  rewrite has_column_In. unfold columns. rewrite map_cons, map_map. cbn [fst].
  change (map (fun x : string * list Z => fst x) (numeric_data (mask_rows m T)))
    with (map fst (numeric_data (mask_rows m T))).
  rewrite numeric_data_names, numeric_names_mask. split.
  - intros [Hc | Hc]; [discriminate Hc|].
    apply in_map_iff in Hc as ([c s0] & Hcs & Hin). simpl in Hcs. subst c.
    apply filter_In in Hin as [Hin Hnum]. eauto.
  - intros (s0 & Hin & Hnum). right.
    apply in_map_iff. exists ("Total"%string, s0). split; [reflexivity|].
    apply filter_In. split; assumption.
Qed.

(** C2, as the code has it.  In every monthly table made by [groupby]
    (wallets, referrals, fees) the sum of the category totals equals the
    sum of the month totals; for the referrals the total of the title,
    the month totals of the long form and the [Total] column add up to
    the same number.  The token total of the titles is the sum of the
    [Total] column of the monthly token table; that column is the sum of
    the detected sources, and the total the sum of their totals, when the
    token table has no numeric [Total] column, and it is the resampled
    stored column when the table has one. *)
Theorem grand_totals (g : Globals) (h : heap) (T R : DataFrame) :
  h !! tokens_source_df g = Some T -> h !! referral_df g = Some R ->
  (forall f cols wide,
      groupby_sum f "Month" cols = Ok wide ->
      exists sel totals month_totals,
        getitems wide cols = Ok sel
        /\ column_totals sel = Ok totals
        /\ row_sums (nrows wide) sel = Ok (SNum month_totals)
        /\ zsum month_totals = zsum (map snd totals))
  /\ (forall melted by_month by_source totals h',
         referral_charts g h = Ok ((melted, by_month, by_source, totals), h') ->
         exists month_totals long_totals,
           getitem by_source "Total" = Ok (SNum month_totals)
           /\ getitem by_month "Referrals" = Ok (SNum long_totals)
           /\ zsum month_totals = zsum (map snd totals)
           /\ zsum long_totals = zsum (map snd totals))
  /\ (forall mt total cols h',
         token_charts g h = Ok ((mt, total, cols), h') ->
         rbind (getitem mt "Total") series_sum = Ok total
         /\ exists dates mt0,
             getitem T "Date" = Ok (STime dates)
             /\ resample_MS_sum (mask_rows (map (in_window ts_geb cutoff_2025_01_01) dates) T)
                = Ok mt0
             /\ (has_column mt0 "Total" = true
                 <-> exists s, In ("Total"%string, s) T /\ is_numeric_dtype s = true)
             /\ (has_column mt0 "Total" = false ->
                 exists sel totals,
                   getitems mt cols = Ok sel
                   /\ column_totals sel = Ok totals
                   /\ total = zsum (map snd totals))
             /\ (has_column mt0 "Total" = true ->
                 getitem mt "Total" = getitem mt0 "Total")).
Proof.
  intros HT HR. split; [|split].
  - intros f cols wide Hg.
    destruct (monthly_table_totals _ _ _ Hg) as (sel & totals & mtot & H1 & H2 & H3 & H4 & _).
    exists sel, totals, mtot. auto.
  - intros melted by_month by_source totals h' H.
    apply (referral_charts_run _ _ _ _ _ HR) in H
      as (dates & bs & melted' & bm & totals' & sel & total
          & Hd & Hg & Hsel & Ht & Hm & Hbm & Htot & [= -> -> -> ->]).
    destruct (monthly_table_totals _ _ _ Hg)
      as (sel' & totals'' & mtot & H1 & H2 & H3 & H4 & Hlong).
    rewrite Hsel in H1. injection H1 as <-.
    rewrite Ht in H2. injection H2 as <-.
    rewrite Htot in H3. injection H3 as ->.
    destruct (Hlong _ _ _ _ Hm ltac:(discriminate) ltac:(discriminate) Hbm)
      as (ltot & Hl1 & Hl2).
    exists mtot, ltot. split; [apply getitem_setitem_eq|]. auto.
  - intros mt total cols h' H.
    apply (token_charts_run _ _ _ _ _ _ _ HT) in H
      as (dates & mt0 & d0 & labels & Hd & Hcols & Hmt0 & Hd0 & Hlab & Hcase & Htotal).
    split; [exact Htotal|]. exists dates, mt0.
    split; [exact Hd|]. split; [exact Hmt0|].
    split; [eapply resample_has_total; exact Hmt0|].
    destruct (resample_MS_sum_wf _ _ Hmt0) as (Hwf0 & bins & Hdate & Hn0).
    rewrite Hdate in Hd0. injection Hd0 as <-.
    assert (Hlen_d : series_len (month_column bins) = nrows mt0)
      by (rewrite Hn0; simpl; apply length_map).
    assert (Hwf1 : wf_frame (setitem mt0 "Month" (month_column bins)) = true)
      by (apply wf_frame_setitem; assumption).
    assert (Hn1 : nrows (setitem mt0 "Month" (month_column bins)) = nrows mt0)
      by (apply nrows_setitem; assumption).
    assert (Hlen_l : series_len labels = nrows (setitem mt0 "Month" (month_column bins)))
      by (rewrite (strftime_BY_length _ _ Hlab), Hn1; exact Hlen_d).
    set (mt1 := setitem (setitem mt0 "Month" (month_column bins)) "MonthLabel" labels) in *.
    assert (Hwf : wf_frame mt1 = true) by (apply wf_frame_setitem; assumption).
    assert (Hhas : has_column mt1 "Total" = has_column mt0 "Total").
    { unfold mt1. rewrite !has_column_setitem_ne by discriminate. reflexivity. }
    rewrite Hhas in Hcase. split.
    + intros Hno. rewrite Hno in Hcase. destruct Hcase as (sel & rs & Hsel & Hrs & ->).
      destruct (row_sums_total _ _ _ _ Hwf Hsel Hrs) as (totals & Ht & Hsum).
      rewrite getitem_setitem_eq in Htotal. simpl in Htotal.
      exists sel, totals. split; [|split; [exact Ht | congruence]].
      rewrite getitems_setitem_absent; [exact Hsel|].
      rewrite Hcols. apply detect_token_source_cols_no_total.
    + intros Hyes. rewrite Hyes in Hcase. subst mt. unfold mt1.
      rewrite !getitem_setitem_ne by discriminate. reflexivity.
Qed.

Lemma grand_totals_witness :
  exists mt total cols h' sel totals,
    token_charts sample_globals sample_store = Ok ((mt, total, cols), h')
    /\ cols = ["Airdrop"%string]
    /\ getitems mt cols = Ok sel
    /\ column_totals sel = Ok totals
    /\ total = zsum (map snd totals)
    /\ total = 3.
Proof.
  destruct (token_charts sample_globals sample_store)
    as [[[[mt total] cols] h']|e] eqn:E; [|vm_compute in E; discriminate E].
  destruct (grand_totals sample_globals sample_store _ _ eq_refl eq_refl) as (_ & _ & Ht).
  destruct (Ht _ _ _ _ E) as (_ & dates & mt0 & Hd & Hmt0 & _ & Hno & _).
  injection Hd as <-. vm_compute in Hmt0. injection Hmt0 as <-.
  destruct (Hno eq_refl) as (sel & totals & Hsel & Htot & Hsum).
  exists mt, total, cols, h', sel, totals.
  split; [reflexivity|].
  vm_compute in E. injection E as <- <- <- <-.
  split; [reflexivity|]. split; [exact Hsel|]. split; [exact Htot|].
  split; [exact Hsum | reflexivity].
Defined.

(** C2 fails for a token table with a stored [Total]: a record with one
    source of 1 token and a stored total of 5 gives the title total 5,
    while the only detected source totals 1. *)
Lemma stored_total_is_displayed :
  exists figs h,
    main stored_total_workbook [] = Ok (figs, h)
    /\ total_tokens figs = 5
    /\ total_tokens_by_source figs = [("Airdrop"%string, 1)]
    /\ rbind (getitems (monthly_tokens figs) ["Airdrop"%string]) column_totals
       = Ok [("Airdrop"%string, 1)].
Proof.
  eexists _, _. split; [vm_compute; reflexivity|]. repeat split.
Qed.

(** * More properties of the program *)

(** ** The sheet mapping (line 10) *)

Lemma strip_keys_app (items1 items2 : list (string * nat)) :
  strip_keys (items1 ++ items2)
  = fold_left (fun d kv => <[strip (fst kv) := snd kv]> d) items2 (strip_keys items1).
Proof. unfold strip_keys. apply fold_left_app. Qed.

Lemma fold_insert_other (items : list (string * nat)) (d : gmap string nat) k :
  (forall kv, In kv items -> strip (fst kv) <> k) ->
  fold_left (fun d kv => <[strip (fst kv) := snd kv]> d) items d !! k = d !! k.
Proof.
  revert d. induction items as [|kv items IH]; intros d H; simpl; [reflexivity|].
  rewrite IH by (intros kv' Hkv'; apply H; right; exact Hkv').
  apply lookup_insert_ne. apply H. left. reflexivity.
Qed.

Lemma fold_insert_present (items : list (string * nat)) (d : gmap string nat) k :
  is_Some (d !! k) ->
  is_Some (fold_left (fun d kv => <[strip (fst kv) := snd kv]> d) items d !! k).
Proof.
  revert d. induction items as [|kv items IH]; intros d H; simpl; [exact H|].
  apply IH. destruct (decide (strip (fst kv) = k)) as [<- | Hne].
  - rewrite lookup_insert_eq. eauto.
  - rewrite lookup_insert_ne by exact Hne. exact H.
Qed.

(** X1.  When the names of several sheets strip to the same key, the
    sheet mapping of line 10 holds the last of them; sheets with other
    names do not matter. *)
Theorem later_sheet_wins (items1 items2 : list (string * nat)) (name : string) (l : nat) :
  (forall kv, In kv items2 -> strip (fst kv) <> strip name) ->
  strip_keys (items1 ++ (name, l) :: items2) !! strip name = Some l.
Proof.
  intros H. rewrite strip_keys_app. simpl.
  rewrite fold_insert_other by exact H. apply lookup_insert_eq.
Qed.

Lemma later_sheet_wins_witness :
  strip_keys [("Referrals ", 0%nat); ("Referrals" ++ nbsp, 1%nat); ("POL Data", 2%nat)]%string
    !! "Referrals"%string = Some 1%nat.
Proof.
  exact (later_sheet_wins [("Referrals "%string, 0%nat)] [("POL Data"%string, 2%nat)]
           ("Referrals" ++ nbsp) 1%nat
           ltac:(intros kv [<- | []]; vm_compute; discriminate)).
Defined.

(** ** Loading fails on the first missing sheet (lines 12-16) *)

Lemma combine_app_same {A B} (l1 l2 : list A) (r1 r2 : list B) :
  length l1 = length r1 ->
  combine (l1 ++ l2) (r1 ++ r2) = combine l1 r1 ++ combine l2 r2.
Proof.
  revert r1. induction l1 as [|a l1 IH]; intros [|b r1] H; simpl in *; try lia;
    [reflexivity|].
  injection H as H. rewrite IH by exact H. reflexivity.
Qed.

Lemma sheet_present_lookup (wb : Workbook) n k :
  sheet_present wb k ->
  is_Some (strip_keys (combine (map fst wb) (seq n (length wb))) !! k).
Proof.
  intros (s & Hin & Hk). apply in_split in Hin as (wb1 & wb2 & ->).
  rewrite map_app, length_app, seq_app. simpl.
  rewrite combine_app_same by (rewrite length_map, length_seq; reflexivity).
  simpl. rewrite strip_keys_app. simpl. apply fold_insert_present.
  rewrite Hk, lookup_insert_eq. eauto.
Qed.

Lemma sheet_absent_lookup (wb : Workbook) n k :
  ~ sheet_present wb k ->
  strip_keys (combine (map fst wb) (seq n (length wb))) !! k = None.
Proof.
  intros H. apply strip_keys_absent. intros kv Hkv.
  apply sheet_names_of_items in Hkv as (s & Hs & <-).
  intros E. apply H. exists s. auto.
Qed.

Lemma load_data_start (wb : Workbook) (h : heap) :
  load_data wb h
  = (let d := strip_keys (combine (map fst wb) (seq (length h) (length wb))) in
     let* referral := dict_get d "Referrals" in
     let* wallet := dict_get d "Wallets Created" in
     let* fee := dict_get d "POL Data" in
     let* tokens := read_sheet wb "Tokens per source" in
     normalize_token_dates tokens ;;
     for_each clean_dates [wallet; referral; fee] ;;
     let* r := load referral in
     let sources := detect_referral_sources r in
     let* sel := lift (getitems r sources) in
     let* total := lift (row_sums (nrows r) sel) in
     setitem_inplace referral "Referrals" total ;;
     ret (mkGlobals d referral wallet fee tokens sources)) (h ++ map snd wb).
Proof.
  unfold load_data. unfold bind at 1. rewrite read_all_sheets_run. reflexivity.
Qed.

Lemma bind_raise {A B} (m : M A) (k : A -> M B) h e :
  m h = Raise e -> bind m k h = Raise e.
Proof. unfold bind. intros ->. reflexivity. Qed.

Lemma dict_get_some (d : gmap string nat) k l (h : heap) :
  d !! k = Some l -> dict_get d k h = Ok (l, h).
Proof. unfold dict_get. intros ->. reflexivity. Qed.

Lemma dict_get_none (d : gmap string nat) k (h : heap) :
  d !! k = None -> dict_get d k h = Raise (KeyError k).
Proof. unfold dict_get. intros ->. reflexivity. Qed.

(** X2.  Loading stops at the first sheet that is missing, in the order
    of lines 12-16: [KeyError] with the name of the referral, wallet or
    fee sheet when no sheet name strips to it, [ValueError] when the
    first three are there and no sheet is named exactly
    ["Tokens per source"].  No figure is made. *)
Theorem first_missing_sheet (wb : Workbook) (h : heap) :
  (~ sheet_present wb "Referrals" ->
   main wb h = Raise (KeyError "Referrals"))
  /\ (sheet_present wb "Referrals" -> ~ sheet_present wb "Wallets Created" ->
      main wb h = Raise (KeyError "Wallets Created"))
  /\ (sheet_present wb "Referrals" -> sheet_present wb "Wallets Created" ->
      ~ sheet_present wb "POL Data" ->
      main wb h = Raise (KeyError "POL Data"))
  /\ (sheet_present wb "Referrals" -> sheet_present wb "Wallets Created" ->
      sheet_present wb "POL Data" ->
      (forall s, In s wb -> fst s <> "Tokens per source"%string) ->
      main wb h = Raise (ValueError "Worksheet not found")).
Proof.
  assert (Hyes : forall k, sheet_present wb k ->
            exists l, strip_keys (combine (map fst wb) (seq (length h) (length wb))) !! k
                      = Some l).
  { intros k Hk. destruct (sheet_present_lookup wb (length h) k Hk) as [l Hl]. eauto. }
  assert (Hmain : forall e, load_data wb h = Raise e -> main wb h = Raise e)
    by (intros e He; unfold main; apply bind_raise; exact He).
  split; [|split; [|split]].
  - intros H1. apply Hmain. rewrite load_data_start. cbv zeta.
    apply bind_raise, dict_get_none, sheet_absent_lookup, H1.
  - intros H1 H2. destruct (Hyes _ H1) as [l1 E1].
    apply Hmain. rewrite load_data_start. cbv zeta.
    rewrite (bind_run _ _ _ _ _ (dict_get_some _ _ _ _ E1)).
    apply bind_raise, dict_get_none, sheet_absent_lookup, H2.
  - intros H1 H2 H3. destruct (Hyes _ H1) as [l1 E1]. destruct (Hyes _ H2) as [l2 E2].
    apply Hmain. rewrite load_data_start. cbv zeta.
    rewrite (bind_run _ _ _ _ _ (dict_get_some _ _ _ _ E1)).
    rewrite (bind_run _ _ _ _ _ (dict_get_some _ _ _ _ E2)).
    apply bind_raise, dict_get_none, sheet_absent_lookup, H3.
  - intros H1 H2 H3 H4.
    destruct (Hyes _ H1) as [l1 E1]. destruct (Hyes _ H2) as [l2 E2].
    destruct (Hyes _ H3) as [l3 E3].
    apply Hmain. rewrite load_data_start. cbv zeta.
    rewrite (bind_run _ _ _ _ _ (dict_get_some _ _ _ _ E1)).
    rewrite (bind_run _ _ _ _ _ (dict_get_some _ _ _ _ E2)).
    rewrite (bind_run _ _ _ _ _ (dict_get_some _ _ _ _ E3)).
    apply bind_raise. unfold read_sheet.
    destruct (find (fun s => String.eqb (fst s) "Tokens per source") wb) as [s|] eqn:Et;
      [|reflexivity].
    apply find_some in Et as [Hin E]. apply String.eqb_eq in E.
    exfalso. exact (H4 s Hin E).
Qed.

Lemma first_missing_sheet_witness :
  main [("Referrals ", sample_referrals); ("POL Data", sample_fees)]%string []
  = Raise (KeyError "Wallets Created").
Proof.
  apply (proj1 (proj2 (first_missing_sheet
           [("Referrals ", sample_referrals); ("POL Data", sample_fees)]%string []))).
  - exists ("Referrals "%string, sample_referrals). split; [left; reflexivity|].
    vm_compute. reflexivity.
  - intros (s & [<- | [<- | []]] & E); vm_compute in E; discriminate.
Defined.

(** ** Tables without a [Date] column (lines 17, 26, 72, 114, 158) *)

Lemma getitem_absent t col :
  has_column t col = false -> getitem t col = Raise (KeyError col).
Proof.
  unfold has_column, columns. induction t as [|[n s] t IH]; simpl; [reflexivity|].
  rewrite (String.eqb_sym col n). destruct (String.eqb n col); simpl; [discriminate|].
  exact IH.
Qed.

Lemma window_no_date test c t :
  has_column t "Date" = false -> window test c t = Raise (KeyError "Date").
Proof. intros H. unfold window. rewrite (getitem_absent _ _ H). reflexivity. Qed.

Lemma lift_raise {A} (e : exn) (h : heap) : lift (A := A) (Raise e) h = Raise e.
Proof. reflexivity. Qed.

(** X3.  The guard of line 26 only puts the failure off.  A wallet,
    referral or fee table without a [Date] column passes the cleaning loop
    untouched, and the section of [create_figures] that reads it raises
    [KeyError('Date')]; the token table, which is cleaned without the
    guard, raises it while loading. *)
Theorem missing_date_column (g : Globals) (h : heap) (l : loc) (t : DataFrame) :
  h !! l = Some t -> has_column t "Date" = false ->
  clean_dates l h = Ok (tt, h)
  /\ normalize_token_dates l h = Raise (KeyError "Date")
  /\ (wallet_df g = l -> wallet_charts g h = Raise (KeyError "Date"))
  /\ (referral_df g = l -> referral_charts g h = Raise (KeyError "Date"))
  /\ (fee_df g = l -> fee_chart g h = Raise (KeyError "Date"))
  /\ (tokens_source_df g = l -> token_charts g h = Raise (KeyError "Date")).
Proof.
  intros Hl Hno.
  pose proof (window_no_date ts_gtb cutoff_2024_12_31 t Hno) as Hgt.
  pose proof (window_no_date ts_geb cutoff_2025_01_01 t Hno) as Hge.
  split; [|split; [|split; [|split; [|split]]]].
  - unfold clean_dates. rewrite (bind_run _ _ _ _ _ (load_at _ _ _ Hl)).
    rewrite Hno. reflexivity.
  - unfold normalize_token_dates. apply bind_raise. unfold column_of.
    rewrite (bind_run _ _ _ _ _ (load_at _ _ _ Hl)).
    rewrite (getitem_absent _ _ Hno). reflexivity.
  - intros E. unfold wallet_charts. rewrite E.
    rewrite (bind_run _ _ _ _ _ (load_at _ _ _ Hl)).
    apply bind_raise. rewrite Hgt. reflexivity.
  - intros E. unfold referral_charts. rewrite E.
    rewrite (bind_run _ _ _ _ _ (load_at _ _ _ Hl)).
    apply bind_raise. rewrite Hge. reflexivity.
  - intros E. unfold fee_chart. rewrite E.
    rewrite (bind_run _ _ _ _ _ (load_at _ _ _ Hl)).
    apply bind_raise. rewrite Hgt. reflexivity.
  - intros E. unfold token_charts. rewrite E.
    rewrite (bind_run _ _ _ _ _ (load_at _ _ _ Hl)).
    apply bind_raise. rewrite Hge. reflexivity.
Qed.

Lemma missing_date_column_witness :
  clean_dates 0 [[("Android", SNum [1]); ("iOS", SNum [2]); ("Web", SNum [3])]%string]
  = Ok (tt, [[("Android", SNum [1]); ("iOS", SNum [2]); ("Web", SNum [3])]%string])
  /\ wallet_charts (mkGlobals ∅ 1 0 1 1 [])
       [[("Android", SNum [1]); ("iOS", SNum [2]); ("Web", SNum [3])]%string]
     = Raise (KeyError "Date").
Proof.
  pose proof (missing_date_column (mkGlobals ∅ 1 0 1 1 [])
                [[("Android", SNum [1]); ("iOS", SNum [2]); ("Web", SNum [3])]%string]
                0%nat _ eq_refl eq_refl) as (H1 & _ & H3 & _).
  split; [exact H1 | exact (H3 eq_refl)].
Defined.

(** ** The fee section (lines 158-161) *)

(** The common opening of the wallet, referral and fee sections, run
    forward on a table whose dates have been read. *)
Lemma windowed_copy_fwd {B} test c t dates (K : DataFrame -> M B) (h : heap) :
  getitem t "Date" = Ok (STime dates) ->
  (let* w := lift (window test c t) in
   let* l := alloc w in
   let* d := column_of l "Date" in
   let* ms := lift (month_floor d) in
   setitem_inplace l "Month" ms ;;
   let* f := load l in
   K f) h
  = K (windowed test c dates t) (h ++ [windowed test c dates t]).
Proof.
  intros Hd.
  set (m := map (in_window test c) dates).
  assert (Hw : window test c t = Ok (mask_rows m t)).
  { unfold window. rewrite Hd. reflexivity. }
  assert (Hdate : getitem (mask_rows m t) "Date" = Ok (STime (mask_list m dates))).
  { rewrite getitem_mask_rows, Hd. reflexivity. }
  rewrite Hw. unfold lift at 1. unfold bind at 1.
  unfold alloc at 1. unfold bind at 1.
  rewrite (bind_run _ _ _ _ _ (column_of_at _ _ _ _ _ (lookup_new h _) Hdate)).
  unfold month_floor. unfold lift at 1. unfold bind at 1.
  rewrite (bind_run _ _ _ _ _ (setitem_inplace_at _ _ _ _ _ (lookup_new h _))).
  rewrite insert_new.
  rewrite (bind_run _ _ _ _ _ (load_at _ _ _ (lookup_new h _))).
  reflexivity.
Qed.

Lemma getitem_windowed test c dates t col :
  col <> "Month"%string ->
  getitem (windowed test c dates t) col
  = getitem (mask_rows (map (in_window test c) dates) t) col.
Proof.
  intros H. unfold windowed. apply getitem_setitem_ne. congruence.
Qed.

Lemma sum_where_all_rows test c dates xs :
  length xs = length dates ->
  let m := map (in_window test c) dates in
  let keys := map (option_map month_of) (mask_list m dates) in
  zsum (map (sum_where keys (mask_list m xs)) (unique_sorted (somes keys)))
  = zsum (mask_list m xs).
Proof.
  intros Hlen m keys.
  rewrite sum_where_partition.
  - unfold keys, m. rewrite mask_in_window_has_key. rewrite mask_list_true; [reflexivity|].
    apply mask_list_length. symmetry. exact Hlen.
  - apply sorted_lt_nodup, unique_sorted_sorted.
  - intros k Hk. apply unique_sorted_In. exact Hk.
Qed.

(** X4.  The fee section on a table with its dates read and a fee
    column of whole numbers: it returns, the monthly table has one row
    per month with a record after 31 December 2024 at midnight, and the
    total of the title is [int] (line 161) of the sum of the fees of
    those records, which for whole numbers is that sum.  The table of
    the store is not changed; the windowed copy is one new object. *)
Theorem fee_total (g : Globals) (h : heap) (F : DataFrame)
    (dates : list (option Timestamp)) (xs : list Z) :
  h !! fee_df g = Some F ->
  getitem F "Date" = Ok (STime dates) ->
  getitem F "TxnFee(POL)" = Ok (SNum xs) ->
  length xs = length dates ->
  let m := map (in_window ts_gtb cutoff_2024_12_31) dates in
  let keys := map (option_map month_of) (mask_list m dates) in
  let ks := unique_sorted (somes keys) in
  fee_chart g h
  = Ok (([ ("Month", month_column ks);
           ("TxnFee(POL)", SNum (map (sum_where keys (mask_list m xs)) ks)) ]%string,
         py_int (zsum (mask_list m xs))),
        h ++ [windowed ts_gtb cutoff_2024_12_31 dates F]).
Proof.
  intros HF Hd Hx Hlen m keys ks. unfold fee_chart.
  rewrite (bind_run _ _ _ _ _ (load_at _ _ _ HF)).
  rewrite (windowed_copy_fwd _ _ _ _ _ _ Hd).
  set (w := windowed ts_gtb cutoff_2024_12_31 dates F).
  assert (Hg : groupby_sum w "Month" ["TxnFee(POL)"%string]
               = Ok [ ("Month", month_column ks);
                      ("TxnFee(POL)", SNum (map (sum_where keys (mask_list m xs)) ks)) ]%string).
  { unfold groupby_sum.
    pose proof (month_keys_windowed ts_gtb cutoff_2024_12_31 dates F) as Hk.
    fold w in Hk. destruct (getitem w "Month") as [b|e]; [|discriminate Hk].
    simpl in Hk. cbn [rbind]. rewrite Hk. cbn [rbind].
    cbn [rmap]. unfold w. rewrite getitem_windowed by discriminate.
    rewrite getitem_mask_rows, Hx. reflexivity. }
  rewrite Hg. unfold lift at 1. unfold bind at 1.
  rewrite getitem_cons.
  replace (String.eqb "Month" "TxnFee(POL)") with false by reflexivity.
  rewrite getitem_cons. rewrite String.eqb_refl.
  unfold lift at 1. unfold bind at 1.
  unfold series_sum, series_nums. cbn [rbind]. unfold lift, bind, ret.
  unfold ks, keys, m. rewrite (sum_where_all_rows _ _ _ _ Hlen). reflexivity.
Qed.

Lemma fee_total_witness :
  exists mf h', fee_chart sample_globals sample_store = Ok ((mf, 4 + 5), h').
Proof.
  eexists _, _.
  exact (fee_total sample_globals sample_store _
           [on_day 2025 1 5; on_day 2025 2 11] [4; 5] eq_refl eq_refl eq_refl eq_refl).
Defined.

(** ** Dates read from text and the two cut-offs (lines 27, 36, 72, 114, 158) *)

Lemma days_in_month_le y m : days_in_month y m <= 31.
Proof.
  unfold days_in_month.
  destruct (m =? 2); [destruct (is_leap y); lia|].
  destruct ((m =? 4) || (m =? 6) || (m =? 9) || (m =? 11)); lia.
Qed.

Lemma make_date_valid y m d t :
  make_date y m d = Some t -> t = midnight (mkDate y m d) /\ valid_day (mkDate y m d).
Proof.
  unfold make_date, valid_day.
  destruct ((1 <=? m) && (m <=? 12) && (1 <=? d) && (d <=? days_in_month y m)) eqn:E;
    [|discriminate].
  intros [= <-]. split; [reflexivity|]. simpl.
  apply andb_prop in E as [E E4]. apply andb_prop in E as [E E3].
  apply andb_prop in E as [E1 E2]. lia.
Qed.

Lemma strptime_valid fmt s t :
  strptime fmt s = Some t -> ts_secs t = 0%N /\ valid_day (ts_date t).
Proof.
  unfold strptime.
  destruct (split_dash (list_ascii_of_string s)) as [|a [|b [|c [|]]]]; try discriminate.
  destruct fmt.
  - destruct (field 1 2 a) as [m|]; [|discriminate].
    destruct (field 1 2 b) as [d|]; [|discriminate].
    destruct (field 4 4 c) as [y|]; [|discriminate].
    intros H. apply make_date_valid in H as [-> H]. split; [reflexivity | exact H].
  - destruct (field 4 4 a) as [y|]; [|discriminate].
    destruct (field 1 2 b) as [m|]; [|discriminate].
    destruct (field 1 2 c) as [d|]; [|discriminate].
    intros H. apply make_date_valid in H as [-> H]. split; [reflexivity | exact H].
Qed.

Lemma valid_day_cutoffs d :
  valid_day d -> date_gtb d (mkDate 2024 12 31) = date_geb d (mkDate 2025 1 1).
Proof.
  destruct d as [y m dd]. unfold valid_day. simpl. intros [Hm Hd].
  pose proof (days_in_month_le y m) as Hle.
  unfold date_gtb, date_geb, date_compare. cbn [year month day].
  destruct (Z.compare_spec y 2024), (Z.compare_spec y 2025); try lia; try reflexivity.
  - destruct (Z.compare_spec m 12); try lia; try reflexivity.
    destruct (Z.compare_spec dd 31); try lia; reflexivity.
  - destruct (Z.compare_spec m 1); try lia; try reflexivity.
    destruct (Z.compare_spec dd 1); try lia; reflexivity.
Qed.

Lemma midnight_cutoffs t :
  ts_secs t = 0%N -> valid_day (ts_date t) ->
  ts_gtb t cutoff_2024_12_31 = ts_geb t cutoff_2025_01_01.
Proof.
  intros Hs Hv. unfold cutoff_2024_12_31, cutoff_2025_01_01.
  rewrite ts_gtb_midnight, ts_geb_midnight, Hs. simpl.
  rewrite andb_false_r, orb_false_r. apply valid_day_cutoffs. exact Hv.
Qed.

(** X5.  A date read from text is a day of the calendar at midnight, and
    on a column of such dates the two forms of the window, after
    ["2024-12-31"] (wallets, fees) and on or after ["2025-01-01"] (tokens,
    referrals), select the same records. *)
Theorem text_dates_windows_agree (fmt : DateFormat) (ss : list string) :
  (forall s t, In s ss -> strptime fmt s = Some t ->
               ts_secs t = 0%N /\ valid_day (ts_date t))
  /\ cmp_mask ts_gtb (to_datetime (Some fmt) (SObj (map PStr ss))) cutoff_2024_12_31
     = cmp_mask ts_geb (to_datetime (Some fmt) (SObj (map PStr ss))) cutoff_2025_01_01.
Proof.
  split; [intros s t _; apply strptime_valid|].
  unfold to_datetime, parse_series, cmp_mask. simpl. f_equal.
  rewrite !map_map. apply map_ext. intros s. simpl.
  destruct (strptime fmt s) as [t|] eqn:E; [|reflexivity].
  apply strptime_valid in E as [Hs Hv]. apply midnight_cutoffs; assumption.
Qed.

(** ** The second cleaning of the token dates (lines 198-200) *)

Lemma setitem_same t col s : getitem t col = Ok s -> setitem t col s = t.
Proof.
  induction t as [|[n s0] t IH]; simpl; [discriminate|].
  destruct (String.eqb n col); [intros [= ->]; reflexivity|].
  intros H. rewrite IH by exact H. reflexivity.
Qed.

Lemma series_len_mask {A} m s (dates : list A) :
  series_len s = length dates ->
  series_len (mask_series m s) = length (mask_list m dates).
Proof.
  destruct s; simpl; intros H; apply mask_list_length; exact H.
Qed.

Lemma mask_series_true {A} (l : list A) s :
  series_len s = length l -> mask_series (map (fun _ => true) l) s = s.
Proof.
  destruct s; simpl; intros H; f_equal; apply mask_list_true; symmetry; exact H.
Qed.

Lemma wf_frame_column t c :
  wf_frame t = true -> In c t -> series_len (snd c) = nrows t.
Proof.
  unfold wf_frame. intros H Hc. rewrite forallb_forall in H.
  apply Nat.eqb_eq. apply H. exact Hc.
Qed.

(** X6.  The pie section cleans the dates of its copy of the token table
    once more (lines 199-200).  On the loaded table, whose dates are
    datetimes already, neither step does anything: the conversion leaves
    the table as it is, and after the window no record is left for
    [dropna] to remove.  The pies are made of the records of the token
    bar. *)
Theorem second_cleaning_is_idle (T : DataFrame) (dates : list (option Timestamp)) :
  getitem T "Date" = Ok (STime dates) -> wf_frame T = true ->
  setitem T "Date" (to_datetime None (STime dates)) = T
  /\ exists w, window ts_geb cutoff_2025_01_01 T = Ok w /\ dropna w "Date" = Ok w.
Proof.
  intros Hd Hwf. split; [apply setitem_same; exact Hd|].
  set (m := map (in_window ts_geb cutoff_2025_01_01) dates).
  exists (mask_rows m T). split; [unfold window; rewrite Hd; reflexivity|].
  unfold dropna. rewrite getitem_mask_rows, Hd. simpl.
  replace (map has_stamp (mask_list m dates))
    with (map (fun _ : option Timestamp => true) (mask_list m dates)).
  2:{ unfold m. rewrite mask_list_all. apply map_ext_in. intros o Ho.
      apply filter_In in Ho as [_ Ho]. destruct o; [reflexivity | discriminate]. }
  f_equal. unfold mask_rows. rewrite map_map. apply map_ext_in. intros c Hc. simpl.
  f_equal. apply mask_series_true. apply series_len_mask.
  rewrite (wf_frame_column _ _ Hwf Hc). symmetry.
  exact (wf_frame_length _ _ _ Hwf Hd).
Qed.

Lemma second_cleaning_is_idle_witness :
  exists w,
    window ts_geb cutoff_2025_01_01
      [ ("Date", STime [on_day 2024 12 15; on_day 2025 1 10]); ("Airdrop", SNum [7; 3]) ]%string
    = Ok w /\ dropna w "Date" = Ok w.
Proof.
  exact (proj2 (second_cleaning_is_idle
                  [ ("Date", STime [on_day 2024 12 15; on_day 2025 1 10]);
                    ("Airdrop", SNum [7; 3]) ]%string _ eq_refl eq_refl)).
Defined.

(** ** Monthly token sums (line 40) *)

Lemma has_key_month_of dates :
  map has_key (map (option_map month_of) dates) = map has_stamp dates.
Proof. rewrite map_map. apply map_ext. intros [t|]; reflexivity. Qed.

Lemma In_somes {A} (a : A) (l : list (option A)) : In a (somes l) <-> In (Some a) l.
Proof.
  induction l as [|[x|] l IH]; simpl.
  - tauto.
  - rewrite IH. split; intros [H | H]; auto; [left; congruence | injection H as ->; auto].
  - rewrite IH. split; [auto | intros [H | H]; [discriminate | exact H]].
Qed.

Lemma somes_month_keys_nonempty dates :
  (exists ts, In (Some ts) dates) -> somes (map (option_map month_of) dates) <> [].
Proof.
  intros [ts Hts] E.
  assert (H : In (month_of ts) (somes (map (option_map month_of) dates))).
  { apply In_somes. apply in_map_iff. exists (Some ts). split; [reflexivity | exact Hts]. }
  rewrite E in H. destruct H.
Qed.

Lemma In_resampled (F : list Z -> list Z) t c xs :
  In (c, SNum xs) t ->
  In (c, SNum (F xs))
     (map (fun c : string * list Z => (fst c, SNum (F (snd c)))) (numeric_data t)).
Proof.
  intros H. apply in_map_iff. exists (c, xs). split; [reflexivity|].
  apply numeric_data_In. exists (SNum xs). split; [exact H|]. split; reflexivity.
Qed.

(** X7.  [resample] on a table with at least one dated record: the
    monthly table has one row for every month from the first to the last
    month that has a record, in steps of one month; a month of that span
    without records has sum zero in every column; and the sums of a
    column of numbers, over all the months, add up to the sum of the
    column over the records that have a date, so that no record is left
    out or counted twice.  On a table without rows [resample] raises
    [AttributeError]. *)
Theorem resample_keeps_totals (t : DataFrame) (dates : list (option Timestamp)) :
  getitem t "Date" = Ok (STime dates) ->
  let keys := map (option_map month_of) dates in
  let bins := month_span (somes keys) in
  (dates = [] -> resample_MS_sum t = Raise AttributeError)
  /\ ((exists ts, In (Some ts) dates) ->
      exists mt,
        resample_MS_sum t = Ok mt
        /\ getitem mt "Date" = Ok (month_column bins)
        /\ (forall k, In k bins <->
                      exists a b, In a (somes keys) /\ In b (somes keys) /\ a <= k <= b)
        /\ (forall i, (S i < length bins)%nat -> nth (S i) bins 0 = nth i bins 0 + 1)
        /\ forall c xs, In (c, SNum xs) t ->
             In (c, SNum (map (sum_where keys xs) bins)) mt
             /\ (forall k, ~ In k (somes keys) -> sum_where keys xs k = 0)
             /\ zsum (map (sum_where keys xs) bins)
                = zsum (mask_list (map has_stamp dates) xs)).
Proof.
  intros Hd keys bins. split.
  - intros ->. apply (resample_MS_sum_empty t (STime []) []); [exact Hd | |]; reflexivity.
  - intros Hex. pose proof (somes_month_keys_nonempty dates Hex) as Hne.
    eexists. split; [apply (resample_MS_sum_run t (STime dates) keys Hd eq_refl Hne)|].
    split; [reflexivity|].
    split; [intros k; apply month_span_In|].
    split; [intros i; apply month_span_step|].
    intros c xs Hin. split; [|split].
    + right. apply (In_resampled (fun xs => map (sum_where keys xs) bins)). exact Hin.
    + intros k. apply sum_where_absent.
    + rewrite sum_where_partition.
      * unfold keys. rewrite has_key_month_of. reflexivity.
      * unfold bins. destruct (somes keys) as [|k ks]; [constructor|].
        apply sorted_lt_nodup. apply zrange_sorted.
      * intros k Hk. apply month_span_In. exists k, k. repeat split; try assumption; lia.
Qed.

Lemma resample_keeps_totals_witness :
  exists mt,
    resample_MS_sum [ ("Date", STime [on_day 2025 1 5; None; on_day 2025 3 20]);
                      ("Airdrop", SNum [1; 100; 3]) ]%string = Ok mt
    /\ getitem mt "Date"
       = Ok (STime [on_day 2025 1 1; on_day 2025 2 1; on_day 2025 3 1])
    /\ In ("Airdrop"%string, SNum [1; 0; 3]) mt.
Proof.
  destruct (proj2 (resample_keeps_totals
                     [ ("Date", STime [on_day 2025 1 5; None; on_day 2025 3 20]);
                       ("Airdrop", SNum [1; 100; 3]) ]%string _ eq_refl)
              (ex_intro _ _ (or_introl eq_refl)))
    as (mt & Hmt & Hdate & _ & _ & H).
  exists mt. split; [exact Hmt|]. split; [exact Hdate|].
  apply (H "Airdrop"%string [1; 100; 3]). right. left. reflexivity.
Defined.

(** ** The objects made by loading (lines 10-31) *)

Lemma updates_only_ret l {A} (a : A) : updates_only l (ret a).
Proof. intros h a' h' [= <- <-]. auto. Qed.

Lemma updates_only_lift l {A} (r : result A) : updates_only l (lift r).
Proof. intros h a h' H. apply lift_ok in H as [_ ->]. auto. Qed.

Lemma updates_only_load l l0 : updates_only l (load l0).
Proof. intros h a h' H. apply load_ok in H as [_ ->]. auto. Qed.

Lemma updates_only_store l t : updates_only l (store l t).
Proof.
  intros h a h' H. apply store_ok in H as [Hl ->]. split.
  - apply length_insert.
  - intros l' Hne. apply list_lookup_insert_ne. congruence.
Qed.

Lemma updates_only_bind l {A B} (m : M A) (k : A -> M B) :
  updates_only l m -> (forall a, updates_only l (k a)) -> updates_only l (bind m k).
Proof.
  intros Hm Hk h b h' H. apply bind_ok in H as (a & h1 & H1 & H2).
  apply Hm in H1 as [Hlen1 Hsame1]. apply Hk in H2 as [Hlen2 Hsame2]. split.
  - congruence.
  - intros l' Hne. rewrite Hsame2, Hsame1 by exact Hne. reflexivity.
Qed.

Ltac updates_only_steps :=
  repeat first
    [ apply updates_only_ret
    | apply updates_only_lift
    | apply updates_only_load
    | apply updates_only_store
    | apply updates_only_bind; [|intros ?] ].

Lemma updates_only_column_of l l0 col : updates_only l (column_of l0 col).
Proof. unfold column_of. updates_only_steps. Qed.

Lemma updates_only_setitem_inplace l col s : updates_only l (setitem_inplace l col s).
Proof. unfold setitem_inplace. updates_only_steps. Qed.

Lemma updates_only_dropna_inplace l col : updates_only l (dropna_inplace l col).
Proof. unfold dropna_inplace. updates_only_steps. Qed.

Lemma updates_only_clean_dates l : updates_only l (clean_dates l).
Proof.
  unfold clean_dates. apply updates_only_bind; [apply updates_only_load|].
  intros t. destruct (has_column t "Date"); [|apply updates_only_ret].
  apply updates_only_bind; [apply updates_only_column_of|]. intros d.
  apply updates_only_bind; [apply updates_only_setitem_inplace|]. intros _.
  apply updates_only_dropna_inplace.
Qed.

Lemma updates_only_normalize_token_dates l : updates_only l (normalize_token_dates l).
Proof.
  unfold normalize_token_dates.
  repeat first
    [ apply updates_only_setitem_inplace
    | apply updates_only_dropna_inplace
    | apply updates_only_column_of
    | apply updates_only_lift
    | apply updates_only_bind; [|intros ?] ].
Qed.

Lemma fold_insert_item (items : list (string * nat)) (d : gmap string nat) k l :
  fold_left (fun d kv => <[strip (fst kv) := snd kv]> d) items d !! k = Some l ->
  (exists kv, In kv items /\ strip (fst kv) = k /\ snd kv = l) \/ d !! k = Some l.
Proof.
  revert d. induction items as [|kv items IH]; intros d H; simpl in H; [right; exact H|].
  apply IH in H as [(kv' & Hin & Hk & Hl) | H].
  - left. exists kv'. split; [right; exact Hin | auto].
  - destruct (decide (strip (fst kv) = k)) as [E | Hne].
    + rewrite <- E, lookup_insert_eq in H. injection H as H.
      left. exists kv. split; [left; reflexivity | auto].
    + rewrite lookup_insert_ne in H by exact Hne. right. exact H.
Qed.

Lemma strip_keys_item (items : list (string * nat)) k l :
  strip_keys items !! k = Some l ->
  exists kv, In kv items /\ strip (fst kv) = k /\ snd kv = l.
Proof.
  intros H. apply fold_insert_item in H as [H | H]; [exact H|].
  rewrite lookup_empty in H. discriminate.
Qed.

Lemma In_combine_seq (wb : Workbook) n name l :
  In (name, l) (combine (map fst wb) (seq n (length wb))) ->
  (n <= l < n + length wb)%nat
  /\ exists t, wb !! (l - n)%nat = Some (name, t).
Proof.
  revert n. induction wb as [|[nm t] wb IH]; intros n H; simpl in H; [destruct H|].
  destruct H as [[= <- <-] | H].
  - split; [simpl; lia|]. exists t. rewrite Nat.sub_diag. reflexivity.
  - apply IH in H as [Hl (t' & Ht')]. split; [simpl; lia|].
    exists t'. replace (l - n)%nat with (S (l - S n)) by lia. exact Ht'.
Qed.

Lemma for_each_three (f : loc -> M unit) a b c (h : heap) u h' :
  for_each f [a; b; c] h = Ok (u, h') ->
  exists h1 h2, f a h = Ok (tt, h1) /\ f b h1 = Ok (tt, h2) /\ f c h2 = Ok (tt, h').
Proof.
  simpl. intros H.
  apply bind_ok in H as ([] & h1 & H1 & H).
  apply bind_ok in H as ([] & h2 & H2 & H).
  apply bind_ok in H as ([] & h3 & H3 & H).
  injection H as <- <-. eauto.
Qed.

(** X8.  What loading leaves in the store.  Every sheet of the workbook
    is one object and the token table is one more, read a second time:
    it is none of the objects of the sheet mapping.  The names of the
    mapping refer to sheets whose stripped name they are, so that two
    names never share an object, and the referral, wallet, fee and token
    tables are four objects.  Cleaning changes these four and nothing
    else: the objects that were there before and the other sheets of the
    mapping, the token sheet among them, stay as they were read. *)
Theorem objects_after_loading (wb : Workbook) (h : heap) (g : Globals) (h' : heap) :
  load_data wb h = Ok (g, h') ->
  length h' = S (length h + length wb)
  /\ tokens_source_df g = (length h + length wb)%nat
  /\ df g !! "Referrals"%string = Some (referral_df g)
  /\ df g !! "Wallets Created"%string = Some (wallet_df g)
  /\ df g !! "POL Data"%string = Some (fee_df g)
  /\ (forall k l, df g !! k = Some l ->
        (length h <= l < length h + length wb)%nat
        /\ exists s, wb !! (l - length h)%nat = Some s /\ strip (fst s) = k)
  /\ List.NoDup [referral_df g; wallet_df g; fee_df g; tokens_source_df g]
  /\ (forall l, l <> referral_df g -> l <> wallet_df g -> l <> fee_df g ->
                l <> tokens_source_df g ->
                h' !! l = (h ++ map snd wb) !! l).
Proof.
  intros H. rewrite load_data_start in H. cbv zeta in H.
  set (d := strip_keys (combine (map fst wb) (seq (length h) (length wb)))) in *.
  set (h0 := h ++ map snd wb) in *.
  assert (Hlen0 : length h0 = (length h + length wb)%nat).
  { unfold h0. rewrite length_app, length_map. reflexivity. }
  assert (Hget : forall k l h1 h2, dict_get d k h1 = Ok (l, h2) -> d !! k = Some l /\ h2 = h1).
  { intros k l h1 h2. unfold dict_get. destruct (d !! k) as [l0|]; [|discriminate].
    intros [= <- <-]. auto. }
  apply bind_ok in H as (referral & h1 & H1 & H). apply Hget in H1 as [Hr ->].
  apply bind_ok in H as (wallet & h1 & H1 & H). apply Hget in H1 as [Hw ->].
  apply bind_ok in H as (fee & h1 & H1 & H). apply Hget in H1 as [Hf ->].
  apply bind_ok in H as (tokens & h1 & H1 & H).
  assert (Ht : tokens = length h0 /\ length h1 = S (length h0)
               /\ forall l, l <> tokens -> h1 !! l = h0 !! l).
  { unfold read_sheet in H1.
    destruct (find (fun s => String.eqb (fst s) "Tokens per source") wb) as [s|];
      [|discriminate].
    injection H1 as <- <-. split; [reflexivity|]. split.
    - rewrite length_app. simpl. lia.
    - intros l Hl. destruct (decide (l < length h0)%nat) as [Hlt | Hge].
      + apply lookup_app_l. exact Hlt.
      + rewrite !lookup_ge_None_2; [reflexivity | lia | rewrite length_app; simpl; lia]. }
  destruct Ht as (Htok & Hlen1 & Hsame1).
  apply bind_ok in H as ([] & h2 & H2 & H).
  apply updates_only_normalize_token_dates in H2 as [Hlen2 Hsame2].
  apply bind_ok in H as ([] & h3 & H3 & H).
  apply for_each_three in H3 as (ha & hb & Ha & Hb & Hc).
  apply updates_only_clean_dates in Ha as [Hlena Hsamea].
  apply updates_only_clean_dates in Hb as [Hlenb Hsameb].
  apply updates_only_clean_dates in Hc as [Hlenc Hsamec].
  apply bind_ok in H as (r & h4 & H4 & H). apply load_ok in H4 as [_ ->].
  apply bind_ok in H as (sel & h4 & H4 & H). apply lift_ok in H4 as [_ ->].
  apply bind_ok in H as (total & h4 & H4 & H). apply lift_ok in H4 as [_ ->].
  apply bind_ok in H as ([] & h4 & H4 & H).
  apply updates_only_setitem_inplace in H4 as [Hlen4 Hsame4].
  injection H as <- <-. simpl.
  assert (Hitem : forall k l, d !! k = Some l ->
            (length h <= l < length h + length wb)%nat
            /\ exists s, wb !! (l - length h)%nat = Some s /\ strip (fst s) = k).
  { intros k l Hk. apply strip_keys_item in Hk as ([name l0] & Hin & Hk & Hl).
    simpl in Hk, Hl. subst l0.
    apply In_combine_seq in Hin as [Hrange (t & Hs)]. split; [exact Hrange|].
    exists (name, t). auto. }
  assert (Hinj : forall k1 k2 l, d !! k1 = Some l -> d !! k2 = Some l -> k1 = k2).
  { intros k1 k2 l Hk1 Hk2.
    apply Hitem in Hk1 as [_ (s1 & Hs1 & <-)]. apply Hitem in Hk2 as [_ (s2 & Hs2 & <-)].
    congruence. }
  split; [lia|]. split; [lia|]. do 3 (split; [assumption|]).
  split; [exact Hitem|]. split.
  - pose proof (Hitem _ _ Hr) as [Hr' _]. pose proof (Hitem _ _ Hw) as [Hw' _].
    pose proof (Hitem _ _ Hf) as [Hf' _].
    repeat constructor; simpl.
    + intros [E | [E | [E | []]]]; [| |lia].
      * subst wallet. discriminate (Hinj _ _ _ Hr Hw).
      * subst fee. discriminate (Hinj _ _ _ Hr Hf).
    + intros [E | [E | []]]; [|lia].
      subst fee. discriminate (Hinj _ _ _ Hw Hf).
    + intros [E | []]. lia.
    + intros [].
  - intros l Nr Nw Nf Nt.
    rewrite Hsame4, Hsamec, Hsameb, Hsamea, Hsame2, Hsame1 by assumption.
    reflexivity.
Qed.

Lemma objects_after_loading_witness :
  exists g h',
    load_data sample_workbook [] = Ok (g, h')
    /\ length h' = 5%nat
    /\ tokens_source_df g = 4%nat
    /\ h' !! 0%nat = Some sample_tokens.
Proof.
  destruct (load_data sample_workbook []) as [[g h']|e] eqn:E;
    [|vm_compute in E; discriminate E].
  exists g, h'. split; [reflexivity|].
  destruct (objects_after_loading sample_workbook [] g h' E)
    as (Hlen & Htok & Hr & Hw & Hf & _ & _ & Hsame).
  split; [exact Hlen|]. split; [exact Htok|].
  rewrite Hsame.
  - reflexivity.
  - vm_compute in E. injection E as <- _. vm_compute. discriminate.
  - vm_compute in E. injection E as <- _. vm_compute. discriminate.
  - vm_compute in E. injection E as <- _. vm_compute. discriminate.
  - rewrite Htok. discriminate.
Defined.

(** ** No token record in the window (lines 198-219) *)

Lemma mask_list_none {A} (p : A -> bool) (l : list A) :
  (forall a, In a l -> p a = false) -> mask_list (map p l) l = [].
Proof.
  intros H. rewrite mask_list_all. induction l as [|a l IH]; [reflexivity|].
  simpl. rewrite (H a) by (left; reflexivity). apply IH. intros b Hb. apply H. right. exact Hb.
Qed.

Lemma getitem_map_series (F : Series -> Series) t col :
  getitem (map (fun c => (fst c, F (snd c))) t) col
  = match getitem t col with
    | Ok s => Ok (F s)
    | Raise e => Raise e
    end.
Proof.
  induction t as [|[n s] t IH]; simpl; [reflexivity|].
  destruct (String.eqb n col); [reflexivity | exact IH].
Qed.

Lemma numeric_nums s : is_numeric_dtype s = true -> exists xs, series_nums s = Ok xs.
Proof. destruct s; try discriminate; intros _; simpl; eauto. Qed.

Lemma numeric_at_getitem t c :
  numeric_at t c = true ->
  exists s xs, getitem t c = Ok s /\ is_numeric_dtype s = true /\ series_nums s = Ok xs.
Proof.
  unfold numeric_at. destruct (getitem t c) as [s|e]; [|discriminate].
  intros H. destruct (numeric_nums s H) as [xs Hxs]. eauto.
Qed.

Lemma number_at_getitem t c :
  number_at t c = true -> exists xs, getitem t c = Ok (SNum xs).
Proof.
  unfold number_at. destruct (getitem t c) as [[xs|ts|os|bs]|e]; try discriminate.
  intros _. eauto.
Qed.

Lemma detect_pie_source_cols_numeric t c :
  In c (detect_pie_source_cols t) -> numeric_at t c = true.
Proof.
  unfold detect_pie_source_cols. intros H. apply filter_In in H as [_ H].
  apply andb_prop in H as [_ H]. exact H.
Qed.

Lemma token_charts_empty_window (g : Globals) (h : heap) (T : DataFrame)
    (dates : list (option Timestamp)) :
  h !! tokens_source_df g = Some T ->
  getitem T "Date" = Ok (STime dates) ->
  (forall o, In o dates -> in_window ts_geb cutoff_2025_01_01 o = false) ->
  token_charts g h = Raise AttributeError.
Proof.
  intros HT Hd Hout. unfold token_charts.
  rewrite (bind_run _ _ _ _ _ (load_at _ _ _ HT)).
  set (m := map (in_window ts_geb cutoff_2025_01_01) dates).
  assert (Hw : window ts_geb cutoff_2025_01_01 T = Ok (mask_rows m T)).
  { unfold window. rewrite Hd. reflexivity. }
  rewrite (bind_run _ _ _ _ _ (lift_run _ _ _ Hw)).
  rewrite (bind_run _ _ _ _ _ (alloc_run _ _)).
  rewrite (bind_run _ _ _ _ _ (load_at _ _ _ (lookup_new h _))).
  apply bind_raise. unfold lift.
  assert (Hm : mask_list m dates = []) by (apply mask_list_none; exact Hout).
  rewrite (resample_MS_sum_empty (mask_rows m T) (STime []) []); [reflexivity| |reflexivity|reflexivity].
  rewrite getitem_mask_rows, Hd. simpl. rewrite Hm. reflexivity.
Qed.

(** X9.  When no record of the token table is dated on or after
    1 January 2025 (an empty table included), the windowed copy of
    line 36 has no rows, [resample] (line 40) raises [AttributeError] on
    it, and [create_figures], whose first section this is, returns no
    figure at all, whatever the other tables hold. *)
Theorem no_token_in_window_is_fatal (g : Globals) (h : heap) (T : DataFrame)
    (dates : list (option Timestamp)) :
  h !! tokens_source_df g = Some T ->
  getitem T "Date" = Ok (STime dates) ->
  (forall o, In o dates -> in_window ts_geb cutoff_2025_01_01 o = false) ->
  window ts_geb cutoff_2025_01_01 T = Ok (mask_rows (map (fun _ => false) dates) T)
  /\ token_charts g h = Raise AttributeError
  /\ create_figures g h = Raise AttributeError.
Proof.
  intros HT Hd Hout. split; [|split].
  - unfold window. rewrite Hd. cbn [rbind cmp_mask]. do 2 f_equal.
    apply map_ext_in. intros o Ho. exact (Hout o Ho).
  - exact (token_charts_empty_window g h T dates HT Hd Hout).
  - unfold create_figures. apply bind_raise.
    exact (token_charts_empty_window g h T dates HT Hd Hout).
Qed.

Lemma no_token_in_window_is_fatal_witness :
  create_figures sample_globals late_store = Raise AttributeError.
Proof.
  refine (proj2 (proj2 (no_token_in_window_is_fatal sample_globals late_store
                   [ ("Date", STime [on_day 2024 11 2; on_day 2024 12 15]);
                     ("Airdrop", SNum [7; 3]) ]%string
                   [on_day 2024 11 2; on_day 2024 12 15]
                   eq_refl eq_refl _))).
  intros o [<- | [<- | []]]; reflexivity.
Defined.

(** ** The wallet and referral sections return (lines 72-82, 114-148) *)

Lemma rmap_returns {A B} (f : A -> result B) l :
  (forall a, In a l -> exists b, f a = Ok b) -> exists bs, rmap f l = Ok bs.
Proof.
  induction l as [|a l IH]; intros H; [exists []; reflexivity|].
  destruct (H a) as [b Hb]; [left; reflexivity|].
  destruct IH as [bs Hbs]; [intros a' Ha'; apply H; right; exact Ha'|].
  exists (b :: bs). simpl. rewrite Hb, Hbs. reflexivity.
Qed.

Lemma groupby_sum_returns t key cols keys :
  rbind (getitem t key) month_keys = Ok keys ->
  (forall c, In c cols -> exists xs, rbind (getitem t c) series_nums = Ok xs) ->
  exists out, groupby_sum t key cols = Ok out.
Proof.
  intros Hk Hcols. unfold groupby_sum.
  destruct (getitem t key) as [b|e]; [|discriminate Hk]. cbn [rbind] in Hk |- *.
  rewrite Hk. cbn [rbind].
  set (ks := unique_sorted (somes keys)).
  destruct (rmap_returns
              (fun c => let? s := getitem t c in
                        let? xs := series_nums s in
                        Ok (c, SNum (map (sum_where keys xs) ks))) cols) as [sel Hsel].
  - intros c Hc. destruct (Hcols c Hc) as [xs Hxs].
    destruct (getitem t c) as [s|e]; [|discriminate Hxs]. cbn [rbind] in Hxs |- *.
    rewrite Hxs. cbn [rbind]. eauto.
  - rewrite Hsel. cbn [rbind]. eauto.
Qed.

Lemma windowed_groupby_returns test c dates t cols :
  getitem t "Date" = Ok (STime dates) ->
  ~ In "Month"%string cols ->
  (forall col, In col cols -> exists xs, rbind (getitem t col) series_nums = Ok xs) ->
  exists wide, groupby_sum (windowed test c dates t) "Month" cols = Ok wide.
Proof.
  intros Hd Hno Hcols.
  apply (groupby_sum_returns _ _ _ _ (month_keys_windowed test c dates t)).
  intros col Hcol. destruct (Hcols col Hcol) as [xs Hxs].
  rewrite getitem_windowed by (intros ->; exact (Hno Hcol)).
  rewrite getitem_mask_rows.
  destruct (getitem t col) as [s|e]; [|discriminate Hxs]. cbn [rbind] in Hxs |- *.
  exists (mask_list (map (in_window test c) dates) xs). apply series_nums_mask. exact Hxs.
Qed.

Lemma groupby_sum_names t key cols out :
  groupby_sum t key cols = Ok out -> columns out = key :: cols.
Proof.
  intros H. destruct (groupby_sum_columns _ _ _ _ H) as (keys & _ & Hout & _).
  cbv zeta in Hout. rewrite Hout. unfold columns. simpl. rewrite map_map. simpl.
  rewrite map_id. reflexivity.
Qed.

Lemma groupby_totals_names t key cols out sel totals :
  groupby_sum t key cols = Ok out -> getitems out cols = Ok sel ->
  column_totals sel = Ok totals -> map fst totals = cols.
Proof.
  intros H Hsel Ht.
  destruct (groupby_sum_columns _ _ _ _ H) as (keys & _ & _ & _ & _ & Hsel' & _).
  cbv zeta in Hsel'. rewrite Hsel in Hsel'. injection Hsel' as ->.
  rewrite column_totals_named in Ht. injection Ht as <-.
  rewrite map_map. apply map_id.
Qed.

Lemma melt_names t id cols var val long :
  melt t id cols var val = Ok long -> columns long = [id; var; val].
Proof.
  unfold melt. intros H. destruct (has_column t val); [discriminate H|].
  apply rbind_ok in H as (ids & _ & H).
  apply rbind_ok in H as (vs & _ & H). injection H as <-. reflexivity.
Qed.

Lemma has_column_false_iff t col : has_column t col = false <-> ~ In col (columns t).
Proof.
  rewrite <- has_column_In. destruct (has_column t col); split; intros H;
    try reflexivity; try discriminate; try (intros E; discriminate E).
  exfalso. apply H. reflexivity.
Qed.

Lemma groupby_sum_lacks t key cols out val :
  groupby_sum t key cols = Ok out -> val <> key -> ~ In val cols ->
  has_column out val = false.
Proof.
  intros H Hk Hc. apply has_column_false_iff. rewrite (groupby_sum_names _ _ _ _ H).
  intros [E | E]; [congruence | contradiction].
Qed.

Lemma wallet_charts_returns (g : Globals) (h : heap) (W : DataFrame)
    (dates : list (option Timestamp)) :
  h !! wallet_df g = Some W ->
  getitem W "Date" = Ok (STime dates) ->
  (forall c, In c wallet_platforms ->
             exists xs, rbind (getitem W c) series_nums = Ok xs) ->
  exists out,
    wallet_charts g h = Ok (out, h ++ [windowed ts_gtb cutoff_2024_12_31 dates W]).
Proof.
  intros HW Hd Hcols. unfold wallet_charts.
  rewrite (bind_run _ _ _ _ _ (load_at _ _ _ HW)).
  rewrite (windowed_copy_fwd _ _ _ _ _ _ Hd).
  destruct (windowed_groupby_returns ts_gtb cutoff_2024_12_31 dates W wallet_platforms Hd)
    as [mw Hg]; [intros [E | [E | [E | []]]]; discriminate E | exact Hcols |].
  rewrite (bind_run _ _ _ _ _ (lift_run _ _ _ Hg)).
  destruct (groupby_sum_columns _ _ _ _ Hg) as (keys & _ & Hout & _ & Hcol & Hsel & _).
  cbv zeta in Hout, Hcol, Hsel.
  rewrite (bind_run _ _ _ _ _ (lift_run _ _ _ Hsel)).
  rewrite (bind_run _ _ _ _ _ (lift_run _ _ _ (column_totals_named _ _))).
  assert (Hhas : has_column mw "Count" = false).
  { apply (groupby_sum_lacks _ _ _ _ _ Hg); [discriminate|].
    intros [E | [E | [E | []]]]; discriminate E. }
  rewrite (bind_run _ _ _ _ _ (lift_run _ _ _ (melt_named _ _ _ _ _ _ _ Hout Hhas Hcol))).
  eexists. reflexivity.
Qed.

(** X10.  The wallet section returns whenever the wallet table has
    datetime dates and its three platform columns hold numbers: one
    monthly table with the month and the three platforms, its long form
    with the three columns of [melt] and one total per platform.  The
    wallet table of the store is not changed; the windowed copy is the
    one new object. *)
Theorem wallet_section_returns (g : Globals) (h : heap) (W : DataFrame)
    (dates : list (option Timestamp)) :
  h !! wallet_df g = Some W ->
  getitem W "Date" = Ok (STime dates) ->
  (forall c, In c wallet_platforms ->
             exists xs, rbind (getitem W c) series_nums = Ok xs) ->
  exists mw melted totals,
    wallet_charts g h
    = Ok ((mw, melted, totals), h ++ [windowed ts_gtb cutoff_2024_12_31 dates W])
    /\ columns mw = "Month"%string :: wallet_platforms
    /\ columns melted = ["Month"; "Platform"; "Count"]%string
    /\ map fst totals = wallet_platforms.
Proof.
  intros HW Hd Hcols.
  destruct (wallet_charts_returns g h W dates HW Hd Hcols) as [[[mw melted] totals] Hrun].
  exists mw, melted, totals. split; [exact Hrun|].
  destruct (wallet_charts_run _ _ _ _ _ HW Hrun)
    as (dates' & mw' & melted' & totals' & sel & _ & Hg & Hsel & Ht & Hm & [= <- <- <-]).
  split; [exact (groupby_sum_names _ _ _ _ Hg)|]. split.
  - exact (melt_names _ _ _ _ _ _ Hm).
  - exact (groupby_totals_names _ _ _ _ _ _ Hg Hsel Ht).
Qed.

Lemma wallet_section_returns_witness :
  exists mw melted totals h',
    wallet_charts sample_globals sample_store = Ok ((mw, melted, totals), h')
    /\ columns mw = ["Month"; "Android"; "iOS"; "Web"]%string.
Proof.
  destruct (wallet_section_returns sample_globals sample_store sample_wallets
              [on_day 2025 1 5; on_day 2025 3 20] eq_refl eq_refl)
    as (mw & melted & totals & Hrun & Hcols & _).
  - intros c [<- | [<- | [<- | []]]]; eexists; reflexivity.
  - exists mw, melted, totals. eexists. split; [exact Hrun | exact Hcols].
Defined.

Lemma referral_charts_returns (g : Globals) (h : heap) (R : DataFrame)
    (dates : list (option Timestamp)) :
  h !! referral_df g = Some R ->
  getitem R "Date" = Ok (STime dates) ->
  ~ In "Month"%string (referral_sources g) ->
  ~ In "Referrals"%string (referral_sources g) ->
  (forall c, In c (referral_sources g) ->
             exists xs, rbind (getitem R c) series_nums = Ok xs) ->
  exists melted by_month by_source totals,
    referral_charts g h
    = Ok ((melted, by_month, by_source, totals),
          h ++ [windowed ts_geb cutoff_2025_01_01 dates R; by_source]).
Proof.
  intros HR Hd Hno Hnor Hcols. unfold referral_charts.
  rewrite (bind_run _ _ _ _ _ (load_at _ _ _ HR)).
  rewrite (windowed_copy_fwd _ _ _ _ _ _ Hd).
  set (w := windowed ts_geb cutoff_2025_01_01 dates R).
  destruct (windowed_groupby_returns ts_geb cutoff_2025_01_01 dates R _ Hd Hno Hcols)
    as [bs Hg]. fold w in Hg.
  rewrite (bind_run _ _ _ _ _ (lift_run _ _ _ Hg)).
  rewrite (bind_run _ _ _ _ _ (alloc_run _ _)).
  pose proof (groupby_sum_lacks _ _ _ _ "Referrals" Hg ltac:(discriminate) Hnor) as Hhas.
  destruct (groupby_sum_columns _ _ _ _ Hg) as (keys & _ & Hout & _ & Hcol & Hsel & _).
  cbv zeta in Hout, Hcol, Hsel.
  set (ks := unique_sorted (somes keys)) in *.
  set (G := fun c : string => map (sum_where keys (numbers_of w c)) ks) in *.
  rewrite (bind_run _ _ _ _ _ (lift_run _ _ _ Hsel)).
  rewrite (bind_run _ _ _ _ _ (lift_run _ _ _ (column_totals_named _ _))).
  pose proof (melt_named "Month" ks G (referral_sources g) "Campaign" "Referrals" bs
                Hout Hhas Hcol) as Hmelt.
  rewrite (bind_run _ _ _ _ _ (lift_run _ _ _ Hmelt)).
  set (melted := [ ("Month"%string, tile (length (referral_sources g)) (month_column ks));
                   ("Campaign"%string,
                    SObj (flat_map (fun c => repeat (PStr c) (length ks)) (referral_sources g)));
                   ("Referrals"%string, SNum (concat (map G (referral_sources g)))) ]) in *.
  destruct (groupby_sum_returns melted "Month" ["Referrals"%string]
              (concat (repeat (map Some ks) (length (referral_sources g)))))
    as [bm Hbm].
  { unfold melted. rewrite getitem_cons, String.eqb_refl. cbn [rbind].
    apply month_keys_tile. }
  { intros c [<- | []]. unfold melted. rewrite getitem_third by discriminate.
    eexists. reflexivity. }
  rewrite (bind_run _ _ _ _ _ (lift_run _ _ _ Hbm)).
  rewrite (bind_run _ _ _ _ _ (load_at _ _ _ (lookup_new _ _))).
  rewrite (bind_run _ _ _ _ _ (lift_run _ _ _ Hsel)).
  rewrite (bind_run _ _ _ _ _ (lift_run _ _ _ (row_sums_named _ _ _))).
  rewrite (bind_run _ _ _ _ _ (setitem_inplace_at _ _ _ _ _ (lookup_new _ _))).
  rewrite insert_new.
  rewrite (bind_run _ _ _ _ _ (load_at _ _ _ (lookup_new _ _))).
  eexists _, _, _, _. unfold ret. rewrite <- app_assoc. reflexivity.
Qed.

(** With a source called [Referrals], the name line 119 gives to the
    value column of the long form, [melt] refuses. *)
Lemma referral_charts_value_name (g : Globals) (h : heap) (R : DataFrame)
    (dates : list (option Timestamp)) :
  h !! referral_df g = Some R ->
  getitem R "Date" = Ok (STime dates) ->
  ~ In "Month"%string (referral_sources g) ->
  In "Referrals"%string (referral_sources g) ->
  (forall c, In c (referral_sources g) ->
             exists xs, rbind (getitem R c) series_nums = Ok xs) ->
  referral_charts g h
  = Raise (ValueError
             "value_name (Referrals) cannot match an element in the DataFrame columns.").
Proof.
  intros HR Hd Hno Hin Hcols. unfold referral_charts.
  rewrite (bind_run _ _ _ _ _ (load_at _ _ _ HR)).
  rewrite (windowed_copy_fwd _ _ _ _ _ _ Hd).
  set (w := windowed ts_geb cutoff_2025_01_01 dates R).
  destruct (windowed_groupby_returns ts_geb cutoff_2025_01_01 dates R _ Hd Hno Hcols)
    as [bs Hg]. fold w in Hg.
  rewrite (bind_run _ _ _ _ _ (lift_run _ _ _ Hg)).
  rewrite (bind_run _ _ _ _ _ (alloc_run _ _)).
  assert (Hhas : has_column bs "Referrals" = true).
  { apply has_column_In. rewrite (groupby_sum_names _ _ _ _ Hg). right. exact Hin. }
  destruct (groupby_sum_columns _ _ _ _ Hg) as (keys & _ & Hout & _ & Hcol & Hsel & _).
  cbv zeta in Hsel.
  rewrite (bind_run _ _ _ _ _ (lift_run _ _ _ Hsel)).
  rewrite (bind_run _ _ _ _ _ (lift_run _ _ _ (column_totals_named _ _))).
  apply bind_raise. unfold lift, melt. rewrite Hhas. reflexivity.
Qed.

(** X11.  The referral section on a referral table with datetime dates
    whose detected sources hold numbers (no source being called [Month],
    the name of the column the section adds).  When no source is called
    [Referrals] it returns: it makes two new objects, the windowed copy
    and the monthly table with its [Total] column, and leaves the
    referral table as it is.  When a source is called [Referrals], the
    name line 119 gives to the values of the long form, [melt] raises
    [ValueError] and no figure is made. *)
Theorem referral_section_returns (g : Globals) (h : heap) (R : DataFrame)
    (dates : list (option Timestamp)) :
  h !! referral_df g = Some R ->
  getitem R "Date" = Ok (STime dates) ->
  ~ In "Month"%string (referral_sources g) ->
  (forall c, In c (referral_sources g) ->
             exists xs, rbind (getitem R c) series_nums = Ok xs) ->
  (~ In "Referrals"%string (referral_sources g) ->
   exists melted by_month by_source totals,
     referral_charts g h
     = Ok ((melted, by_month, by_source, totals),
           h ++ [windowed ts_geb cutoff_2025_01_01 dates R; by_source])
     /\ columns melted = ["Month"; "Campaign"; "Referrals"]%string
     /\ columns by_month = ["Month"; "Referrals"]%string
     /\ map fst totals = referral_sources g
     /\ has_column by_source "Total" = true)
  /\ (In "Referrals"%string (referral_sources g) ->
      referral_charts g h
      = Raise (ValueError
                 "value_name (Referrals) cannot match an element in the DataFrame columns.")).
Proof.
  intros HR Hd Hno Hcols. split.
  - intros Hnor.
    destruct (referral_charts_returns g h R dates HR Hd Hno Hnor Hcols)
      as (melted & by_month & by_source & totals & Hrun).
    exists melted, by_month, by_source, totals. split; [exact Hrun|].
    destruct (referral_charts_run _ _ _ _ _ HR Hrun)
      as (dates' & bs & melted' & bm & totals' & sel & total
          & _ & Hg & Hsel & Ht & Hm & Hbm & _ & [= <- <- -> <-]).
    split; [|split; [|split]].
    + exact (melt_names _ _ _ _ _ _ Hm).
    + exact (groupby_sum_names _ _ _ _ Hbm).
    + exact (groupby_totals_names _ _ _ _ _ _ Hg Hsel Ht).
    + apply has_column_getitem. eexists. apply getitem_setitem_eq.
  - intros Hin. exact (referral_charts_value_name g h R dates HR Hd Hno Hin Hcols).
Qed.

Lemma referral_section_returns_witness :
  exists melted by_month by_source totals h',
    referral_charts sample_globals sample_store
    = Ok ((melted, by_month, by_source, totals), h')
    /\ map fst totals = ["Twitter"; "Friends"]%string.
Proof.
  destruct (proj1 (referral_section_returns sample_globals sample_store _
                     [on_day 2025 1 5; on_day 2025 3 1] eq_refl eq_refl
                     ltac:(intros [E | [E | []]]; discriminate E)
                     ltac:(intros c [<- | [<- | []]]; eexists; reflexivity))
              ltac:(intros [E | [E | []]]; discriminate E))
    as (melted & by_month & by_source & totals & Hrun & _ & _ & Ht & _).
  exists melted, by_month, by_source, totals. eexists.
  split; [exact Hrun | exact Ht].
Defined.


(** ** The token section returns (lines 36-46) *)

Lemma is_numeric_dtype_mask m s : is_numeric_dtype (mask_series m s) = is_numeric_dtype s.
Proof. destruct s; reflexivity. Qed.

Lemma getitem_resampled (F : list Z -> list Z) t c s xs :
  getitem t c = Ok s -> is_numeric_dtype s = true -> series_nums s = Ok xs ->
  getitem (map (fun c : string * list Z => (fst c, SNum (F (snd c)))) (numeric_data t)) c
  = Ok (SNum (F xs)).
Proof.
  unfold numeric_data. induction t as [|[n s0] t IH]; [discriminate|].
  rewrite getitem_cons. destruct (String.eqb n c) eqn:E.
  - intros [= ->] Hnum Hxs.
    destruct s as [ys|ts|os|bs]; try discriminate Hnum; simpl in Hxs;
      injection Hxs as <-; simpl; rewrite E; reflexivity.
  - intros H Hnum Hxs. simpl.
    destruct s0 as [ys|ts|os|bs]; simpl; try rewrite E; apply IH; assumption.
Qed.

Lemma detect_token_source_cols_In t c :
  List.NoDup (columns t) ->
  In c (detect_token_source_cols t) ->
  number_at t c = true /\ c <> "Total"%string.
Proof.
  intros Hnd H. rewrite (detect_token_source_cols_filter _ Hnd) in H.
  apply filter_In in H as [_ H]. apply andb_prop in H as [Hne H].
  split; [exact H|]. intros ->. discriminate Hne.
Qed.

Lemma numeric_at_columns t c : numeric_at t c = true -> In c (columns t).
Proof.
  intros H. apply numeric_at_getitem in H as (s0 & xs & H & _). apply getitem_In in H.
  apply (in_map fst) in H. exact H.
Qed.

Lemma numbers_of_numeric t c xs : getitem t c = Ok (SNum xs) -> numbers_of t c = xs.
Proof. intros H. unfold numbers_of. rewrite H. reflexivity. Qed.

Lemma nrows_setitem_other n s t col s' :
  n <> col -> nrows (setitem ((n, s) :: t) col s') = series_len s.
Proof.
  intros H. simpl. destruct (String.eqb n col) eqn:E; [|reflexivity].
  apply String.eqb_eq in E. contradiction.
Qed.

Lemma sum_where_window_total test c dates xs bins :
  length xs = length dates ->
  let m := map (in_window test c) dates in
  let keys := map (option_map month_of) (mask_list m dates) in
  List.NoDup bins -> (forall k, In k (somes keys) -> In k bins) ->
  zsum (map (sum_where keys (mask_list m xs)) bins) = zsum (mask_list m xs).
Proof.
  intros Hlen m keys Hnd Hcover.
  rewrite (sum_where_partition _ _ _ Hnd Hcover).
  unfold keys, m. rewrite mask_in_window_has_key. rewrite mask_list_true; [reflexivity|].
  apply mask_list_length. symmetry. exact Hlen.
Qed.

Lemma series_sum_num xs : series_sum (SNum xs) = Ok (zsum xs).
Proof. reflexivity. Qed.

Lemma month_span_nodup ks : List.NoDup (month_span ks).
Proof.
  destruct ks as [|k ks]; [constructor|]. apply sorted_lt_nodup, zrange_sorted.
Qed.

Lemma month_span_covers ks k : In k ks -> In k (month_span ks).
Proof. intros H. apply month_span_In. exists k, k. repeat split; try assumption; lia. Qed.

Lemma detected_source_column m T c :
  List.NoDup (columns T) ->
  In c (detect_token_source_cols (mask_rows m T)) ->
  exists xs, getitem T c = Ok (SNum xs)
             /\ numbers_of (mask_rows m T) c = mask_list m xs.
Proof.
  intros Hnd Hc. apply detect_token_source_cols_In in Hc as [Hnum _];
    [|rewrite columns_mask_rows; exact Hnd].
  apply number_at_getitem in Hnum as [ys Hys].
  rewrite getitem_mask_rows in Hys.
  destruct (getitem T c) as [[xs|?|?|?]|e] eqn:Ec; try discriminate Hys.
  exists xs. split; [reflexivity|].
  apply numbers_of_numeric. rewrite getitem_mask_rows, Ec. reflexivity.
Qed.

(** A record in the window gives the windowed copy a dated row. *)
Lemma window_keys_nonempty test c dates :
  (exists t, In (Some t) dates /\ test t c = true) ->
  somes (map (option_map month_of) (mask_list (map (in_window test c) dates) dates)) <> [].
Proof.
  intros (t & Hin & Ht). apply somes_month_keys_nonempty. exists t.
  rewrite mask_list_all. apply filter_In. split; [exact Hin | exact Ht].
Qed.

(** The token section run forward: the total of the titles as the code
    adds it up, from the monthly sums. *)
Lemma token_charts_fwd (g : Globals) (h : heap) (T : DataFrame)
    (dates : list (option Timestamp)) :
  h !! tokens_source_df g = Some T ->
  getitem T "Date" = Ok (STime dates) ->
  List.NoDup (columns T) ->
  ~ In "Month"%string (columns T) -> ~ In "MonthLabel"%string (columns T) ->
  (exists t, In (Some t) dates /\ ts_geb t cutoff_2025_01_01 = true) ->
  let m := map (in_window ts_geb cutoff_2025_01_01) dates in
  let w := mask_rows m T in
  let cols := detect_token_source_cols w in
  let keys := map (option_map month_of) (mask_list m dates) in
  let bins := month_span (somes keys) in
  let F := fun xs : list Z => map (sum_where keys xs) bins in
  exists mt total,
    token_charts g h = Ok ((mt, total, cols), h ++ [w; mt])
    /\ (forall s ts, getitem T "Total" = Ok s -> is_numeric_dtype s = true ->
                     series_nums s = Ok ts -> total = zsum (F (mask_list m ts)))
    /\ (numeric_at T "Total" = false ->
        total = zsum (map (fun i => zsum (map (fun c => nth i (F (numbers_of w c)) 0) cols))
                        (seq 0 (length bins)))).
Proof.
  intros HT Hd Hnd HnoM HnoL Hex m w cols keys bins F. unfold token_charts.
  rewrite (bind_run _ _ _ _ _ (load_at _ _ _ HT)).
  assert (Hw : window ts_geb cutoff_2025_01_01 T = Ok w).
  { unfold window. rewrite Hd. reflexivity. }
  rewrite (bind_run _ _ _ _ _ (lift_run _ _ _ Hw)).
  rewrite (bind_run _ _ _ _ _ (alloc_run _ _)).
  rewrite (bind_run _ _ _ _ _ (load_at _ _ _ (lookup_new h _))).
  fold cols.
  set (numerics := map (fun c : string * list Z => (fst c, SNum (F (snd c))))
                     (numeric_data w)).
  set (d0 := month_column bins).
  set (mt0 := ("Date"%string, d0) :: numerics).
  assert (Hres : resample_MS_sum w = Ok mt0).
  { apply (resample_MS_sum_run w (STime (mask_list m dates)) keys).
    - unfold w. rewrite getitem_mask_rows, Hd. reflexivity.
    - reflexivity.
    - apply window_keys_nonempty. exact Hex. }
  rewrite (bind_run _ _ _ _ _ (lift_run _ _ _ Hres)).
  rewrite (bind_run _ _ _ _ _ (alloc_run _ _)).
  set (h2 := h ++ [w]).
  assert (Hd0 : getitem mt0 "Date" = Ok d0).
  { unfold mt0. rewrite getitem_cons, String.eqb_refl. reflexivity. }
  rewrite (bind_run _ _ _ _ _ (column_of_at _ _ _ _ _ (lookup_new h2 _) Hd0)).
  rewrite (bind_run _ _ _ _ _ (setitem_inplace_at _ _ _ _ _ (lookup_new h2 _))).
  rewrite insert_new.
  assert (Hd1 : getitem (setitem mt0 "Month" d0) "Date" = Ok d0)
    by (rewrite getitem_setitem_ne by discriminate; exact Hd0).
  rewrite (bind_run _ _ _ _ _ (column_of_at _ _ _ _ _ (lookup_new h2 _) Hd1)).
  rewrite (bind_run _ _ _ _ _ (lift_run (strftime_BY d0) _ _ eq_refl)).
  rewrite (bind_run _ _ _ _ _ (setitem_inplace_at _ _ _ _ _ (lookup_new h2 _))).
  rewrite insert_new.
  match goal with
  | |- context [setitem (setitem mt0 "Month" d0) "MonthLabel" ?l] => set (labels := l)
  end.
  set (mt1 := setitem (setitem mt0 "Month" d0) "MonthLabel" labels).
  rewrite (bind_run _ _ _ _ _ (load_at _ _ _ (lookup_new h2 _))).
  (* the columns of the monthly table *)
  assert (Hcol : forall c s xs, getitem T c = Ok s -> is_numeric_dtype s = true ->
            series_nums s = Ok xs ->
            c <> "Month"%string -> c <> "MonthLabel"%string ->
            getitem mt1 c = Ok (SNum (F (mask_list m xs)))).
  { intros c s0 xs Hc Hnum Hxs HcM HcL. unfold mt1.
    rewrite !getitem_setitem_ne by congruence.
    unfold mt0. rewrite getitem_cons.
    destruct (String.eqb "Date" c) eqn:E.
    - apply String.eqb_eq in E. subst c. rewrite Hd in Hc. injection Hc as <-.
      discriminate Hnum.
    - apply (getitem_resampled F w c (mask_series m s0)).
      + unfold w. rewrite getitem_mask_rows, Hc. reflexivity.
      + rewrite is_numeric_dtype_mask. exact Hnum.
      + apply series_nums_mask. exact Hxs. }
  assert (Hin : forall c, In c (columns T) -> c <> "Month"%string /\ c <> "MonthLabel"%string).
  { intros c Hc. split; intros ->; contradiction. }
  assert (Htot : has_column mt1 "Total" = true
                 <-> exists s, getitem T "Total" = Ok s /\ is_numeric_dtype s = true).
  { unfold mt1. rewrite !has_column_setitem_ne by discriminate.
    rewrite (resample_has_total m T mt0 Hres). split.
    - intros (s0 & Hs0 & Hnum). exists s0. split; [|exact Hnum].
      apply In_getitem_nodup; assumption.
    - intros (s0 & Hs0 & Hnum). exists s0. split; [|exact Hnum].
      apply getitem_In. exact Hs0. }
  destruct (has_column mt1 "Total") eqn:Ehas.
  - destruct (proj1 Htot eq_refl) as (s0 & Hs0 & Hnum0).
    destruct (numeric_nums s0 Hnum0) as [ts Hts].
    assert (HcT : getitem mt1 "Total" = Ok (SNum (F (mask_list m ts))))
      by (apply (Hcol _ _ _ Hs0 Hnum0 Hts); discriminate).
    rewrite (bind_run _ _ _ _ _ (eq_refl : ret tt _ = Ok (tt, _))).
    rewrite (bind_run _ _ _ _ _ (column_of_at _ _ _ _ _ (lookup_new h2 _) HcT)).
    rewrite (bind_run _ _ _ _ _ (lift_run _ _ _ (series_sum_num _))).
    rewrite (bind_run _ _ _ _ _ (load_at _ _ _ (lookup_new h2 _))).
    exists mt1, (zsum (F (mask_list m ts))). split.
    + unfold ret, h2. rewrite <- app_assoc. reflexivity.
    + split.
      * intros s' ts' Hs' _ Hts'. rewrite Hs0 in Hs'. injection Hs' as <-.
        rewrite Hts in Hts'. injection Hts' as <-. reflexivity.
      * intros Hnum. unfold numeric_at in Hnum. rewrite Hs0 in Hnum. congruence.
  - set (G := fun c => F (numbers_of w c)).
    assert (Hsel : getitems mt1 cols = Ok (map (fun c => (c, SNum (G c))) cols)).
    { unfold getitems. apply rmap_spec. intros c Hc.
      destruct (detected_source_column m T c Hnd Hc) as (xs & Hxs & Hn).
      destruct (Hin c) as [HcM HcL].
      { apply getitem_In in Hxs. apply (in_map fst) in Hxs. exact Hxs. }
      rewrite (Hcol _ _ _ Hxs eq_refl eq_refl HcM HcL). unfold G. fold w in Hn.
      rewrite Hn. reflexivity. }
    assert (Hn : nrows mt1 = length bins).
    { unfold mt1. rewrite nrows_setitem.
      - unfold mt0. rewrite nrows_setitem_other by discriminate.
        unfold d0. simpl. apply length_map.
      - apply wf_frame_setitem.
        + apply (resample_MS_sum_wf _ _ Hres).
        + unfold mt0, d0. simpl. rewrite !length_map. reflexivity.
      - unfold labels. unfold mt0. rewrite nrows_setitem_other by discriminate.
        unfold d0. simpl. rewrite !length_map. reflexivity. }
    erewrite (bind_run (bind (lift (getitems mt1 cols)) _)).
    2:{ rewrite (bind_run _ _ _ _ _ (lift_run _ _ _ Hsel)).
        rewrite (bind_run _ _ _ _ _ (lift_run _ _ _ (row_sums_named _ _ _))).
        apply (setitem_inplace_at _ _ _ _ _ (lookup_new h2 _)). }
    rewrite insert_new.
    rewrite (bind_run _ _ _ _ _
               (column_of_at _ _ _ _ _ (lookup_new h2 _) (getitem_setitem_eq _ _ _))).
    rewrite (bind_run _ _ _ _ _ (lift_run _ _ _ (series_sum_num _))).
    rewrite (bind_run _ _ _ _ _ (load_at _ _ _ (lookup_new h2 _))).
    eexists _, _. split.
    + unfold ret, h2. rewrite <- app_assoc. reflexivity.
    + split.
      * intros s0 ts Hs0 Hnum0 _.
        discriminate (proj2 Htot (ex_intro _ s0 (conj Hs0 Hnum0))).
      * intros _. rewrite Hn. reflexivity.
Qed.

(** What the monthly sums of the token section add up to, on a
    rectangular table: the sum of each column over the records of the
    window, and for the row totals the sum of all detected sources. *)
Lemma token_sums_in_window (T : DataFrame) (dates : list (option Timestamp)) :
  getitem T "Date" = Ok (STime dates) ->
  List.NoDup (columns T) -> wf_frame T = true ->
  let m := map (in_window ts_geb cutoff_2025_01_01) dates in
  let w := mask_rows m T in
  let cols := detect_token_source_cols w in
  let keys := map (option_map month_of) (mask_list m dates) in
  let bins := month_span (somes keys) in
  let F := fun xs : list Z => map (sum_where keys xs) bins in
  (forall c s xs, getitem T c = Ok s -> series_nums s = Ok xs ->
                  zsum (F (mask_list m xs)) = zsum (mask_list m xs))
  /\ zsum (map (fun i => zsum (map (fun c => nth i (F (numbers_of w c)) 0) cols))
             (seq 0 (length bins)))
     = zsum (map (fun c => zsum (numbers_of w c)) cols).
Proof.
  intros Hd Hnd Hwf m w cols keys bins F.
  assert (HF : forall c s xs, getitem T c = Ok s -> series_nums s = Ok xs ->
            zsum (F (mask_list m xs)) = zsum (mask_list m xs)).
  { intros c s0 xs Hc Hxs. unfold F.
    apply (sum_where_window_total ts_geb cutoff_2025_01_01 dates xs bins).
    - pose proof (wf_frame_length _ _ _ Hwf Hc) as H1.
      pose proof (wf_frame_length _ _ _ Hwf Hd) as H2. simpl in H2.
      rewrite (series_nums_length _ _ Hxs). congruence.
    - apply month_span_nodup.
    - intros k Hk. apply month_span_covers. exact Hk. }
  split; [exact HF|].
  rewrite (row_totals_column_totals (fun c => F (numbers_of w c))).
  - apply zsum_map_ext. intros c Hc.
    destruct (detected_source_column m T c Hnd Hc) as (xs & Hxs & Hn).
    fold w in Hn. rewrite Hn. apply (HF _ _ _ Hxs eq_refl).
  - intros c Hc. unfold F. apply length_map.
Qed.

(** X12.  The token section returns on a rectangular token table with
    datetime dates, at least one of them on or after 1 January 2025, and
    distinct column names, none of them [Month] or [MonthLabel], the
    names of the columns the section adds.  It makes two objects, the
    windowed copy and the monthly table.  The total of the titles is the
    sum of the stored [Total] column over the records in the window when
    the table has a numeric one, and otherwise the sum of all detected
    sources over the records in the window. *)
Theorem token_section_returns (g : Globals) (h : heap) (T : DataFrame)
    (dates : list (option Timestamp)) :
  h !! tokens_source_df g = Some T ->
  getitem T "Date" = Ok (STime dates) ->
  List.NoDup (columns T) -> wf_frame T = true ->
  ~ In "Month"%string (columns T) -> ~ In "MonthLabel"%string (columns T) ->
  (exists t, In (Some t) dates /\ ts_geb t cutoff_2025_01_01 = true) ->
  let m := map (in_window ts_geb cutoff_2025_01_01) dates in
  let w := mask_rows m T in
  let cols := detect_token_source_cols w in
  exists mt total,
    token_charts g h = Ok ((mt, total, cols), h ++ [w; mt])
    /\ (forall s ts, getitem T "Total" = Ok s -> is_numeric_dtype s = true ->
                     series_nums s = Ok ts -> total = zsum (mask_list m ts))
    /\ (numeric_at T "Total" = false ->
        total = zsum (map (fun c => zsum (numbers_of w c)) cols)).
Proof.
  intros HT Hd Hnd Hwf HnoM HnoL Hex m w cols.
  destruct (token_charts_fwd g h T dates HT Hd Hnd HnoM HnoL Hex)
    as (mt & total & Hrun & Hstored & Hsum).
  destruct (token_sums_in_window T dates Hd Hnd Hwf) as [HF Hrows].
  cbv zeta in Hrun, Hstored, Hsum, HF, Hrows.
  exists mt, total. split; [exact Hrun|]. split.
  - intros s0 ts Hs0 Hnum Hts. rewrite (Hstored s0 ts Hs0 Hnum Hts).
    apply (HF _ _ _ Hs0 Hts).
  - intros Hnum. rewrite (Hsum Hnum). exact Hrows.
Qed.

Lemma token_section_returns_witness :
  exists mt h', token_charts sample_globals sample_store
                = Ok ((mt, 3, ["Airdrop"%string]), h').
Proof.
  destruct (token_section_returns sample_globals sample_store
              [ ("Date", STime [on_day 2024 12 15; on_day 2025 1 10]);
                ("Airdrop", SNum [7; 3]) ]%string
              [on_day 2024 12 15; on_day 2025 1 10] eq_refl eq_refl)
    as (mt & total & Hrun & _ & Htot).
  - repeat constructor; simpl; intuition discriminate.
  - reflexivity.
  - simpl. intuition discriminate.
  - simpl. intuition discriminate.
  - eexists. split; [right; left; reflexivity | reflexivity].
  - exists mt. eexists. rewrite Hrun. rewrite (Htot eq_refl). reflexivity.
Defined.

(** ** The pie section (lines 198-254) *)

Lemma insert_row_perm p l : Permutation (insert_row p l) (p :: l).
Proof.
  induction l as [|q l IH]; simpl; [reflexivity|].
  destruct (key_ltb (fst q) (fst p)); [|reflexivity].
  rewrite IH. apply perm_swap.
Qed.

Lemma sort_rows_perm l : Permutation (fold_right insert_row [] l) l.
Proof.
  induction l as [|p l IH]; simpl; [reflexivity|].
  rewrite insert_row_perm. constructor. exact IH.
Qed.

Lemma map_snd_combine {A B} (l1 : list A) (l2 : list B) :
  length l1 = length l2 -> map snd (combine l1 l2) = l2.
Proof.
  revert l2. induction l1 as [|a l1 IH]; intros [|b l2] H; simpl in *;
    try reflexivity; try discriminate.
  rewrite IH by congruence. reflexivity.
Qed.

(** Sorting moves rows; it neither drops nor repeats one. *)
Lemma sort_index_perm keys : Permutation (sort_index keys) (seq 0 (length keys)).
Proof.
  unfold sort_index. rewrite sort_rows_perm.
  rewrite map_snd_combine by (rewrite length_seq; reflexivity). reflexivity.
Qed.

Lemma take_list_seq_app {A} (pre xs : list A) :
  take_list (seq (length pre) (length xs)) (pre ++ xs) = xs.
Proof.
  revert pre. induction xs as [|x xs IH]; intros pre; [reflexivity|].
  simpl. rewrite nth_error_app2 by lia. rewrite Nat.sub_diag. simpl. f_equal.
  specialize (IH (pre ++ [x])). rewrite length_app, <- app_assoc in IH. simpl in IH.
  rewrite Nat.add_1_r in IH. exact IH.
Qed.

Lemma take_list_perm {A} idx (xs : list A) :
  Permutation idx (seq 0 (length xs)) -> Permutation (take_list idx xs) xs.
Proof.
  intros H. unfold take_list. rewrite (Permutation_flat_map _ H).
  exact (eq_ind _ (fun l => Permutation l xs) (Permutation_refl xs) _
           (eq_sym (take_list_seq_app [] xs))).
Qed.

Lemma texts_In os s : In s (texts os) <-> In (PStr s) os.
Proof.
  induction os as [|o os IH]; simpl; [tauto|].
  destruct o; simpl; rewrite IH; split; intros H;
    try (right; exact H); try (destruct H as [H | H]; [discriminate H | exact H]).
  - destruct H as [-> | H]; auto.
  - destruct H as [[= ->] | H]; auto.
Qed.

Lemma existsb_eqb_In s l : existsb (String.eqb s) l = true <-> In s l.
Proof.
  rewrite existsb_exists. split.
  - intros (x & Hx & E). apply String.eqb_eq in E. subst x. exact Hx.
  - intros H. exists s. split; [exact H | apply String.eqb_refl].
Qed.

Lemma unique_strings_In l seen s :
  In s (unique_strings l seen) <-> In s l /\ ~ In s seen.
Proof.
  revert seen. induction l as [|a l IH]; intros seen; simpl; [tauto|].
  destruct (existsb (String.eqb a) seen) eqn:E.
  - apply existsb_eqb_In in E. rewrite IH. split.
    + intros [H1 H2]. auto.
    + intros [[-> | H1] H2]; [contradiction | auto].
  - assert (Ha : ~ In a seen) by (rewrite <- existsb_eqb_In, E; discriminate).
    simpl. rewrite IH. simpl. split.
    + intros [-> | [H1 H2]]; [auto|]. split; [right; exact H1 | tauto].
    + intros [[-> | H1] H2]; [left; reflexivity|].
      destruct (string_dec a s) as [-> | Hne]; [left; reflexivity|].
      right. split; [exact H1|]. intros [E' | H3]; [exact (Hne E') | exact (H2 H3)].
Qed.

Lemma unique_strings_nodup l seen : List.NoDup (unique_strings l seen).
Proof.
  revert seen. induction l as [|a l IH]; intros seen; simpl; [constructor|].
  destruct (existsb (String.eqb a) seen); [apply IH|].
  constructor; [|apply IH].
  rewrite unique_strings_In. simpl. tauto.
Qed.

Lemma rmap_names {A B} (f : A -> result B) (name : B -> A) l bs :
  (forall a b, f a = Ok b -> name b = a) -> rmap f l = Ok bs -> map name bs = l.
Proof.
  intros Hname. revert bs. induction l as [|a l IH]; intros bs H.
  - injection H as <-. reflexivity.
  - apply rmap_ok_cons in H as (b & bs' & Hb & Hrest & ->). simpl.
    rewrite (Hname _ _ Hb), (IH _ Hrest). reflexivity.
Qed.

Lemma make_pie_name monthly_data m p : make_pie monthly_data m = Ok p -> pie_name p = m.
Proof.
  unfold make_pie. intros H.
  apply rbind_ok in H as (sub & _ & H). apply rbind_ok in H as (l & _ & H).
  apply rbind_ok in H as (v & _ & H). apply rbind_ok in H as (t & _ & H).
  injection H as <-. reflexivity.
Qed.

Lemma make_pie_returns ms ss vs m :
  exists p,
    make_pie [ ("Month", SObj ms); ("Source", SObj ss); ("Tokens", SNum vs) ]%string m
    = Ok p.
Proof.
  unfold make_pie, rows_of_month.
  rewrite getitem_cons, String.eqb_refl. cbn [rbind].
  rewrite !getitem_mask_rows.
  rewrite getitem_cons.
  replace (String.eqb "Month" "Source") with false by reflexivity.
  rewrite getitem_cons, String.eqb_refl. cbn [rbind].
  rewrite getitem_third by discriminate. cbn [rbind mask_series series_sum series_nums].
  eauto.
Qed.

Lemma bind_ext {A B} (m : M A) (k1 k2 : A -> M B) (h : heap) :
  (forall a h1, k1 a h1 = k2 a h1) -> bind m k1 h = bind m k2 h.
Proof. intros H. unfold bind. destruct (m h) as [[a h1]|e]; [apply H | reflexivity]. Qed.

Lemma flat_map_map_fst {A B C} (f : A -> list C) (g : A -> B) (l : list A) :
  flat_map (fun c : A * B => f (fst c)) (map (fun a => (a, g a)) l) = flat_map f l.
Proof.
  induction l as [|a l IH]; simpl; [reflexivity|]. rewrite IH. reflexivity.
Qed.

Lemma melt_numbers t id cols var val ids :
  has_column t val = false ->
  getitem t id = Ok ids ->
  (forall c, In c cols -> numeric_at t c = true) ->
  melt t id cols var val
  = Ok [ (id, tile (length cols) ids);
         (var, SObj (flat_map (fun c => repeat (PStr c) (nrows t)) cols));
         (val, SNum (concat (map (numbers_of t) cols))) ].
Proof.
  intros Hhas Hid Hnum. unfold melt. rewrite Hhas, Hid. cbn [rbind].
  rewrite (rmap_spec _ (fun c => (c, numbers_of t c))).
  - cbn [rbind]. rewrite map_map. cbn [snd].
    rewrite (flat_map_map_fst (fun c => repeat (PStr c) (nrows t))).
    rewrite (map_ext (fun c => numbers_of t c) (numbers_of t)) by reflexivity.
    reflexivity.
  - intros c Hc. destruct (numeric_at_getitem t c (Hnum c Hc)) as (s0 & xs & Hs0 & _ & Hxs).
    unfold numbers_of. rewrite Hs0. cbn [rbind]. rewrite Hxs. reflexivity.
Qed.

Lemma has_column_map_series (F : Series -> Series) t col :
  has_column (map (fun c => (fst c, F (snd c))) t) col = has_column t col.
Proof.
  unfold has_column, columns. rewrite map_map. reflexivity.
Qed.

Lemma has_column_mask_rows m t col : has_column (mask_rows m t) col = has_column t col.
Proof. unfold has_column. rewrite columns_mask_rows. reflexivity. Qed.

Lemma has_column_pie_table dates T col :
  col <> "Month"%string -> col <> "Month_dt"%string ->
  has_column (pie_table dates T) col = has_column T col.
Proof.
  intros H1 H2. unfold pie_table. rewrite has_column_map_series.
  rewrite !has_column_setitem_ne by congruence.
  rewrite !has_column_mask_rows. reflexivity.
Qed.

(** The pie section up to the reshaping of line 208: the copy of the
    token table, the windowed copy with its month columns, and the sorted
    copy [pie_table], three new objects. *)
Lemma pie_charts_to_melt (g : Globals) (h : heap) (T : DataFrame)
    (dates : list (option Timestamp)) :
  h !! tokens_source_df g = Some T ->
  getitem T "Date" = Ok (STime dates) ->
  let t := pie_table dates T in
  let cols := detect_pie_source_cols t in
  let month_order := unique_strings (texts (pie_month_labels dates)) [] in
  exists h',
    pie_charts g h
    = (let* melted := lift (melt t "Month" cols "Source" "Tokens") in
       let* monthly_data := lift (groupby_month_source melted month_order) in
       let* grid := lift (make_subplots 1 (length month_order)) in
       let* pies := lift (rmap (make_pie monthly_data) month_order) in
       let* tokens_col := lift (getitem monthly_data "Tokens") in
       let* grand := lift (series_sum tokens_col) in
       ret (pies, py_int grand)) h'
    /\ getitem t "Month" = Ok (SObj (pie_month_labels dates))
    /\ length h' = (length h + 3)%nat
    /\ forall l, (l < length h)%nat -> h' !! l = h !! l.
Proof.
  intros HT Hd t cols month_order. set (labels := pie_month_labels dates).
  unfold pie_charts.
  rewrite (bind_run _ _ _ _ _ (load_at _ _ _ HT)).
  rewrite (bind_run _ _ _ _ _ (alloc_run _ _)).
  rewrite (bind_run _ _ _ _ _ (column_of_at _ _ _ _ _ (lookup_new h _) Hd)).
  rewrite (bind_run _ _ _ _ _ (setitem_inplace_at _ _ _ _ _ (lookup_new h _))).
  rewrite insert_new.
  change (to_datetime None (STime dates)) with (STime dates).
  rewrite (setitem_same _ _ _ Hd).
  rewrite (bind_run _ _ _ _ _ (load_at _ _ _ (lookup_new h _))).
  set (m := map (in_window ts_geb cutoff_2025_01_01) dates).
  set (wd := List.filter (in_window ts_geb cutoff_2025_01_01) dates).
  assert (Hw : window ts_geb cutoff_2025_01_01 T = Ok (mask_rows m T)).
  { unfold window. rewrite Hd. reflexivity. }
  rewrite (bind_run _ _ _ _ _ (lift_run _ _ _ Hw)).
  assert (Hwd : mask_list m dates = wd) by apply mask_list_all.
  assert (Hsome : mask_list (map has_stamp wd) wd = wd).
  { rewrite mask_list_all. apply forallb_filter_id. apply forallb_forall.
    intros o Ho. apply filter_In in Ho as [_ Ho]. destruct o; [reflexivity | discriminate]. }
  set (E1 := mask_rows (map has_stamp wd) (mask_rows m T)).
  assert (Hdrop : dropna (mask_rows m T) "Date" = Ok E1).
  { unfold dropna. rewrite getitem_mask_rows, Hd. simpl. rewrite Hwd. reflexivity. }
  rewrite (bind_run _ _ _ _ _ (lift_run _ _ _ Hdrop)).
  assert (HE1 : getitem E1 "Date" = Ok (STime wd)).
  { unfold E1. rewrite !getitem_mask_rows, Hd. simpl. rewrite Hwd, Hsome. reflexivity. }
  rewrite (bind_run _ _ _ _ _ (alloc_run _ _)).
  rewrite (bind_run _ _ _ _ _ (column_of_at _ _ _ _ _ (lookup_new _ _) HE1)).
  rewrite (bind_run _ _ _ _ _ (lift_run (month_floor (STime wd)) _ _ eq_refl)).
  set (MD := map (option_map (fun t => month_start (month_of t))) wd).
  rewrite (bind_run _ _ _ _ _ (setitem_inplace_at _ _ _ _ _ (lookup_new _ _))).
  rewrite insert_new.
  rewrite (bind_run _ _ _ _ _
             (column_of_at _ _ _ _ _ (lookup_new _ _) (getitem_setitem_eq _ _ _))).
  rewrite (bind_run _ _ _ _ _ (lift_run (strftime_bY (STime MD)) _ _ eq_refl)).
  rewrite (bind_run _ _ _ _ _ (setitem_inplace_at _ _ _ _ _ (lookup_new _ _))).
  rewrite insert_new.
  rewrite (bind_run _ _ _ _ _ (load_at _ _ _ (lookup_new _ _))).
  assert (Hsort : sort_values
                    (setitem (setitem E1 "Month_dt" (STime MD)) "Month"
                       (SObj (map (fun o : option Timestamp =>
                                     match o with
                                     | Some t => PStr (short_month_label t)
                                     | None => PNaN
                                     end) MD))) "Month_dt" = Ok t).
  { unfold sort_values.
    rewrite getitem_setitem_ne by discriminate. rewrite getitem_setitem_eq.
    reflexivity. }
  rewrite (bind_run _ _ _ _ _ (lift_run _ _ _ Hsort)).
  rewrite (bind_run _ _ _ _ _ (alloc_run _ _)).
  assert (Hmonth : getitem t "Month" = Ok (SObj labels)).
  { unfold t, pie_table. rewrite getitem_map_series. rewrite getitem_setitem_eq.
    reflexivity. }
  rewrite (bind_run _ _ _ _ _ (column_of_at _ _ _ _ _ (lookup_new _ _) Hmonth)).
  rewrite (bind_run _ _ _ _ _ (load_at _ _ _ (lookup_new _ _))).
  eexists. split; [reflexivity|]. split; [exact Hmonth|]. split.
  - rewrite !length_app. simpl. lia.
  - intros l Hl. rewrite !lookup_app_l; [reflexivity | exact Hl | |];
      rewrite ?length_app; simpl; lia.
Qed.

(** A token table with a column called [Tokens], the name line 208 gives
    to the values of the long form: [melt] refuses. *)
Lemma pie_charts_value_name (g : Globals) (h : heap) (T : DataFrame)
    (dates : list (option Timestamp)) :
  h !! tokens_source_df g = Some T ->
  getitem T "Date" = Ok (STime dates) ->
  has_column T "Tokens" = true ->
  pie_charts g h
  = Raise (ValueError
             "value_name (Tokens) cannot match an element in the DataFrame columns.").
Proof.
  intros HT Hd Hnt.
  destruct (pie_charts_to_melt g h T dates HT Hd) as (h' & Hrun & _).
  cbv zeta in Hrun. rewrite Hrun. apply bind_raise. unfold lift, melt.
  rewrite has_column_pie_table by discriminate. rewrite Hnt. reflexivity.
Qed.

(** The tables of the pie section: the sorted windowed copy [pie_table], the
    month labels of its rows in chronological order, the long form and
    the table of the sums per month and source. *)
Lemma pie_charts_fwd (g : Globals) (h : heap) (T : DataFrame)
    (dates : list (option Timestamp)) :
  h !! tokens_source_df g = Some T ->
  getitem T "Date" = Ok (STime dates) ->
  has_column T "Tokens" = false ->
  let t := pie_table dates T in
  let cols := detect_pie_source_cols t in
  let labels := pie_month_labels dates in
  let month_order := unique_strings (texts labels) [] in
  let ms := concat (repeat labels (length cols)) in
  let ss := flat_map (fun c => repeat (PStr c) (nrows t)) cols in
  let vals := concat (map (numbers_of t) cols) in
  let pairs := List.filter (fun p => occurs_label ms ss (fst p) (snd p))
                 (flat_map (fun c => map (fun src => (c, src)) (sorted_strings (texts ss)))
                    month_order) in
  let tokens := map (fun p => sum_where_label ms ss vals (fst p) (snd p)) pairs in
  let monthly_data := [ ("Month", SObj (map (fun p => PStr (fst p)) pairs));
                        ("Source", SObj (map (fun p => PStr (snd p)) pairs));
                        ("Tokens", SNum tokens) ]%string in
  exists h',
    pie_charts g h
    = (let* grid := lift (make_subplots 1 (length month_order)) in
       let* pies := lift (rmap (make_pie monthly_data) month_order) in
       ret (pies, zsum tokens)) h'
    /\ length h' = (length h + 3)%nat
    /\ forall l, (l < length h)%nat -> h' !! l = h !! l.
Proof.
  intros HT Hd Hnt t cols labels month_order ms ss vals pairs tokens monthly_data.
  assert (Hhas : has_column t "Tokens" = false)
    by (unfold t; rewrite has_column_pie_table by discriminate; exact Hnt).
  destruct (pie_charts_to_melt g h T dates HT Hd) as (h' & Hrun & Hmonth & Hlen & Hsame).
  cbv zeta in Hrun. fold t cols labels month_order in Hrun, Hmonth. rewrite Hrun.
  pose proof (melt_numbers t "Month" cols "Source" "Tokens" _
                Hhas Hmonth (detect_pie_source_cols_numeric t)) as Hmelt.
  rewrite (bind_run _ _ _ _ _ (lift_run _ _ _ Hmelt)).
  assert (Hgroup : groupby_month_source
                     [ ("Month", tile (length cols) (SObj labels));
                       ("Source", SObj ss); ("Tokens", SNum vals) ]%string month_order
                   = Ok monthly_data).
  { unfold groupby_month_source.
    rewrite getitem_cons, String.eqb_refl. cbn [rbind].
    rewrite getitem_cons.
    replace (String.eqb "Month" "Source") with false by reflexivity.
    rewrite getitem_cons, String.eqb_refl. cbn [rbind].
    rewrite getitem_third by discriminate. cbn [rbind series_nums tile].
    reflexivity. }
  rewrite (bind_run _ _ _ _ _ (lift_run _ _ _ Hgroup)).
  exists h'. split; [|split; [exact Hlen | exact Hsame]].
  apply bind_ext. intros grid h1. apply bind_ext. intros ps h2.
  unfold monthly_data. rewrite getitem_third by discriminate. reflexivity.
Qed.

Lemma pie_month_labels_perm dates :
  Permutation (pie_month_labels dates)
    (map (fun o : option Timestamp =>
            match o with
            | Some t => PStr (short_month_label t)
            | None => PNaN
            end)
       (map (option_map (fun t => month_start (month_of t)))
          (List.filter (in_window ts_geb cutoff_2025_01_01) dates))).
Proof.
  unfold pie_month_labels, pie_order. apply take_list_perm.
  rewrite (length_map (fun o : option Timestamp => match o with
                                                   | Some t => PStr (short_month_label t)
                                                   | None => PNaN
                                                   end)).
  rewrite <- (length_map (option_map month_of)). apply sort_index_perm.
Qed.

Lemma pie_months_In dates a :
  In a (unique_strings (texts (pie_month_labels dates)) [])
  <-> exists t, In (Some t) dates
                /\ ts_geb t cutoff_2025_01_01 = true
                /\ a = short_month_label (month_start (month_of t)).
Proof.
  rewrite unique_strings_In, texts_In.
  split.
  - intros [H _]. apply (Permutation_in _ (pie_month_labels_perm dates)) in H.
    apply in_map_iff in H as (o & Ho & H). apply in_map_iff in H as (o' & <- & H).
    apply filter_In in H as [Hin Hw].
    destruct o' as [t|]; [|discriminate Hw]. simpl in Ho. injection Ho as <-.
    exists t. auto.
  - intros (t & Hin & Hw & ->). split; [|intros []].
    apply (Permutation_in _ (Permutation_sym (pie_month_labels_perm dates))).
    apply in_map_iff. exists (Some (month_start (month_of t))). split; [reflexivity|].
    apply in_map_iff. exists (Some t). split; [reflexivity|].
    apply filter_In. split; [exact Hin | exact Hw].
Qed.

Lemma pie_charts_returns (g : Globals) (h : heap) (T : DataFrame)
    (dates : list (option Timestamp)) :
  h !! tokens_source_df g = Some T ->
  getitem T "Date" = Ok (STime dates) ->
  has_column T "Tokens" = false ->
  (exists t, In (Some t) dates /\ ts_geb t cutoff_2025_01_01 = true) ->
  exists pies grand h',
    pie_charts g h = Ok ((pies, grand), h')
    /\ length h' = (length h + 3)%nat
    /\ (forall l, (l < length h)%nat -> h' !! l = h !! l)
    /\ map pie_name pies = unique_strings (texts (pie_month_labels dates)) [].
Proof.
  intros HT Hd Hnt (t0 & Hin0 & Hw0).
  destruct (pie_charts_fwd g h T dates HT Hd Hnt) as (h' & Hrun & Hlen & Hsame).
  cbv zeta in Hrun.
  set (month_order := unique_strings (texts (pie_month_labels dates)) []) in *.
  assert (Hne : month_order <> []).
  { intros E.
    assert (H : In (short_month_label (month_start (month_of t0))) month_order)
      by (apply pie_months_In; eauto).
    rewrite E in H. destruct H. }
  assert (Hgrid : exists grid, make_subplots 1 (length month_order) = Ok grid).
  { unfold make_subplots. destruct month_order; [congruence | simpl; eauto]. }
  destruct Hgrid as [grid Hgrid].
  rewrite (bind_run _ _ _ _ _ (lift_run _ _ _ Hgrid)) in Hrun.
  match type of Hrun with
  | context [rmap (make_pie ?md) month_order] =>
      destruct (rmap_returns (make_pie md) month_order) as [pies Hpies];
        [intros a _; apply make_pie_returns|]
  end.
  rewrite (bind_run _ _ _ _ _ (lift_run _ _ _ Hpies)) in Hrun.
  eexists pies, _, h'. split; [exact Hrun|]. split; [exact Hlen|]. split; [exact Hsame|].
  exact (rmap_names _ pie_name _ _ (make_pie_name _) Hpies).
Qed.

(** X13.  The pie section on a token table without a column of
    booleans, with at least one record on or after 1 January 2025.  When
    no column is called [Tokens] it returns: there is one pie per month
    label of the records in the window, no label twice; it makes three
    new objects (the copy, the windowed copy and the sorted copy) and
    changes none of the objects that were there.  When a column is
    called [Tokens], the name line 208 gives to the values of the long
    form, [melt] raises [ValueError]. *)
Theorem pie_section_returns (g : Globals) (h : heap) (T : DataFrame)
    (dates : list (option Timestamp)) :
  h !! tokens_source_df g = Some T ->
  getitem T "Date" = Ok (STime dates) ->
  has_bool_column T = false ->
  (exists t, In (Some t) dates /\ ts_geb t cutoff_2025_01_01 = true) ->
  (has_column T "Tokens" = false ->
   exists pies grand h',
     pie_charts g h = Ok ((pies, grand), h')
     /\ length h' = (length h + 3)%nat
     /\ (forall l, (l < length h)%nat -> h' !! l = h !! l)
     /\ List.NoDup (map pie_name pies)
     /\ forall a, In a (map pie_name pies)
                  <-> exists t, In (Some t) dates
                                /\ ts_geb t cutoff_2025_01_01 = true
                                /\ a = short_month_label (month_start (month_of t)))
  /\ (has_column T "Tokens" = true ->
      pie_charts g h
      = Raise (ValueError
                 "value_name (Tokens) cannot match an element in the DataFrame columns.")).
Proof.
  intros HT Hd _ Hone. split.
  - intros Hnt.
    destruct (pie_charts_returns g h T dates HT Hd Hnt Hone)
      as (pies & grand & h' & Hrun & Hlen & Hsame & Hnames).
    exists pies, grand, h'. split; [exact Hrun|]. split; [exact Hlen|].
    split; [exact Hsame|]. rewrite Hnames.
    split; [apply unique_strings_nodup | apply pie_months_In].
  - intros Hnt. exact (pie_charts_value_name g h T dates HT Hd Hnt).
Qed.

Lemma pie_section_returns_witness :
  exists pies grand h',
    pie_charts sample_globals sample_store = Ok ((pies, grand), h')
    /\ map pie_name pies = ["Jan 2025"%string].
Proof.
  destruct (proj1 (pie_section_returns sample_globals sample_store _
                     [on_day 2024 12 15; on_day 2025 1 10] eq_refl eq_refl eq_refl
                     (ex_intro _ (midnight (mkDate 2025 1 10))
                        (conj (or_intror (or_introl eq_refl)) eq_refl)))
              eq_refl)
    as (pies & grand & h' & Hrun & _).
  exists pies, grand, h'. split; [exact Hrun|].
  vm_compute in Hrun. injection Hrun as <- _ _. reflexivity.
Defined.

(** ** The whole of [create_figures] (lines 34-256) *)

Lemma fee_chart_returns (g : Globals) (h : heap) (F : DataFrame)
    (dates : list (option Timestamp)) :
  h !! fee_df g = Some F ->
  getitem F "Date" = Ok (STime dates) ->
  (exists xs, rbind (getitem F "TxnFee(POL)") series_nums = Ok xs) ->
  exists out,
    fee_chart g h = Ok (out, h ++ [windowed ts_gtb cutoff_2024_12_31 dates F]).
Proof.
  intros HF Hd Hx. unfold fee_chart.
  rewrite (bind_run _ _ _ _ _ (load_at _ _ _ HF)).
  rewrite (windowed_copy_fwd _ _ _ _ _ _ Hd).
  destruct (windowed_groupby_returns ts_gtb cutoff_2024_12_31 dates F
              ["TxnFee(POL)"%string] Hd) as [mf Hg].
  { intros [E | []]. discriminate E. }
  { intros c [<- | []]. exact Hx. }
  rewrite (bind_run _ _ _ _ _ (lift_run _ _ _ Hg)).
  destruct (groupby_sum_columns _ _ _ _ Hg) as (keys & _ & _ & _ & Hcol & _).
  cbv zeta in Hcol.
  rewrite (bind_run _ _ _ _ _ (lift_run _ _ _ (Hcol _ (or_introl eq_refl)))).
  rewrite (bind_run _ _ _ _ _ (lift_run _ _ _ (series_sum_num _))).
  eexists. reflexivity.
Qed.

Lemma token_source_chart_returns (g : Globals) (h : heap) (T : DataFrame) m :
  h !! tokens_source_df g = Some T ->
  List.NoDup (columns T) ->
  exists out,
    token_source_chart g (detect_token_source_cols (mask_rows m T)) h = Ok (out, h).
Proof.
  intros HT Hnd. unfold token_source_chart.
  rewrite (bind_run _ _ _ _ _ (load_at _ _ _ HT)).
  set (cols := detect_token_source_cols (mask_rows m T)).
  assert (Hsel : getitems T cols = Ok (map (fun c => (c, SNum (numbers_of T c))) cols)).
  { unfold getitems. apply rmap_spec. intros c Hc.
    destruct (detected_source_column m T c Hnd Hc) as (xs & Hxs & _).
    rewrite Hxs, (numbers_of_numeric _ _ _ Hxs). reflexivity. }
  rewrite (bind_run _ _ _ _ _ (lift_run _ _ _ Hsel)).
  rewrite (lift_run _ _ _ (column_totals_named _ _)). eauto.
Qed.

Lemma lookup_kept (h : heap) (ext : list DataFrame) l t :
  h !! l = Some t -> (h ++ ext) !! l = Some t.
Proof. intros H. apply lookup_app_l_Some. exact H. Qed.

(** The six sections one after the other. *)
Lemma create_figures_fwd (g : Globals) (h : heap) (T W R F : DataFrame)
    (td wd rd fd : list (option Timestamp)) :
  h !! tokens_source_df g = Some T -> h !! wallet_df g = Some W ->
  h !! referral_df g = Some R -> h !! fee_df g = Some F ->
  getitem T "Date" = Ok (STime td) -> List.NoDup (columns T) ->
  ~ In "Month"%string (columns T) -> ~ In "MonthLabel"%string (columns T) ->
  has_column T "Tokens" = false ->
  (exists t, In (Some t) td /\ ts_geb t cutoff_2025_01_01 = true) ->
  getitem W "Date" = Ok (STime wd) ->
  (forall c, In c wallet_platforms ->
             exists xs, rbind (getitem W c) series_nums = Ok xs) ->
  getitem R "Date" = Ok (STime rd) ->
  ~ In "Month"%string (referral_sources g) ->
  ~ In "Referrals"%string (referral_sources g) ->
  (forall c, In c (referral_sources g) ->
             exists xs, rbind (getitem R c) series_nums = Ok xs) ->
  getitem F "Date" = Ok (STime fd) ->
  (exists xs, rbind (getitem F "TxnFee(POL)") series_nums = Ok xs) ->
  exists figs h',
    create_figures g h = Ok (figs, h')
    /\ length h' = (length h + 9)%nat
    /\ forall l, (l < length h)%nat -> h' !! l = h !! l.
Proof.
  intros HT HW HR HF HTd Hnd HnoM HnoL Hnt Hone HWd HWc HRd HRno HRnor HRc HFd HFc.
  unfold create_figures.
  destruct (token_charts_fwd g h T td HT HTd Hnd HnoM HnoL Hone) as (mt & total & H1 & _).
  cbv zeta in H1.
  rewrite (bind_run _ _ _ _ _ H1). cbv beta iota.
  set (h1 := h ++ [mask_rows (map (in_window ts_geb cutoff_2025_01_01) td) T; mt]).
  destruct (wallet_charts_returns g h1 W wd (lookup_kept _ _ _ _ HW) HWd HWc)
    as [[[mw wm] pt] H2].
  rewrite (bind_run _ _ _ _ _ H2). cbv beta iota.
  set (h2 := h1 ++ [windowed ts_gtb cutoff_2024_12_31 wd W]).
  destruct (referral_charts_returns g h2 R rd
              (lookup_kept _ _ _ _ (lookup_kept _ _ _ _ HR)) HRd HRno HRnor HRc)
    as (rm & bm & bs & rt & H3).
  rewrite (bind_run _ _ _ _ _ H3). cbv beta iota.
  set (h3 := h2 ++ [windowed ts_geb cutoff_2025_01_01 rd R; bs]).
  destruct (fee_chart_returns g h3 F fd
              (lookup_kept _ _ _ _ (lookup_kept _ _ _ _ (lookup_kept _ _ _ _ HF))) HFd HFc)
    as [[mf tf] H4].
  rewrite (bind_run _ _ _ _ _ H4). cbv beta iota.
  set (h4 := h3 ++ [windowed ts_gtb cutoff_2024_12_31 fd F]).
  assert (HT4 : h4 !! tokens_source_df g = Some T)
    by (repeat apply lookup_kept; exact HT).
  destruct (token_source_chart_returns g h4 T
              (map (in_window ts_geb cutoff_2025_01_01) td) HT4 Hnd) as [by_src H5].
  rewrite (bind_run _ _ _ _ _ H5).
  destruct (pie_charts_returns g h4 T td HT4 HTd Hnt Hone)
    as (ps & grand & h' & H6 & Hlen & Hsame & _).
  rewrite (bind_run _ _ _ _ _ H6). cbv beta iota.
  eexists _, h'. split; [reflexivity|]. split.
  - rewrite Hlen. unfold h4, h3, h2, h1. rewrite !length_app. simpl. lia.
  - intros l Hl. rewrite Hsame.
    + unfold h4, h3, h2, h1. rewrite !lookup_app_l; [reflexivity | | | |];
        rewrite ?length_app; simpl; lia.
    + unfold h4, h3, h2, h1. rewrite !length_app. simpl. lia.
Qed.

(** X14.  [create_figures] returns the nine figures whenever the four
    tables are as a successful load leaves well-formed sheets: datetime
    dates everywhere; a token table with distinct column names, none of
    them [Month] or [MonthLabel], and at least one record on or after
    1 January 2025; numbers in the three platform columns, in the
    detected referral sources (none of them called [Month]) and in the
    fee column.  It makes nine objects and changes none of those that
    were there. *)
Theorem create_figures_returns (g : Globals) (h : heap) (T W R F : DataFrame)
    (td wd rd fd : list (option Timestamp)) :
  h !! tokens_source_df g = Some T -> h !! wallet_df g = Some W ->
  h !! referral_df g = Some R -> h !! fee_df g = Some F ->
  getitem T "Date" = Ok (STime td) -> List.NoDup (columns T) ->
  ~ In "Month"%string (columns T) -> ~ In "MonthLabel"%string (columns T) ->
  has_column T "Tokens" = false -> has_bool_column T = false ->
  (exists t, In (Some t) td /\ ts_geb t cutoff_2025_01_01 = true) ->
  getitem W "Date" = Ok (STime wd) ->
  (forall c, In c wallet_platforms ->
             exists xs, rbind (getitem W c) series_nums = Ok xs) ->
  getitem R "Date" = Ok (STime rd) ->
  ~ In "Month"%string (referral_sources g) ->
  ~ In "Referrals"%string (referral_sources g) ->
  (forall c, In c (referral_sources g) ->
             exists xs, rbind (getitem R c) series_nums = Ok xs) ->
  getitem F "Date" = Ok (STime fd) ->
  (exists xs, rbind (getitem F "TxnFee(POL)") series_nums = Ok xs) ->
  exists figs h',
    create_figures g h = Ok (figs, h')
    /\ length h' = (length h + 9)%nat
    /\ forall l, (l < length h)%nat -> h' !! l = h !! l.
Proof.
  intros HT HW HR HF HTd Hnd HnoM HnoL Hnt _ Hone HWd HWc HRd HRno HRnor HRc HFd HFc.
  exact (create_figures_fwd g h T W R F td wd rd fd
           HT HW HR HF HTd Hnd HnoM HnoL Hnt Hone HWd HWc HRd HRno HRnor HRc HFd HFc).
Qed.

Lemma create_figures_returns_witness :
  exists figs h',
    create_figures sample_globals sample_store = Ok (figs, h')
    /\ length h' = 13%nat.
Proof.
  destruct (create_figures_returns sample_globals sample_store
              [ ("Date", STime [on_day 2024 12 15; on_day 2025 1 10]);
                ("Airdrop", SNum [7; 3]) ]%string
              sample_wallets
              [ ("Date", STime [on_day 2025 1 5; on_day 2025 3 1]);
                ("Twitter", SNum [4; 5]);
                ("Friends", SNum [1; 1]);
                ("Referrals", SNum [5; 6]) ]%string
              [ ("Date", STime [on_day 2025 1 5; on_day 2025 2 11]);
                ("TxnFee(POL)", SNum [4; 5]) ]%string
              [on_day 2024 12 15; on_day 2025 1 10]
              [on_day 2025 1 5; on_day 2025 3 20]
              [on_day 2025 1 5; on_day 2025 3 1]
              [on_day 2025 1 5; on_day 2025 2 11]
              eq_refl eq_refl eq_refl eq_refl eq_refl)
    as (figs & h' & Hrun & Hlen & _).
  - repeat constructor; simpl; intuition discriminate.
  - simpl. intuition discriminate.
  - simpl. intuition discriminate.
  - reflexivity.
  - reflexivity.
  - exists (midnight (mkDate 2025 1 10)). split; [right; left; reflexivity | reflexivity].
  - reflexivity.
  - intros c [<- | [<- | [<- | []]]]; eexists; reflexivity.
  - reflexivity.
  - simpl. intuition discriminate.
  - simpl. intuition discriminate.
  - intros c [<- | [<- | []]]; eexists; reflexivity.
  - reflexivity.
  - eexists. reflexivity.
  - exists figs, h'. split; [exact Hrun | exact Hlen].
Defined.

(** ** The totals of the pies (lines 207-211, 241, 251) *)

Lemma ascii_compare_lt_trans a b c :
  Ascii.compare a b = Lt -> Ascii.compare b c = Lt -> Ascii.compare a c = Lt.
Proof.
  unfold Ascii.compare. rewrite !N.compare_lt_iff. lia.
Qed.

Lemma string_compare_refl s : String.compare s s = Eq.
Proof.
  induction s as [|a s IH]; simpl; [reflexivity|].
  unfold Ascii.compare. rewrite N.compare_refl. exact IH.
Qed.

Lemma string_compare_lt_trans s1 s2 s3 :
  String.compare s1 s2 = Lt -> String.compare s2 s3 = Lt -> String.compare s1 s3 = Lt.
Proof.
  revert s2 s3. induction s1 as [|a s1 IH]; intros [|b s2] [|c s3]; simpl;
    try discriminate; try reflexivity.
  destruct (Ascii.compare a b) eqn:Eab; try discriminate.
  - apply Ascii.compare_eq_iff in Eab. subst b.
    destruct (Ascii.compare a c); try discriminate; [apply IH | reflexivity].
  - intros _.
    destruct (Ascii.compare b c) eqn:Ebc; try discriminate.
    + apply Ascii.compare_eq_iff in Ebc. subst c. rewrite Eab. reflexivity.
    + intros _. rewrite (ascii_compare_lt_trans _ _ _ Eab Ebc). reflexivity.
Qed.

Lemma string_ltb_lt s1 s2 : String.ltb s1 s2 = true <-> String.compare s1 s2 = Lt.
Proof. unfold String.ltb. destruct (String.compare s1 s2); split; congruence. Qed.

Lemma insert_string_In s l x : In x (insert_string s l) <-> x = s \/ In x l.
Proof.
  induction l as [|y l IH]; simpl; [intuition|].
  destruct (String.ltb s y); [simpl; intuition|].
  destruct (String.eqb s y) eqn:E.
  - apply String.eqb_eq in E. subst y. simpl. intuition.
  - simpl. rewrite IH. intuition.
Qed.

Lemma sorted_strings_In l x : In x (sorted_strings l) <-> In x l.
Proof.
  induction l as [|s l IH]; simpl; [tauto|].
  rewrite insert_string_In, IH. intuition.
Qed.

Lemma insert_string_sorted s l :
  StronglySorted (fun a b => String.compare a b = Lt) l ->
  StronglySorted (fun a b => String.compare a b = Lt) (insert_string s l).
Proof.
  induction 1 as [|y l Hl IH Hy]; simpl; [repeat constructor|].
  destruct (String.ltb s y) eqn:E1.
  - apply string_ltb_lt in E1. constructor; [constructor; assumption|].
    constructor; [exact E1|].
    eapply List.Forall_impl; [|exact Hy]. intros z Hz.
    exact (string_compare_lt_trans _ _ _ E1 Hz).
  - destruct (String.eqb s y) eqn:E2; [constructor; assumption|].
    constructor; [exact IH|].
    apply List.Forall_forall. intros z Hz. apply insert_string_In in Hz as [-> | Hz].
    + rewrite String.compare_antisym.
      destruct (String.compare s y) eqn:E3; try reflexivity.
      * apply String.compare_eq_iff in E3. subst y. rewrite String.eqb_refl in E2.
        discriminate E2.
      * unfold String.ltb in E1. rewrite E3 in E1. discriminate E1.
    + rewrite List.Forall_forall in Hy. apply Hy. exact Hz.
Qed.

Lemma sorted_strings_nodup l : List.NoDup (sorted_strings l).
Proof.
  assert (H : StronglySorted (fun a b => String.compare a b = Lt) (sorted_strings l)).
  { induction l as [|s l IH]; simpl; [constructor | apply insert_string_sorted, IH]. }
  induction H as [|y r Hr IH Hy]; constructor; [|exact IH].
  intros Hin. rewrite List.Forall_forall in Hy. specialize (Hy _ Hin).
  rewrite string_compare_refl in Hy. discriminate Hy.
Qed.

Lemma map_pair_nodup {A B} (a : A) (lb : list B) :
  List.NoDup lb -> List.NoDup (map (fun b => (a, b)) lb).
Proof.
  induction 1 as [|b lb Hnin Hb IH]; simpl; [constructor|].
  constructor; [|exact IH].
  intros H. apply in_map_iff in H as (b' & [= <-] & H). contradiction.
Qed.

Lemma pairs_nodup {A B} (la : list A) (lb : list B) :
  List.NoDup la -> List.NoDup lb ->
  List.NoDup (flat_map (fun a => map (fun b => (a, b)) lb) la).
Proof.
  intros Ha Hb. induction Ha as [|a la Hnin Ha IH]; simpl; [constructor|].
  apply List.NoDup_app.
  - apply map_pair_nodup. exact Hb.
  - exact IH.
  - intros [a' b'] H1 H2. apply in_map_iff in H1 as (b1 & [= <- <-] & _).
    apply in_flat_map in H2 as (a2 & Ha2 & H2).
    apply in_map_iff in H2 as (b2 & [= <- <-] & _). contradiction.
Qed.

Lemma zsum_one_match {A} (test : A -> bool) (f : A -> Z) v l a :
  List.NoDup l -> In a l -> (forall x, In x l -> test x = true <-> x = a) ->
  zsum (map (fun x => if test x then v + f x else f x) l) = v + zsum (map f l).
Proof.
  intros Hnd. revert a. induction Hnd as [|x l Hnin Hnd IH]; intros a Hin Htest;
    [destruct Hin|].
  simpl. destruct (test x) eqn:E.
  - assert (x = a) by (apply Htest; [left; reflexivity | exact E]). subst a.
    rewrite (zsum_map_ext (fun y => if test y then v + f y else f y) f).
    + lia.
    + intros y Hy. destruct (test y) eqn:Ey; [|reflexivity].
      assert (y = x) by (apply Htest; [right; exact Hy | exact Ey]). subst y.
      contradiction.
  - destruct Hin as [-> | Hin].
    + assert (test a = true) by (apply Htest; [left|]; reflexivity). congruence.
    + rewrite (IH a Hin); [lia|]. intros y Hy. apply Htest. right. exact Hy.
Qed.

Lemma occurs_label_In ms ss a b :
  In (PStr a, PStr b) (combine ms ss) -> occurs_label ms ss a b = true.
Proof.
  revert ss. induction ms as [|o ms IH]; intros [|o' ss] H; simpl in H; try destruct H.
  - injection H as -> ->. simpl. rewrite !String.eqb_refl. reflexivity.
  - simpl. rewrite (IH _ H). apply orb_true_r.
Qed.

(** Grouping by month label and source loses nothing: when every row of
    the long table has a label and a source, and these pairs are among
    the distinct pairs [pairs], the sums per pair add up to the sum of
    all values. *)
Lemma sum_where_label_all ms ss vals (pairs : list (string * string)) :
  List.NoDup pairs ->
  length ms = length vals -> length ss = length vals ->
  (forall o1 o2, In (o1, o2) (combine ms ss) ->
                 exists a b, o1 = PStr a /\ o2 = PStr b /\ In (a, b) pairs) ->
  zsum (map (fun p => sum_where_label ms ss vals (fst p) (snd p)) pairs) = zsum vals.
Proof.
  intros Hnd. revert ss vals.
  induction ms as [|o1 ms IH]; intros [|o2 ss] [|v vals] Hl1 Hl2 Hrows;
    try discriminate.
  - simpl. apply zsum_map_zero.
  - destruct (Hrows o1 o2) as (a & b & -> & -> & Hin); [left; reflexivity|].
    cbn [sum_where_label is_text].
    rewrite (zsum_one_match (fun p => String.eqb a (fst p) && String.eqb b (snd p))
               (fun p => sum_where_label ms ss vals (fst p) (snd p)) v pairs (a, b)
               Hnd Hin).
    + simpl. rewrite IH; [reflexivity | | |].
      * simpl in Hl1. congruence.
      * simpl in Hl2. congruence.
      * intros o1' o2' H'. apply Hrows. right. exact H'.
    + intros [a' b'] _. simpl. rewrite andb_true_iff, !String.eqb_eq.
      split; [intros [-> ->]; reflexivity | intros [= -> ->]; auto].
Qed.

(** The totals per label add up to the total. *)
Lemma label_totals_add_up (cats : list string) (pairs : list (string * string))
    (f : string * string -> Z) :
  List.NoDup cats -> (forall p, In p pairs -> In (fst p) cats) ->
  zsum (map (fun a => zsum (mask_list (map (is_text a) (map (fun p => PStr (fst p)) pairs))
                              (map f pairs))) cats)
  = zsum (map f pairs).
Proof.
  intros Hnd. induction pairs as [|p pairs IH]; intros Hin.
  - simpl. apply zsum_map_zero.
  - cbn [map mask_list is_text].
    rewrite (zsum_map_ext _
               (fun a => if String.eqb (fst p) a
                         then f p + zsum (mask_list (map (is_text a)
                                                       (map (fun p => PStr (fst p)) pairs))
                                            (map f pairs))
                         else zsum (mask_list (map (is_text a)
                                                 (map (fun p => PStr (fst p)) pairs))
                                      (map f pairs)))).
    + rewrite (zsum_one_match _ _ _ _ (fst p) Hnd).
      * rewrite IH; [reflexivity|]. intros q Hq. apply Hin. right. exact Hq.
      * apply Hin. left. reflexivity.
      * intros a _. rewrite String.eqb_eq. split; congruence.
    + intros a _. destruct (String.eqb (fst p) a); reflexivity.
Qed.

Lemma zsum_perm l l' : Permutation l l' -> zsum l = zsum l'.
Proof.
  induction 1 as [|x l l' _ IH|x y l|l l' l'' _ IH1 _ IH2]; simpl; try lia.
Qed.

Lemma pie_order_perm dates :
  Permutation (pie_order dates)
    (seq 0 (length (List.filter (in_window ts_geb cutoff_2025_01_01) dates))).
Proof.
  unfold pie_order.
  rewrite <- (length_map (option_map (fun t => month_start (month_of t)))
                (List.filter (in_window ts_geb cutoff_2025_01_01) dates)).
  rewrite <- (length_map (option_map month_of)). apply sort_index_perm.
Qed.

Lemma has_stamp_in_window dates :
  map has_stamp (List.filter (in_window ts_geb cutoff_2025_01_01) dates)
  = map (fun _ => true) (List.filter (in_window ts_geb cutoff_2025_01_01) dates).
Proof.
  apply map_ext_in. intros o Ho. apply filter_In in Ho as [_ Ho].
  destruct o; [reflexivity | discriminate].
Qed.

Lemma take_series_len idx s n :
  Permutation idx (seq 0 n) -> series_len s = n -> series_len (take_series idx s) = n.
Proof.
  intros Hp Hn. subst n.
  destruct s; simpl in *; apply Permutation_length; apply take_list_perm; exact Hp.
Qed.

Lemma In_setitem t col s c :
  In c (setitem t col s) -> In c t \/ c = (col, s) \/ (fst c = col /\ snd c = s).
Proof.
  induction t as [|[n s0] t IH]; simpl.
  - intros [<- | []]. auto.
  - destruct (String.eqb n col) eqn:E; simpl.
    + intros [<- | H]; [|auto]. apply String.eqb_eq in E. subst n. auto.
    + intros [<- | H]; [auto|]. apply IH in H. intuition.
Qed.

Lemma take_list_map {A B} (f : A -> B) idx (xs : list A) :
  take_list idx (map f xs) = map f (take_list idx xs).
Proof.
  unfold take_list. induction idx as [|i idx IH]; [reflexivity|].
  simpl. rewrite map_app, IH. f_equal.
  rewrite nth_error_map. destruct (nth_error xs i); reflexivity.
Qed.

(** The pie table has the records of the window, every column in the
    order of [sort_values]. *)
Lemma pie_table_columns (T : DataFrame) (dates : list (option Timestamp)) :
  getitem T "Date" = Ok (STime dates) -> wf_frame T = true ->
  let n := length (List.filter (in_window ts_geb cutoff_2025_01_01) dates) in
  (forall c, In c (pie_table dates T) -> series_len (snd c) = n)
  /\ nrows (pie_table dates T) = n
  /\ forall c, In c (detect_pie_source_cols (pie_table dates T)) ->
       exists s xs,
         getitem T c = Ok s /\ is_numeric_dtype s = true /\ series_nums s = Ok xs
         /\ Permutation (numbers_of (pie_table dates T) c)
              (mask_list (map (in_window ts_geb cutoff_2025_01_01) dates) xs)
         /\ length (numbers_of (pie_table dates T) c) = n.
Proof.
  intros Hd Hwf n.
  set (m := map (in_window ts_geb cutoff_2025_01_01) dates).
  set (wd := List.filter (in_window ts_geb cutoff_2025_01_01) dates) in *.
  assert (Hwd : mask_list m dates = wd) by apply mask_list_all.
  assert (Hlen : forall c, In c T -> series_len (snd c) = length dates).
  { intros c Hc. rewrite (wf_frame_column _ _ Hwf Hc).
    symmetry. exact (wf_frame_length _ _ _ Hwf Hd). }
  assert (Hmask : forall s, series_len s = length dates ->
            mask_series (map has_stamp wd) (mask_series m s) = mask_series m s
            /\ series_len (mask_series m s) = n).
  { intros s Hs.
    assert (Hn : series_len (mask_series m s) = n).
    { rewrite (series_len_mask m s dates Hs), Hwd. reflexivity. }
    split; [|exact Hn]. unfold wd. rewrite has_stamp_in_window.
    apply mask_series_true. exact Hn. }
  set (E1 := mask_rows (map has_stamp wd) (mask_rows m T)).
  assert (HE1 : forall c, In c E1 -> series_len (snd c) = n).
  { intros c Hc. unfold E1, mask_rows in Hc. rewrite map_map in Hc.
    apply in_map_iff in Hc as (c0 & <- & Hc0). simpl.
    destruct (Hmask _ (Hlen _ Hc0)) as [-> Hn]. exact Hn. }
  set (MD := map (option_map (fun t => month_start (month_of t))) wd).
  set (L := map (fun o : option Timestamp =>
                   match o with
                   | Some t => PStr (short_month_label t)
                   | None => PNaN
                   end) MD).
  set (E2 := setitem (setitem E1 "Month_dt" (STime MD)) "Month" (SObj L)).
  assert (HE2 : forall c, In c E2 -> series_len (snd c) = n).
  { intros c Hc. unfold E2 in Hc.
    apply In_setitem in Hc as [Hc | [-> | [_ ->]]];
      [| unfold L, MD; simpl; rewrite !length_map; reflexivity
       | unfold L, MD; simpl; rewrite !length_map; reflexivity].
    apply In_setitem in Hc as [Hc | [-> | [_ ->]]];
      [apply HE1; exact Hc
      | unfold MD; simpl; rewrite !length_map; reflexivity
      | unfold MD; simpl; rewrite !length_map; reflexivity]. }
  assert (Ht : pie_table dates T
               = map (fun c : string * Series => (fst c, take_series (pie_order dates) (snd c))) E2)
    by reflexivity.
  assert (Hcols : forall c, In c (pie_table dates T) -> series_len (snd c) = n).
  { intros c Hc. rewrite Ht in Hc. apply in_map_iff in Hc as (c0 & <- & Hc0). simpl.
    apply take_series_len; [apply pie_order_perm | apply HE2; exact Hc0]. }
  split; [exact Hcols|]. split.
  - assert (Hm : getitem E2 "Month" = Ok (SObj L)) by apply getitem_setitem_eq.
    rewrite Ht. destruct E2 as [|c0 E2'] eqn:EE; [discriminate Hm|].
    simpl. apply take_series_len; [apply pie_order_perm|].
    apply HE2. left. reflexivity.
  - intros c Hc.
    assert (Hnum := detect_pie_source_cols_numeric _ _ Hc).
    unfold detect_pie_source_cols in Hc. apply filter_In in Hc as [_ Hc].
    apply andb_prop in Hc as [Hex _]. unfold not_in in Hex. simpl in Hex.
    assert (HcD : c <> "Month_dt"%string).
    { intros ->. discriminate Hex. }
    assert (HcM : c <> "Month"%string).
    { intros ->. discriminate Hex. }
    apply numeric_at_getitem in Hnum as (s1 & ys & Hys & Hnum1 & Hnums1).
    unfold numbers_of. rewrite Hys. cbn [rbind]. rewrite Hnums1.
    rewrite Ht, getitem_map_series in Hys. unfold E2 in Hys.
    rewrite !getitem_setitem_ne in Hys by congruence.
    unfold E1 in Hys. rewrite !getitem_mask_rows in Hys.
    destruct (getitem T c) as [s|e] eqn:Ec; [|discriminate Hys].
    pose proof (getitem_In _ _ _ Ec) as Hin.
    destruct (Hmask s (Hlen _ Hin)) as [Hs Hn]. rewrite Hs in Hys.
    injection Hys as <-.
    assert (Hperm : forall xs : list Z, length (mask_list m xs) = n ->
              Permutation (take_list (pie_order dates) (mask_list m xs)) (mask_list m xs)).
    { intros xs Hx. apply take_list_perm. rewrite Hx. apply pie_order_perm. }
    destruct s as [xs|ts|os|bs]; try discriminate Hnum1; simpl in Hnums1, Hn;
      injection Hnums1 as <-.
    + exists (SNum xs), xs. split; [reflexivity|]. split; [reflexivity|].
      split; [reflexivity|].
      split; [apply Hperm; exact Hn|]. rewrite (Permutation_length (Hperm _ Hn)). exact Hn.
    + exists (SBool bs), (map Z.b2z bs). split; [reflexivity|]. split; [reflexivity|].
      split; [reflexivity|].
      rewrite <- take_list_map, <- mask_list_fmap.
      assert (Hn' : length (mask_list m (map Z.b2z bs)) = n)
        by (rewrite mask_list_fmap, length_map; exact Hn).
      split; [apply Hperm; exact Hn'|]. rewrite (Permutation_length (Hperm _ Hn')).
      exact Hn'.
Qed.

Lemma make_pie_eq ms ss vs a :
  make_pie [ ("Month", SObj ms); ("Source", SObj ss); ("Tokens", SNum vs) ]%string a
  = Ok (mkPie a (SObj (mask_list (map (is_text a) ms) ss))
          (SNum (mask_list (map (is_text a) ms) vs))
          (zsum (mask_list (map (is_text a) ms) vs))).
Proof.
  unfold make_pie, rows_of_month.
  rewrite getitem_cons, String.eqb_refl. cbn [rbind].
  rewrite !getitem_mask_rows.
  rewrite getitem_cons.
  replace (String.eqb "Month" "Source") with false by reflexivity.
  rewrite getitem_cons, String.eqb_refl. cbn [rbind].
  rewrite getitem_third by discriminate. reflexivity.
Qed.

Lemma length_flat_map_repeat {A B} (f : A -> B) (l : list A) n :
  length (flat_map (fun a => repeat (f a) n) l) = (length l * n)%nat.
Proof.
  induction l as [|a l IH]; simpl; [reflexivity|].
  rewrite length_app, repeat_length, IH. reflexivity.
Qed.

Lemma In_combine_tiled {A B C} (labels : list A) (f : C -> B) (cols : list C) n o1 o2 :
  In (o1, o2) (combine (concat (repeat labels (length cols)))
                 (flat_map (fun c => repeat (f c) n) cols)) ->
  In o1 labels /\ exists c, In c cols /\ o2 = f c.
Proof.
  intros H. split.
  - apply in_combine_l in H. apply In_concat_repeat in H as [_ H]. exact H.
  - apply in_combine_r in H. apply in_flat_map in H as (c & Hc & H).
    apply repeat_spec in H. eauto.
Qed.

(** The sums per month label and source of the pie section add up to
    the sum of the detected sources over the records of the window. *)
Lemma pie_tokens_total (T : DataFrame) (dates : list (option Timestamp)) :
  getitem T "Date" = Ok (STime dates) -> wf_frame T = true ->
  let w := mask_rows (map (in_window ts_geb cutoff_2025_01_01) dates) T in
  let t := pie_table dates T in
  let cols := detect_pie_source_cols t in
  let labels := pie_month_labels dates in
  let month_order := unique_strings (texts labels) [] in
  let ms := concat (repeat labels (length cols)) in
  let ss := flat_map (fun c => repeat (PStr c) (nrows t)) cols in
  let vals := concat (map (numbers_of t) cols) in
  let pairs := List.filter (fun p => occurs_label ms ss (fst p) (snd p))
                 (flat_map (fun c => map (fun src => (c, src)) (sorted_strings (texts ss)))
                    month_order) in
  zsum (map (fun p => sum_where_label ms ss vals (fst p) (snd p)) pairs)
  = zsum (map (fun c => zsum (numbers_of w c)) cols)
  /\ forall p, In p pairs -> In (fst p) month_order.
Proof.
  intros Hd Hwf w t cols labels month_order ms ss vals pairs.
  destruct (pie_table_columns T dates Hd Hwf) as (Hlen & Hrows & Hnums).
  cbv zeta in Hlen, Hrows, Hnums. fold t cols in Hlen, Hrows, Hnums.
  set (n := length (List.filter (in_window ts_geb cutoff_2025_01_01) dates)) in *.
  set (f := fun p : string * string => sum_where_label ms ss vals (fst p) (snd p)).
  assert (Hlabels : forall o, In o labels -> exists a, o = PStr a /\ In a month_order).
  { intros o Ho.
    pose proof (Permutation_in _ (pie_month_labels_perm dates) Ho) as Ho'.
    apply in_map_iff in Ho' as (o' & <- & Ho'). apply in_map_iff in Ho' as (o'' & <- & Ho'').
    apply filter_In in Ho'' as [_ Ho'']. destruct o'' as [t1|]; [|discriminate Ho''].
    simpl. eexists. split; [reflexivity|].
    unfold month_order. apply unique_strings_In. split; [|intros []].
    apply texts_In. exact Ho. }
  assert (Hlab_len : length labels = n).
  { unfold labels. rewrite (Permutation_length (pie_month_labels_perm dates)).
    rewrite !length_map. reflexivity. }
  assert (Htotal : zsum (map f pairs) = zsum vals).
  { apply sum_where_label_all.
    - apply List.NoDup_filter. apply pairs_nodup;
        [apply unique_strings_nodup | apply sorted_strings_nodup].
    - unfold ms, vals. rewrite length_concat_repeat, Hlab_len.
      rewrite (length_concat_uniform _ n).
      + rewrite length_map. reflexivity.
      + intros xs Hxs. apply in_map_iff in Hxs as (c & <- & Hc).
        destruct (Hnums c Hc) as (s0 & xs & _ & _ & _ & _ & Hn). exact Hn.
    - unfold ss, vals. rewrite length_flat_map_repeat, Hrows.
      rewrite (length_concat_uniform _ n).
      + rewrite length_map. reflexivity.
      + intros xs Hxs. apply in_map_iff in Hxs as (c & <- & Hc).
        destruct (Hnums c Hc) as (s0 & xs & _ & _ & _ & _ & Hn). exact Hn.
    - intros o1 o2 Hrow.
      pose proof (occurs_label_In ms ss) as Hocc.
      apply In_combine_tiled in Hrow as Hparts. destruct Hparts as [H1 (c & Hc & ->)].
      destruct (Hlabels o1 H1) as (a & -> & Ha).
      exists a, c. split; [reflexivity|]. split; [reflexivity|].
      apply filter_In. split.
      + apply in_flat_map. exists a. split; [exact Ha|].
        apply in_map_iff. exists c. split; [reflexivity|].
        apply sorted_strings_In, texts_In.
        apply in_combine_r in Hrow. exact Hrow.
      + simpl. apply Hocc. exact Hrow. }
  split.
  - fold f. rewrite Htotal. unfold vals. rewrite zsum_concat, map_map.
    apply zsum_map_ext. intros c Hc.
    destruct (Hnums c Hc) as (s0 & xs & Hs0 & _ & Hxs & Hp & _).
    rewrite (zsum_perm _ _ Hp). f_equal. symmetry.
    unfold numbers_of, w. rewrite getitem_mask_rows, Hs0. cbn [rbind].
    rewrite (series_nums_mask _ _ _ Hxs). reflexivity.
  - intros p Hp. apply filter_In in Hp as [Hp _].
    apply in_flat_map in Hp as (a & Ha & Hp). apply in_map_iff in Hp as (src & <- & _).
    exact Ha.
Qed.

(** X15.  On a token table of whole numbers (no column of booleans, no
    column called [Tokens]) the total in the title of the pies is the sum
    of all detected sources over the token records of the window, and the
    totals written under the pies add up to it: no record of the window
    is lost between the sorted copy, its long form and the sums per month
    and source.  ([int], lines 241 and 251, leaves whole numbers as they
    are.) *)
Theorem pie_totals (g : Globals) (h : heap) (T : DataFrame)
    (dates : list (option Timestamp)) :
  h !! tokens_source_df g = Some T ->
  getitem T "Date" = Ok (STime dates) -> wf_frame T = true ->
  has_column T "Tokens" = false -> has_bool_column T = false ->
  (exists t, In (Some t) dates /\ ts_geb t cutoff_2025_01_01 = true) ->
  let w := mask_rows (map (in_window ts_geb cutoff_2025_01_01) dates) T in
  let cols := detect_pie_source_cols (pie_table dates T) in
  exists pies grand h',
    pie_charts g h = Ok ((pies, grand), h')
    /\ grand = zsum (map (fun c => zsum (numbers_of w c)) cols)
    /\ zsum (map pie_total pies) = grand.
Proof.
  intros HT Hd Hwf Hnt _ (t0 & Hin0 & Hw0) w cols.
  destruct (pie_charts_fwd g h T dates HT Hd Hnt) as (h' & Hrun & _).
  destruct (pie_tokens_total T dates Hd Hwf) as [Htotal Hpairs].
  cbv zeta in Hrun, Htotal, Hpairs. fold cols in Hrun, Htotal, Hpairs.
  set (month_order := unique_strings (texts (pie_month_labels dates)) []) in *.
  assert (Hne : month_order <> []).
  { intros E.
    assert (H : In (short_month_label (month_start (month_of t0))) month_order)
      by (apply pie_months_In; eauto).
    rewrite E in H. destruct H. }
  assert (Hgrid : exists grid, make_subplots 1 (length month_order) = Ok grid).
  { unfold make_subplots. destruct month_order; [congruence | simpl; eauto]. }
  destruct Hgrid as [grid Hgrid].
  rewrite (bind_run _ _ _ _ _ (lift_run _ _ _ Hgrid)) in Hrun.
  rewrite (rmap_spec _ _ _ (fun a _ => make_pie_eq _ _ _ a)) in Hrun.
  rewrite (bind_run _ _ _ _ _ (lift_run _ _ _ eq_refl)) in Hrun.
  eexists _, _, h'. split; [exact Hrun|]. split.
  - exact Htotal.
  - rewrite map_map. cbn [pie_total].
    apply label_totals_add_up; [apply unique_strings_nodup | exact Hpairs].
Qed.

Lemma pie_totals_witness :
  exists pies grand h',
    pie_charts sample_globals sample_store = Ok ((pies, grand), h')
    /\ grand = 3 /\ zsum (map pie_total pies) = 3.
Proof.
  destruct (pie_totals sample_globals sample_store
              [ ("Date", STime [on_day 2024 12 15; on_day 2025 1 10]);
                ("Airdrop", SNum [7; 3]) ]%string
              [on_day 2024 12 15; on_day 2025 1 10] eq_refl eq_refl eq_refl eq_refl eq_refl)
    as (pies & grand & h' & Hrun & Hgrand & Hsum).
  - exists (midnight (mkDate 2025 1 10)). split; [right; left; reflexivity | reflexivity].
  - exists pies, grand, h'. split; [exact Hrun|].
    rewrite Hsum, Hgrand. split; reflexivity.
Defined.

(** ** The sources of the bar and of the pies (lines 37-39, 207) *)

Lemma columns_setitem_absent t col s :
  ~ In col (columns t) -> columns (setitem t col s) = columns t ++ [col].
Proof.
  unfold columns. induction t as [|[n s0] t IH]; simpl; [reflexivity|].
  intros H. destruct (String.eqb n col) eqn:E.
  - apply String.eqb_eq in E. subst n. exfalso. apply H. left. reflexivity.
  - simpl. rewrite IH; [reflexivity|]. intros H'. apply H. right. exact H'.
Qed.

Lemma columns_map_series (F : Series -> Series) t :
  columns (map (fun c : string * Series => (fst c, F (snd c))) t) = columns t.
Proof. unfold columns. rewrite map_map. reflexivity. Qed.

Lemma numeric_at_map_series (F : Series -> Series) t c :
  (forall s, is_numeric_dtype (F s) = is_numeric_dtype s) ->
  numeric_at (map (fun c : string * Series => (fst c, F (snd c))) t) c = numeric_at t c.
Proof.
  intros HF. unfold numeric_at. rewrite getitem_map_series.
  destruct (getitem t c) as [s|e]; [apply HF | reflexivity].
Qed.

Lemma numeric_at_setitem_ne t col s c :
  col <> c -> numeric_at (setitem t col s) c = numeric_at t c.
Proof. intros H. unfold numeric_at. rewrite getitem_setitem_ne by exact H. reflexivity. Qed.

(** The first and the last section of a run of [create_figures]: the
    token section, started in the store of the call, and the pie section,
    started in a store that still has the objects of that store. *)
Lemma create_figures_token_and_pies g (h : heap) figs h' :
  create_figures g h = Ok (figs, h') ->
  exists mt cols h1 h5 ps,
    token_charts g h = Ok ((mt, total_tokens figs, cols), h1)
    /\ pie_charts g h5 = Ok ((ps, pies_total figs), h')
    /\ forall l, (l < length h)%nat -> h5 !! l = h !! l.
Proof.
  intros H. unfold create_figures in H.
  apply bind_ok in H as ([[mt tot] cols] & h1 & H1 & H).
  apply bind_ok in H as ([[mw wm] pt] & h2 & H2 & H).
  apply bind_ok in H as ([[[rm bm] bs] rt] & h3 & H3 & H).
  apply bind_ok in H as ([mf tf] & h4 & H4 & H).
  apply bind_ok in H as (by_src & h5 & H5 & H).
  apply bind_ok in H as ([ps grand] & h6 & H6 & H).
  injection H as <- <-. cbn [total_tokens pies_total].
  destruct (frames_token_charts (length h) g h _ _ (le_n _) H1) as (L1 & S1 & _).
  destruct (frames_wallet_charts (length h) g h1 _ _ L1 H2) as (L2 & S2 & _).
  destruct (frames_referral_charts (length h) g h2 _ _ ltac:(lia) H3) as (L3 & S3 & _).
  destruct (frames_fee_chart (length h) g h3 _ _ ltac:(lia) H4) as (L4 & S4 & _).
  destruct (frames_token_source_chart (length h) g cols h4 _ _ ltac:(lia) H5)
    as (L5 & S5 & _).
  exists mt, cols, h1, h5, ps. split; [exact H1|]. split; [exact H6|].
  intros l Hl. rewrite S5, S4, S3, S2, S1 by exact Hl. reflexivity.
Qed.

Lemma number_at_map_series (F : Series -> Series) t c :
  (forall s, is_number_dtype (F s) = is_number_dtype s) ->
  number_at (map (fun c : string * Series => (fst c, F (snd c))) t) c = number_at t c.
Proof.
  intros HF. unfold number_at. rewrite getitem_map_series.
  destruct (getitem t c) as [s|e]; [apply HF | reflexivity].
Qed.

Lemma no_bool_numeric T c :
  has_bool_column T = false -> numeric_at T c = number_at T c.
Proof.
  intros H. unfold numeric_at, number_at.
  destruct (getitem T c) as [s|e] eqn:E; [|reflexivity].
  destruct s as [xs|ts|os|bs]; try reflexivity.
  apply getitem_In in E. unfold has_bool_column in H.
  assert (Hex : existsb (fun c : string * Series =>
                           match snd c with SBool _ => true | _ => false end) T = true).
  { apply existsb_exists. exists (c, SBool bs). split; [exact E | reflexivity]. }
  congruence.
Qed.

Lemma window_or_not test c (dates : list (option Timestamp)) :
  (exists t, In (Some t) dates /\ test t c = true)
  \/ (forall o, In o dates -> in_window test c o = false).
Proof.
  induction dates as [|o dates IH].
  - right. intros o [].
  - destruct IH as [(t & Hin & Ht) | IH]; [left; exists t; split; [right|]; assumption|].
    destruct o as [t|].
    + destruct (test t c) eqn:E.
      * left. exists t. split; [left; reflexivity | exact E].
      * right. intros o [<- | Ho]; [exact E | apply IH; exact Ho].
    + right. intros o [<- | Ho]; [reflexivity | apply IH; exact Ho].
Qed.

(** The sources of the pies and of the bar, read off the token table. *)
Lemma pie_sources_filter (T : DataFrame) (dates : list (option Timestamp)) :
  getitem T "Date" = Ok (STime dates) ->
  ~ In "Month"%string (columns T) -> ~ In "Month_dt"%string (columns T) ->
  detect_pie_source_cols (pie_table dates T)
  = List.filter (fun c => negb (String.eqb c "Total") && numeric_at T c) (columns T).
Proof.
  intros Hd HnoM HnoD.
  set (m := map (in_window ts_geb cutoff_2025_01_01) dates).
  assert (Hmask : forall k t c, numeric_at (mask_rows k t) c = numeric_at t c).
  { intros k t c. apply (numeric_at_map_series (mask_series k)). intros []; reflexivity. }
  unfold detect_pie_source_cols, pie_table.
  rewrite columns_map_series.
  rewrite columns_setitem_absent.
  2:{ rewrite columns_setitem_absent by (rewrite !columns_mask_rows; exact HnoD).
      rewrite !columns_mask_rows. intros H. apply in_app_or in H as [H | [H | []]];
        [exact (HnoM H) | discriminate H]. }
  rewrite columns_setitem_absent by (rewrite !columns_mask_rows; exact HnoD).
  rewrite !columns_mask_rows, <- app_assoc, List.filter_app. simpl. rewrite app_nil_r.
  apply filter_ext_in. intros c Hc.
  assert (HcM : c <> "Month"%string) by (intros ->; contradiction).
  assert (HcD : c <> "Month_dt"%string) by (intros ->; contradiction).
  rewrite (numeric_at_map_series (take_series (pie_order dates)))
    by (intros []; reflexivity).
  rewrite !numeric_at_setitem_ne by congruence.
  rewrite !Hmask.
  destruct (numeric_at T c) eqn:En; [|rewrite !andb_false_r; reflexivity].
  rewrite !andb_true_r. unfold not_in. simpl.
  assert (Hdate : String.eqb c "Date" = false).
  { apply String.eqb_neq. intros ->. unfold numeric_at in En. rewrite Hd in En.
    discriminate En. }
  rewrite Hdate. simpl.
  rewrite (proj2 (String.eqb_neq c "Month_dt") HcD).
  rewrite (proj2 (String.eqb_neq c "Month") HcM). simpl.
  rewrite orb_false_r. reflexivity.
Qed.

Lemma token_sources_filter (T : DataFrame) m :
  List.NoDup (columns T) ->
  detect_token_source_cols (mask_rows m T)
  = List.filter (fun c => negb (String.eqb c "Total") && number_at T c) (columns T).
Proof.
  intros Hnd.
  rewrite detect_token_source_cols_filter by (rewrite columns_mask_rows; exact Hnd).
  rewrite columns_mask_rows. apply filter_ext. intros c. f_equal.
  apply (number_at_map_series (mask_series m)). intros []; reflexivity.
Qed.

(** X16.  The pie section detects its sources anew (line 207), on its own
    sorted copy, with a longer list of excluded names and with another
    test of the dtype.  On a token table with distinct column names and
    no column called [Month] or [Month_dt], the sources of the token
    section (lines 37-39) are the sources of the pies that are columns
    of numbers, in the same order: a column of booleans is a source of
    the pies and not of the bar.  Without such a column the two lists
    are the same, and the two token totals of the dashboard agree: when
    the table is rectangular, holds whole numbers and stores no numeric
    [Total], the total in the title of the pies is the total in the
    titles of the token bar and line. *)
Theorem pies_use_the_sources_of_the_bar (T : DataFrame)
    (dates : list (option Timestamp)) :
  getitem T "Date" = Ok (STime dates) ->
  List.NoDup (columns T) ->
  ~ In "Month"%string (columns T) -> ~ In "Month_dt"%string (columns T) ->
  let w := mask_rows (map (in_window ts_geb cutoff_2025_01_01) dates) T in
  detect_token_source_cols w
  = List.filter (number_at T) (detect_pie_source_cols (pie_table dates T))
  /\ (forall c bs, getitem T c = Ok (SBool bs) -> c <> "Total"%string ->
                   In c (detect_pie_source_cols (pie_table dates T))
                   /\ ~ In c (detect_token_source_cols w))
  /\ (has_bool_column T = false ->
      detect_pie_source_cols (pie_table dates T) = detect_token_source_cols w)
  /\ (has_bool_column T = false ->
      forall g (h : heap) figs h',
        create_figures g h = Ok (figs, h') ->
        h !! tokens_source_df g = Some T ->
        wf_frame T = true -> ~ In "MonthLabel"%string (columns T) ->
        numeric_at T "Total" = false ->
        total_tokens figs = pies_total figs).
Proof.
  intros Hd Hnd HnoM HnoD w.
  pose proof (pie_sources_filter T dates Hd HnoM HnoD) as Hpie.
  pose proof (token_sources_filter T (map (in_window ts_geb cutoff_2025_01_01) dates) Hnd)
    as Htok.
  fold w in Htok.
  assert (Hsame : has_bool_column T = false ->
            detect_pie_source_cols (pie_table dates T) = detect_token_source_cols w).
  { intros Hnb. rewrite Hpie, Htok. apply filter_ext. intros c.
    rewrite (no_bool_numeric T c Hnb). reflexivity. }
  split; [|split; [|split]].
  - rewrite Hpie, Htok, filter_filter. apply filter_ext. intros c.
    destruct (number_at T c) eqn:E; simpl.
    + rewrite (number_at_numeric _ _ E), andb_true_r. reflexivity.
    + rewrite andb_false_r. reflexivity.
  - intros c bs Hc Hne. rewrite Hpie, Htok, !filter_In. split.
    + split; [apply getitem_In in Hc; apply (in_map fst) in Hc; exact Hc|].
      unfold numeric_at. rewrite Hc. simpl. rewrite andb_true_r.
      apply negb_true_iff, String.eqb_neq. exact Hne.
    + intros [_ H]. apply andb_prop in H as [_ H]. unfold number_at in H.
      rewrite Hc in H. discriminate H.
  - exact Hsame.
  - intros Hnb g h figs h' Hrun HT Hwf HnoL Hnum.
    destruct (create_figures_token_and_pies g h figs h' Hrun)
      as (mt & cols & h1 & h5 & ps & Htc & Hpc & Hkept).
    (* the token section *)
    assert (Hex : exists t, In (Some t) dates /\ ts_geb t cutoff_2025_01_01 = true).
    { destruct (window_or_not ts_geb cutoff_2025_01_01 dates) as [Hex | Hout];
        [exact Hex|].
      rewrite (token_charts_empty_window g h T dates HT Hd Hout) in Htc.
      discriminate Htc. }
    destruct (token_charts_fwd g h T dates HT Hd Hnd HnoM HnoL Hex)
      as (mt' & total' & Htok' & _ & Hsum).
    destruct (token_sums_in_window T dates Hd Hnd Hwf) as [_ Hrows].
    cbv zeta in Htok', Hsum, Hrows.
    rewrite Htc in Htok'. injection Htok' as _ Etot _ _.
    rewrite Etot, (Hsum Hnum), Hrows.
    (* the pie section *)
    assert (HT5 : h5 !! tokens_source_df g = Some T).
    { rewrite Hkept; [exact HT|]. eapply lookup_lt_Some. exact HT. }
    assert (Hnt : has_column T "Tokens" = false).
    { destruct (has_column T "Tokens") eqn:E; [|reflexivity].
      rewrite (pie_charts_value_name g h5 T dates HT5 Hd E) in Hpc. discriminate Hpc. }
    destruct (pie_charts_fwd g h5 T dates HT5 Hd Hnt) as (h'' & Hpie' & _).
    destruct (pie_tokens_total T dates Hd Hwf) as [Htotal _].
    cbv zeta in Hpie', Htotal.
    rewrite Hpc in Hpie'. symmetry in Hpie'.
    apply bind_ok in Hpie' as (grid & hg & _ & Hpie').
    apply bind_ok in Hpie' as (pies' & hp & _ & Hpie').
    injection Hpie' as _ Egrand _.
    rewrite <- Egrand, Htotal, (Hsame Hnb). reflexivity.
Qed.

Lemma pies_use_the_sources_of_the_bar_witness :
  detect_token_source_cols
    (mask_rows (map (in_window ts_geb cutoff_2025_01_01)
                  [on_day 2025 1 5; on_day 2025 2 7]) flagged_tokens)
  = ["Airdrop"%string]
  /\ In "Bonus"%string
       (detect_pie_source_cols (pie_table [on_day 2025 1 5; on_day 2025 2 7] flagged_tokens)).
Proof.
  destruct (pies_use_the_sources_of_the_bar flagged_tokens
              [on_day 2025 1 5; on_day 2025 2 7] eq_refl
              ltac:(repeat constructor; simpl; intuition discriminate)
              ltac:(simpl; intuition discriminate)
              ltac:(simpl; intuition discriminate))
    as (Hfilter & Hbool & _).
  split.
  - rewrite Hfilter. reflexivity.
  - exact (proj1 (Hbool "Bonus"%string [true; false] eq_refl ltac:(discriminate))).
Defined.

(** ** Loading, run forward (lines 10-31) *)

Lemma clean_dates_run (h : heap) l t :
  h !! l = Some t -> clean_dates l h = Ok (tt, <[l := cleaned_table t]> h).
Proof.
  intros H. unfold cleaned_table.
  destruct (getitem t "Date") as [d|e] eqn:Ed.
  - exact (clean_dates_spec h l t d H Ed).
  - unfold clean_dates. rewrite (bind_run _ _ _ _ _ (load_at _ _ _ H)).
    assert (Hno : has_column t "Date" = false).
    { destruct (has_column t "Date") eqn:E; [|reflexivity].
      apply has_column_getitem in E as [s Hs]. rewrite Hs in Ed. discriminate Ed. }
    rewrite Hno. rewrite list_insert_id by exact H. reflexivity.
Qed.

Lemma normalize_token_dates_run (h : heap) l t d :
  h !! l = Some t -> getitem t "Date" = Ok d ->
  normalize_token_dates l h = Ok (tt, <[l := normalized_tokens t]> h).
Proof.
  intros H Hd. unfold normalized_tokens. rewrite Hd.
  exact (normalize_token_dates_spec h l t d H Hd).
Qed.

Lemma detect_referral_sources_numeric r c :
  In c (detect_referral_sources r) -> numeric_at r c = true.
Proof.
  unfold detect_referral_sources. intros H. apply filter_In in H as [_ H].
  apply andb_prop in H as [_ H]. exact H.
Qed.

Lemma row_sums_numeric r cols n :
  (forall c, In c cols -> numeric_at r c = true) ->
  exists sel,
    getitems r cols = Ok sel
    /\ row_sums n sel
       = Ok (SNum (map (fun i => zsum (map (fun c => nth i (numbers_of r c) 0) cols))
                     (seq 0 n))).
Proof.
  intros Hnum.
  set (at_ := fun c => match getitem r c with Ok s => s | Raise _ => SNum [] end).
  exists (map (fun c => (c, at_ c)) cols). split.
  - unfold getitems. apply rmap_spec. intros c Hc.
    destruct (numeric_at_getitem r c (Hnum c Hc)) as (s0 & xs & Hs0 & _).
    unfold at_. rewrite Hs0. reflexivity.
  - unfold row_sums. rewrite (rmap_spec _ (fun c => numbers_of r (fst c))).
    + cbn [rbind]. do 2 f_equal. apply map_ext. intros i. rewrite !map_map. reflexivity.
    + intros a Ha. apply in_map_iff in Ha as (c & <- & Hc). simpl.
      destruct (numeric_at_getitem r c (Hnum c Hc)) as (s0 & xs & Hs0 & _ & Hxs).
      unfold at_, numbers_of. rewrite Hs0. cbn [rbind]. rewrite Hxs. reflexivity.
Qed.

Lemma referral_column_run (h : heap) l r :
  h !! l = Some r ->
  (let* sel := lift (getitems r (detect_referral_sources r)) in
   let* total := lift (row_sums (nrows r) sel) in
   setitem_inplace l "Referrals" total) h
  = Ok (tt, <[l := with_referrals_column r]> h).
Proof.
  intros H.
  destruct (row_sums_numeric r (detect_referral_sources r) (nrows r)
              (detect_referral_sources_numeric r)) as (sel & Hsel & Hrows).
  rewrite (bind_run _ _ _ _ _ (lift_run _ _ _ Hsel)).
  rewrite (bind_run _ _ _ _ _ (lift_run _ _ _ Hrows)).
  exact (setitem_inplace_at _ _ _ _ _ H).
Qed.

Lemma sheet_mapping_entry (wb : Workbook) n k l :
  strip_keys (combine (map fst wb) (seq n (length wb))) !! k = Some l ->
  (n <= l < n + length wb)%nat
  /\ exists s, wb !! (l - n)%nat = Some s /\ strip (fst s) = k.
Proof.
  intros Hk. apply strip_keys_item in Hk as ([name l0] & Hin & Hk & Hl).
  simpl in Hk, Hl. subst l0.
  apply In_combine_seq in Hin as [Hrange (t & Hs)]. split; [exact Hrange|].
  exists (name, t). auto.
Qed.

Lemma sheet_mapping_inj (wb : Workbook) n k1 k2 l :
  strip_keys (combine (map fst wb) (seq n (length wb))) !! k1 = Some l ->
  strip_keys (combine (map fst wb) (seq n (length wb))) !! k2 = Some l ->
  k1 = k2.
Proof.
  intros H1 H2.
  apply sheet_mapping_entry in H1 as [_ (s1 & Hs1 & <-)].
  apply sheet_mapping_entry in H2 as [_ (s2 & Hs2 & <-)]. congruence.
Qed.

Lemma lookup_map_snd (wb : Workbook) i s :
  wb !! i = Some s -> map snd wb !! i = Some (snd s).
Proof.
  revert i. induction wb as [|x wb IH]; intros [|i] H; try discriminate.
  - injection H as ->. reflexivity.
  - simpl. apply IH. exact H.
Qed.

Lemma lookup_sheet (h : heap) (wb : Workbook) l s :
  (length h <= l)%nat -> wb !! (l - length h)%nat = Some s ->
  (h ++ map snd wb) !! l = Some (snd s).
Proof.
  intros Hl Hs. rewrite lookup_app_r by exact Hl. apply lookup_map_snd. exact Hs.
Qed.

(** Lines 10-31 on a workbook that has the three sheets of the mapping
    and the token sheet with a [Date] column: the objects and the
    variables that loading leaves. *)
Lemma load_data_run (wb : Workbook) (h : heap) lr lw lf (R0 W0 F0 T0 : DataFrame) nt dT :
  let d := strip_keys (combine (map fst wb) (seq (length h) (length wb))) in
  let h0 := h ++ map snd wb in
  d !! "Referrals"%string = Some lr -> d !! "Wallets Created"%string = Some lw ->
  d !! "POL Data"%string = Some lf ->
  h0 !! lr = Some R0 -> h0 !! lw = Some W0 -> h0 !! lf = Some F0 ->
  find (fun s => String.eqb (fst s) "Tokens per source") wb = Some (nt, T0) ->
  getitem T0 "Date" = Ok dT ->
  exists h',
    load_data wb h
    = Ok (mkGlobals d lr lw lf (length h0) (detect_referral_sources (cleaned_table R0)), h')
    /\ length h' = S (length h0)
    /\ h' !! length h0 = Some (normalized_tokens T0)
    /\ h' !! lw = Some (cleaned_table W0)
    /\ h' !! lr = Some (with_referrals_column (cleaned_table R0))
    /\ h' !! lf = Some (cleaned_table F0).
Proof.
  intros d h0 Hr Hw Hf HR HW HF Hfind HdT.
  assert (Nrw : lr <> lw) by (intros ->; discriminate (sheet_mapping_inj _ _ _ _ _ Hr Hw)).
  assert (Nrf : lr <> lf) by (intros ->; discriminate (sheet_mapping_inj _ _ _ _ _ Hr Hf)).
  assert (Nwf : lw <> lf) by (intros ->; discriminate (sheet_mapping_inj _ _ _ _ _ Hw Hf)).
  pose proof (lookup_lt_Some _ _ _ HR) as Lr.
  pose proof (lookup_lt_Some _ _ _ HW) as Lw.
  pose proof (lookup_lt_Some _ _ _ HF) as Lf.
  rewrite load_data_start. cbv zeta. fold d h0.
  rewrite (bind_run _ _ _ _ _ (dict_get_some _ _ _ _ Hr)).
  rewrite (bind_run _ _ _ _ _ (dict_get_some _ _ _ _ Hw)).
  rewrite (bind_run _ _ _ _ _ (dict_get_some _ _ _ _ Hf)).
  unfold read_sheet. rewrite Hfind. cbn [snd].
  rewrite (bind_run _ _ _ _ _ (alloc_run _ _)).
  rewrite (bind_run _ _ _ _ _ (normalize_token_dates_run _ _ _ _ (lookup_new h0 _) HdT)).
  rewrite insert_new.
  set (h1 := h0 ++ [normalized_tokens T0]).
  assert (Hlen1 : length h1 = S (length h0)) by (unfold h1; rewrite length_app; simpl; lia).
  assert (H1w : h1 !! lw = Some W0) by (apply lookup_kept; exact HW).
  set (h2 := <[lw := cleaned_table W0]> h1).
  assert (H2r : h2 !! lr = Some R0).
  { unfold h2. rewrite list_lookup_insert_ne by congruence. apply lookup_kept. exact HR. }
  set (h3 := <[lr := cleaned_table R0]> h2).
  assert (H3f : h3 !! lf = Some F0).
  { unfold h3, h2. rewrite !list_lookup_insert_ne by congruence. apply lookup_kept. exact HF. }
  set (h4 := <[lf := cleaned_table F0]> h3).
  assert (Hloop : for_each clean_dates [lw; lr; lf] h1 = Ok (tt, h4)).
  { cbn [for_each].
    rewrite (bind_run _ _ _ _ _ (clean_dates_run _ _ _ H1w)). fold h2.
    rewrite (bind_run _ _ _ _ _ (clean_dates_run _ _ _ H2r)). fold h3.
    rewrite (bind_run _ _ _ _ _ (clean_dates_run _ _ _ H3f)). reflexivity. }
  rewrite (bind_run _ _ _ _ _ Hloop).
  assert (H4r : h4 !! lr = Some (cleaned_table R0)).
  { unfold h4. rewrite list_lookup_insert_ne by congruence.
    unfold h3. apply list_lookup_insert_eq. unfold h2. rewrite length_insert. lia. }
  rewrite (bind_run _ _ _ _ _ (load_at _ _ _ H4r)). cbv zeta.
  pose proof (referral_column_run h4 lr _ H4r) as Hcol.
  unfold bind at 1 2 in Hcol.
  unfold bind at 1 2 3.
  destruct (lift (getitems (cleaned_table R0) (detect_referral_sources (cleaned_table R0))) h4)
    as [[sel hs]|e]; [|discriminate Hcol].
  destruct (lift (row_sums (nrows (cleaned_table R0)) sel) hs) as [[total ht]|e];
    [|discriminate Hcol].
  rewrite Hcol.
  eexists. split; [reflexivity|].
  assert (Hlen4 : length h4 = S (length h0)).
  { unfold h4, h3, h2. rewrite !length_insert. exact Hlen1. }
  split; [rewrite length_insert; exact Hlen4|].
  split.
  - rewrite list_lookup_insert_ne by lia. unfold h4, h3, h2.
    rewrite !list_lookup_insert_ne by lia. apply lookup_new.
  - split; [|split].
    + rewrite list_lookup_insert_ne by congruence. unfold h4, h3.
      rewrite !list_lookup_insert_ne by congruence.
      unfold h2. apply list_lookup_insert_eq. lia.
    + apply list_lookup_insert_eq. lia.
    + rewrite list_lookup_insert_ne by congruence.
      unfold h4. apply list_lookup_insert_eq. unfold h3, h2. rewrite !length_insert. lia.
Qed.

Lemma dict_get_ok (d : gmap string nat) k l (h h1 : heap) :
  dict_get d k h = Ok (l, h1) -> d !! k = Some l /\ h1 = h.
Proof.
  unfold dict_get. destruct (d !! k) as [l0|]; [|discriminate].
  intros [= <- <-]. auto.
Qed.

Lemma lookup_In {A} (l : list A) i a : l !! i = Some a -> In a l.
Proof.
  revert i. induction l as [|x l IH]; intros [|i] H; try discriminate.
  - injection H as ->. left. reflexivity.
  - right. exact (IH i H).
Qed.

Lemma sheet_mapping_present (wb : Workbook) n k l :
  strip_keys (combine (map fst wb) (seq n (length wb))) !! k = Some l ->
  sheet_present wb k.
Proof.
  intros H. apply sheet_mapping_entry in H as [_ (s & Hs & Hk)].
  exists s. split; [exact (lookup_In _ _ _ Hs) | exact Hk].
Qed.

(** X17.  Loading returns exactly when the workbook has a sheet for each
    of the three names of the mapping (up to white space around the
    name) and a sheet named exactly ["Tokens per source"] of which the
    first has a [Date] column.  Nothing else in the sheets can make
    lines 10-31 fail: dates that do not read are dropped, a missing
    [Date] column of the other sheets is skipped, and the row totals are
    taken over numeric columns only. *)
Theorem loading_returns_iff (wb : Workbook) (h : heap) :
  (exists g h', load_data wb h = Ok (g, h'))
  <-> sheet_present wb "Referrals" /\ sheet_present wb "Wallets Created"
      /\ sheet_present wb "POL Data"
      /\ exists s, find (fun s => String.eqb (fst s) "Tokens per source") wb = Some s
                   /\ has_column (snd s) "Date" = true.
Proof.
  split.
  - intros (g & h' & H). rewrite load_data_start in H. cbv zeta in H.
    apply bind_ok in H as (lr & h1 & H1 & H). apply dict_get_ok in H1 as [Hr ->].
    apply bind_ok in H as (lw & h1 & H1 & H). apply dict_get_ok in H1 as [Hw ->].
    apply bind_ok in H as (lf & h1 & H1 & H). apply dict_get_ok in H1 as [Hf ->].
    apply bind_ok in H as (tokens & h1 & H1 & H).
    apply bind_ok in H as ([] & h2 & H2 & _).
    split; [exact (sheet_mapping_present _ _ _ _ Hr)|].
    split; [exact (sheet_mapping_present _ _ _ _ Hw)|].
    split; [exact (sheet_mapping_present _ _ _ _ Hf)|].
    unfold read_sheet in H1.
    destruct (find (fun s => String.eqb (fst s) "Tokens per source") wb) as [s|];
      [|discriminate H1].
    exists s. split; [reflexivity|]. injection H1 as <- <-.
    unfold normalize_token_dates in H2.
    apply bind_ok in H2 as (d & h3 & Hd & _). unfold column_of in Hd.
    rewrite (bind_run _ _ _ _ _ (load_at _ _ _ (lookup_new _ _))) in Hd.
    apply lift_ok in Hd as [Hd _]. apply has_column_getitem. eauto.
  - intros (Pr & Pw & Pf & [nt T0] & Hfind & Hdate).
    destruct (sheet_present_lookup wb (length h) _ Pr) as [lr Hr].
    destruct (sheet_present_lookup wb (length h) _ Pw) as [lw Hw].
    destruct (sheet_present_lookup wb (length h) _ Pf) as [lf Hf].
    destruct (sheet_mapping_entry _ _ _ _ Hr) as [Lr (sr & Hsr & _)].
    destruct (sheet_mapping_entry _ _ _ _ Hw) as [Lw (sw & Hsw & _)].
    destruct (sheet_mapping_entry _ _ _ _ Hf) as [Lf (sf & Hsf & _)].
    apply has_column_getitem in Hdate as [dT HdT]. simpl in HdT.
    destruct (load_data_run wb h lr lw lf (snd sr) (snd sw) (snd sf) T0 nt dT
                Hr Hw Hf
                (lookup_sheet h wb lr sr (proj1 Lr) Hsr)
                (lookup_sheet h wb lw sw (proj1 Lw) Hsw)
                (lookup_sheet h wb lf sf (proj1 Lf) Hsf)
                Hfind HdT) as (h' & Hrun & _).
    eauto.
Qed.

Lemma loading_returns_iff_witness :
  exists g h', load_data nbsp_workbook [] = Ok (g, h').
Proof.
  apply (proj2 (loading_returns_iff nbsp_workbook [])).
  split; [|split; [|split]].
  - exists (("Referrals" ++ nbsp)%string, sample_referrals).
    split; [simpl; auto | reflexivity].
  - exists ("Wallets Created"%string, sample_wallets). split; [simpl; auto | reflexivity].
  - exists ("POL Data"%string, sample_fees). split; [simpl; auto | reflexivity].
  - eexists. split; reflexivity.
Defined.

(** ** The whole program (lines 10-259) *)


Lemma nodup_map_lookup {A B} (f : A -> B) (l : list A) a b :
  List.NoDup (map f l) -> In a l -> In b l -> f a = f b -> a = b.
Proof.
  induction l as [|x l IH]; intros Hnd Ha Hb E; [destruct Ha|].
  simpl in Hnd. inversion Hnd as [|y l' Hnin Hnd']; subst.
  destruct Ha as [-> | Ha], Hb as [-> | Hb].
  - reflexivity.
  - exfalso. apply Hnin. rewrite E. apply in_map. exact Hb.
  - exfalso. apply Hnin. rewrite <- E. apply in_map. exact Ha.
  - apply IH; assumption.
Qed.

(** With no two sheets of the same stripped name, a sheet is the object
    its stripped name refers to. *)
Lemma sheet_object (wb : Workbook) (h : heap) name t :
  List.NoDup (map (fun s : string * DataFrame => strip (fst s)) wb) ->
  In (name, t) wb ->
  exists l,
    strip_keys (combine (map fst wb) (seq (length h) (length wb))) !! strip name = Some l
    /\ (h ++ map snd wb) !! l = Some t.
Proof.
  intros Hnd Hin.
  destruct (sheet_present_lookup wb (length h) (strip name)) as [l Hl].
  { exists (name, t). auto. }
  exists l. split; [exact Hl|].
  destruct (sheet_mapping_entry _ _ _ _ Hl) as [Hrange (s & Hs & Hk)].
  assert (E : s = (name, t)).
  { apply (nodup_map_lookup _ _ _ _ Hnd (lookup_In _ _ _ Hs) Hin). exact Hk. }
  subst s. exact (lookup_sheet h wb l _ (proj1 Hrange) Hs).
Qed.

Lemma cleaned_table_eq t d :
  getitem t "Date" = Ok d ->
  cleaned_table t
  = mask_rows (map has_stamp (parse_series (Some Fmt_Ymd) d))
      (setitem t "Date" (STime (parse_series (Some Fmt_Ymd) d))).
Proof. intros H. unfold cleaned_table. rewrite H. reflexivity. Qed.



Lemma cleaned_table_numeric_at t d c :
  getitem t "Date" = Ok d -> c <> "Date"%string ->
  numeric_at (cleaned_table t) c = numeric_at t c.
Proof.
  intros H Hc. rewrite (cleaned_table_eq _ _ H). unfold mask_rows.
  rewrite (numeric_at_map_series (mask_series _)) by (intros []; reflexivity).
  apply numeric_at_setitem_ne. congruence.
Qed.





(** ** Where the two cut-offs differ (lines 36, 72, 114, 158) *)

Lemma date_compare_eq a b : date_compare a b = Eq <-> a = b.
Proof.
  destruct a as [y1 m1 d1], b as [y2 m2 d2]. unfold date_compare. cbn [year month day].
  split.
  - destruct (Z.compare_spec y1 y2); try discriminate.
    destruct (Z.compare_spec m1 m2); try discriminate.
    destruct (Z.compare_spec d1 d2); try discriminate. intros _. congruence.
  - intros [= -> -> ->]. rewrite !Z.compare_refl. reflexivity.
Qed.

(** X19.  The window of the wallets and fees (after ["2024-12-31"]) keeps
    every record that the window of the tokens and referrals (on or after
    ["2025-01-01"]) keeps, and the records it keeps in addition are
    exactly those dated 31 December 2024 at a time after midnight. *)
Theorem windows_differ_on_dec31 (t : Timestamp) :
  valid_day (ts_date t) ->
  (ts_geb t cutoff_2025_01_01 = true -> ts_gtb t cutoff_2024_12_31 = true)
  /\ (ts_gtb t cutoff_2024_12_31 = true /\ ts_geb t cutoff_2025_01_01 = false
      <-> ts_date t = mkDate 2024 12 31 /\ ts_secs t <> 0%N).
Proof.
  intros Hv. unfold cutoff_2024_12_31, cutoff_2025_01_01.
  rewrite ts_gtb_midnight, ts_geb_midnight.
  rewrite (valid_day_cutoffs _ Hv).
  destruct (date_compare (ts_date t) (mkDate 2024 12 31)) eqn:Ec.
  - apply date_compare_eq in Ec. rewrite Ec. cbn [date_geb date_compare year month day].
    simpl. split; [discriminate|].
    destruct (N.eqb_spec (ts_secs t) 0) as [E | E]; simpl.
    + split; [intros [H _]; discriminate H | intros [_ H]; contradiction].
    + split; auto.
  - assert (Hne : ts_date t <> mkDate 2024 12 31).
    { intros E. apply date_compare_eq in E. congruence. }
    simpl. rewrite orb_false_r. split; [auto|].
    split; [intros [H1 H2]; congruence | intros [E _]; contradiction].
  - assert (Hne : ts_date t <> mkDate 2024 12 31).
    { intros E. apply date_compare_eq in E. congruence. }
    simpl. rewrite orb_false_r. split; [auto|].
    split; [intros [H1 H2]; congruence | intros [E _]; contradiction].
Qed.

Lemma windows_differ_on_dec31_witness :
  ts_gtb (mkTs (mkDate 2024 12 31) 43200) cutoff_2024_12_31 = true
  /\ ts_geb (mkTs (mkDate 2024 12 31) 43200) cutoff_2025_01_01 = false.
Proof.
  apply (proj2 (windows_differ_on_dec31 (mkTs (mkDate 2024 12 31) 43200)
                  ltac:(repeat split; vm_compute; discriminate))).
  split; [reflexivity | discriminate].
Defined.

(** ** The month of a record (lines 73, 115, 159, 201) *)

Lemma month_index_div y m : 1 <= m <= 12 -> (y * 12 + (m - 1)) / 12 = y.
Proof.
  intros H. rewrite Z.add_comm, Z.div_add by lia.
  rewrite Z.div_small by lia. reflexivity.
Qed.

Lemma month_index_mod y m : 1 <= m <= 12 -> (y * 12 + (m - 1)) mod 12 + 1 = m.
Proof.
  intros H. replace (y * 12 + (m - 1)) with ((m - 1) + y * 12) by lia.
  rewrite Z.mod_add by lia. rewrite Z.mod_small by lia. lia.
Qed.

(** X20.  The [Month] of a record is the first day of its calendar
    month, at midnight, whatever its day and time; two records have the
    same [Month] exactly when they are of the same month of the same
    year, and a later month gives a later [Month]. *)
Theorem month_is_first_day (t1 t2 : Timestamp) :
  valid_day (ts_date t1) -> valid_day (ts_date t2) ->
  month_start (month_of t1)
  = midnight (mkDate (year (ts_date t1)) (month (ts_date t1)) 1)
  /\ (month_start (month_of t1) = month_start (month_of t2)
      <-> year (ts_date t1) = year (ts_date t2)
          /\ month (ts_date t1) = month (ts_date t2))
  /\ (month_of t1 < month_of t2 ->
      ts_compare (month_start (month_of t1)) (month_start (month_of t2)) = Lt).
Proof.
  intros [Hm1 _] [Hm2 _].
  assert (E : forall t, 1 <= month (ts_date t) <= 12 ->
            month_start (month_of t)
            = midnight (mkDate (year (ts_date t)) (month (ts_date t)) 1)).
  { intros t Hm. unfold month_start, month_of, month_index.
    rewrite (month_index_div _ _ Hm), (month_index_mod _ _ Hm). reflexivity. }
  split; [exact (E t1 Hm1)|]. split.
  - rewrite (E t1 Hm1), (E t2 Hm2). split.
    + intros [= H1 H2]. auto.
    + intros [-> ->]. reflexivity.
  - intros Hlt. rewrite (E t1 Hm1), (E t2 Hm2).
    unfold month_of, month_index in Hlt.
    unfold ts_compare, midnight, date_compare. cbn [ts_date ts_secs year month day].
    destruct (Z.compare_spec (year (ts_date t1)) (year (ts_date t2))) as [Ey | Ey | Ey];
      [|reflexivity | lia].
    destruct (Z.compare_spec (month (ts_date t1)) (month (ts_date t2))); [lia | reflexivity | lia].
Qed.

Lemma month_is_first_day_witness :
  month_start (month_of (mkTs (mkDate 2025 3 20) 43200)) = midnight (mkDate 2025 3 1).
Proof.
  exact (proj1 (month_is_first_day (mkTs (mkDate 2025 3 20) 43200)
                  (mkTs (mkDate 2025 3 20) 43200)
                  ltac:(repeat split; vm_compute; discriminate) ltac:(repeat split; vm_compute; discriminate))).
Defined.

(** ** The total column of the referral table (lines 30-31) *)

(** What a run of lines 10-31 that returns has found in the workbook. *)
Lemma load_data_inputs (wb : Workbook) (h : heap) g h' :
  load_data wb h = Ok (g, h') ->
  let d := strip_keys (combine (map fst wb) (seq (length h) (length wb))) in
  exists lr lw lf R0 W0 F0 nt T0 dT,
    d !! "Referrals"%string = Some lr /\ d !! "Wallets Created"%string = Some lw
    /\ d !! "POL Data"%string = Some lf
    /\ (h ++ map snd wb) !! lr = Some R0 /\ (h ++ map snd wb) !! lw = Some W0
    /\ (h ++ map snd wb) !! lf = Some F0
    /\ find (fun s => String.eqb (fst s) "Tokens per source") wb = Some (nt, T0)
    /\ getitem T0 "Date" = Ok dT
    /\ In R0 (map snd wb) /\ In W0 (map snd wb) /\ In F0 (map snd wb)
    /\ In (nt, T0) wb.
Proof.
  intros H d. rewrite load_data_start in H. cbv zeta in H. fold d in H.
  apply bind_ok in H as (lr & h1 & H1 & H). apply dict_get_ok in H1 as [Hr ->].
  apply bind_ok in H as (lw & h1 & H1 & H). apply dict_get_ok in H1 as [Hw ->].
  apply bind_ok in H as (lf & h1 & H1 & H). apply dict_get_ok in H1 as [Hf ->].
  apply bind_ok in H as (tokens & h1 & H1 & H).
  apply bind_ok in H as ([] & h2 & H2 & _).
  destruct (sheet_mapping_entry _ _ _ _ Hr) as [Lr (sr & Hsr & _)].
  destruct (sheet_mapping_entry _ _ _ _ Hw) as [Lw (sw & Hsw & _)].
  destruct (sheet_mapping_entry _ _ _ _ Hf) as [Lf (sf & Hsf & _)].
  unfold read_sheet in H1.
  destruct (find (fun s => String.eqb (fst s) "Tokens per source") wb) as [[nt T0]|] eqn:Ef;
    [|discriminate H1].
  injection H1 as <- <-.
  unfold normalize_token_dates in H2.
  apply bind_ok in H2 as (dT & h3 & Hd & _). unfold column_of in Hd.
  rewrite (bind_run _ _ _ _ _ (load_at _ _ _ (lookup_new _ _))) in Hd.
  apply lift_ok in Hd as [Hd _]. simpl in Hd.
  exists lr, lw, lf, (snd sr), (snd sw), (snd sf), nt, T0, dT.
  repeat split; try assumption.
  - exact (lookup_sheet h wb lr sr (proj1 Lr) Hsr).
  - exact (lookup_sheet h wb lw sw (proj1 Lw) Hsw).
  - exact (lookup_sheet h wb lf sf (proj1 Lf) Hsf).
  - apply in_map. exact (lookup_In _ _ _ Hsr).
  - apply in_map. exact (lookup_In _ _ _ Hsw).
  - apply in_map. exact (lookup_In _ _ _ Hsf).
  - apply find_some in Ef as [Hin _]. exact Hin.
Qed.

Lemma cleaned_table_columns t : columns (cleaned_table t) = columns t.
Proof.
  unfold cleaned_table. destruct (getitem t "Date") as [d|e] eqn:E; [|reflexivity].
  rewrite columns_mask_rows. apply columns_setitem_present.
  apply has_column_getitem. eauto.
Qed.

Lemma cleaned_table_numeric t c :
  c <> "Date"%string -> numeric_at (cleaned_table t) c = numeric_at t c.
Proof.
  intros Hc. destruct (getitem t "Date") as [d|e] eqn:E.
  - exact (cleaned_table_numeric_at _ _ _ E Hc).
  - unfold cleaned_table. rewrite E. reflexivity.
Qed.

(** X21.  Line 30 detects the referral sources before line 31 adds the
    column of row totals.  In a workbook whose sheets have distinct
    stripped names, let [R0] be the sheet called [Referrals].  After
    loading, the referral table is that sheet, cleaned, with a
    [Referrals] column that holds, for every record, the sum of its
    sources; the sources are the numeric columns of the sheet other than
    [Date].  So a sheet without a [Referrals] column has no source of
    that name and the figures do not count the totals a second time,
    which a detection after line 31 would do. *)
Theorem referral_total_is_not_a_source (wb : Workbook) (h : heap) (g : Globals) (h' : heap)
    (nr : string) (R0 : DataFrame) :
  List.NoDup (map (fun s : string * DataFrame => strip (fst s)) wb) ->
  In (nr, R0) wb -> strip nr = "Referrals"%string ->
  load_data wb h = Ok (g, h') ->
  let R := cleaned_table R0 in
  h' !! referral_df g = Some (with_referrals_column R)
  /\ referral_sources g = detect_referral_sources R
  /\ (forall c, In c (referral_sources g)
                 <-> c <> "Date"%string /\ numeric_at R0 c = true)
  /\ getitem (with_referrals_column R) "Referrals" = Ok (referral_row_totals R)
  /\ (has_column R0 "Referrals" = false ->
      ~ In "Referrals"%string (referral_sources g)
      /\ detect_referral_sources (with_referrals_column R)
         = referral_sources g ++ ["Referrals"%string]).
Proof.
  intros Hnd Hin Hn H R.
  destruct (sheet_object wb h nr R0 Hnd Hin) as (lr0 & Hr0 & HR0). rewrite Hn in Hr0.
  destruct (load_data_inputs wb h g h' H)
    as (lr & lw & lf & R1 & W0 & F0 & nt & T0 & dT
        & Hr & Hw & Hf & HR & HW & HF & Hfind & HdT & _).
  rewrite Hr0 in Hr. injection Hr as <-. rewrite HR0 in HR. injection HR as <-.
  destruct (load_data_run wb h lr0 lw lf R0 W0 F0 T0 nt dT Hr0 Hw Hf HR0 HW HF Hfind HdT)
    as (h'' & Hrun & _ & _ & _ & HR' & _).
  rewrite H in Hrun. injection Hrun as -> ->.
  cbn [referral_df referral_sources]. fold R.
  assert (Hsrc : forall c, In c (detect_referral_sources R)
                           <-> c <> "Date"%string /\ numeric_at R0 c = true).
  { intros c. unfold detect_referral_sources. rewrite filter_In, andb_true_iff.
    rewrite negb_true_iff, String.eqb_neq. split.
    - intros (_ & Hc & Hnum). split; [exact Hc|].
      unfold R in Hnum. rewrite (cleaned_table_numeric _ _ Hc) in Hnum. exact Hnum.
    - intros (Hc & Hnum).
      assert (Hnum' : numeric_at R c = true)
        by (unfold R; rewrite (cleaned_table_numeric _ _ Hc); exact Hnum).
      split; [exact (numeric_at_columns _ _ Hnum') | split; [exact Hc | exact Hnum']]. }
  split; [exact HR'|]. split; [reflexivity|]. split; [exact Hsrc|].
  split; [apply getitem_setitem_eq|].
  intros Hhas.
  assert (Hno : ~ In "Referrals"%string (columns R)).
  { unfold R. rewrite cleaned_table_columns. apply has_column_false_iff. exact Hhas. }
  split.
  - intros Hc. apply detect_referral_sources_numeric, numeric_at_columns in Hc.
    exact (Hno Hc).
  - unfold detect_referral_sources at 1. unfold with_referrals_column.
    rewrite (columns_setitem_absent _ _ _ Hno), List.filter_app.
    f_equal.
    + apply filter_ext_in. intros c Hc.
      assert (Hne : "Referrals"%string <> c) by (intros <-; exact (Hno Hc)).
      rewrite (numeric_at_setitem_ne _ _ _ _ Hne). reflexivity.
    + simpl. unfold numeric_at. rewrite getitem_setitem_eq. reflexivity.
Qed.

Lemma referral_total_is_not_a_source_witness :
  exists g h',
    load_data sample_workbook [] = Ok (g, h')
    /\ h' !! referral_df g
       = Some (with_referrals_column (cleaned_table sample_referrals))
    /\ referral_sources g = ["Twitter"; "Friends"]%string
    /\ detect_referral_sources (with_referrals_column (cleaned_table sample_referrals))
       = ["Twitter"; "Friends"; "Referrals"]%string.
Proof.
  destruct (load_data sample_workbook []) as [[g h']|e] eqn:E;
    [|vm_compute in E; discriminate E].
  destruct (referral_total_is_not_a_source sample_workbook [] g h'
              "Referrals" sample_referrals)
    as (HR & Hs & _ & _ & Hadd).
  - vm_compute. repeat constructor; simpl; intuition discriminate.
  - right. left. reflexivity.
  - reflexivity.
  - exact E.
  - exists g, h'. split; [reflexivity|]. split; [exact HR|].
    destruct (Hadd eq_refl) as [_ Hdet].
    assert (Hg : referral_sources g = ["Twitter"; "Friends"]%string)
      by (vm_compute in E; injection E as <- _; reflexivity).
    split; [exact Hg|]. rewrite Hdet, Hg. reflexivity.
Defined.

(** ** The order of the pies (lines 201-205, 210-212) *)

Lemma short_month_label_inj k1 k2 :
  short_month_label (month_start k1) = short_month_label (month_start k2) -> k1 = k2.
Proof.
  unfold short_month_label, month_start, midnight. cbn [ts_date year month].
  intros H.
  assert (H1 : 0 <= k1 mod 12 < 12) by (apply Z.mod_pos_bound; lia).
  assert (H2 : 0 <= k2 mod 12 < 12) by (apply Z.mod_pos_bound; lia).
  assert (E : k1 mod 12 = k2 mod 12 /\ pretty (k1 / 12) = pretty (k2 / 12)).
  { assert (C1 : k1 mod 12 = 0 \/ k1 mod 12 = 1 \/ k1 mod 12 = 2 \/ k1 mod 12 = 3
                 \/ k1 mod 12 = 4 \/ k1 mod 12 = 5 \/ k1 mod 12 = 6 \/ k1 mod 12 = 7
                 \/ k1 mod 12 = 8 \/ k1 mod 12 = 9 \/ k1 mod 12 = 10 \/ k1 mod 12 = 11)
      by lia.
    assert (C2 : k2 mod 12 = 0 \/ k2 mod 12 = 1 \/ k2 mod 12 = 2 \/ k2 mod 12 = 3
                 \/ k2 mod 12 = 4 \/ k2 mod 12 = 5 \/ k2 mod 12 = 6 \/ k2 mod 12 = 7
                 \/ k2 mod 12 = 8 \/ k2 mod 12 = 9 \/ k2 mod 12 = 10 \/ k2 mod 12 = 11)
      by lia.
    repeat (destruct C1 as [C1 | C1]); rewrite C1 in H |- *;
      repeat (destruct C2 as [C2 | C2]); rewrite C2 in H |- *;
      cbn in H; try discriminate H; injection H as H; (split; [reflexivity | exact H]). }
  destruct E as [Em Ey]. apply (inj pretty) in Ey.
  rewrite (Z.div_mod k1 12), (Z.div_mod k2 12) by lia. congruence.
Qed.

Lemma insert_row_sorted a i rows :
  (forall q, In q rows -> exists b, fst q = Some b) ->
  rows_sorted rows -> rows_sorted (insert_row (Some a, i) rows).
Proof.
  intros Hall Hs. induction Hs as [|q rows Hrows IH Hq]; simpl.
  - constructor; constructor.
  - destruct (Hall q (or_introl eq_refl)) as [b Hb].
    rewrite Hb. cbn [key_ltb fst].
    destruct (Z.ltb_spec b a) as [Hlt | Hge].
    + constructor.
      * apply IH. intros q' Hq'. apply Hall. right. exact Hq'.
      * apply List.Forall_forall. intros r Hr.
        apply (Permutation_in _ (insert_row_perm _ _)) in Hr. destruct Hr as [<- | Hr].
        -- exists b, a. cbn [fst]. repeat split; [exact Hb | lia].
        -- rewrite List.Forall_forall in Hq. apply Hq. exact Hr.
    + constructor; [constructor; assumption|].
      constructor.
      * exists a, b. cbn [fst]. repeat split; [exact Hb | lia].
      * rewrite List.Forall_forall in Hq |- *. intros r Hr.
        destruct (Hq r Hr) as (b' & c & Hb' & Hc & Hle).
        rewrite Hb in Hb'. injection Hb' as <-.
        exists a, c. cbn [fst]. repeat split; [exact Hc | lia].
Qed.

Lemma sort_rows_sorted (ks : list Z) (ns : list nat) :
  rows_sorted (fold_right insert_row [] (combine (map Some ks) ns)).
Proof.
  revert ns. induction ks as [|k ks IH]; intros [|i ns]; simpl; try constructor.
  apply insert_row_sorted; [|apply IH].
  intros [o j] Hq. apply (Permutation_in _ (sort_rows_perm _)) in Hq.
  apply in_combine_l in Hq. apply in_map_iff in Hq as (b & <- & _). simpl. eauto.
Qed.

Lemma In_combine_seq_nth (ks : list Z) n o i :
  In (o, i) (combine (map Some ks) (seq n (length ks))) ->
  (n <= i)%nat /\ nth_error ks (i - n) = Some (default 0 o) /\ o = Some (default 0 o).
Proof.
  revert n. induction ks as [|k ks IH]; intros n H; simpl in H; [destruct H|].
  destruct H as [[= <- <-] | H].
  - rewrite Nat.sub_diag. simpl. auto.
  - apply IH in H as (Hle & Hn & Ho). split; [lia|]. split; [|exact Ho].
    replace (i - n)%nat with (S (i - S n)) by lia. exact Hn.
Qed.

(** The months of the rows, taken in the order of [sort_values], are in
    non-decreasing order. *)
Lemma sorted_months (ks : list Z) :
  StronglySorted Z.le (take_list (sort_index (map Some ks)) ks).
Proof.
  unfold sort_index. rewrite length_map.
  pose proof (sort_rows_sorted ks (seq 0 (length ks))) as Hs.
  assert (Hall : forall p, In p (fold_right insert_row [] (combine (map Some ks) (seq 0 (length ks))))
                           -> nth_error ks (snd p) = Some (default 0 (fst p))
                              /\ fst p = Some (default 0 (fst p))).
  { intros [o i] Hp. apply (Permutation_in _ (sort_rows_perm _)) in Hp.
    apply In_combine_seq_nth in Hp as (_ & Hn & Ho). rewrite Nat.sub_0_r in Hn. auto. }
  induction Hs as [|p rows Hrows IH Hp]; simpl; [constructor|].
  destruct (Hall p (or_introl eq_refl)) as [Hn Ho]. rewrite Hn. simpl.
  constructor.
  - apply IH. intros q Hq. apply Hall. right. exact Hq.
  - apply List.Forall_forall. intros x Hx.
    unfold take_list in Hx. apply in_flat_map in Hx as (i & Hi & Hx).
    apply in_map_iff in Hi as (q & <- & Hq).
    destruct (Hall q (or_intror Hq)) as [Hnq Hoq]. rewrite Hnq in Hx.
    destruct Hx as [<- | []].
    rewrite List.Forall_forall in Hp. destruct (Hp q Hq) as (a & b & Ha & Hb & Hle).
    rewrite Ha, Hb. exact Hle.
Qed.

Lemma unique_strings_seen l seen :
  unique_strings l seen
  = List.filter (fun s => negb (existsb (String.eqb s) seen)) (unique_strings l []).
Proof.
  revert seen. induction l as [|a l IH]; intros seen; [reflexivity|].
  cbn [unique_strings existsb List.filter].
  destruct (existsb (String.eqb a) seen) eqn:E; cbn [negb].
  - rewrite (IH seen), (IH [a]), filter_filter. apply filter_ext. intros s.
    cbn [existsb]. rewrite orb_false_r.
    destruct (String.eqb_spec s a) as [-> | Hne]; [|rewrite andb_true_r; reflexivity].
    rewrite E. reflexivity.
  - f_equal. rewrite (IH (a :: seen)), (IH [a]), filter_filter. apply filter_ext.
    intros s. cbn [existsb]. rewrite orb_false_r.
    destruct (String.eqb s a), (existsb (String.eqb s) seen); reflexivity.
Qed.

Lemma filter_all {A} (p : A -> bool) l :
  (forall x, In x l -> p x = true) -> List.filter p l = l.
Proof.
  intros H. apply forallb_filter_id. apply forallb_forall. exact H.
Qed.

Lemma insert_key_min x l :
  StronglySorted Z.lt l -> (forall y, In y l -> x <= y) ->
  insert_key x l = x :: List.filter (fun y => negb (y =? x)) l.
Proof.
  intros Hs Hmin. destruct Hs as [|y l Hl Hy]; [reflexivity|].
  rewrite List.Forall_forall in Hy.
  assert (Hxy : x <= y) by (apply Hmin; left; reflexivity).
  simpl. destruct (Z.ltb_spec x y) as [Hlt | Hge].
  - f_equal. destruct (Z.eqb_spec y x) as [E | _]; [lia|]. simpl. f_equal.
    symmetry. apply filter_all. intros z Hz. specialize (Hy z Hz).
    destruct (Z.eqb_spec z x); [lia | reflexivity].
  - assert (x = y) by lia. subst y. rewrite Z.eqb_refl. simpl. f_equal.
    symmetry. apply filter_all. intros z Hz. specialize (Hy z Hz).
    destruct (Z.eqb_spec z x); [lia | reflexivity].
Qed.

Lemma filter_map_comm {A B} (p : B -> bool) (f : A -> B) l :
  List.filter p (map f l) = map f (List.filter (fun a => p (f a)) l).
Proof.
  induction l as [|a l IH]; [reflexivity|]. simpl.
  destruct (p (f a)); simpl; rewrite IH; reflexivity.
Qed.

Lemma filter_map_inj (f : Z -> string) (x : Z) l :
  (forall a b, f a = f b -> a = b) ->
  List.filter (fun s => negb (existsb (String.eqb s) [f x])) (map f l)
  = map f (List.filter (fun y => negb (y =? x)) l).
Proof.
  intros Hinj. rewrite filter_map_comm. f_equal. apply filter_ext. intros y.
  cbn [existsb]. rewrite orb_false_r. f_equal.
  destruct (Z.eqb_spec y x) as [-> | Hne]; [apply String.eqb_refl|].
  apply String.eqb_neq. intros E. apply Hinj in E. contradiction.
Qed.

(** The distinct labels of rows in non-decreasing order of month are the
    labels of the months, each once, in increasing order. *)
Lemma unique_labels_sorted (f : Z -> string) (sk : list Z) :
  (forall a b, f a = f b -> a = b) ->
  StronglySorted Z.le sk ->
  unique_strings (map f sk) [] = map f (unique_sorted sk).
Proof.
  intros Hinj Hs. induction Hs as [|x r Hr IH Hx]; [reflexivity|].
  cbn [map unique_strings existsb].
  rewrite unique_strings_seen, IH, (filter_map_inj f x _ Hinj).
  change (unique_sorted (x :: r)) with (insert_key x (unique_sorted r)).
  rewrite insert_key_min; [reflexivity | apply unique_sorted_sorted|].
  intros y Hy. apply (proj1 (unique_sorted_In _ _)) in Hy.
  rewrite List.Forall_forall in Hx. apply Hx. exact Hy.
Qed.

Lemma unique_sorted_perm l l' : Permutation l l' -> unique_sorted l = unique_sorted l'.
Proof.
  intros H. apply sorted_lt_unique; try apply unique_sorted_sorted.
  intros x. rewrite !unique_sorted_In. split; apply Permutation_in;
    [exact H | apply Permutation_sym; exact H].
Qed.

Lemma stamped_keys (f : Timestamp -> Z) (l : list (option Timestamp)) :
  (forall o, In o l -> has_stamp o = true) ->
  map (option_map f) l = map Some (somes (map (option_map f) l)).
Proof.
  induction l as [|o l IH]; intros H; [reflexivity|].
  destruct o as [t|]; [|discriminate (H None (or_introl eq_refl))].
  simpl. rewrite <- IH by (intros o Ho; apply H; right; exact Ho). reflexivity.
Qed.

(** X22.  On a token table with no column called [Tokens] and no column
    of booleans, the pies come in chronological order, one per calendar
    month that has a token record on or after 1 January 2025: their
    names are the labels (["%b %Y"]) of these months, each once, in
    increasing order of month. *)
Theorem pies_in_chronological_order (g : Globals) (h : heap) (T : DataFrame)
    (dates : list (option Timestamp)) :
  h !! tokens_source_df g = Some T ->
  getitem T "Date" = Ok (STime dates) ->
  has_column T "Tokens" = false ->
  has_bool_column T = false ->
  (exists t, In (Some t) dates /\ ts_geb t cutoff_2025_01_01 = true) ->
  let months :=
    somes (map (option_map month_of)
             (List.filter (in_window ts_geb cutoff_2025_01_01) dates)) in
  exists pies grand h',
    pie_charts g h = Ok ((pies, grand), h')
    /\ map pie_name pies
       = map (fun k => short_month_label (month_start k)) (unique_sorted months)
    /\ StronglySorted Z.lt (unique_sorted months)
    /\ forall k, In k (unique_sorted months)
                 <-> exists t, In (Some t) dates
                               /\ ts_geb t cutoff_2025_01_01 = true /\ month_of t = k.
Proof.
  intros HT Hd Hnt _ Hone months.
  destruct (pie_charts_returns g h T dates HT Hd Hnt Hone)
    as (pies & grand & h' & Hrun & _ & _ & Hnames).
  exists pies, grand, h'. split; [exact Hrun|].
  set (wd := List.filter (in_window ts_geb cutoff_2025_01_01) dates) in *.
  assert (Hstamp : forall o, In o wd -> has_stamp o = true).
  { intros o Ho. apply filter_In in Ho as [_ Ho]. destruct o; [reflexivity | discriminate]. }
  assert (Hkeys : map (option_map month_of) wd = map Some months)
    by (apply stamped_keys; exact Hstamp).
  set (f := fun k => short_month_label (month_start k)).
  assert (Hlab : pie_month_labels dates
                 = map (fun k => PStr (f k)) (take_list (sort_index (map Some months)) months)).
  { unfold pie_month_labels, pie_order. rewrite month_keys_floor. fold wd. rewrite Hkeys.
    rewrite <- take_list_map. f_equal.
    rewrite map_map.
    transitivity (map (fun o : option Z => match o with
                                           | Some k => PStr (f k)
                                           | None => PNaN
                                           end) (map (option_map month_of) wd)).
    - rewrite map_map. apply map_ext. intros [t|]; reflexivity.
    - rewrite Hkeys, map_map. reflexivity. }
  split; [|split].
  - rewrite Hnames, Hlab.
    assert (Ht : forall l, texts (map (fun k => PStr (f k)) l) = map f l).
    { induction l as [|k l IH]; [reflexivity|]. simpl. rewrite IH. reflexivity. }
    rewrite Ht. rewrite (unique_labels_sorted f).
    + f_equal. apply unique_sorted_perm. apply take_list_perm.
      rewrite <- (length_map Some). apply sort_index_perm.
    + intros a b. apply short_month_label_inj.
    + apply sorted_months.
  - apply unique_sorted_sorted.
  - intros k. rewrite unique_sorted_In. unfold months. split.
    + intros Hk.
      assert (Hin : In (Some k) (map (option_map month_of) wd)).
      { rewrite Hkeys. apply in_map. exact Hk. }
      apply in_map_iff in Hin as (o & Ho & Hin). apply filter_In in Hin as [Hin Hw].
      destruct o as [t|]; [|discriminate Ho]. injection Ho as <-. eauto.
    + intros (t & Hin & Hw & <-).
      assert (Hk : In (Some (month_of t)) (map Some months)).
      { rewrite <- Hkeys. apply in_map_iff. exists (Some t). split; [reflexivity|].
        apply filter_In. auto. }
      apply in_map_iff in Hk as (k & [= <-] & Hk). exact Hk.
Qed.

Lemma pies_in_chronological_order_witness :
  exists pies grand h',
    pie_charts sample_globals
      [ sample_wallets; sample_referrals;
        [ ("Date", STime [on_day 2025 3 10; on_day 2025 1 5; on_day 2025 3 2]);
          ("Airdrop", SNum [3; 1; 4]) ]%string ] = Ok ((pies, grand), h')
    /\ map pie_name pies = ["Jan 2025"; "Mar 2025"]%string.
Proof.
  destruct (pies_in_chronological_order sample_globals
              [ sample_wallets; sample_referrals;
                [ ("Date", STime [on_day 2025 3 10; on_day 2025 1 5; on_day 2025 3 2]);
                  ("Airdrop", SNum [3; 1; 4]) ]%string ] _
              [on_day 2025 3 10; on_day 2025 1 5; on_day 2025 3 2]
              eq_refl eq_refl eq_refl eq_refl)
    as (pies & grand & h' & Hrun & Hnames & _).
  - exists (midnight (mkDate 2025 3 10)). split; [left; reflexivity | reflexivity].
  - exists pies, grand, h'. split; [exact Hrun|]. rewrite Hnames. reflexivity.
Defined.

(** ** Loaded tables are rectangular (lines 10-31) *)

Lemma parse_series_length fmt s : length (parse_series fmt s) = series_len s.
Proof. destruct s; simpl; try apply length_map; reflexivity. Qed.

Lemma wf_frame_all t c : wf_frame t = true -> In c t -> series_len (snd c) = nrows t.
Proof. apply wf_frame_column. Qed.

Lemma wf_frame_mask m t : wf_frame t = true -> wf_frame (mask_rows m t) = true.
Proof.
  intros Hwf. destruct t as [|c0 t]; [reflexivity|].
  set (n := series_len (snd c0)).
  assert (Hall : forall c, In c (c0 :: t) -> series_len (snd c) = length (repeat tt n)).
  { intros c Hc. rewrite repeat_length. exact (wf_frame_column _ _ Hwf Hc). }
  unfold wf_frame. apply forallb_forall. intros c Hc.
  unfold mask_rows in Hc |- *. apply in_map_iff in Hc as (c' & <- & Hc').
  cbn [snd nrows map fst]. apply Nat.eqb_eq.
  rewrite (series_len_mask m _ _ (Hall c' Hc')).
  rewrite (series_len_mask m _ _ (Hall c0 (or_introl eq_refl))). reflexivity.
Qed.

Lemma nrows_mask {A} m t col s (l : list A) :
  wf_frame t = true -> getitem t col = Ok s -> length l = nrows t ->
  nrows (mask_rows m t) = length (mask_list m l).
Proof.
  intros Hwf Hs Hl. destruct t as [|c0 t]; [discriminate Hs|].
  cbn [mask_rows map nrows snd]. apply series_len_mask. simpl in Hl. congruence.
Qed.

Lemma wf_cleaned_table t : wf_frame t = true -> wf_frame (cleaned_table t) = true.
Proof.
  intros Hwf. unfold cleaned_table. destruct (getitem t "Date") as [d|e] eqn:Ed; [|exact Hwf].
  apply wf_frame_mask. apply wf_frame_setitem; [exact Hwf|].
  simpl. rewrite parse_series_length. exact (wf_frame_length _ _ _ Hwf Ed).
Qed.

Lemma wf_normalized_tokens t : wf_frame t = true -> wf_frame (normalized_tokens t) = true.
Proof.
  intros Hwf. unfold normalized_tokens.
  destruct (getitem t "Date") as [d|e] eqn:Ed; [|exact Hwf].
  set (p := parse_series (Some Fmt_mdY) d).
  apply wf_frame_setitem; [apply wf_frame_mask; exact Hwf|].
  rewrite (nrows_mask _ _ _ _ p Hwf Ed).
  - simpl. unfold days_of. rewrite length_map, mask_has_stamp. reflexivity.
  - unfold p. rewrite parse_series_length. exact (wf_frame_length _ _ _ Hwf Ed).
Qed.

Lemma wf_with_referrals_column r :
  wf_frame r = true -> wf_frame (with_referrals_column r) = true.
Proof.
  intros Hwf. unfold with_referrals_column. apply wf_frame_setitem; [exact Hwf|].
  simpl. rewrite length_map, length_seq. reflexivity.
Qed.

(** X23.  Loading keeps the tables rectangular: when every sheet of the
    workbook has columns of one length, so have the token, wallet,
    referral and fee tables that loading leaves in the store, after the
    dates are read, the records without a date are dropped and the
    column of row totals is added. *)
Theorem loaded_tables_are_rectangular (wb : Workbook) (h : heap) (g : Globals) (h' : heap) :
  load_data wb h = Ok (g, h') ->
  (forall s, In s wb -> wf_frame (snd s) = true) ->
  exists T W R F,
    h' !! tokens_source_df g = Some T /\ h' !! wallet_df g = Some W
    /\ h' !! referral_df g = Some R /\ h' !! fee_df g = Some F
    /\ wf_frame T = true /\ wf_frame W = true
    /\ wf_frame R = true /\ wf_frame F = true.
Proof.
  intros H Hwf.
  destruct (load_data_inputs wb h g h' H)
    as (lr & lw & lf & R0 & W0 & F0 & nt & T0 & dT
        & Hr & Hw & Hf & HR & HW & HF & Hfind & HdT & InR & InW & InF & InT).
  destruct (load_data_run wb h lr lw lf R0 W0 F0 T0 nt dT Hr Hw Hf HR HW HF Hfind HdT)
    as (h'' & Hrun & _ & HT' & HW' & HR' & HF').
  rewrite H in Hrun. injection Hrun as -> ->.
  assert (Hsheet : forall t, In t (map snd wb) -> wf_frame t = true).
  { intros t Ht. apply in_map_iff in Ht as (s & <- & Hs). apply Hwf. exact Hs. }
  exists (normalized_tokens T0), (cleaned_table W0),
    (with_referrals_column (cleaned_table R0)), (cleaned_table F0).
  cbn [tokens_source_df wallet_df referral_df fee_df].
  split; [exact HT'|]. split; [exact HW'|]. split; [exact HR'|]. split; [exact HF'|].
  split; [apply wf_normalized_tokens; exact (Hwf _ InT)|].
  split; [apply wf_cleaned_table, Hsheet; exact InW|].
  split; [apply wf_with_referrals_column, wf_cleaned_table, Hsheet; exact InR|].
  apply wf_cleaned_table, Hsheet; exact InF.
Qed.

Lemma loaded_tables_are_rectangular_witness :
  exists g h' T,
    load_data sample_workbook [] = Ok (g, h')
    /\ h' !! tokens_source_df g = Some T /\ wf_frame T = true.
Proof.
  destruct (load_data sample_workbook []) as [[g h']|e] eqn:E;
    [|vm_compute in E; discriminate E].
  destruct (loaded_tables_are_rectangular sample_workbook [] g h' E)
    as (T & W & R & F & HT & _ & _ & _ & HwT & _).
  - intros s [<- | [<- | [<- | [<- | []]]]]; reflexivity.
  - exists g, h', T. split; [reflexivity|]. split; [exact HT | exact HwT].
Defined.
